(** * Circle CCTP bridge orchestration: attestation polling, transfer
      monitoring and the parallel bridge of [eth_defi.cctp]

    A shallow embedding of [eth_defi/cctp/attestation.py],
    [eth_defi/cctp/monitor.py] and [eth_defi/cctp/bridge.py].

    Python values that come out of [response.json()] keep their dynamic
    shape ([json]); exceptions are an inductive type; the wall clock, the
    HTTP exchange counter, the on-chain transaction counter, the progress
    tracker and the trace of observable effects are threaded through a
    state-and-exception monad.  [while True] loops take fuel; running out
    of fuel is an outcome of its own ([OutOfFuel]), never confused with a
    result or an exception. *)

From Stdlib Require Import ZArith String Ascii List Lia Bool SpecFloat.
From stdpp Require Import base option list gmap strings pretty.

Local Open Scope string_scope.
Local Open Scope list_scope.
Local Open Scope Z_scope.

(** ** Python values *)

Module Py.

(** What [json.loads] can produce.  A number without fraction or
    exponent is an [int]; any other number is a [float], an IEEE 754
    binary64 value ([1e999] parses to infinity, and Python's parser also
    accepts the literals [NaN] and [Infinity]). *)
#[warnings="-register-all"]
Inductive json : Type :=
| JNull
| JBool (b : bool)
| JNum (n : Z)
| JFloat (x : spec_float)
| JStr (s : string)
| JList (l : list json)
| JDict (d : gmap string json).

(** [bytes] *)
Definition bytes : Type := list Byte.byte.

(** Truth value of an object in a boolean context ([if x:], [x and y]). *)
Definition truthy (v : json) : bool :=
  match v with
  | JNull => false
  | JBool b => b
  | JNum n => negb (n =? 0)
  | JFloat x => match x with S754_zero _ => false | _ => true end
  | JStr s => negb (String.eqb s "")
  | JList l => match l with [] => false | _ :: _ => true end
  | JDict d => negb (bool_decide (d = ∅))
  end.

(** [v == s] for a string literal [s]. *)
Definition eq_str (v : json) (s : string) : bool :=
  match v with
  | JStr t => String.eqb t s
  | _ => false
  end.

(** [v is None] *)
Definition is_none (v : json) : bool :=
  match v with JNull => true | _ => false end.

(** [hash(v)] succeeds: lists and dicts are unhashable. *)
Definition hashable (v : json) : bool :=
  match v with
  | JList _ | JDict _ => false
  | _ => true
  end.

(** The exceptions the modelled code can meet. *)
Inductive exn : Type :=
| TimeoutError (message : string)
| HTTPError (status_code : Z)          (* requests.HTTPError, from raise_for_status *)
| ConnectionError                      (* requests.ConnectionError / requests.Timeout *)
| JSONDecodeError                      (* requests.exceptions.JSONDecodeError *)
| AssertionError (message : string)
| AttributeError
| TypeError
| ValueError
| OverflowError
| KeyError
| IndexError
| TransactionAssertionError (tx_hash : string)  (* a transaction that did not succeed *)
| SendError.                                   (* the node refused the transaction *)

(** [isinstance(e, requests.RequestException)] *)
Definition is_RequestException (e : exn) : bool :=
  match e with
  | HTTPError _ | ConnectionError | JSONDecodeError => true
  | _ => false
  end.

(** [s.startswith("0x")] *)
Definition startswith_0x (s : string) : bool := String.prefix "0x" s.

(** [s.replace("0x", "")]: every occurrence, scanning left to right. *)
Fixpoint replace_0x (s : string) : string :=
  match s with
  | EmptyString => EmptyString
  | String c rest =>
      match c, rest with
      | "0"%char, String "x"%char rest' => replace_0x rest'
      | _, _ => String c (replace_0x rest)
      end
  end.

(** ASCII white space, skipped by [bytes.fromhex] between bytes. *)
Definition isspace (c : ascii) : bool :=
  match N_of_ascii c with
  | 9%N | 10%N | 11%N | 12%N | 13%N | 32%N => true
  | _ => false
  end.

Definition hex_digit (c : ascii) : option N :=
  let n := N_of_ascii c in
  if ((48 <=? n) && (n <=? 57))%N then Some (n - 48)%N
  else if ((97 <=? n) && (n <=? 102))%N then Some (n - 87)%N
  else if ((65 <=? n) && (n <=? 70))%N then Some (n - 55)%N
  else None.

(** [bytes.fromhex(s)]; [None] stands for the [ValueError] it raises on
    a character that is no hex digit or on a byte left without its
    second digit. *)
Fixpoint fromhex (s : string) : option bytes :=
  match s with
  | EmptyString => Some []
  | String c rest =>
      if isspace c then fromhex rest
      else
        match hex_digit c, rest with
        | Some hi, String c' rest' =>
            match hex_digit c' with
            | Some lo =>
                match fromhex rest' with
                | Some bs => Some (byte_of_ascii (ascii_of_N (16 * hi + lo)) :: bs)
                | None => None
                end
            | None => None
            end
        | _, _ => None
        end
  end.

(** [str(n)] and the [{n}] of an f-string, for an [int]. *)
Definition str_of_int (n : Z) : string := pretty n.

End Py.
Export Py.

(** ** Data model of the bridge: phases, results and the progress tracker *)

(** [class CCTPBridgePhase(enum.Enum)], in declaration order. *)
Inductive CCTPBridgePhase : Type :=
| burning
| waiting_for_indexing
| pending_confirmations
| attested
| receiving
| complete.

(** [phase.value] *)
Definition phase_value (p : CCTPBridgePhase) : string :=
  match p with
  | burning => "burning"
  | waiting_for_indexing => "waiting_for_indexing"
  | pending_confirmations => "pending_confirmations"
  | attested => "attested"
  | receiving => "receiving"
  | complete => "complete"
  end.

(** [list(CCTPBridgePhase).index(phase)] *)
Definition phase_index (p : CCTPBridgePhase) : Z :=
  match p with
  | burning => 0
  | waiting_for_indexing => 1
  | pending_confirmations => 2
  | attested => 3
  | receiving => 4
  | complete => 5
  end.

(** [len(CCTPBridgePhase)] *)
Definition n_phases : Z := 6.

(** The [tqdm] bar as the bridge drives it: [n] is the sum of the
    amounts handed to [update], [desc] and [postfix] the last strings
    handed to [set_description] and [set_postfix_str]. *)
Record ProgressBar : Type := mkProgressBar {
  bar_total : Z;
  bar_n : Z;
  bar_desc : string;
  bar_postfix : string;
  bar_closed : bool
}.

(** The variables [_update_phase] closes over. *)
Record Tracker : Type := mkTracker {
  dest_names : list string;
  transfer_phases : list CCTPBridgePhase;
  poll_counts : list Z;
  progress_bar : ProgressBar
}.

Definition idle_tracker : Tracker :=
  mkTracker [] [] [] (mkProgressBar 0 0 "" "" true).

(** ** The world: clock, collaborators and the trace of effects *)

(** Wall-clock time is counted in milliseconds. *)
Definition seconds (s : Z) : Z := 1000 * s.

(** What a prepared contract call stands for. *)
Inductive contract_call : Type :=
| usdc_approve (amount : Z)
| depositForBurn (amount : Z) (destination_chain_id : Z) (mint_recipient : string)
| receiveMessage (message attestation : bytes)
| via_trading_strategy_module (vault : string) (inner : contract_call).

(** How [_send_contract_tx] signs: a [HotWallet], or the node's unlocked
    account of [sender].  [eth_defi.hotwallet] is not among the embedded
    modules; of a wallet the bridge uses the account it signs for and
    the nonce counter it keeps, [current_nonce], which is [None] until
    [sync_nonce] has read it from a node.  A wallet is shown with the
    counter it was given when it was made or synchronised; how the
    counter advances with every signature is not followed. *)
Record HotWallet : Type := mkHotWallet {
  account : string;
  current_nonce : option Z
}.

Inductive event : Type :=
| EvHttpGet (url : string)
| EvSleep (duration : Z)
| EvPhaseChange (status : json) (attempt : Z)
| EvWarning (message : string)
| EvSyncNonce (chain_id : Z)
| EvTransact (chain_id : Z) (sender : string) (wallet : option HotWallet)
             (gas : Z) (call : contract_call).

Record World : Type := mkWorld {
  now : Z;
  http_calls : nat;
  txs_sent : nat;
  tracker : Tracker;
  trace : list event
}.

(** A response of the attestation service, as [requests] hands it over;
    [body = None] when the payload is no JSON document. *)
Record Response : Type := mkResponse {
  status_code : Z;
  body : option json
}.

Inductive http_reply : Type :=
| TransportFailure
| Replied (r : Response).

(** One HTTP exchange: how long [requests.get] took and what came back. *)
Record exchange : Type := mkExchange {
  latency : N;
  reply : http_reply
}.

(** One submitted transaction, as the node and the chain answer it. *)
Inductive tx_reply : Type :=
| TxRefused
| TxReverted (tx_hash : string)
| TxConfirmed (tx_hash : string).

(** The collaborators of the three modules that live outside them: the
    attestation service and the chains (each as the sequence of its
    answers), and the constants and helpers of [eth_defi.cctp.constants],
    [eth_defi.cctp.transfer], [eth_defi.cctp.receive],
    [eth_defi.cctp.testing], [eth_defi.chain], [eth_defi.token] and
    [eth_defi.hotwallet].  [transaction_count cid address] is what the
    node of chain [cid] answers when [HotWallet.sync_nonce] asks it for
    the transaction count of [address]: the count, or the exception the
    call ends with. *)
Record Env : Type := mkEnv {
  iris : nat -> exchange;
  chain : nat -> tx_reply;
  IRIS_API_BASE_URL : string;
  IRIS_API_SANDBOX_URL : string;
  TESTNET_CHAIN_IDS : Z -> bool;
  CCTP_DOMAIN_NAMES : Z -> option string;
  _resolve_cctp_domain : Z -> option Z;
  get_chain_name : Z -> string;
  USDC_NATIVE_TOKEN : Z -> option string;
  prepare_approve_for_burn : Z -> Z -> option exn;
  prepare_deposit_for_burn : Z -> Z -> Z -> string -> option exn;
  prepare_receive_message : Z -> bytes -> bytes -> option exn;
  craft_cctp_message : Z -> Z -> Z -> string -> Z -> string -> bytes;
  forge_attestation : bytes -> string -> bytes;
  str_of_float : Z -> string;
  int_of_str : string -> option Z;
  transaction_count : Z -> string -> exn + Z
}.

(** ** The monad of effects *)

Inductive outcome (A : Type) : Type :=
| Return (a : A)
| Raise (e : exn)
| OutOfFuel.
Arguments Return {A} a.
Arguments Raise {A} e.
Arguments OutOfFuel {A}.

Definition M (A : Type) : Type := World -> outcome A * World.

Definition ret {A} (a : A) : M A := fun w => (Return a, w).

Definition raise {A} (e : exn) : M A := fun w => (Raise e, w).

Definition out_of_fuel {A} : M A := fun w => (OutOfFuel, w).

#[global] Instance M_ret : MRet M := @ret.

#[global] Instance M_bind : MBind M := fun A B (k : A -> M B) (m : M A) w =>
  match m w with
  | (Return a, w') => k a w'
  | (Raise e, w') => (Raise e, w')
  | (OutOfFuel, w') => (OutOfFuel, w')
  end.

(** [try: m except <catches>: handler] *)
Definition try_except {A} (m : M A) (catches : exn -> bool) (handler : exn -> M A) : M A :=
  fun w =>
    match m w with
    | (Raise e, w') => if catches e then handler e w' else (Raise e, w')
    | r => r
    end.

Definition emit (e : event) : M unit :=
  fun w => (Return tt, mkWorld (now w) (http_calls w) (txs_sent w) (tracker w) (trace w ++ [e])).

(** [time.time()] *)
Definition time_time : M Z := fun w => (Return (now w), w).

(** [time.sleep(duration)]: a negative length is a [ValueError]. *)
Definition time_sleep (duration : Z) : M unit :=
  fun w =>
    if duration <? 0 then (Raise ValueError, w)
    else (Return tt,
          mkWorld (now w + duration) (http_calls w) (txs_sent w) (tracker w)
                  (trace w ++ [EvSleep duration])).

(** [logger.warning(...)] *)
Definition logger_warning (message : string) : M unit := emit (EvWarning message).

(** Dynamic operations on decoded JSON. *)

(** [v.get(key, default)]; only a dict has [get]. *)
Definition dict_get (v : json) (key : string) (dflt : json) : M json :=
  match v with
  | JDict d => ret (default dflt (d !! key))
  | _ => raise AttributeError
  end.

(** [v[0]] *)
Definition subscript0 (v : json) : M json :=
  match v with
  | JList (x :: _) => ret x
  | JList [] => raise IndexError
  | JStr (String c _) => ret (JStr (String c EmptyString))
  | JStr EmptyString => raise IndexError
  | JDict _ => raise KeyError
  | JNull | JBool _ | JNum _ | JFloat _ => raise TypeError
  end.

(** [bytes.fromhex(v.replace("0x", ""))]; only a str has [replace]. *)
Definition bytes_fromhex_replace_0x (v : json) : M bytes :=
  match v with
  | JStr s =>
      match fromhex (replace_0x s) with
      | Some bs => ret bs
      | None => raise ValueError
      end
  | _ => raise AttributeError
  end.

(** [v not in {None, "PENDING"}]; the lookup hashes [v]. *)
Definition not_in_None_PENDING (v : json) : M bool :=
  if hashable v then ret (negb (is_none v || eq_str v "PENDING"))
  else raise TypeError.

(** The status codes [raise_for_status] raises for: 4xx and 5xx. *)
Definition is_error_status (code : Z) : bool := (400 <=? code) && (code <? 600).

Section Http.

Variable E : Env.

(** [requests.get(url, timeout=30)] against the attestation service:
    the next exchange of [iris E] is consumed, the clock moves by its
    latency. *)
Definition requests_get (url : string) : M Response :=
  fun w =>
    let x := iris E (http_calls w) in
    let w' := mkWorld (now w + Z.of_N (latency x)) (S (http_calls w)) (txs_sent w)
                      (tracker w) (trace w ++ [EvHttpGet url]) in
    match reply x with
    | TransportFailure => (Raise ConnectionError, w')
    | Replied r => (Return r, w')
    end.

(** [response.raise_for_status()]: client and server error codes raise. *)
Definition raise_for_status (r : Response) : M unit :=
  if is_error_status (status_code r)
  then raise (HTTPError (status_code r))
  else ret tt.

(** [response.json()] *)
Definition response_json (r : Response) : M json :=
  match body r with
  | Some j => ret j
  | None => raise JSONDecodeError
  end.

End Http.

(** ** [eth_defi/cctp/attestation.py] *)

Definition HTTP_NOT_FOUND : Z := 404.

Record CCTPAttestation : Type := mkCCTPAttestation {
  att_message : bytes;
  att_attestation : bytes;
  att_status : json
}.

(** The type of [on_phase_change]: called with [(status, attempt)]. *)
Definition phase_callback : Type := json -> Z -> M unit.

(** The request URL both modules build. *)
Definition messages_url (api_base_url : string) (source_domain : Z) (transaction_hash : string) : string :=
  api_base_url +:+ "/v2/messages/" +:+ str_of_int source_domain
               +:+ "?transactionHash=" +:+ transaction_hash.

(** [if not transaction_hash.startswith("0x"): transaction_hash = f"0x{transaction_hash}"] *)
Definition with_0x (transaction_hash : string) : string :=
  if startswith_0x transaction_hash then transaction_hash else "0x" +:+ transaction_hash.

(** Range CCTP explorer base URL for transaction status lookup. *)
Definition CCTP_EXPLORER_BASE_URL : string := "https://usdc.range.org/status".

(** CCTP domain ID to Range explorer chain slug. *)
Definition _DOMAIN_TO_EXPLORER_CHAIN : gmap Z string :=
  list_to_map [(0, "ethereum"); (3, "arbitrum"); (6, "base"); (7, "polygon")].

Definition _cctp_explorer_url (source_domain : Z) (transaction_hash : string) : option string :=
  match _DOMAIN_TO_EXPLORER_CHAIN !! source_domain with
  | None => None
  | Some chain => Some (CCTP_EXPLORER_BASE_URL +:+ "?id=" +:+ chain +:+ "/" +:+ transaction_hash)
  end.

Section Attestation.

Variable E : Env.

Section FetchAttestation.

(** [source_domain] is annotated [int]; [_get_attestation] of
    [bridge.py] hands over what [_resolve_cctp_domain] found, which is
    [None] for a chain without domain.  Nothing in the function looks at
    the type: [None] goes into the dictionary lookup and the f-strings
    like an integer. *)
Variables (source_domain : option Z) (transaction_hash : string)
          (timeout poll_interval : Z) (api_base_url : string)
          (on_phase_change : option phase_callback).

(** [CCTP_DOMAIN_NAMES.get(source_domain, f"domain-{source_domain}")] *)
Definition domain_name : string :=
  match source_domain with
  | Some domain => default ("domain-" +:+ str_of_int domain) (CCTP_DOMAIN_NAMES E domain)
  | None => "domain-None"
  end.

(** [f"{api_base_url}/v2/messages/{source_domain}?transactionHash={transaction_hash}"] *)
Definition url : string :=
  match source_domain with
  | Some domain => messages_url api_base_url domain transaction_hash
  | None => api_base_url +:+ "/v2/messages/None?transactionHash=" +:+ transaction_hash
  end.

Definition timeout_message : string :=
  "CCTP attestation not ready after " +:+ str_of_float E timeout +:+ "s for tx "
    +:+ transaction_hash +:+ " on " +:+ domain_name.

(** The closure [_notify]; [attempt] is the enclosing variable as it
    stands at the call.  ([last_phase] only feeds a log line.)  The
    call of the callback is recorded in the trace before the callback
    runs. *)
Definition _notify (attempt : Z) (phase : json) : M unit :=
  match on_phase_change with
  | Some callback => emit (EvPhaseChange phase attempt) ;; callback phase attempt
  | None => ret tt
  end.

(** The [while True] loop; [attempt] is its value on entry. *)
Fixpoint fetch_attestation_loop (fuel : nat) (start_time : Z) (attempt : Z) : M CCTPAttestation :=
  match fuel with
  | O => out_of_fuel
  | S fuel' =>
      t ← time_time;
      let elapsed := t - start_time in
      if elapsed >=? timeout then raise (TimeoutError timeout_message)
      else
        let attempt := attempt + 1 in
        response ← requests_get E url;
        if status_code response =? HTTP_NOT_FOUND then
          _notify attempt (JStr "waiting_for_indexing") ;;
          time_sleep poll_interval ;;
          fetch_attestation_loop fuel' start_time attempt
        else
          raise_for_status response ;;
          data ← response_json response;
          messages ← dict_get data "messages" (JList []);
          if truthy messages then
            msg ← subscript0 messages;
            status ← dict_get msg "status" (JStr "");
            attestation_hex ← dict_get msg "attestation" JNull;
            if eq_str status "complete" && truthy attestation_hex
               && negb (eq_str attestation_hex "PENDING")
            then
              _notify attempt (JStr "complete") ;;
              message_hex ← dict_get msg "message" (JStr "");
              message ← bytes_fromhex_replace_0x message_hex;
              attestation ← bytes_fromhex_replace_0x attestation_hex;
              ret (mkCCTPAttestation message attestation status)
            else
              _notify attempt status ;;
              time_sleep poll_interval ;;
              fetch_attestation_loop fuel' start_time attempt
          else
            time_sleep poll_interval ;;
            fetch_attestation_loop fuel' start_time attempt
  end.

End FetchAttestation.

Definition fetch_attestation (fuel : nat) (source_domain : option Z) (transaction_hash : string)
    (timeout poll_interval : Z) (api_base_url : string)
    (on_phase_change : option phase_callback) : M CCTPAttestation :=
  let transaction_hash := with_0x transaction_hash in
  start_time ← time_time;
  _notify on_phase_change 0 (JStr "waiting_for_indexing") ;;
  fetch_attestation_loop source_domain transaction_hash timeout poll_interval
                         api_base_url on_phase_change fuel start_time 0.

Definition is_attestation_complete (source_domain : Z) (transaction_hash : string)
    (api_base_url : string) : M bool :=
  let transaction_hash := with_0x transaction_hash in
  let url := messages_url api_base_url source_domain transaction_hash in
  returned ←
    try_except
      (response ← requests_get E url;
       raise_for_status response ;;
       data ← response_json response;
       messages ← dict_get data "messages" (JList []);
       if truthy messages then
         msg ← subscript0 messages;
         status ← dict_get msg "status" JNull;
         if eq_str status "complete" then
           attestation ← dict_get msg "attestation" JNull;
           ready ← not_in_None_PENDING attestation;
           ret (Some ready)
         else ret (Some false)
       else ret None)
      is_RequestException
      (fun _ =>
         logger_warning ("Failed to check attestation status for tx " +:+ transaction_hash) ;;
         ret None);
  match returned with
  | Some b => ret b
  | None => ret false
  end.

End Attestation.

(** ** Thread pools

    [ThreadPoolExecutor] with [as_completed]: every submitted task runs
    to its end on some thread, an exception of a task is kept in its
    future instead of propagating, and the main thread is handed the
    futures one by one.  The schedule [order], a list of task indices,
    is the order in which the futures are handed over; the tasks are run
    one after the other in that order, each against the exchanges it
    consumes from the environment.  Runs in which the tasks overlap, or
    in which a future is handed over out of the order in which the tasks
    ran, are not among the runs of this model. *)

Definition capture {A} (task : M A) : M (exn + A) :=
  fun w =>
    match task w with
    | (Return a, w') => (Return (inr a), w')
    | (Raise e, w') => (Return (inl e), w')
    | (OutOfFuel, w') => (OutOfFuel, w')
    end.

Fixpoint as_completed {A} (futures : list (M A)) (order : list nat) : M (list (nat * (exn + A))) :=
  match order with
  | [] => ret []
  | idx :: rest =>
      match futures !! idx with
      | Some task =>
          r ← capture task;
          rs ← as_completed futures rest;
          ret ((idx, r) :: rs)
      | None => as_completed futures rest
      end
  end.

(** [ThreadPoolExecutor(max_workers=...)] refuses a width below one. *)
Definition ThreadPoolExecutor (max_workers : Z) : M unit :=
  if max_workers <=? 0 then raise ValueError else ret tt.

(** [for future in as_completed(futures): results[futures[future]] = future.result()] *)
Fixpoint gather_results {A} (finished : list (nat * (exn + A))) (results : gmap nat A) : M (gmap nat A) :=
  match finished with
  | [] => ret results
  | (idx, inr a) :: rest => gather_results rest (<[idx := a]> results)
  | (_, inl e) :: _ => raise e
  end.

(** [[results[i] for i in range(n)]] *)
Definition results_in_order {A} (results : gmap nat A) (n : nat) : M (list A) :=
  mapM (fun i => match results !! i with
                 | Some r => ret r
                 | None => raise KeyError
                 end) (seq 0 n).

(** [[f(idx, x) for idx, x in enumerate(l, start)]], one call after the other. *)
Fixpoint for_enumerate {A B} (f : nat -> A -> M B) (start : nat) (l : list A) : M (list B) :=
  match l with
  | [] => ret []
  | x :: rest =>
      y ← f start x;
      ys ← for_enumerate f (S start) rest;
      ret (y :: ys)
  end.

(** ** [eth_defi/cctp/monitor.py] *)

Record CCTPTransferStatus : Type := mkCCTPTransferStatus {
  ts_status : json;
  ts_source_domain : Z;
  ts_dest_domain : Z;
  ts_attestation : option bytes;
  ts_message : option bytes;
  ts_nonce : json;
  ts_delay_reason : json;
  ts_transaction_hash : string;
  ts_cctp_version : json
}.

Definition is_complete (self : CCTPTransferStatus) : bool :=
  eq_str (ts_status self) "complete" && bool_decide (ts_attestation self <> None).

Definition is_pending (self : CCTPTransferStatus) : bool :=
  eq_str (ts_status self) "pending_confirmations".

Definition is_delayed (self : CCTPTransferStatus) : bool :=
  negb (is_none (ts_delay_reason self)).

Record CCTPTransferQuery : Type := mkCCTPTransferQuery {
  q_source_domain : Z;
  q_transaction_hash : string
}.

Section Monitor.

Variable E : Env.

(** [int(x)] for a finite float [(-1)^s * m * 2^e]: the value rounded
    toward zero. *)
Definition float_trunc (s : bool) (m : positive) (e : Z) : Z :=
  let magnitude := if 0 <=? e then Z.pos m * 2 ^ e else Z.pos m / 2 ^ (- e) in
  if s then - magnitude else magnitude.

(** [int(v)]: a float is truncated, but [int] of a NaN is a
    [ValueError] and [int] of an infinity an [OverflowError]. *)
Definition py_int (v : json) : M Z :=
  match v with
  | JNum n => ret n
  | JBool b => ret (if b then 1 else 0)
  | JFloat x =>
      match x with
      | S754_zero _ => ret 0
      | S754_finite s m e => ret (float_trunc s m e)
      | S754_nan => raise ValueError
      | S754_infinity _ => raise OverflowError
      end
  | JStr s => match int_of_str E s with
              | Some n => ret n
              | None => raise ValueError
              end
  | JNull | JList _ | JDict _ => raise TypeError
  end.

Definition _parse_transfer_status (msg : json) (source_domain : Z) (transaction_hash : string)
    : M CCTPTransferStatus :=
  status ← dict_get msg "status" (JStr "");
  attestation_hex ← dict_get msg "attestation" JNull;
  message_hex ← dict_get msg "message" (JStr "");
  attestation_bytes ←
    (if truthy attestation_hex && negb (eq_str attestation_hex "PENDING")
     then b ← bytes_fromhex_replace_0x attestation_hex; ret (Some b)
     else ret None);
  message_bytes ←
    (if truthy message_hex && negb (eq_str message_hex "0x")
     then b ← bytes_fromhex_replace_0x message_hex; ret (Some b)
     else ret None);
  decoded ← dict_get msg "decodedMessage" (JDict ∅);
  dest_domain ←
    (if truthy decoded
     then try_except
            (d ← dict_get decoded "destinationDomain" (JNum 0); py_int d)
            (fun e => match e with ValueError | TypeError => true | _ => false end)
            (fun _ => ret 0)
     else ret 0);
  nonce ← dict_get msg "eventNonce" JNull;
  delay_reason ← dict_get msg "delayReason" JNull;
  cctp_version ← dict_get msg "cctpVersion" JNull;
  ret (mkCCTPTransferStatus status source_domain dest_domain attestation_bytes
                            message_bytes nonce delay_reason transaction_hash cctp_version).

Definition fetch_transfer_status (source_domain : Z) (transaction_hash : string)
    (api_base_url : string) : M (option CCTPTransferStatus) :=
  let transaction_hash := with_0x transaction_hash in
  let url := messages_url api_base_url source_domain transaction_hash in
  response ← requests_get E url;
  if status_code response =? HTTP_NOT_FOUND then ret None
  else
    raise_for_status response ;;
    data ← response_json response;
    messages ← dict_get data "messages" (JList []);
    if negb (truthy messages) then ret None
    else
      msg ← subscript0 messages;
      st ← _parse_transfer_status msg source_domain transaction_hash;
      ret (Some st).

Definition poll_timeout_message (source_domain : Z) (transaction_hash : string) (timeout : Z) : string :=
  "CCTP transfer not complete after " +:+ str_of_float E timeout +:+ "s for tx "
    +:+ transaction_hash +:+ " on domain " +:+ str_of_int source_domain.

(** The [while True] loop of [poll_transfer_status]; [attempt] only
    feeds the log line and is left out. *)
Fixpoint poll_transfer_status_loop (fuel : nat) (source_domain : Z) (transaction_hash : string)
    (timeout poll_interval : Z) (api_base_url : string) (start_time : Z) : M CCTPTransferStatus :=
  match fuel with
  | O => out_of_fuel
  | S fuel' =>
      t ← time_time;
      let elapsed := t - start_time in
      if elapsed >=? timeout
      then raise (TimeoutError (poll_timeout_message source_domain transaction_hash timeout))
      else
        status ← fetch_transfer_status source_domain transaction_hash api_base_url;
        match status with
        | Some st =>
            if is_complete st then ret st
            else
              time_sleep poll_interval ;;
              poll_transfer_status_loop fuel' source_domain transaction_hash timeout
                                        poll_interval api_base_url start_time
        | None =>
            time_sleep poll_interval ;;
            poll_transfer_status_loop fuel' source_domain transaction_hash timeout
                                      poll_interval api_base_url start_time
        end
  end.

Definition poll_transfer_status (fuel : nat) (source_domain : Z) (transaction_hash : string)
    (timeout poll_interval : Z) (api_base_url : string) : M CCTPTransferStatus :=
  let transaction_hash := with_0x transaction_hash in
  start_time ← time_time;
  poll_transfer_status_loop fuel source_domain transaction_hash timeout poll_interval
                            api_base_url start_time.

(** [order] is the order in which the futures of the polling threads
    are handed over. *)
Definition poll_transfers_parallel (fuel : nat) (order : list nat)
    (transfers : list CCTPTransferQuery) (timeout poll_interval : Z)
    (api_base_url : string) (max_workers : option Z) : M (list CCTPTransferStatus) :=
  match transfers with
  | [] => ret []
  | _ :: _ =>
      let max_workers := default (Z.of_nat (length transfers)) max_workers in
      ThreadPoolExecutor max_workers ;;
      let futures :=
        map (fun query =>
               poll_transfer_status fuel (q_source_domain query) (q_transaction_hash query)
                                    timeout poll_interval api_base_url)
            transfers in
      finished ← as_completed futures order;
      results ← gather_results finished ∅;
      results_in_order results (length transfers)
  end.

End Monitor.

(** ** [eth_defi/cctp/bridge.py] *)

(** A [Web3] connection, as far as the bridge looks at it:
    [web3.eth.chain_id]. *)
Record Web3 : Type := mkWeb3 { chain_id : Z }.

(** The [HexBytes] hash [_send_contract_tx] returns, together with what
    the receipt of that transaction will say. *)
Record SentTransaction : Type := mkSentTransaction {
  tx_hex : string;
  tx_succeeded : bool
}.

Record CCTPBridgeResult : Type := mkCCTPBridgeResult {
  r_burn_tx_hash : string;
  r_receive_tx_hash : string;
  r_amount : Z;
  r_source_chain_id : Z;
  r_dest_chain_id : Z
}.

Record CCTPBurnResult : Type := mkCCTPBurnResult {
  b_burn_tx_hash : string;
  b_amount : Z;
  b_source_chain_id : Z;
  b_dest_chain_id : Z;
  b_dest_safe_address : string
}.

Record CCTPBridgeDestination : Type := mkCCTPBridgeDestination {
  dest_web3 : Web3;
  dest_safe_address : string;
  amount : Z
}.

(** [l[idx]] *)
Definition getitem {A} (l : list A) (idx : nat) : M A :=
  match l !! idx with
  | Some x => ret x
  | None => raise IndexError
  end.

(** [assert cond, message] *)
Definition py_assert (cond : bool) (message : string) : M unit :=
  if cond then ret tt else raise (AssertionError message).

(** *** The progress tracker *)

Definition read_tracker : M Tracker := fun w => (Return (tracker w), w).

Definition modify_tracker (f : Tracker -> Tracker) : M unit :=
  fun w => (Return tt, mkWorld (now w) (http_calls w) (txs_sent w) (f (tracker w)) (trace w)).

Definition with_poll_counts (counts : list Z) (t : Tracker) : Tracker :=
  mkTracker (dest_names t) (transfer_phases t) counts (progress_bar t).

Definition with_transfer_phases (phases : list CCTPBridgePhase) (t : Tracker) : Tracker :=
  mkTracker (dest_names t) phases (poll_counts t) (progress_bar t).

Definition with_progress_bar (f : ProgressBar -> ProgressBar) (t : Tracker) : Tracker :=
  mkTracker (dest_names t) (transfer_phases t) (poll_counts t) (f (progress_bar t)).

(** [tqdm(total=..., desc=..., unit="phase", disable=not progress)].
    [disable] makes the real bar drop what it is handed; the bar of the
    model is the record of what the tracker hands it. *)
Definition tqdm (total : Z) (desc : string) : ProgressBar :=
  mkProgressBar total 0 desc "" false.

(** [progress_bar.update(k)] *)
Definition update (k : Z) (b : ProgressBar) : ProgressBar :=
  mkProgressBar (bar_total b) (bar_n b + k) (bar_desc b) (bar_postfix b) (bar_closed b).

Definition set_description (desc : string) (b : ProgressBar) : ProgressBar :=
  mkProgressBar (bar_total b) (bar_n b) desc (bar_postfix b) (bar_closed b).

Definition set_postfix_str (postfix : string) (b : ProgressBar) : ProgressBar :=
  mkProgressBar (bar_total b) (bar_n b) (bar_desc b) postfix (bar_closed b).

Definition close (b : ProgressBar) : ProgressBar :=
  mkProgressBar (bar_total b) (bar_n b) (bar_desc b) (bar_postfix b) true.

(** [sum(poll_counts)] *)
Definition sum (l : list Z) : Z := foldr Z.add 0 l.

(** [f"polls: {sum(poll_counts)}"] *)
Definition polls_postfix (t : Tracker) : string :=
  "polls: " +:+ str_of_int (sum (poll_counts t)).

(** [f"CCTP [{', '.join(parts)}]"], with one part
    [f"{dest_names[i]}:{transfer_phases[i].value}"] per transfer (the two
    lists have one entry per destination). *)
Definition phases_description (t : Tracker) : string :=
  "CCTP [" +:+ String.concat ", "
                 (zip_with (fun name phase => name +:+ ":" +:+ phase_value phase)
                           (dest_names t) (transfer_phases t))
           +:+ "]".

(** [poll_counts[idx] = attempt] *)
Definition set_poll_count (idx : nat) (attempt : Z) : M unit :=
  t ← read_tracker;
  if bool_decide (idx < length (poll_counts t))%nat
  then modify_tracker (with_poll_counts (<[idx := attempt]> (poll_counts t)))
  else raise IndexError.

(** [transfer_phases[idx] = phase] *)
Definition set_transfer_phase (idx : nat) (phase : CCTPBridgePhase) : M unit :=
  t ← read_tracker;
  if bool_decide (idx < length (transfer_phases t))%nat
  then modify_tracker (with_transfer_phases (<[idx := phase]> (transfer_phases t)))
  else raise IndexError.

(** The closure [_update_phase]; its body runs under [lock]. *)
Definition _update_phase (idx : nat) (phase : CCTPBridgePhase) (attempt : Z) : M unit :=
  (if 0 <? attempt then set_poll_count idx attempt else ret tt) ;;
  t ← read_tracker;
  old_phase ← getitem (transfer_phases t) idx;
  if String.eqb (phase_value phase) (phase_value old_phase) then
    modify_tracker (fun t => with_progress_bar (set_postfix_str (polls_postfix t)) t)
  else
    set_transfer_phase idx phase ;;
    let old_ord := phase_index old_phase in
    let new_ord := phase_index phase in
    let advance := Z.max 0 (new_ord - old_ord) in
    (if 0 <? advance then modify_tracker (with_progress_bar (update advance)) else ret tt) ;;
    modify_tracker (fun t => with_progress_bar (set_description (phases_description t)) t) ;;
    modify_tracker (fun t => with_progress_bar (set_postfix_str (polls_postfix t)) t).

Section Bridge.

Variable E : Env.

(** The node answers the submission with the next entry of [chain E]. *)
Definition _send_contract_tx (web3 : Web3) (func : contract_call) (sender : string)
    (hot_wallet : option HotWallet) (gas : Z) : M SentTransaction :=
  fun w =>
    let w' := mkWorld (now w) (http_calls w) (S (txs_sent w)) (tracker w)
                      (trace w ++ [EvTransact (chain_id web3) sender hot_wallet gas func]) in
    match chain E (txs_sent w) with
    | TxRefused => (Raise SendError, w')
    | TxReverted h => (Return (mkSentTransaction h false), w')
    | TxConfirmed h => (Return (mkSentTransaction h true), w')
    end.

Definition assert_transaction_success_with_explanation (web3 : Web3) (tx : SentTransaction) : M unit :=
  if tx_succeeded tx then ret tt else raise (TransactionAssertionError (tx_hex tx)).

(** A helper that prepares a call either raises or hands the call back. *)
Definition prepared (refusal : option exn) (call : contract_call) : M contract_call :=
  match refusal with
  | Some e => raise e
  | None => ret call
  end.

Definition burn_usdc_cctp (source_web3 : Web3) (source_vault : string) (dest_chain_id : Z)
    (dest_safe_address : string) (amount : Z) (sender : string)
    (hot_wallet : option HotWallet) (gas : Z) : M CCTPBurnResult :=
  let source_chain_id := chain_id source_web3 in
  py_assert (bool_decide (_resolve_cctp_domain E source_chain_id <> None))
            ("Source chain " +:+ str_of_int source_chain_id +:+ " is not CCTP-enabled") ;;
  py_assert (bool_decide (_resolve_cctp_domain E dest_chain_id <> None))
            ("Destination chain " +:+ str_of_int dest_chain_id +:+ " is not CCTP-enabled") ;;
  (* Step 1: approve *)
  approve_fn ← prepared (prepare_approve_for_burn E source_chain_id amount) (usdc_approve amount);
  let moduled_tx := via_trading_strategy_module source_vault approve_fn in
  tx_hash ← _send_contract_tx source_web3 moduled_tx sender hot_wallet gas;
  assert_transaction_success_with_explanation source_web3 tx_hash ;;
  (* Step 2: burn *)
  burn_fn ← prepared (prepare_deposit_for_burn E source_chain_id amount dest_chain_id dest_safe_address)
                     (depositForBurn amount dest_chain_id dest_safe_address);
  let moduled_tx := via_trading_strategy_module source_vault burn_fn in
  burn_tx_hash ← _send_contract_tx source_web3 moduled_tx sender hot_wallet gas;
  assert_transaction_success_with_explanation source_web3 burn_tx_hash ;;
  ret (mkCCTPBurnResult (tx_hex burn_tx_hash) amount source_chain_id dest_chain_id dest_safe_address).

Definition receive_usdc_cctp (dest_web3 : Web3) (message attestation : bytes) (sender : string)
    (hot_wallet : option HotWallet) (gas : Z) : M string :=
  receive_fn ← prepared (prepare_receive_message E (chain_id dest_web3) message attestation)
                        (receiveMessage message attestation);
  receive_tx_hash ← _send_contract_tx dest_web3 receive_fn sender hot_wallet gas;
  assert_transaction_success_with_explanation dest_web3 receive_tx_hash ;;
  ret (tx_hex receive_tx_hash).

(** In simulate mode [nonce_base + dest_domain] needs the destination
    domain to be an integer ([TypeError] otherwise), the burn token is
    looked up before [craft_cctp_message] is called, and the helpers of
    [eth_defi.cctp.testing] (not among the embedded modules) are taken to
    refuse a missing source domain with [TypeError] and a missing
    attester with [AttributeError].  In production mode neither domain is
    looked at: the source domain goes to [fetch_attestation] as it is. *)
Definition _get_attestation (fuel : nat) (burn_result : CCTPBurnResult) (simulate : bool)
    (test_attester : option string) (attestation_timeout : Z)
    (on_phase_change : option phase_callback) (nonce_base : Z) : M (bytes * bytes) :=
  let source_chain_id := b_source_chain_id burn_result in
  let dest_chain_id := b_dest_chain_id burn_result in
  let source_domain := _resolve_cctp_domain E source_chain_id in
  let dest_domain := _resolve_cctp_domain E dest_chain_id in
  if simulate then
    match dest_domain with
    | None => raise TypeError
    | Some dest_domain =>
        let nonce := nonce_base + dest_domain in
        match USDC_NATIVE_TOKEN E source_chain_id with
        | None => raise KeyError
        | Some burn_token =>
            match source_domain, test_attester with
            | Some source_domain, Some attester =>
                let message := craft_cctp_message E source_domain dest_domain nonce
                                 (b_dest_safe_address burn_result) (b_amount burn_result)
                                 burn_token in
                let attestation := forge_attestation E message attester in
                ret (message, attestation)
            | None, _ => raise TypeError
            | Some _, None => raise AttributeError
            end
        end
    end
  else
    let api_url := if TESTNET_CHAIN_IDS E source_chain_id
                   then IRIS_API_SANDBOX_URL E else IRIS_API_BASE_URL E in
    cctp_attestation ← fetch_attestation E fuel source_domain (b_burn_tx_hash burn_result)
                         attestation_timeout (seconds 5) api_url on_phase_change;
    ret (att_message cctp_attestation, att_attestation cctp_attestation).

(** The closure [on_phase] of [_attest_with_progress]; the lookup in
    [phase_map] hashes the status. *)
Definition on_phase (idx : nat) : phase_callback :=
  fun iris_status attempt =>
    if hashable iris_status then
      if eq_str iris_status "waiting_for_indexing" then _update_phase idx waiting_for_indexing attempt
      else if eq_str iris_status "pending_confirmations" then _update_phase idx pending_confirmations attempt
      else if eq_str iris_status "complete" then _update_phase idx attested attempt
      else ret tt
    else raise TypeError.

Definition nonce_base_default : Z := 999999000.

Definition _attest_with_progress (fuel : nat) (attestation_timeout : Z) (idx : nat)
    (burn_result : CCTPBurnResult) : M (bytes * bytes) :=
  _get_attestation fuel burn_result false None attestation_timeout (Some (on_phase idx))
                   nonce_base_default.

(** The sequential bridge to one destination: burn, attestation,
    receive. *)
Definition bridge_usdc_cctp (fuel : nat) (source_web3 dest_web3 : Web3) (source_vault : string)
    (dest_safe_address : string) (amount : Z) (sender : string)
    (hot_wallet : option HotWallet) (simulate : bool) (test_attester : option string)
    (attestation_timeout : Z) (gas : Z) : M CCTPBridgeResult :=
  let dest_chain_id := chain_id dest_web3 in
  (if simulate
   then py_assert (bool_decide (test_attester <> None))
                  "test_attester is required in simulate mode"
   else ret tt) ;;
  (* Phase 1: burn *)
  burn_result ← burn_usdc_cctp source_web3 source_vault dest_chain_id dest_safe_address amount
                               sender hot_wallet gas;
  (* Phase 2: attestation *)
  '(message, attestation) ← _get_attestation fuel burn_result simulate test_attester
                                             attestation_timeout None nonce_base_default;
  (* Phase 3: receive *)
  receive_tx_hash ← receive_usdc_cctp dest_web3 message attestation sender hot_wallet gas;
  ret (mkCCTPBridgeResult (b_burn_tx_hash burn_result) receive_tx_hash amount
                          (b_source_chain_id burn_result) dest_chain_id).

(** [wallet.sync_nonce(web3)]: the wallet with its counter set to the
    transaction count the node reports; a failing call raises. *)
Definition sync_nonce (wallet : HotWallet) (chain_id : Z) : M HotWallet :=
  emit (EvSyncNonce chain_id) ;;
  match transaction_count E chain_id (account wallet) with
  | inr count => ret (mkHotWallet (account wallet) (Some count))
  | inl e => raise e
  end.

(** The per-chain wallets of the receive phase: for every chain not
    yet in [dest_wallets] a new wallet of the hot wallet's account,
    synchronised on that chain. *)
Fixpoint build_dest_wallets (hot_wallet : HotWallet) (chain_ids : list Z)
    (dest_wallets : gmap Z (option HotWallet)) : M (gmap Z (option HotWallet)) :=
  match chain_ids with
  | [] => ret dest_wallets
  | cid :: rest =>
      match dest_wallets !! cid with
      | Some _ => build_dest_wallets hot_wallet rest dest_wallets
      | None =>
          let w := mkHotWallet (account hot_wallet) None in
          w ← sync_nonce w cid;
          build_dest_wallets hot_wallet rest (<[cid := Some w]> dest_wallets)
      end
  end.

Definition _receive_with_progress (sender : string) (gas : Z)
    (dest_wallets : gmap Z (option HotWallet)) (idx : nat)
    (dest : CCTPBridgeDestination) (message attestation : bytes) : M string :=
  _update_phase idx receiving 0 ;;
  match dest_wallets !! chain_id (dest_web3 dest) with
  | Some wallet =>
      tx_hash ← receive_usdc_cctp (dest_web3 dest) message attestation sender wallet gas;
      _update_phase idx complete 0 ;;
      ret tx_hash
  | None => raise KeyError
  end.

(** [for future in as_completed(futures): receive_tx_hashes[futures[future]] = future.result()] *)
Fixpoint store_results {A} (finished : list (nat * (exn + A))) (slots : list A) : M (list A) :=
  match finished with
  | [] => ret slots
  | (idx, inr a) :: rest =>
      if bool_decide (idx < length slots)%nat
      then store_results rest (<[idx := a]> slots)
      else raise IndexError
  | (_, inl e) :: _ => raise e
  end.

(** [attest_order] and [receive_order] are the schedules of the two
    thread pools, of the attestation threads and of the receive
    threads.  Where the
    source reads [dest_chain_ids[idx]] the chain id of the destination
    (or of the burn made for it) at that index is used. *)
Definition bridge_usdc_cctp_parallel (fuel : nat) (attest_order receive_order : list nat)
    (source_web3 : Web3) (source_vault : string)
    (destinations : list CCTPBridgeDestination) (sender : string)
    (hot_wallet : option HotWallet) (simulate : bool)
    (test_attesters : option (gmap Z string)) (attestation_timeout : Z) (gas : Z)
    (max_workers : option Z) (progress : bool) : M (list CCTPBridgeResult) :=
  match destinations with
  | [] => ret []
  | _ :: _ =>
      (if simulate
       then py_assert (bool_decide (test_attesters <> None))
                      "test_attesters is required in simulate mode"
       else ret tt) ;;
      let max_workers := default (Z.of_nat (length destinations)) max_workers in
      let n_dest := length destinations in
      let dest_chain_ids := map (fun d => chain_id (dest_web3 d)) destinations in
      let dest_names := map (get_chain_name E) dest_chain_ids in
      modify_tracker (fun _ =>
        mkTracker dest_names (replicate n_dest burning) (replicate n_dest 0)
                  (tqdm (Z.of_nat n_dest * n_phases) "CCTP bridge")) ;;
      (* Phase 1: burns, one after the other *)
      burn_results ←
        for_enumerate (fun idx dest =>
            _update_phase idx burning 0 ;;
            burn_usdc_cctp source_web3 source_vault (chain_id (dest_web3 dest))
                           (dest_safe_address dest) (amount dest) sender hot_wallet gas)
          0 destinations;
      (* Phase 2: attestations *)
      attestation_data ←
        (if simulate then
           for_enumerate (fun idx burn_result =>
               match default ∅ test_attesters !! b_dest_chain_id burn_result with
               | Some attester =>
                   _update_phase idx attested 0 ;;
                   _get_attestation fuel burn_result true (Some attester) attestation_timeout
                                    None nonce_base_default
               | None => raise KeyError
               end)
             0 burn_results
         else
           ThreadPoolExecutor max_workers ;;
           for_enumerate (fun idx _ => _update_phase idx waiting_for_indexing 0) 0 burn_results ;;
           finished ← as_completed (imap (_attest_with_progress fuel attestation_timeout)
                                         burn_results) attest_order;
           indexed_results ← gather_results finished ∅;
           results_in_order indexed_results n_dest);
      (* Phase 3: receives *)
      dest_wallets ←
        match hot_wallet with
        | Some hw => build_dest_wallets hw dest_chain_ids ∅
        | None => ret (list_to_map (map (fun cid => (cid, None)) dest_chain_ids))
        end;
      receive_tx_hashes ←
        (if simulate then
           for_enumerate (fun idx '(dest, (message, attestation)) =>
               _update_phase idx receiving 0 ;;
               tx_hash ← receive_usdc_cctp (dest_web3 dest) message attestation sender None gas;
               _update_phase idx complete 0 ;;
               ret tx_hash)
             0 (zip destinations attestation_data)
         else
           ThreadPoolExecutor max_workers ;;
           finished ← as_completed
                        (imap (fun idx '(dest, (message, attestation)) =>
                                 _receive_with_progress sender gas dest_wallets idx dest
                                                        message attestation)
                              (zip destinations attestation_data))
                        receive_order;
           store_results finished (replicate n_dest ""));
      modify_tracker (with_progress_bar close) ;;
      (* results in input order *)
      for_enumerate (fun idx '(burn_result, dest) =>
          receive_tx_hash ← getitem receive_tx_hashes idx;
          ret (mkCCTPBridgeResult (b_burn_tx_hash burn_result) receive_tx_hash
                                  (b_amount burn_result) (b_source_chain_id burn_result)
                                  (b_dest_chain_id burn_result)))
        0 (zip burn_results destinations)
  end.

End Bridge.

(** ** Concrete environments

    [eth_defi.cctp.constants] and the helpers of [eth_defi.cctp.transfer]
    are not among the modules embedded above; the instances below fix
    them for the worked scenarios.  The domains are those of
    [_DOMAIN_TO_EXPLORER_CHAIN] in [attestation.py] (0 ethereum,
    3 arbitrum, 6 base, 7 polygon), keyed by the EVM chain ids of those
    chains; every call preparation succeeds. *)

Module Scenario.

Definition domains (chain_id : Z) : option Z :=
  match chain_id with
  | 1 => Some 0
  | 42161 => Some 3
  | 8453 => Some 6
  | 137 => Some 7
  | _ => None
  end.

Definition domain_names (domain : Z) : option string :=
  match domain with
  | 0 => Some "Ethereum"
  | 3 => Some "Arbitrum"
  | 6 => Some "Base"
  | 7 => Some "Polygon"
  | _ => None
  end.

(** How Python prints a float holding [ms] milliseconds as seconds, for
    a whole number of seconds: [300.0]. *)
Definition seconds_repr (ms : Z) : string := str_of_int (ms / 1000) +:+ ".0".

(** An environment around a given attestation service and chain. *)
Definition env (service : nat -> exchange) (ledger : nat -> tx_reply) : Env :=
  mkEnv service ledger
        "https://iris-api.circle.com" "https://iris-api-sandbox.circle.com"
        (fun _ => false) domain_names domains
        (fun cid => "chain-" +:+ str_of_int cid) (fun _ => Some "usdc")
        (fun _ _ => None) (fun _ _ _ _ => None) (fun _ _ _ => None)
        (fun _ _ _ _ _ _ => []) (fun _ _ => [])
        seconds_repr (fun _ => None) (fun _ _ => inr 0).

Definition fresh : World := mkWorld 0 0 0 idle_tracker [].

Definition instant (r : Response) : exchange := mkExchange 0 (Replied r).

Definition not_found : Response := mkResponse 404 None.

Definition server_error : Response := mkResponse 500 None.

(** [{"messages":[{"status":"complete","attestation":"0xdead","message":"0xbeef"}]}] *)
Definition complete_message : gmap string json :=
  <["status" := JStr "complete"]>
    (<["attestation" := JStr "0xdead"]> {[ "message" := JStr "0xbeef" ]}).

Definition complete_body : gmap string json :=
  {[ "messages" := JList [JDict complete_message] ]}.

Definition completed : Response := mkResponse 200 (Some (JDict complete_body)).

(** [{"messages":[{"status":"pending_confirmations","attestation":"PENDING"}]}] *)
Definition pending_message : gmap string json :=
  <["status" := JStr "pending_confirmations"]> {[ "attestation" := JStr "PENDING" ]}.

Definition pending_body : gmap string json :=
  {[ "messages" := JList [JDict pending_message] ]}.

Definition pending : Response := mkResponse 200 (Some (JDict pending_body)).

(** 404 on the first query, the complete message from the second on. *)
Definition indexed_after_one (k : nat) : exchange :=
  match k with
  | O => instant not_found
  | S _ => instant completed
  end.

Definition always (r : Response) (k : nat) : exchange := instant r.

(** Every transaction is mined; the k-th one gets hash [tx<k>]. *)
Definition ledger (k : nat) : tx_reply := TxConfirmed ("tx" +:+ str_of_int (Z.of_nat k)).

(** A bridge to one destination whose transfer stands at [phase]. *)
Definition tracking (phase : CCTPBridgePhase) (polls advanced : Z) : World :=
  mkWorld 0 0 0
          (mkTracker ["Base"] [phase] [polls] (mkProgressBar 6 advanced "CCTP bridge" "" false))
          [].

(** A callback that only returns. *)
Definition listener : phase_callback := fun _ _ => ret tt.

End Scenario.

(** ** Observations the statements speak about *)

#[global] Instance CCTPBridgePhase_eq_dec : EqDecision CCTPBridgePhase.
Proof. solve_decision. Defined.

(** The cumulative advancement of the progress bar. *)
Definition advancement (w : World) : Z := bar_n (progress_bar (tracker w)).

(** A sequence of updates [(idx, phase, attempt)] served one after the
    other; an update that raises leaves its [with lock] block and the next
    one is served all the same. *)
Fixpoint feed (updates : list (nat * CCTPBridgePhase * Z)) (w : World) : World :=
  match updates with
  | [] => w
  | (idx, phase, attempt) :: rest => feed rest (snd (_update_phase idx phase attempt w))
  end.

(** A callback that returns normally and touches nothing but the
    tracker. *)
Definition quiet (callback : phase_callback) : Prop :=
  forall status attempt w, exists t,
    callback status attempt w
    = (Return tt, mkWorld (now w) (http_calls w) (txs_sent w) t (trace w)).

Definition well_behaved (on_phase_change : option phase_callback) : Prop :=
  match on_phase_change with
  | Some callback => quiet callback
  | None => True
  end.

(** The trace of one [_notify]. *)
Definition noted (on_phase_change : option phase_callback) (attempt : Z) (status : json) : list event :=
  match on_phase_change with
  | Some _ => [EvPhaseChange status attempt]
  | None => []
  end.

(** [msg.get("status", "")] and [msg.get("attestation")] of a message. *)
Definition message_status (m : gmap string json) : json := default (JStr "") (m !! "status").

Definition message_attestation (m : gmap string json) : json := default JNull (m !! "attestation").

(** The test under which [fetch_attestation] returns. *)
Definition attested_message (m : gmap string json) : bool :=
  eq_str (message_status m) "complete" && truthy (message_attestation m)
  && negb (eq_str (message_attestation m) "PENDING").

(** A reply that keeps the transfer waiting, with the statuses the round
    reports: the transfer is not indexed (404), or the answer holds no
    message, or its first message is not an attested one. *)
Inductive pending_reply : http_reply -> list json -> Prop :=
| pending_not_found r :
    status_code r = HTTP_NOT_FOUND ->
    pending_reply (Replied r) [JStr "waiting_for_indexing"]
| pending_no_message r d :
    status_code r <> HTTP_NOT_FOUND ->
    is_error_status (status_code r) = false ->
    body r = Some (JDict d) ->
    truthy (default (JList []) (d !! "messages")) = false ->
    pending_reply (Replied r) []
| pending_first_message r d m rest :
    status_code r <> HTTP_NOT_FOUND ->
    is_error_status (status_code r) = false ->
    body r = Some (JDict d) ->
    d !! "messages" = Some (JList (JDict m :: rest)) ->
    attested_message m = false ->
    pending_reply (Replied r) [message_status m].

(** A reply that carries the attestation: the first message is attested
    and both payloads are hex strings, decoding to [message] and
    [attestation]. *)
Inductive ready_reply : http_reply -> bytes -> bytes -> Prop :=
| ready_first_message r d m rest message_hex attestation_hex message attestation :
    status_code r <> HTTP_NOT_FOUND ->
    is_error_status (status_code r) = false ->
    body r = Some (JDict d) ->
    d !! "messages" = Some (JList (JDict m :: rest)) ->
    m !! "status" = Some (JStr "complete") ->
    m !! "attestation" = Some (JStr attestation_hex) ->
    attestation_hex <> "" ->
    attestation_hex <> "PENDING" ->
    default (JStr "") (m !! "message") = JStr message_hex ->
    fromhex (replace_0x message_hex) = Some message ->
    fromhex (replace_0x attestation_hex) = Some attestation ->
    ready_reply (Replied r) message attestation.

(** Time spent in [rounds] rounds of polling that start at exchange
    [first]: each request's latency and the sleep after it. *)
Fixpoint waited (E : Env) (poll_interval : Z) (first rounds : nat) : Z :=
  match rounds with
  | O => 0
  | S n => Z.of_N (latency (iris E first)) + poll_interval + waited E poll_interval (S first) n
  end.

(** The trace of [rounds] rounds answered 404, the first of them being
    attempt [attempt + 1]. *)
Fixpoint not_found_rounds (url : string) (on_phase_change : option phase_callback)
    (poll_interval : Z) (attempt : Z) (rounds : nat) : list event :=
  match rounds with
  | O => []
  | S n =>
      EvHttpGet url
        :: noted on_phase_change (attempt + 1) (JStr "waiting_for_indexing")
        ++ EvSleep poll_interval
        :: not_found_rounds url on_phase_change poll_interval (attempt + 1) n
  end.

(** A reply after which the loop reports to the callback: a 404, or a
    JSON object whose first message is an object. *)
Inductive reported_reply : http_reply -> Prop :=
| reported_not_found r :
    status_code r = HTTP_NOT_FOUND -> reported_reply (Replied r)
| reported_first_message r d m rest :
    is_error_status (status_code r) = false ->
    body r = Some (JDict d) ->
    d !! "messages" = Some (JList (JDict m :: rest)) ->
    reported_reply (Replied r).

(** One round of the polling loop, seen from outside: the world [w1] it
    leaves behind [w].  The round makes one request; [report] is what it
    tells the callback, at most one status, with the number of the round;
    [slept] says whether it went to sleep. *)
Record round_shape (E : Env) (the_url : string) (on_phase_change : option phase_callback)
    (poll_interval : Z) (attempt : Z) (w w1 : World) (report : list event) (slept : bool)
    : Prop := mkRoundShape {
  shape_calls : http_calls w1 = S (http_calls w);
  shape_txs : txs_sent w1 = txs_sent w;
  shape_now :
    now w1 = now w + Z.of_N (latency (iris E (http_calls w)))
             + (if slept then poll_interval else 0);
  shape_trace :
    trace w1 = (trace w ++ EvHttpGet the_url :: report
                  ++ (if slept then [EvSleep poll_interval] else []))%list;
  shape_report :
    report = [] \/ exists status, report = noted on_phase_change (attempt + 1) status;
  shape_reported :
    reported_reply (reply (iris E (http_calls w))) ->
    exists status, report = noted on_phase_change (attempt + 1) status
}.

(** How a round ends: it sleeps and hands over to the next round
    ([next]), or it returns the attestation of a ready reply, or it
    raises something that is no [TimeoutError]. *)
Inductive round_outcome (E : Env) (the_url : string) (on_phase_change : option phase_callback)
    (poll_interval : Z) (attempt : Z) (w : World)
    (next : World -> outcome CCTPAttestation * World)
    : outcome CCTPAttestation * World -> Prop :=
| round_continues w1 report :
    round_shape E the_url on_phase_change poll_interval attempt w w1 report true ->
    0 <= poll_interval ->
    round_outcome E the_url on_phase_change poll_interval attempt w next (next w1)
| round_returns w1 report att :
    round_shape E the_url on_phase_change poll_interval attempt w w1 report false ->
    att_status att = JStr "complete" ->
    ready_reply (reply (iris E (http_calls w))) (att_message att) (att_attestation att) ->
    round_outcome E the_url on_phase_change poll_interval attempt w next (Return att, w1)
| round_raises w1 report e :
    round_shape E the_url on_phase_change poll_interval attempt w w1 report false ->
    (forall message, e <> TimeoutError message) ->
    round_outcome E the_url on_phase_change poll_interval attempt w next (Raise e, w1).

(** The transactions the burn of one destination submits on the source
    chain: the approval, then the burn, both through the vault's module. *)
Definition burn_events_of (source_web3 : Web3) (source_vault sender : string)
    (hot_wallet : option HotWallet) (gas : Z) (dest : CCTPBridgeDestination) : list event :=
  [EvTransact (chain_id source_web3) sender hot_wallet gas
              (via_trading_strategy_module source_vault (usdc_approve (amount dest)));
   EvTransact (chain_id source_web3) sender hot_wallet gas
              (via_trading_strategy_module source_vault
                 (depositForBurn (amount dest) (chain_id (dest_web3 dest))
                                 (dest_safe_address dest)))].

(** A computation that submits no transaction. *)
Definition keeps_txs {A} (m : M A) : Prop :=
  forall w, txs_sent (snd (m w)) = txs_sent w.

(** The exceptions of working on a value of the wrong shape. *)
Definition is_data_error (e : exn) : bool :=
  match e with
  | AttributeError | TypeError | ValueError | OverflowError | KeyError | IndexError => true
  | _ => false
  end.

(** A computation that only computes: it comes to an end, leaves the
    world as it found it, and raises nothing but a data error. *)
Definition only_computes {A} (m : M A) : Prop :=
  forall w,
    snd (m w) = w
    /\ match fst (m w) with
       | Return _ => True
       | Raise e => is_data_error e = true
       | OutOfFuel => False
       end.

(** The world after one request to the attestation service. *)
Definition after_request (E : Env) (url : string) (w : World) : World :=
  mkWorld (now w + Z.of_N (latency (iris E (http_calls w)))) (S (http_calls w)) (txs_sent w)
          (tracker w) (trace w ++ [EvHttpGet url]).

(** Ordinals of the phases the tracker holds, summed over the
    transfers. *)
Definition phase_sum (w : World) : Z :=
  sum (map phase_index (transfer_phases (tracker w))).

(** A sequence of updates none of which moves a transfer to an earlier
    phase than the one it is in. *)
Fixpoint never_regresses (updates : list (nat * CCTPBridgePhase * Z)) (w : World) : Prop :=
  match updates with
  | [] => True
  | (idx, phase, attempt) :: rest =>
      (forall old, transfer_phases (tracker w) !! idx = Some old ->
                   phase_index old <= phase_index phase)
      /\ never_regresses rest (snd (_update_phase idx phase attempt w))
  end.

(** The tracker as [bridge_usdc_cctp_parallel] sets it up for [n]
    destinations. *)
Definition tracks (n : nat) (w : World) : Prop :=
  length (transfer_phases (tracker w)) = n /\ length (poll_counts (tracker w)) = n.

(** The transaction the receive for one destination submits. *)
Definition receive_event_of (sender : string) (wallet : option HotWallet) (gas : Z)
    (dest : CCTPBridgeDestination) (payload : bytes * bytes) : event :=
  EvTransact (chain_id (dest_web3 dest)) sender wallet gas
             (receiveMessage (fst payload) (snd payload)).

(** The wallet the receive phase signs with on chain [cid]: without a
    hot wallet the unlocked account; with one, a wallet of the hot
    wallet's account whose counter is the transaction count the node of
    that chain reported. *)
Definition receive_wallet (E : Env) (hot_wallet : option HotWallet) (cid : Z)
    (wallet : option HotWallet) : Prop :=
  match hot_wallet with
  | None => wallet = None
  | Some hw =>
      exists count,
        transaction_count E cid (account hw) = inr count
        /\ wallet = Some (mkHotWallet (account hw) (Some count))
  end.

(** A request to the attestation service, or something that is no
    request at all. *)
Definition requests_only (url : string) (ev : event) : Prop :=
  match ev with
  | EvHttpGet u => u = url
  | EvTransact _ _ _ _ _ => False
  | _ => True
  end.

(** The URL the bridge polls for a burn: the messages URL of the source
    chain's domain and the 0x-prefixed burn hash, at the sandbox API for
    a testnet and at the mainnet API otherwise. *)
Definition attestation_url (E : Env) (source_chain_id : Z) (burn_tx_hash : string) : string :=
  url (_resolve_cctp_domain E source_chain_id) (with_0x burn_tx_hash)
      (if TESTNET_CHAIN_IDS E source_chain_id
       then IRIS_API_SANDBOX_URL E else IRIS_API_BASE_URL E).

(** The URLs a run has sent its requests to, in order. *)
Definition request_urls (events : list event) : list string :=
  omap (fun ev => match ev with EvHttpGet url => Some url | _ => None end) events.

(** An event that is a transaction submitted to a chain. *)
Definition is_transaction (ev : event) : bool :=
  match ev with
  | EvTransact _ _ _ _ _ => true
  | _ => false
  end.

(** A computation that submits nothing: whatever it adds to the trace is
    no transaction. *)
Definition submits_nothing {A} (m : M A) : Prop :=
  forall w, exists events,
    trace (snd (m w)) = trace w ++ events
    /\ Forall (fun ev => is_transaction ev = false) events.

(** What a bridge does to the outside: its requests to the attestation
    service, its sleeps and its transactions.  The calls of the phase
    callback and the nonce synchronisation of a per-chain wallet are
    bookkeeping of the parallel bridge. *)
Definition bridge_activity (ev : event) : bool :=
  match ev with
  | EvPhaseChange _ _ | EvSyncNonce _ => false
  | _ => true
  end.

(** Two worlds that cannot be told apart from the outside: the same
    clock, the same number of requests and of transactions, the same
    activity in the same order.  Only the progress tracker and the
    bookkeeping events may differ. *)
Definition same_bridge_activity (w1 w2 : World) : Prop :=
  now w1 = now w2
  /\ http_calls w1 = http_calls w2
  /\ txs_sent w1 = txs_sent w2
  /\ List.filter bridge_activity (trace w1) = List.filter bridge_activity (trace w2).

(** [m2] follows [m1]: wherever [m1] returns, [m2] returns the same
    value from any world with the same outside, and leaves the same
    outside. *)
Definition follows {A} (m1 m2 : M A) : Prop :=
  forall w1 w2 a w1',
    same_bridge_activity w1 w2 ->
    m1 w1 = (Return a, w1') ->
    exists w2', m2 w2 = (Return a, w2') /\ same_bridge_activity w1' w2'.

(** Bookkeeping: a computation that, when it returns, has left the
    outside as it was. *)
Definition bookkeeping {A} (m : M A) : Prop :=
  forall w a w', m w = (Return a, w') -> same_bridge_activity w' w.

(** * Properties *)

(** ** Reasoning about the monad *)

Lemma bind_Return {A B} (m : M A) (k : A -> M B) w a w' :
  m w = (Return a, w') -> (m ≫= k) w = k a w'.
Proof. intros H. unfold mbind, M_bind. now rewrite H. Qed.

Lemma bind_Raise {A B} (m : M A) (k : A -> M B) w e w' :
  m w = (Raise e, w') -> (m ≫= k) w = (Raise e, w').
Proof. intros H. unfold mbind, M_bind. now rewrite H. Qed.

Lemma bind_OutOfFuel {A B} (m : M A) (k : A -> M B) w w' :
  m w = (OutOfFuel, w') -> (m ≫= k) w = (OutOfFuel, w').
Proof. intros H. unfold mbind, M_bind. now rewrite H. Qed.

Lemma bind_inv_Return {A B} (m : M A) (k : A -> M B) w b w' :
  (m ≫= k) w = (Return b, w') ->
  exists a w1, m w = (Return a, w1) /\ k a w1 = (Return b, w').
Proof.
  unfold mbind, M_bind. destruct (m w) as [[a | e | ] w1]; intros H; try discriminate.
  now exists a, w1.
Qed.

(** ** Empty input *)

(** C10: on an empty list both parallel entry points return the empty
    list and leave the world as it was: no request is issued, no
    transaction is sent, the tracker and the callbacks stay untouched. *)
Theorem empty_input_is_noop :
  forall (E : Env) (fuel : nat) (order attest_order receive_order : list nat)
         (timeout poll_interval : Z) (api_base_url : string) (max_workers : option Z)
         (source_web3 : Web3) (source_vault sender : string) (hot_wallet : option HotWallet)
         (simulate : bool) (test_attesters : option (gmap Z string))
         (attestation_timeout gas : Z) (progress : bool) (w : World),
    poll_transfers_parallel E fuel order [] timeout poll_interval api_base_url max_workers w
      = (Return [], w)
    /\ bridge_usdc_cctp_parallel E fuel attest_order receive_order source_web3 source_vault []
         sender hot_wallet simulate test_attesters attestation_timeout gas max_workers progress w
      = (Return [], w).
Proof. intros. split; reflexivity. Qed.

(** ** The progress tracker *)

Ltac unfold_tracker_ops :=
  unfold _update_phase, set_poll_count, set_transfer_phase, getitem,
    read_tracker, modify_tracker, with_poll_counts, with_transfer_phases, with_progress_bar,
    update, set_description, set_postfix_str,
    mbind, M_bind, mret, M_ret, ret, raise.

Ltac open_world w :=
  let n := fresh "clock" in
  let h := fresh "calls" in
  let x := fresh "txs" in
  let dn := fresh "names" in
  let tp := fresh "phases" in
  let pc := fresh "counts" in
  let bar := fresh "bar" in
  let tr := fresh "events" in
  destruct w as [n h x [dn tp pc bar] tr]; destruct bar.

Lemma phase_value_inj p q : phase_value p = phase_value q -> p = q.
Proof. destruct p, q; simpl; intros H; try reflexivity; discriminate. Qed.

Lemma _update_phase_advances idx phase attempt w :
  advancement w <= advancement (snd (_update_phase idx phase attempt w)).
Proof.
  open_world w. unfold advancement. unfold_tracker_ops. cbn.
  repeat (case_match; simpl in *; simplify_eq; try lia).
  all: simpl; lia.
Qed.

Lemma feed_advances updates : forall w, advancement w <= advancement (feed updates w).
Proof.
  induction updates as [| [[idx phase] attempt] rest IH]; intros w; simpl.
  - lia.
  - etransitivity; [apply (_update_phase_advances idx phase attempt) | apply IH].
Qed.

Lemma feed_app before after w : feed (before ++ after) w = feed after (feed before w).
Proof.
  revert w. induction before as [| [[idx phase] attempt] rest IH]; intros w; simpl; [reflexivity | apply IH].
Qed.

Lemma _update_phase_same_phase idx phase attempt w :
  transfer_phases (tracker w) !! idx = Some phase ->
  (idx < length (poll_counts (tracker w)))%nat ->
  let w' := snd (_update_phase idx phase attempt w) in
  fst (_update_phase idx phase attempt w) = Return tt
  /\ advancement w' = advancement w
  /\ transfer_phases (tracker w') = transfer_phases (tracker w)
  /\ bar_desc (progress_bar (tracker w')) = bar_desc (progress_bar (tracker w))
  /\ poll_counts (tracker w') =
       (if 0 <? attempt then <[idx := attempt]> (poll_counts (tracker w))
        else poll_counts (tracker w)).
Proof.
  open_world w. unfold advancement. simpl. intros Hold Hlen.
  unfold_tracker_ops.
  destruct (0 <? attempt); cbn; rewrite ?(bool_decide_eq_true_2 _ Hlen); cbn;
    rewrite Hold; cbn; rewrite String.eqb_refl; cbn; auto.
Qed.

Lemma _update_phase_new_phase idx phase old attempt w :
  transfer_phases (tracker w) !! idx = Some old ->
  (idx < length (poll_counts (tracker w)))%nat ->
  phase <> old ->
  let w' := snd (_update_phase idx phase attempt w) in
  fst (_update_phase idx phase attempt w) = Return tt
  /\ advancement w' = advancement w + Z.max 0 (phase_index phase - phase_index old)
  /\ transfer_phases (tracker w') = <[idx := phase]> (transfer_phases (tracker w)).
Proof.
  open_world w. unfold advancement. simpl. intros Hold Hlen Hne.
  assert (Hidx : (idx < length phases)%nat) by (apply lookup_lt_is_Some; eauto).
  assert (Hneq : String.eqb (phase_value phase) (phase_value old) = false).
  { apply String.eqb_neq. intros H. now apply phase_value_inj in H. }
  unfold_tracker_ops.
  destruct (0 <? attempt); cbn; rewrite ?(bool_decide_eq_true_2 _ Hlen); cbn;
    rewrite Hold; cbn; rewrite Hneq; cbn;
    rewrite ?length_insert, (bool_decide_eq_true_2 _ Hidx); cbn;
    destruct (0 <? Z.max 0 (phase_index phase - phase_index old)) eqn:Hadv; cbn;
    repeat split; try reflexivity;
    apply Z.ltb_ge in Hadv; lia.
Qed.

(** C6: along every sequence of updates the cumulative advancement never
    decreases.  An update that repeats the current phase of its transfer
    leaves the phases, the counter and the description alone and only
    refreshes the attempt count; an update that changes the phase moves
    the counter by [max(0, new ordinal - old ordinal)], a regression
    included. *)
Theorem progress_counter_never_decreases
    (before after : list (nat * CCTPBridgePhase * Z)) (w : World)
    (idx : nat) (phase old : CCTPBridgePhase) (attempt : Z) :
  let w1 := feed before w in
  let w2 := snd (_update_phase idx phase attempt w1) in
  transfer_phases (tracker w1) !! idx = Some old ->
  (idx < length (poll_counts (tracker w1)))%nat ->
  advancement w <= advancement w1
  /\ advancement w1 <= advancement w2
  /\ advancement w2 <= advancement (feed after w2)
  /\ fst (_update_phase idx phase attempt w1) = Return tt
  /\ (phase = old ->
      advancement w2 = advancement w1
      /\ transfer_phases (tracker w2) = transfer_phases (tracker w1)
      /\ bar_desc (progress_bar (tracker w2)) = bar_desc (progress_bar (tracker w1))
      /\ poll_counts (tracker w2) =
           (if 0 <? attempt then <[idx := attempt]> (poll_counts (tracker w1))
            else poll_counts (tracker w1)))
  /\ (phase <> old ->
      advancement w2 = advancement w1 + Z.max 0 (phase_index phase - phase_index old)
      /\ 0 <= Z.max 0 (phase_index phase - phase_index old)
      /\ transfer_phases (tracker w2) = <[idx := phase]> (transfer_phases (tracker w1))).
Proof.
  intros w1 w2 Hold Hlen.
  split; [apply feed_advances |].
  split; [apply _update_phase_advances |].
  split; [apply feed_advances |].
  split.
  - destruct (decide (phase = old)) as [-> | Hne].
    + now apply _update_phase_same_phase.
    + now apply (_update_phase_new_phase idx phase old).
  - split.
    + intros ->. now apply _update_phase_same_phase.
    + intros Hne. destruct (_update_phase_new_phase idx phase old attempt w1 Hold Hlen Hne) as (_ & Hadv & Hph).
      repeat split; [exact Hadv | lia | exact Hph].
Qed.

(** The regression of the specification: a transfer reported [attested]
    and then [pending_confirmations] again. *)
Lemma progress_counter_never_decreases_witness :
  let w := Scenario.tracking pending_confirmations 2 2 in
  let w1 := feed [(0%nat, attested, 3)] w in
  let w2 := snd (_update_phase 0 pending_confirmations 4 w1) in
  (transfer_phases (tracker w1) !! 0%nat = Some attested
   /\ (0 < length (poll_counts (tracker w1)))%nat)
  /\ advancement w = 2 /\ advancement w1 = 3 /\ advancement w2 = 3
  /\ advancement w2 <= advancement (feed [(0%nat, attested, 5)] w2).
Proof.
  intros w w1 w2.
  assert (Hold : transfer_phases (tracker w1) !! 0%nat = Some attested) by reflexivity.
  assert (Hlen : (0 < length (poll_counts (tracker w1)))%nat) by (vm_compute; lia).
  pose proof (progress_counter_never_decreases
                [(0%nat, attested, 3)] [(0%nat, attested, 5)] w
                0 pending_confirmations attested 4 Hold Hlen) as (_ & _ & Hafter & _).
  repeat split; try reflexivity; [exact Hlen | exact Hafter].
Defined.

(** ** The advisory check *)

Ltac unfold_monad :=
  unfold mbind, M_bind, mret, M_ret, ret, raise, out_of_fuel, try_except, emit, logger_warning in *.

Lemma eq_str_true v s : eq_str v s = true -> v = JStr s.
Proof.
  destruct v; simpl; try discriminate. intros H. apply String.eqb_eq in H. now subst.
Qed.

(** C9: [is_attestation_complete] does not let a failed request out.
    When [requests.get] raises a transport error, or the response carries
    an error status (one [raise_for_status] raises for, 400 to 599), the
    call logs a warning and returns [False].  It returns [True] only when
    the first message of the response has status ["complete"] and an
    attestation field that is neither null nor ["PENDING"]. *)
Theorem is_attestation_complete_is_best_effort
    (E : Env) (source_domain : Z) (transaction_hash api_base_url : string) (w : World) :
  let run := is_attestation_complete E source_domain transaction_hash api_base_url w in
  let answer := reply (iris E (http_calls w)) in
  let url := messages_url api_base_url source_domain (with_0x transaction_hash) in
  ((answer = TransportFailure
    \/ exists r, answer = Replied r /\ 400 <= status_code r < 600) ->
   fst run = Return false
   /\ trace (snd run) =
        (trace w ++ [EvHttpGet url;
                     EvWarning ("Failed to check attestation status for tx "
                                  +:+ with_0x transaction_hash)])%list)
  /\ (fst run = Return true ->
      exists r d m rest attestation,
        answer = Replied r
        /\ body r = Some (JDict d)
        /\ d !! "messages" = Some (JList (JDict m :: rest))
        /\ m !! "status" = Some (JStr "complete")
        /\ m !! "attestation" = Some attestation
        /\ attestation <> JNull
        /\ attestation <> JStr "PENDING").
Proof.
  intros run answer url. subst run answer url.
  unfold is_attestation_complete, requests_get, raise_for_status, response_json, is_error_status.
  unfold_monad. split.
  - intros [Hfail | (r & Hr & Hcode)]; rewrite Hfail || rewrite Hr; simpl.
    + rewrite <- app_assoc. auto.
    + assert (Hc : (400 <=? status_code r) && (status_code r <? 600) = true).
      { apply andb_true_iff. split; [apply Z.leb_le | apply Z.ltb_lt]; lia. }
      rewrite Hc. simpl. rewrite <- app_assoc. auto.
  - destruct (reply (iris E (http_calls w))) as [| r] eqn:Hr; simpl; [discriminate |].
    destruct ((400 <=? status_code r) && (status_code r <? 600)); simpl; [discriminate |].
    destruct (body r) as [data |] eqn:Hbody; simpl; [| discriminate].
    destruct data as [| | | | | | d]; simpl; try discriminate.
    unfold dict_get at 1. unfold_monad.
    destruct (d !! "messages") as [messages |] eqn:Hm; simpl; [| discriminate].
    destruct messages as [| b | n | fl | s | l | d']; simpl; try discriminate.
    + destruct b; simpl; discriminate.
    + destruct (negb (n =? 0)); simpl; discriminate.
    + destruct fl; simpl; discriminate.
    + destruct s as [| c s]; simpl; discriminate.
    + destruct l as [| msg rest]; simpl; [discriminate |].
      destruct msg as [| | | | | | m]; simpl; try discriminate.
      destruct (m !! "status") as [status |] eqn:Hs; simpl; [| discriminate].
      destruct (eq_str status "complete") eqn:Hst; simpl; [| discriminate].
      apply eq_str_true in Hst. subst status.
      destruct (m !! "attestation") as [att |] eqn:Ha; simpl; [| discriminate].
      unfold not_in_None_PENDING. unfold_monad.
      destruct (hashable att) eqn:Hh; simpl; [| discriminate].
      intros Htrue. exists r, d, m, rest, att.
      repeat split; auto.
      * intros ->. simpl in Htrue. discriminate.
      * intros ->. simpl in Htrue. discriminate.
    + destruct (negb (bool_decide (d' = ∅))); simpl; discriminate.
Qed.

Lemma is_attestation_complete_is_best_effort_witness :
  fst (is_attestation_complete
         (Scenario.env (Scenario.always Scenario.server_error) Scenario.ledger)
         3 "0xabc" "https://iris-api.circle.com" Scenario.fresh)
  = Return false.
Proof.
  refine (proj1 (proj1 (is_attestation_complete_is_best_effort
                          (Scenario.env (Scenario.always Scenario.server_error) Scenario.ledger)
                          3 "0xabc" "https://iris-api.circle.com" Scenario.fresh) _)).
  right. exists Scenario.server_error. split; [reflexivity | simpl; lia].
Defined.

(** ** One round of the attestation loop *)

Lemma _notify_runs on_phase_change attempt status w :
  well_behaved on_phase_change ->
  exists t,
    _notify on_phase_change attempt status w
    = (Return tt, mkWorld (now w) (http_calls w) (txs_sent w) t
                          (trace w ++ noted on_phase_change attempt status)).
Proof.
  intros callback_ok. unfold _notify, noted. destruct on_phase_change as [callback |].
  - unfold_monad. simpl.
    destruct (callback_ok status attempt
                (mkWorld (now w) (http_calls w) (txs_sent w) (tracker w)
                         (trace w ++ [EvPhaseChange status attempt]))) as [t Ht].
    rewrite Ht. simpl. now exists t.
  - exists (tracker w). rewrite app_nil_r. now destruct w.
Qed.

Section Rounds.

Variables (E : Env) (source_domain : option Z) (transaction_hash : string)
          (timeout poll_interval : Z) (api_base_url : string)
          (on_phase_change : option phase_callback).

Hypothesis callback_ok : well_behaved on_phase_change.

Let loop := fetch_attestation_loop E source_domain transaction_hash timeout poll_interval
                                   api_base_url on_phase_change.
Let the_url := url source_domain transaction_hash api_base_url.

Lemma loop_timeout fuel start attempt w :
  timeout <= now w - start ->
  loop (S fuel) start attempt w
  = (Raise (TimeoutError (timeout_message E source_domain transaction_hash timeout)), w).
Proof.
  intros Hlate. subst loop. cbn [fetch_attestation_loop].
  unfold_monad. unfold time_time.
  assert (H : Z.geb (now w - start) timeout = true) by (apply Z.geb_le; lia).
  now rewrite H.
Qed.

Lemma loop_pending fuel start attempt w statuses :
  now w - start < timeout ->
  0 <= poll_interval ->
  pending_reply (reply (iris E (http_calls w))) statuses ->
  exists t,
    loop (S fuel) start attempt w
    = loop fuel start (attempt + 1)
           (mkWorld (now w + Z.of_N (latency (iris E (http_calls w))) + poll_interval)
                    (S (http_calls w)) (txs_sent w) t
                    (trace w ++ EvHttpGet the_url
                       :: flat_map (noted on_phase_change (attempt + 1)) statuses
                       ++ [EvSleep poll_interval])).
Proof.
  intros Hearly Hp Hreply. subst loop the_url. cbn [fetch_attestation_loop].
  assert (H : Z.geb (now w - start) timeout = false).
  { destruct (Z.geb (now w - start) timeout) eqn:Hge; [apply Z.geb_le in Hge; lia | reflexivity]. }
  assert (Hs : Z.ltb poll_interval 0 = false) by (apply Z.ltb_ge; lia).
  unfold mbind at 1, M_bind at 1, time_time. rewrite H.
  unfold mbind at 1, M_bind at 1, requests_get.
  inversion Hreply as [r Hcode Hr | r d Hcode Herr Hbody Hmsg Hr | r d m rest Hcode Herr Hbody Hmsg Hatt Hr];
    subst statuses; simpl.
  - rewrite Hcode. simpl.
    set (w1 := mkWorld _ _ _ _ _).
    destruct (_notify_runs on_phase_change (attempt + 1) (JStr "waiting_for_indexing") w1 callback_ok) as [t Ht].
    exists t. unfold mbind at 1, M_bind at 1. rewrite Ht.
    unfold mbind at 1, M_bind at 1, time_sleep. simpl. rewrite Hs. simpl.
    rewrite <- !app_assoc. reflexivity.
  - apply Z.eqb_neq in Hcode. rewrite Hcode.
    unfold raise_for_status, response_json. rewrite Herr, Hbody.
    exists (tracker w). unfold_monad. simpl.
    unfold dict_get. unfold_monad. rewrite Hmsg. unfold time_sleep. simpl. rewrite Hs.
    simpl. rewrite <- !app_assoc. reflexivity.
  - apply Z.eqb_neq in Hcode. rewrite Hcode.
    unfold raise_for_status, response_json. rewrite Herr, Hbody.
    set (w1 := mkWorld _ _ _ _ _).
    destruct (_notify_runs on_phase_change (attempt + 1) (message_status m) w1 callback_ok) as [t Ht].
    exists t. unfold_monad. simpl.
    unfold dict_get at 1. unfold_monad. rewrite Hmsg. simpl.
    unfold attested_message, message_status, message_attestation in *.
    rewrite Hatt. unfold mbind, M_bind in Ht. fold w1. rewrite Ht.
    unfold time_sleep. simpl. rewrite Hs. simpl.
    rewrite <- !app_assoc. reflexivity.
Qed.


Lemma loop_ready fuel start attempt w message attestation :
  now w - start < timeout ->
  ready_reply (reply (iris E (http_calls w))) message attestation ->
  exists t,
    loop (S fuel) start attempt w
    = (Return (mkCCTPAttestation message attestation (JStr "complete")),
       mkWorld (now w + Z.of_N (latency (iris E (http_calls w))))
               (S (http_calls w)) (txs_sent w) t
               (trace w ++ EvHttpGet the_url
                  :: noted on_phase_change (attempt + 1) (JStr "complete"))).
Proof.
  intros Hearly Hreply. subst loop the_url. cbn [fetch_attestation_loop].
  assert (H : Z.geb (now w - start) timeout = false).
  { destruct (Z.geb (now w - start) timeout) eqn:Hge; [apply Z.geb_le in Hge; lia | reflexivity]. }
  unfold mbind at 1, M_bind at 1, time_time. rewrite H.
  unfold mbind at 1, M_bind at 1, requests_get.
  inversion Hreply as [r d m rest mh ah mb ab Hcode Herr Hbody Hmsg Hst Hatt Hne Hnp Hmh Hmb Hab Hr];
    subst; simpl.
  apply Z.eqb_neq in Hcode. rewrite Hcode.
  unfold raise_for_status, response_json. rewrite Herr, Hbody.
  set (w1 := mkWorld _ _ _ _ _).
  destruct (_notify_runs on_phase_change (attempt + 1) (JStr "complete") w1 callback_ok) as [t Ht].
  exists t. unfold_monad. simpl.
  unfold dict_get at 1. unfold_monad. rewrite Hmsg. simpl.
  rewrite Hst, Hatt. simpl.
  assert (Hne' : negb (String.eqb ah "") = true).
  { apply negb_true_iff, String.eqb_neq. exact Hne. }
  assert (Hnp' : negb (String.eqb ah "PENDING") = true).
  { apply negb_true_iff, String.eqb_neq. exact Hnp. }
  rewrite Hne', Hnp'. simpl.
  unfold mbind, M_bind in Ht. fold w1. rewrite Ht.
  rewrite Hmh. simpl. rewrite Hmb. simpl. rewrite Hab. simpl.
  rewrite <- !app_assoc. reflexivity.
Qed.

Lemma loop_http_error fuel start attempt w r :
  now w - start < timeout ->
  reply (iris E (http_calls w)) = Replied r ->
  status_code r <> HTTP_NOT_FOUND ->
  is_error_status (status_code r) = true ->
  loop (S fuel) start attempt w
  = (Raise (HTTPError (status_code r)),
     mkWorld (now w + Z.of_N (latency (iris E (http_calls w))))
             (S (http_calls w)) (txs_sent w) (tracker w)
             (trace w ++ [EvHttpGet the_url])).
Proof.
  intros Hearly Hreply Hcode Herr. subst loop the_url. cbn [fetch_attestation_loop].
  assert (H : Z.geb (now w - start) timeout = false).
  { destruct (Z.geb (now w - start) timeout) eqn:Hge; [apply Z.geb_le in Hge; lia | reflexivity]. }
  unfold mbind at 1, M_bind at 1, time_time. rewrite H.
  unfold mbind at 1, M_bind at 1, requests_get. rewrite Hreply.
  apply Z.eqb_neq in Hcode. rewrite Hcode.
  unfold raise_for_status. rewrite Herr. reflexivity.
Qed.

Lemma waited_nonneg first rounds :
  0 <= poll_interval -> 0 <= waited E poll_interval first rounds.
Proof.
  intros Hp. revert first. induction rounds as [| n IH]; intros first; simpl; [lia |].
  specialize (IH (S first)). lia.
Qed.

Lemma loop_not_found_rounds rounds :
  forall fuel start attempt w,
    0 <= poll_interval ->
    (forall i, (i < rounds)%nat ->
       exists r, reply (iris E (http_calls w + i)) = Replied r
                 /\ status_code r = HTTP_NOT_FOUND) ->
    now w - start + waited E poll_interval (http_calls w) rounds < timeout ->
    exists t,
      loop (rounds + fuel) start attempt w
      = loop fuel start (attempt + Z.of_nat rounds)
             (mkWorld (now w + waited E poll_interval (http_calls w) rounds)
                      (http_calls w + rounds) (txs_sent w) t
                      (trace w ++ not_found_rounds the_url on_phase_change poll_interval
                                                   attempt rounds)).
Proof.
  induction rounds as [| n IH]; intros fuel start attempt w Hp Hreplies Hearly.
  - exists (tracker w). simpl. rewrite !Z.add_0_r, Nat.add_0_r, app_nil_r.
    now destruct w.
  - simpl in Hearly.
    pose proof (waited_nonneg (S (http_calls w)) n Hp) as Hn.
    destruct (Hreplies 0%nat ltac:(lia)) as (r & Hr & Hcode).
    rewrite Nat.add_0_r in Hr.
    assert (Hpending : pending_reply (reply (iris E (http_calls w)))
                                     [JStr "waiting_for_indexing"]).
    { rewrite Hr. now constructor. }
    destruct (loop_pending (n + fuel) start attempt w _ ltac:(lia) Hp Hpending) as [t1 Hstep].
    change (S n + fuel)%nat with (S (n + fuel)). rewrite Hstep.
    set (w1 := mkWorld _ _ _ _ _).
    destruct (IH fuel start (attempt + 1) w1 Hp) as [t Hrest].
    + intros i Hi. destruct (Hreplies (S i) ltac:(lia)) as (r' & Hr' & Hcode').
      exists r'. split; [| exact Hcode'].
      subst w1. simpl. now replace (S (http_calls w + i)) with (http_calls w + S i)%nat by lia.
    + subst w1. simpl. lia.
    + exists t. rewrite Hrest. subst w1. simpl.
      f_equal; [lia |].
      f_equal; [lia | lia |].
      rewrite app_nil_r, <- app_assoc. simpl. rewrite <- app_assoc. reflexivity.
Qed.

Lemma waited_snoc first rounds :
  waited E poll_interval first (S rounds)
  = waited E poll_interval first rounds
    + Z.of_N (latency (iris E (first + rounds))) + poll_interval.
Proof.
  revert first. induction rounds as [| n IH]; intros first.
  - simpl. rewrite Nat.add_0_r. lia.
  - change (waited E poll_interval first (S (S n)))
      with (Z.of_N (latency (iris E first)) + poll_interval
            + waited E poll_interval (S first) (S n)).
    rewrite IH. cbn [waited]. rewrite Nat.add_succ_comm. lia.
Qed.

(** [rounds] answers that keep the transfer waiting, all within the
    timeout: the loop stands at the next exchange. *)
Lemma loop_pending_rounds rounds :
  forall fuel start attempt w,
    0 <= poll_interval ->
    (forall i, (i < rounds)%nat ->
       exists statuses, pending_reply (reply (iris E (http_calls w + i))) statuses) ->
    now w - start + waited E poll_interval (http_calls w) rounds < timeout ->
    exists t events,
      loop (rounds + fuel) start attempt w
      = loop fuel start (attempt + Z.of_nat rounds)
             (mkWorld (now w + waited E poll_interval (http_calls w) rounds)
                      (http_calls w + rounds) (txs_sent w) t (trace w ++ events)).
Proof.
  induction rounds as [| n IH]; intros fuel start attempt w Hp Hreplies Hearly.
  - exists (tracker w), []. simpl. rewrite !Z.add_0_r, Nat.add_0_r, app_nil_r.
    now destruct w.
  - simpl in Hearly.
    pose proof (waited_nonneg (S (http_calls w)) n Hp) as Hn.
    destruct (Hreplies 0%nat ltac:(lia)) as (statuses & Hpending).
    rewrite Nat.add_0_r in Hpending.
    destruct (loop_pending (n + fuel) start attempt w _ ltac:(lia) Hp Hpending) as [t1 Hstep].
    change (S n + fuel)%nat with (S (n + fuel)). rewrite Hstep.
    set (w1 := mkWorld _ _ _ _ _).
    destruct (IH fuel start (attempt + 1) w1 Hp) as (t & events & Hrest).
    + intros i Hi. destruct (Hreplies (S i) ltac:(lia)) as (statuses' & Hpending').
      exists statuses'. subst w1. simpl.
      now replace (S (http_calls w + i)) with (http_calls w + S i)%nat by lia.
    + subst w1. simpl. lia.
    + eexists t, _. rewrite Hrest. subst w1. simpl.
      f_equal; [lia |].
      f_equal; [lia | lia |].
      rewrite <- app_assoc. reflexivity.
Qed.

(** A transport failure ends the loop with [ConnectionError]. *)
Lemma loop_transport_failure fuel start attempt w :
  now w - start < timeout ->
  reply (iris E (http_calls w)) = TransportFailure ->
  loop (S fuel) start attempt w
  = (Raise ConnectionError,
     mkWorld (now w + Z.of_N (latency (iris E (http_calls w))))
             (S (http_calls w)) (txs_sent w) (tracker w)
             (trace w ++ [EvHttpGet the_url])).
Proof.
  intros Hearly Hreply. subst loop the_url. cbn [fetch_attestation_loop].
  assert (H : Z.geb (now w - start) timeout = false).
  { destruct (Z.geb (now w - start) timeout) eqn:Hge; [apply Z.geb_le in Hge; lia | reflexivity]. }
  unfold mbind at 1, M_bind at 1, time_time. rewrite H.
  unfold mbind at 1, M_bind at 1, requests_get. now rewrite Hreply.
Qed.

(** A body that is no JSON document ends the loop with
    [JSONDecodeError]. *)
Lemma loop_not_json fuel start attempt w r :
  now w - start < timeout ->
  reply (iris E (http_calls w)) = Replied r ->
  status_code r <> HTTP_NOT_FOUND ->
  is_error_status (status_code r) = false ->
  body r = None ->
  loop (S fuel) start attempt w
  = (Raise JSONDecodeError,
     mkWorld (now w + Z.of_N (latency (iris E (http_calls w))))
             (S (http_calls w)) (txs_sent w) (tracker w)
             (trace w ++ [EvHttpGet the_url])).
Proof.
  intros Hearly Hreply Hcode Herr Hbody. subst loop the_url. cbn [fetch_attestation_loop].
  assert (H : Z.geb (now w - start) timeout = false).
  { destruct (Z.geb (now w - start) timeout) eqn:Hge; [apply Z.geb_le in Hge; lia | reflexivity]. }
  unfold mbind at 1, M_bind at 1, time_time. rewrite H.
  unfold mbind at 1, M_bind at 1, requests_get. rewrite Hreply.
  apply Z.eqb_neq in Hcode. rewrite Hcode.
  unfold raise_for_status. rewrite Herr.
  unfold mbind at 1, M_bind at 1, ret at 1.
  unfold response_json. now rewrite Hbody.
Qed.

(** Against answers that keep the transfer waiting the loop gives up
    at the first round boundary at which the timeout has elapsed.  When
    [rounds] rounds take the time that is left, that boundary comes
    after [done] of them; the boundary before it, if there is one, was
    still within the timeout. *)
Lemma loop_gives_up rounds :
  0 <= poll_interval ->
  forall fuel start attempt w,
    (forall i, (i < rounds)%nat ->
       exists statuses, pending_reply (reply (iris E (http_calls w + i))) statuses) ->
    timeout - (now w - start) <= waited E poll_interval (http_calls w) rounds ->
    (rounds < fuel)%nat ->
    exists w' done,
      loop fuel start attempt w
      = (Raise (TimeoutError (timeout_message E source_domain transaction_hash timeout)), w')
      /\ (done <= rounds)%nat
      /\ http_calls w' = (http_calls w + done)%nat
      /\ now w' = now w + waited E poll_interval (http_calls w) done
      /\ timeout <= now w' - start
      /\ (done = 0%nat
          \/ exists last,
               done = S last
               /\ now w + waited E poll_interval (http_calls w) last - start < timeout).
Proof.
  intros Hp.
  induction rounds as [| n IH]; intros fuel start attempt w Hpending Hleft Hfuel;
    (destruct fuel as [| fuel]; [lia |]).
  - exists w, 0%nat. simpl in Hleft. rewrite loop_timeout by lia.
    simpl. rewrite Nat.add_0_r, Z.add_0_r.
    split; [reflexivity |]. split; [lia |]. split; [reflexivity |]. split; [reflexivity |].
    split; [lia | now left].
  - destruct (Z_lt_le_dec (now w - start) timeout) as [Hearly | Hlate].
    + destruct (Hpending 0%nat ltac:(lia)) as [statuses Hst]. rewrite Nat.add_0_r in Hst.
      destruct (loop_pending fuel start attempt w statuses Hearly Hp Hst) as [t Hstep].
      rewrite Hstep. set (w1 := mkWorld _ _ _ _ _).
      destruct (IH fuel start (attempt + 1) w1)
        as (w' & done & Hrun & Hdone & Hcalls & Hnow & Hlate & Hlast).
      * intros i Hi. destruct (Hpending (S i) ltac:(lia)) as [statuses' Hst'].
        exists statuses'. subst w1. simpl.
        now replace (S (http_calls w + i)) with (http_calls w + S i)%nat by lia.
      * subst w1. simpl. simpl in Hleft. lia.
      * lia.
      * exists w', (S done). split; [exact Hrun |]. split; [lia |].
        subst w1. simpl in Hcalls, Hnow, Hlast.
        split; [lia |]. split; [simpl; lia |]. split; [exact Hlate |].
        right. destruct Hlast as [-> | (last & -> & Hlast)].
        -- exists 0%nat. split; [reflexivity |]. simpl. lia.
        -- exists (S last). split; [reflexivity |]. simpl. lia.
    + exists w, 0%nat. rewrite loop_timeout by lia.
      simpl. rewrite Nat.add_0_r, Z.add_0_r.
      split; [reflexivity |]. split; [lia |]. split; [reflexivity |]. split; [reflexivity |].
      split; [lia | now left].
Qed.

End Rounds.

(** ** Retrying and giving up *)

(** [fetch_attestation] up to the loop: the hash is normalised, the clock
    is read, the callback is told [waiting_for_indexing] with attempt 0. *)
Lemma fetch_attestation_enters_loop E fuel source_domain transaction_hash timeout poll_interval
    api_base_url on_phase_change w :
  well_behaved on_phase_change ->
  exists t,
    fetch_attestation E fuel source_domain transaction_hash timeout poll_interval api_base_url
                      on_phase_change w
    = fetch_attestation_loop E source_domain (with_0x transaction_hash) timeout poll_interval
        api_base_url on_phase_change fuel (now w) 0
        (mkWorld (now w) (http_calls w) (txs_sent w) t
                 (trace w ++ noted on_phase_change 0 (JStr "waiting_for_indexing"))).
Proof.
  intros Hcb. unfold fetch_attestation.
  destruct (_notify_runs on_phase_change 0 (JStr "waiting_for_indexing") w Hcb) as [t Ht].
  exists t. unfold mbind at 1, M_bind at 1, time_time.
  unfold mbind at 1, M_bind at 1. now rewrite Ht.
Qed.

Lemma is_error_status_true code : 400 <= code < 600 -> is_error_status code = true.
Proof.
  intros H. unfold is_error_status. apply andb_true_iff.
  split; [apply Z.leb_le | apply Z.ltb_lt]; lia.
Qed.

(** After [rounds] answers 404 within the timeout the loop stands at the
    next exchange; what that exchange holds decides. *)
Lemma fetch_attestation_after_not_found E rounds fuel source_domain transaction_hash
    timeout poll_interval api_base_url on_phase_change w :
  well_behaved on_phase_change ->
  0 <= poll_interval ->
  (forall i, (i < rounds)%nat ->
     exists r, reply (iris E (http_calls w + i)) = Replied r
               /\ status_code r = HTTP_NOT_FOUND) ->
  waited E poll_interval (http_calls w) rounds < timeout ->
  exists t,
    fetch_attestation E (rounds + fuel) source_domain transaction_hash timeout poll_interval
                      api_base_url on_phase_change w
    = fetch_attestation_loop E source_domain (with_0x transaction_hash) timeout poll_interval
        api_base_url on_phase_change fuel (now w) (Z.of_nat rounds)
        (mkWorld (now w + waited E poll_interval (http_calls w) rounds)
                 (http_calls w + rounds) (txs_sent w) t
                 (trace w ++ noted on_phase_change 0 (JStr "waiting_for_indexing")
                    ++ not_found_rounds
                         (url source_domain (with_0x transaction_hash) api_base_url)
                         on_phase_change poll_interval 0 rounds)).
Proof.
  intros Hcb Hp Hreplies Hearly.
  destruct (fetch_attestation_enters_loop E (rounds + fuel) source_domain transaction_hash
              timeout poll_interval api_base_url on_phase_change w Hcb) as [t0 H0].
  rewrite H0. set (w0 := mkWorld _ _ _ _ _).
  destruct (loop_not_found_rounds E source_domain (with_0x transaction_hash) timeout
              poll_interval api_base_url on_phase_change Hcb rounds fuel (now w) 0 w0 Hp)
    as [t Ht].
  - exact Hreplies.
  - subst w0. simpl. lia.
  - exists t. rewrite Ht. subst w0. simpl. rewrite <- app_assoc. reflexivity.
Qed.

(** After [rounds] answers that keep the transfer waiting, all within
    the timeout, [fetch_attestation] stands in its loop at the next
    exchange. *)
Lemma fetch_attestation_after_pending E rounds fuel source_domain transaction_hash
    timeout poll_interval api_base_url on_phase_change w :
  well_behaved on_phase_change ->
  0 <= poll_interval ->
  (forall i, (i < rounds)%nat ->
     exists statuses, pending_reply (reply (iris E (http_calls w + i))) statuses) ->
  waited E poll_interval (http_calls w) rounds < timeout ->
  exists t events,
    fetch_attestation E (rounds + fuel) source_domain transaction_hash timeout poll_interval
                      api_base_url on_phase_change w
    = fetch_attestation_loop E source_domain (with_0x transaction_hash) timeout poll_interval
        api_base_url on_phase_change fuel (now w) (Z.of_nat rounds)
        (mkWorld (now w + waited E poll_interval (http_calls w) rounds)
                 (http_calls w + rounds) (txs_sent w) t (trace w ++ events)).
Proof.
  intros Hcb Hp Hreplies Hearly.
  destruct (fetch_attestation_enters_loop E (rounds + fuel) source_domain transaction_hash
              timeout poll_interval api_base_url on_phase_change w Hcb) as [t0 H0].
  rewrite H0. set (w0 := mkWorld _ _ _ _ _).
  destruct (loop_pending_rounds E source_domain (with_0x transaction_hash) timeout
              poll_interval api_base_url on_phase_change Hcb rounds fuel (now w) 0 w0 Hp)
    as (t & events & Ht).
  - exact Hreplies.
  - subst w0. simpl. lia.
  - eexists t, _. rewrite Ht. subst w0. simpl. rewrite <- app_assoc. reflexivity.
Qed.

(** [fetch_attestation] gives up at the first round boundary at which
    the timeout has elapsed, when the answers up to there keep the
    transfer waiting. *)
Lemma fetch_attestation_gives_up E rounds fuel source_domain transaction_hash
    timeout poll_interval api_base_url on_phase_change w :
  well_behaved on_phase_change ->
  0 <= poll_interval ->
  (forall i, (i < rounds)%nat ->
     exists statuses, pending_reply (reply (iris E (http_calls w + i))) statuses) ->
  timeout <= waited E poll_interval (http_calls w) rounds ->
  (rounds < fuel)%nat ->
  exists w' done,
    fetch_attestation E fuel source_domain transaction_hash timeout poll_interval
                      api_base_url on_phase_change w
    = (Raise (TimeoutError
                (timeout_message E source_domain (with_0x transaction_hash) timeout)), w')
    /\ (done <= rounds)%nat
    /\ http_calls w' = (http_calls w + done)%nat
    /\ now w' = now w + waited E poll_interval (http_calls w) done
    /\ timeout <= now w' - now w
    /\ (done = 0%nat
        \/ exists last,
             done = S last /\ waited E poll_interval (http_calls w) last < timeout).
Proof.
  intros Hcb Hp Hreplies Hlate Hfuel.
  destruct (fetch_attestation_enters_loop E fuel source_domain transaction_hash timeout
              poll_interval api_base_url on_phase_change w Hcb) as [t Ht].
  rewrite Ht. set (w0 := mkWorld _ _ _ _ _).
  destruct (loop_gives_up E source_domain (with_0x transaction_hash) timeout poll_interval
              api_base_url on_phase_change Hcb rounds Hp fuel (now w) 0 w0)
    as (w' & done & Hrun & Hdone & Hcalls & Hnow & Hnot_early & Hlast).
  - exact Hreplies.
  - subst w0. simpl. lia.
  - exact Hfuel.
  - exists w', done. subst w0. simpl in *.
    split; [exact Hrun |]. split; [exact Hdone |]. split; [exact Hcalls |].
    split; [exact Hnow |]. split; [exact Hnot_early |].
    destruct Hlast as [-> | (last & -> & Hlast)]; [now left | right].
    exists last. split; [reflexivity | lia].
Qed.

(** C3, as the code has it: answers 404 are retried without an
    exception as long as the timeout allows.  Let the first [rounds]
    answers be 404 and the poll interval not negative.  When the polls
    these answers cost end before the timeout, an answer that then
    carries the attestation makes the call return it, decoded, after
    [rounds + 1] requests; an answer that then carries an error status
    other than 404 makes the call raise [HTTPError] at once, after
    [rounds + 1] requests and no more.  When they do not end before the
    timeout, the call raises [TimeoutError] without making a request
    beyond those [rounds]. *)
Theorem not_found_is_retried_within_timeout
    (E : Env) (rounds fuel : nat) (source_domain : Z) (transaction_hash : string)
    (timeout poll_interval : Z) (api_base_url : string)
    (on_phase_change : option phase_callback) (w : World) :
  well_behaved on_phase_change ->
  0 <= poll_interval ->
  (forall i, (i < rounds)%nat ->
     exists r, reply (iris E (http_calls w + i)) = Replied r
               /\ status_code r = HTTP_NOT_FOUND) ->
  (rounds < fuel)%nat ->
  let run := fetch_attestation E fuel (Some source_domain) transaction_hash timeout poll_interval
                               api_base_url on_phase_change w in
  (waited E poll_interval (http_calls w) rounds < timeout ->
   (forall message attestation,
       ready_reply (reply (iris E (http_calls w + rounds))) message attestation ->
       fst run = Return (mkCCTPAttestation message attestation (JStr "complete"))
       /\ http_calls (snd run) = (http_calls w + rounds + 1)%nat)
   /\ (forall r,
         reply (iris E (http_calls w + rounds)) = Replied r ->
         status_code r <> HTTP_NOT_FOUND ->
         400 <= status_code r < 600 ->
         fst run = Raise (HTTPError (status_code r))
         /\ http_calls (snd run) = (http_calls w + rounds + 1)%nat))
  /\ (timeout <= waited E poll_interval (http_calls w) rounds ->
      fst run = Raise (TimeoutError
                         (timeout_message E (Some source_domain) (with_0x transaction_hash)
                                          timeout))
      /\ (http_calls (snd run) <= http_calls w + rounds)%nat).
Proof.
  intros Hcb Hp Hreplies Hfuel run. split.
  - intros Hearly.
    destruct fuel as [| fuel]; [lia |].
    assert (Hsplit : S fuel = (rounds + S (fuel - rounds))%nat) by lia.
    subst run. rewrite Hsplit.
    destruct (fetch_attestation_after_not_found E rounds (S (fuel - rounds)) (Some source_domain)
                transaction_hash timeout poll_interval api_base_url on_phase_change w
                Hcb Hp Hreplies Hearly) as [t Ht].
    rewrite Ht. set (w1 := mkWorld _ _ _ _ _).
    assert (Hnow : now w1 - now w < timeout) by (subst w1; simpl; lia).
    split.
    + intros message attestation Hready.
      destruct (loop_ready E (Some source_domain) (with_0x transaction_hash) timeout poll_interval
                  api_base_url on_phase_change Hcb (fuel - rounds) (now w) (Z.of_nat rounds)
                  w1 message attestation Hnow Hready) as [t' Hrun].
      rewrite Hrun. subst w1. simpl. split; [reflexivity | lia].
    + intros r Hr Hcode Herr.
      rewrite (loop_http_error E (Some source_domain) (with_0x transaction_hash) timeout
                 poll_interval api_base_url on_phase_change (fuel - rounds) (now w)
                 (Z.of_nat rounds) w1 r Hnow Hr Hcode (is_error_status_true _ Herr)).
      subst w1. simpl. split; [reflexivity | lia].
  - intros Hlate. subst run.
    destruct (fetch_attestation_gives_up E rounds fuel (Some source_domain) transaction_hash
                timeout poll_interval api_base_url on_phase_change w Hcb Hp)
      as (w' & done & Hrun & Hdone & Hcalls & _); auto.
    { intros i Hi. destruct (Hreplies i Hi) as (r & Hr & Hcode).
      exists [JStr "waiting_for_indexing"]. rewrite Hr. now constructor. }
    rewrite Hrun. simpl. split; [reflexivity | lia].
Qed.

Lemma scenario_completed_is_ready r :
  status_code r = 200 ->
  body r = Some (JDict Scenario.complete_body) ->
  ready_reply (Replied r) [Byte.xbe; Byte.xef] [Byte.xde; Byte.xad].
Proof.
  intros Hcode Hbody.
  apply (ready_first_message r Scenario.complete_body Scenario.complete_message []
                             "0xbeef" "0xdead");
    try reflexivity; try discriminate; try assumption.
  - rewrite Hcode. discriminate.
  - rewrite Hcode. reflexivity.
Qed.

(** One 404, then the attestation.  With the default timeout of 300 s
    the second poll fetches it; with a timeout of 5 s the interval of
    5 s uses it up and the second poll is never made. *)
Lemma not_found_is_retried_within_timeout_witness :
  fst (fetch_attestation
         (Scenario.env Scenario.indexed_after_one Scenario.ledger)
         5 (Some 3) "0xabc" (seconds 300) (seconds 5) "https://iris-api.circle.com"
         (Some Scenario.listener) Scenario.fresh)
  = Return (mkCCTPAttestation [Byte.xbe; Byte.xef] [Byte.xde; Byte.xad] (JStr "complete"))
  /\ (let run := fetch_attestation
                   (Scenario.env Scenario.indexed_after_one Scenario.ledger)
                   5 (Some 3) "0xabc" (seconds 5) (seconds 5) "https://iris-api.circle.com"
                   None Scenario.fresh in
      fst run = Raise (TimeoutError
                         "CCTP attestation not ready after 5.0s for tx 0xabc on Arbitrum")
      /\ (http_calls (snd run) <= 1)%nat).
Proof.
  assert (Hfirst : forall i, (i < 1)%nat ->
            exists r,
              reply (iris (Scenario.env Scenario.indexed_after_one Scenario.ledger)
                          (http_calls Scenario.fresh + i)) = Replied r
              /\ status_code r = HTTP_NOT_FOUND).
  { intros i Hi. exists Scenario.not_found.
    assert (i = 0%nat) as -> by lia. split; reflexivity. }
  split.
  - refine (proj1 (proj1 (proj1 (not_found_is_retried_within_timeout
                                   (Scenario.env Scenario.indexed_after_one Scenario.ledger)
                                   1 5 3 "0xabc" (seconds 300) (seconds 5)
                                   "https://iris-api.circle.com" (Some Scenario.listener)
                                   Scenario.fresh _ _ Hfirst _) _)
                           [Byte.xbe; Byte.xef] [Byte.xde; Byte.xad] _)).
    + intros status attempt w. exists (tracker w). now destruct w.
    + unfold seconds. lia.
    + lia.
    + vm_compute. reflexivity.
    + apply scenario_completed_is_ready; reflexivity.
  - refine (proj2 (not_found_is_retried_within_timeout
                     (Scenario.env Scenario.indexed_after_one Scenario.ledger)
                     1 5 3 "0xabc" (seconds 5) (seconds 5)
                     "https://iris-api.circle.com" None Scenario.fresh I _ Hfirst _) _).
    + unfold seconds. lia.
    + lia.
    + vm_compute. discriminate.
Defined.

(** C3 as stated fails: one 404 and then the complete answer, but the
    poll interval uses up the timeout before the second poll. *)
Lemma not_found_then_complete_can_time_out :
  fst (fetch_attestation
         (Scenario.env Scenario.indexed_after_one Scenario.ledger)
         10 (Some 3) "0xabc" (seconds 5) (seconds 5) "https://iris-api.circle.com"
         None Scenario.fresh)
  = Raise (TimeoutError "CCTP attestation not ready after 5.0s for tx 0xabc on Arbitrum").
Proof. vm_compute. reflexivity. Qed.

(** ** The worked scenario *)

(** C4: source domain 3, a service that answers 404 to the first query
    and the complete message (attestation [0xdead], message [0xbeef]) to
    the second, the second poll starting within the timeout.
    [fetch_attestation] returns the decoded pair with status
    ["complete"]; its trace holds exactly two requests, one sleep between
    them and, with a callback, the reports of attempts 0, 1 and 2. *)
Theorem concrete_scenario
    (E : Env) (fuel : nat) (transaction_hash : string) (timeout poll_interval : Z)
    (api_base_url : string) (on_phase_change : option phase_callback) (w : World) :
  let first := iris E (http_calls w) in
  let second := iris E (S (http_calls w)) in
  let the_url := messages_url api_base_url 3 (with_0x transaction_hash) in
  well_behaved on_phase_change ->
  0 <= poll_interval ->
  (exists r, reply first = Replied r /\ status_code r = 404) ->
  (exists r, reply second = Replied r /\ status_code r = 200
             /\ body r = Some (JDict Scenario.complete_body)) ->
  Z.of_N (latency first) + poll_interval < timeout ->
  (2 <= fuel)%nat ->
  exists t,
    fetch_attestation E fuel (Some 3) transaction_hash timeout poll_interval api_base_url
                      on_phase_change w
    = (Return (mkCCTPAttestation [Byte.xbe; Byte.xef] [Byte.xde; Byte.xad] (JStr "complete")),
       mkWorld (now w + Z.of_N (latency first) + poll_interval + Z.of_N (latency second))
               (http_calls w + 2) (txs_sent w) t
               (trace w
                  ++ noted on_phase_change 0 (JStr "waiting_for_indexing")
                  ++ EvHttpGet the_url
                  :: noted on_phase_change 1 (JStr "waiting_for_indexing")
                  ++ EvSleep poll_interval
                  :: EvHttpGet the_url
                  :: noted on_phase_change 2 (JStr "complete"))).
Proof.
  intros first second the_url Hcb Hp (r1 & Hr1 & Hc1) (r2 & Hr2 & Hc2 & Hb2) Hearly Hfuel.
  destruct fuel as [| [| fuel]]; try lia.
  destruct (fetch_attestation_after_not_found E 1 (S fuel) (Some 3) transaction_hash timeout
              poll_interval api_base_url on_phase_change w Hcb Hp) as [t1 H1].
  - intros i Hi. assert (i = 0%nat) as -> by lia. rewrite Nat.add_0_r. now exists r1.
  - simpl. fold first. lia.
  - change (S (S fuel)) with (1 + S fuel)%nat. rewrite H1.
    set (w1 := mkWorld _ _ _ _ _).
    assert (Hnow : now w1 - now w < timeout) by (subst w1; simpl; fold first; lia).
    assert (Hready : ready_reply (reply (iris E (http_calls w1)))
                                 [Byte.xbe; Byte.xef] [Byte.xde; Byte.xad]).
    { subst w1. simpl. replace (http_calls w + 1)%nat with (S (http_calls w)) by lia.
      fold second. rewrite Hr2. now apply scenario_completed_is_ready. }
    destruct (loop_ready E (Some 3) (with_0x transaction_hash) timeout poll_interval api_base_url
                on_phase_change Hcb fuel (now w) (Z.of_nat 1) w1 _ _ Hnow Hready) as [t Ht].
    exists t. rewrite Ht. subst w1. simpl.
    replace (http_calls w + 1)%nat with (S (http_calls w)) by lia. fold first second.
    f_equal. f_equal; [lia | lia |].
    change (0 + 1) with 1. change (Z.of_nat 1 + 1) with 2.
    unfold url. fold the_url.
    rewrite <- !app_assoc. simpl. rewrite <- !app_assoc. reflexivity.
Qed.

(** The scenario with the default timeout of 300 s and interval of 5 s
    against a mock service that answers at once. *)
Lemma concrete_scenario_witness :
  exists t,
    fetch_attestation (Scenario.env Scenario.indexed_after_one Scenario.ledger)
                      2 (Some 3) "0xabc" (seconds 300) (seconds 5) "https://iris-api.circle.com"
                      None Scenario.fresh
    = (Return (mkCCTPAttestation [Byte.xbe; Byte.xef] [Byte.xde; Byte.xad] (JStr "complete")),
       mkWorld 5000 2 0 t
               [EvHttpGet "https://iris-api.circle.com/v2/messages/3?transactionHash=0xabc";
                EvSleep 5000;
                EvHttpGet "https://iris-api.circle.com/v2/messages/3?transactionHash=0xabc"]).
Proof.
  apply (concrete_scenario (Scenario.env Scenario.indexed_after_one Scenario.ledger)
                           2 "0xabc" (seconds 300) (seconds 5)
                           "https://iris-api.circle.com" None Scenario.fresh).
  - exact I.
  - unfold seconds. lia.
  - exists Scenario.not_found. split; reflexivity.
  - exists Scenario.completed. repeat split; reflexivity.
  - vm_compute. reflexivity.
  - lia.
Defined.

(** ** Every round of the attestation loop *)

Lemma truthy_str_nonempty s : negb (String.eqb s "") = true -> s <> "".
Proof. intros H. apply negb_true_iff in H. now apply String.eqb_neq. Qed.

Section AnyRound.

Variables (E : Env) (source_domain : option Z) (transaction_hash : string)
          (timeout poll_interval : Z) (api_base_url : string)
          (on_phase_change : option phase_callback).

Hypothesis callback_ok : well_behaved on_phase_change.

Let loop := fetch_attestation_loop E source_domain transaction_hash timeout poll_interval
                                   api_base_url on_phase_change.
Let the_url := url source_domain transaction_hash api_base_url.

Ltac shape Hr :=
  constructor; simpl;
  [ reflexivity
  | reflexivity
  | lia
  | rewrite <- ?app_assoc; simpl; rewrite ?app_nil_r; reflexivity
  | eauto
  | let Hrep := fresh "Hrep" in
    intros Hrep; rewrite Hr in Hrep; inversion Hrep; subst; simplify_eq; eauto;
    try congruence ].

Ltac not_timeout := let m := fresh in let H := fresh in intros m H; discriminate H.

Ltac notify attempt status w1 t Ht :=
  destruct (_notify_runs on_phase_change attempt status w1 callback_ok) as [t Ht];
  unfold mbind at 1, M_bind at 1; rewrite Ht; clear Ht.

(** Sleeping after a round and going on, or failing on a negative
    interval. *)
Lemma sleep_then_next fuel start attempt w w1 report :
  round_shape E the_url on_phase_change poll_interval attempt w w1 report false ->
  round_outcome E the_url on_phase_change poll_interval attempt w
                (loop fuel start (attempt + 1))
                ((time_sleep poll_interval ≫= λ _, loop fuel start (attempt + 1)) w1).
Proof.
  intros [Hc Hx Hn Ht Hrep Hrepd].
  unfold mbind, M_bind, time_sleep.
  destruct (poll_interval <? 0) eqn:Hs.
  - eapply round_raises with (report := report); [| not_timeout].
    constructor; auto.
  - apply Z.ltb_ge in Hs.
    eapply round_continues with (report := report); [| exact Hs].
    constructor; simpl; auto.
    + lia.
    + rewrite Ht. rewrite app_nil_r. rewrite <- !app_assoc. reflexivity.
Qed.

Lemma loop_round fuel start attempt w :
  now w - start < timeout ->
  round_outcome E the_url on_phase_change poll_interval attempt w
                (loop fuel start (attempt + 1)) (loop (S fuel) start attempt w).
Proof.
  intros Hearly. unfold loop at 2. cbn [fetch_attestation_loop]. fold loop.
  assert (H : Z.geb (now w - start) timeout = false).
  { destruct (Z.geb (now w - start) timeout) eqn:Hge; [apply Z.geb_le in Hge; lia | reflexivity]. }
  unfold mbind at 1, M_bind at 1, time_time. rewrite H. clear H.
  unfold mbind at 1, M_bind at 1, requests_get.
  destruct (reply (iris E (http_calls w))) as [| r] eqn:Hr.
  { eapply round_raises with (report := []); [shape Hr | not_timeout]. }
  set (w0 := mkWorld _ _ _ _ _).
  assert (Hw0 : forall report,
             report = [] \/ (exists status, report = noted on_phase_change (attempt + 1) status) ->
             (reported_reply (Replied r) ->
              exists status, report = noted on_phase_change (attempt + 1) status) ->
             forall t,
               round_shape E the_url on_phase_change poll_interval attempt w
                 (mkWorld (now w0) (http_calls w0) (txs_sent w0) t (trace w0 ++ report))
                 report false).
  { intros report Hrep Hrepd t. subst w0. constructor; simpl; auto.
    - lia.
    - rewrite app_nil_r, <- app_assoc. reflexivity.
    - rewrite Hr. exact Hrepd. }
  assert (Hw0' : (reported_reply (Replied r) -> False) ->
                 round_shape E the_url on_phase_change poll_interval attempt w w0 [] false).
  { intros Hno. specialize (Hw0 [] (or_introl eq_refl) (fun H => False_ind _ (Hno H)) (tracker w)).
    subst w0. simpl in *. now rewrite app_nil_r in Hw0. }
  destruct (status_code r =? HTTP_NOT_FOUND) eqn:Hcode.
  { notify (attempt + 1) (JStr "waiting_for_indexing") w0 t Ht.
    eapply sleep_then_next. apply Hw0; eauto. }
  apply Z.eqb_neq in Hcode.
  unfold raise_for_status.
  destruct (is_error_status (status_code r)) eqn:Herr.
  { unfold mbind at 1, M_bind at 1. unfold raise.
    eapply round_raises; [apply Hw0' | not_timeout].
    intros Hrep. inversion Hrep; congruence. }
  unfold mbind at 1, M_bind at 1, ret at 1.
  unfold response_json.
  destruct (body r) as [data |] eqn:Hbody.
  2:{ unfold mbind at 1, M_bind at 1, raise.
      eapply round_raises; [apply Hw0' | not_timeout].
      intros Hrep. inversion Hrep; congruence. }
  unfold mbind at 1, M_bind at 1, ret at 1.
  destruct data as [| | | | | | d];
    try (unfold mbind at 1, M_bind at 1, dict_get at 1, raise;
         eapply round_raises; [apply Hw0' | not_timeout];
         intros Hrep; inversion Hrep; congruence).
  unfold mbind at 1, M_bind at 1, dict_get at 1, ret at 1.
  destruct (truthy (default (JList []) (d !! "messages"))) eqn:Htruthy.
  2:{ eapply sleep_then_next. apply Hw0'.
      intros Hrep. inversion Hrep as [| r' d' m' rest' He Hb Hm]; [congruence |].
      subst. rewrite Hbody in Hb. inversion Hb; subst. rewrite Hm in Htruthy. discriminate. }
  assert (Hraise : forall e,
             (forall message, e <> TimeoutError message) ->
             (forall m rest, d !! "messages" = Some (JList (JDict m :: rest)) -> False) ->
             round_outcome E the_url on_phase_change poll_interval attempt w
               (loop fuel start (attempt + 1)) (Raise e, w0)).
  { intros e He Hno. eapply round_raises; [apply Hw0' | exact He].
    intros Hrep. inversion Hrep as [| r' d' m' rest' He' Hb Hm]; [congruence |].
    subst. rewrite Hbody in Hb. inversion Hb; subst. eauto. }
  destruct (d !! "messages") as [messages |] eqn:Hmsg; simpl in Htruthy; [| discriminate].
  simpl default.
  destruct messages as [| b | n | fl | s | l | d']; simpl in Htruthy; try discriminate;
    unfold mbind at 1, M_bind at 1, subscript0 at 1.
  - apply Hraise; [not_timeout | intros; discriminate].
  - apply Hraise; [not_timeout | intros; discriminate].
  - apply Hraise; [not_timeout | intros; discriminate].
  - destruct s as [| c s]; [discriminate |].
    unfold ret at 1. unfold mbind at 1, M_bind at 1, dict_get at 1.
    apply Hraise; [not_timeout | intros; discriminate].
  - destruct l as [| msg rest]; [discriminate |].
    unfold ret at 1.
    destruct msg as [| | | | | | m];
      try (unfold mbind at 1, M_bind at 1, dict_get at 1;
           apply Hraise; [not_timeout | intros ? ? Heq; discriminate Heq]).
    unfold mbind at 1, M_bind at 1, dict_get at 1, ret at 1.
    unfold mbind at 1, M_bind at 1, dict_get at 1, ret at 1.
    fold (message_status m). fold (message_attestation m).
    destruct (eq_str (message_status m) "complete" && truthy (message_attestation m)
              && negb (eq_str (message_attestation m) "PENDING")) eqn:Hatt.
    + notify (attempt + 1) (JStr "complete") w0 t Ht.
      assert (Hshape : round_shape E the_url on_phase_change poll_interval attempt w
                         (mkWorld (now w0) (http_calls w0) (txs_sent w0) t
                            (trace w0 ++ noted on_phase_change (attempt + 1) (JStr "complete")))
                         (noted on_phase_change (attempt + 1) (JStr "complete")) false)
        by (apply Hw0; eauto).
      set (w1 := mkWorld _ _ _ t _) in *.
      apply andb_true_iff in Hatt as [Hatt Hnp]. apply andb_true_iff in Hatt as [Hst Htr].
      apply eq_str_true in Hst.
      unfold mbind at 1, M_bind at 1, dict_get at 1, ret at 1.
      destruct (default (JStr "") (m !! "message")) as [| | | | mh | |] eqn:Hmh;
        try (unfold mbind at 1, M_bind at 1, bytes_fromhex_replace_0x at 1, raise;
             eapply round_raises; [exact Hshape | not_timeout]).
      unfold mbind at 1, M_bind at 1, bytes_fromhex_replace_0x at 1.
      destruct (fromhex (replace_0x mh)) as [mb |] eqn:Hmb;
        [| eapply round_raises; [exact Hshape | not_timeout]].
      unfold ret at 1.
      destruct (message_attestation m) as [| | | | ah | |] eqn:Hah;
        try (unfold mbind at 1, M_bind at 1, bytes_fromhex_replace_0x at 1, raise;
             eapply round_raises; [exact Hshape | not_timeout]).
      unfold mbind at 1, M_bind at 1, bytes_fromhex_replace_0x at 1.
      destruct (fromhex (replace_0x ah)) as [ab |] eqn:Hab;
        [| eapply round_raises; [exact Hshape | not_timeout]].
      unfold ret. rewrite Hst.
      eapply round_returns; [exact Hshape | reflexivity |].
      simpl. rewrite Hr.
      unfold message_status, message_attestation in *.
      destruct (m !! "status") as [st |] eqn:Hmst; simpl in Hst; [| discriminate].
      destruct (m !! "attestation") as [at' |] eqn:Hmat; simpl in Hah; [| discriminate].
      subst st at'.
      eapply (ready_first_message r d m rest mh ah); eauto.
      * simpl in Htr. now apply truthy_str_nonempty.
      * simpl in Hnp. apply negb_true_iff in Hnp. now apply String.eqb_neq.
    + notify (attempt + 1) (message_status m) w0 t Ht.
      eapply sleep_then_next. apply Hw0; eauto.
  - unfold raise.
    apply Hraise; [not_timeout | intros; discriminate].
Qed.

End AnyRound.

(** ** The timeout *)

Section Timeout.

Variables (E : Env) (source_domain : option Z) (transaction_hash : string)
          (timeout poll_interval : Z) (api_base_url : string)
          (on_phase_change : option phase_callback).

Hypothesis callback_ok : well_behaved on_phase_change.

Let loop := fetch_attestation_loop E source_domain transaction_hash timeout poll_interval
                                   api_base_url on_phase_change.

(** A [TimeoutError] leaves the loop only at a round boundary at which
    the timeout has elapsed, whatever the service answers. *)
Lemma loop_timeout_not_early fuel :
  forall start attempt w message w',
    loop fuel start attempt w = (Raise (TimeoutError message), w') ->
    timeout <= now w' - start
    /\ message = timeout_message E source_domain transaction_hash timeout.
Proof.
  induction fuel as [| fuel IH]; intros start attempt w message w' Hrun.
  - discriminate Hrun.
  - destruct (Z_lt_le_dec (now w - start) timeout) as [Hearly | Hlate].
    + pose proof (loop_round E source_domain transaction_hash timeout poll_interval
                    api_base_url on_phase_change callback_ok fuel start attempt w Hearly)
        as Hround.
      fold loop in Hround. rewrite Hrun in Hround.
      inversion Hround as [w1 report Hshape Hp Heq | | w1 report e Hshape He Heq].
      * exact (IH _ _ _ _ _ Heq).
      * subst. now destruct (He message).
    + unfold loop in Hrun. rewrite loop_timeout in Hrun by exact Hlate.
      inversion Hrun; subst. split; [exact Hlate | reflexivity].
Qed.

End Timeout.

(** C2, as the code has it.  A [TimeoutError] is never raised before the
    timeout has elapsed, and it names the timeout, the transaction hash
    and the source domain.  Against a service that only ever answers
    404, no message or a first message that is not attested, and with a
    poll interval that is not negative, the call ends in that
    [TimeoutError] once the requests and sleeps of its rounds have taken
    the timeout (fuel for that many rounds is enough): at the first
    round boundary at which the timeout has elapsed, which lies less
    than the poll interval plus the longest request after it.  Where,
    within the timeout, an answer is neither of those nor an
    attestation, the call ends with the error of that answer and makes
    no further request: [ConnectionError] for a transport failure,
    [HTTPError] for an error status other than 404, [JSONDecodeError]
    for a body that is no JSON document. *)
Theorem timeout_is_respected
    (E : Env) (source_domain : Z) (transaction_hash : string) (timeout poll_interval : Z)
    (api_base_url : string) (on_phase_change : option phase_callback) (w : World)
    (latency_bound : Z) :
  well_behaved on_phase_change ->
  let message :=
    "CCTP attestation not ready after " +:+ str_of_float E timeout +:+ "s for tx "
      +:+ with_0x transaction_hash +:+ " on "
      +:+ default ("domain-" +:+ str_of_int source_domain) (CCTP_DOMAIN_NAMES E source_domain) in
  let call := fun fuel =>
    fetch_attestation E fuel (Some source_domain) transaction_hash timeout poll_interval
                      api_base_url on_phase_change w in
  (forall fuel m w',
      call fuel = (Raise (TimeoutError m), w') ->
      timeout <= now w' - now w /\ m = message)
  /\ (0 <= poll_interval ->
      (forall k, exists statuses, pending_reply (reply (iris E k)) statuses) ->
      (forall k, Z.of_N (latency (iris E k)) <= latency_bound) ->
      forall rounds fuel,
        timeout <= waited E poll_interval (http_calls w) rounds -> (rounds < fuel)%nat ->
        exists w',
          call fuel = (Raise (TimeoutError message), w')
          /\ timeout <= now w' - now w
          /\ (now w' = now w
              \/ now w' - now w < timeout + poll_interval + latency_bound))
  /\ (0 <= poll_interval ->
      forall rounds fuel,
        (forall i, (i < rounds)%nat ->
           exists statuses, pending_reply (reply (iris E (http_calls w + i))) statuses) ->
        waited E poll_interval (http_calls w) rounds < timeout ->
        (rounds < fuel)%nat ->
        let answer := reply (iris E (http_calls w + rounds)) in
        let ends_with := fun e =>
          fst (call fuel) = Raise e
          /\ http_calls (snd (call fuel)) = (http_calls w + rounds + 1)%nat in
        (answer = TransportFailure -> ends_with ConnectionError)
        /\ (forall r, answer = Replied r ->
                      status_code r <> HTTP_NOT_FOUND ->
                      400 <= status_code r < 600 ->
                      ends_with (HTTPError (status_code r)))
        /\ (forall r, answer = Replied r ->
                      status_code r <> HTTP_NOT_FOUND ->
                      is_error_status (status_code r) = false ->
                      body r = None ->
                      ends_with JSONDecodeError)).
Proof.
  intros Hcb message call. split; [| split].
  - intros fuel m w' Hrun. subst call. cbv beta in Hrun.
    destruct (fetch_attestation_enters_loop E fuel (Some source_domain) transaction_hash timeout
                poll_interval api_base_url on_phase_change w Hcb) as [t Ht].
    rewrite Ht in Hrun.
    apply (loop_timeout_not_early E (Some source_domain) (with_0x transaction_hash) timeout
             poll_interval api_base_url on_phase_change Hcb) in Hrun.
    exact Hrun.
  - intros Hp Hpending Hlat rounds fuel Hrounds Hfuel. subst call. cbv beta.
    destruct (fetch_attestation_gives_up E rounds fuel (Some source_domain) transaction_hash
                timeout poll_interval api_base_url on_phase_change w Hcb Hp)
      as (w' & done & Hrun & Hdone & Hcalls & Hnow & Hnot_early & Hlast); auto.
    exists w'. split; [exact Hrun |]. split; [exact Hnot_early |].
    destruct Hlast as [-> | (last & -> & Hlast)].
    + left. rewrite Hnow. simpl. lia.
    + right. rewrite Hnow, waited_snoc.
      pose proof (Hlat (http_calls w + last)%nat). lia.
  - intros Hp rounds fuel Hpending Hearly Hfuel answer ends_with.
    subst ends_with call answer. cbv beta.
    destruct fuel as [| fuel]; [lia |].
    assert (Hsplit : S fuel = (rounds + S (fuel - rounds))%nat) by lia.
    rewrite Hsplit.
    destruct (fetch_attestation_after_pending E rounds (S (fuel - rounds)) (Some source_domain)
                transaction_hash timeout poll_interval api_base_url on_phase_change w
                Hcb Hp Hpending Hearly) as (t & events & Ht).
    rewrite Ht. set (w1 := mkWorld _ _ _ _ _).
    assert (Hnow : now w1 - now w < timeout) by (subst w1; simpl; lia).
    split; [| split].
    + intros Hfail.
      rewrite (loop_transport_failure E (Some source_domain) (with_0x transaction_hash) timeout
                 poll_interval api_base_url on_phase_change (fuel - rounds) (now w)
                 (Z.of_nat rounds) w1 Hnow Hfail).
      subst w1. simpl. split; [reflexivity | lia].
    + intros r Hr Hcode Herr.
      rewrite (loop_http_error E (Some source_domain) (with_0x transaction_hash) timeout
                 poll_interval api_base_url on_phase_change (fuel - rounds) (now w)
                 (Z.of_nat rounds) w1 r Hnow Hr Hcode (is_error_status_true _ Herr)).
      subst w1. simpl. split; [reflexivity | lia].
    + intros r Hr Hcode Herr Hbody.
      rewrite (loop_not_json E (Some source_domain) (with_0x transaction_hash) timeout
                 poll_interval api_base_url on_phase_change (fuel - rounds) (now w)
                 (Z.of_nat rounds) w1 r Hnow Hr Hcode Herr Hbody).
      subst w1. simpl. split; [reflexivity | lia].
Qed.

(** A service that keeps answering [pending_confirmations].  Timeout
    30 s, interval 5 s, requests that take no time: the error comes
    after exactly 30 s.  Timeout 10 s, no pause between the polls at
    all, requests that take 2 s: the error comes after exactly 10 s. *)
Lemma timeout_is_respected_witness :
  (exists w',
      fetch_attestation (Scenario.env (Scenario.always Scenario.pending) Scenario.ledger)
                        7 (Some 3) "0xabc" (seconds 30) (seconds 5)
                        "https://iris-api.circle.com" None Scenario.fresh
      = (Raise (TimeoutError "CCTP attestation not ready after 30.0s for tx 0xabc on Arbitrum"),
         w')
      /\ seconds 30 <= now w' - 0
      /\ (now w' = 0 \/ now w' - 0 < seconds 30 + seconds 5 + 0))
  /\ (let busy := fun _ : nat => mkExchange 2000 (Replied Scenario.pending) in
      exists w',
        fetch_attestation (Scenario.env busy Scenario.ledger)
                          6 (Some 3) "0xabc" (seconds 10) 0
                          "https://iris-api.circle.com" None Scenario.fresh
        = (Raise (TimeoutError
                    "CCTP attestation not ready after 10.0s for tx 0xabc on Arbitrum"), w')
        /\ seconds 10 <= now w' - 0
        /\ (now w' = 0 \/ now w' - 0 < seconds 10 + 0 + 2000)).
Proof.
  split.
  - refine (proj1 (proj2 (timeout_is_respected
                            (Scenario.env (Scenario.always Scenario.pending) Scenario.ledger)
                            3 "0xabc" (seconds 30) (seconds 5) "https://iris-api.circle.com"
                            None Scenario.fresh 0 I)) _ _ _ 6%nat 7%nat _ _).
    + unfold seconds. lia.
    + intros k. eexists.
      apply (pending_first_message Scenario.pending Scenario.pending_body
               Scenario.pending_message []); try reflexivity. discriminate.
    + intros k. simpl. lia.
    + vm_compute. discriminate.
    + lia.
  - intros busy.
    refine (proj1 (proj2 (timeout_is_respected
                            (Scenario.env busy Scenario.ledger)
                            3 "0xabc" (seconds 10) 0 "https://iris-api.circle.com"
                            None Scenario.fresh 2000 I)) _ _ _ 5%nat 6%nat _ _).
    + lia.
    + intros k. eexists.
      apply (pending_first_message Scenario.pending Scenario.pending_body
               Scenario.pending_message []); try reflexivity. discriminate.
    + intros k. simpl. lia.
    + vm_compute. discriminate.
    + lia.
Defined.

(** C2 as stated fails three times over.  A service that never reports
    ["complete"] but answers 500 ends the call with [HTTPError], not with
    [TimeoutError]; against a pending service whose requests take 20 s,
    with a timeout of 10 s and an interval of 5 s, the error comes 25 s
    after the start, outside [[10 s, 15 s)]; and with a negative poll
    interval the first [time.sleep] ends the call with [ValueError]. *)
Lemma timeout_is_not_the_only_end :
  fst (fetch_attestation (Scenario.env (Scenario.always Scenario.server_error) Scenario.ledger)
                         100 (Some 3) "0xabc" (seconds 300) (seconds 5)
                         "https://iris-api.circle.com" None Scenario.fresh)
  = Raise (HTTPError 500)
  /\ (let slow := fun _ : nat => mkExchange 20000 (Replied Scenario.pending) in
      let run := fetch_attestation (Scenario.env slow Scenario.ledger)
                                   100 (Some 3) "0xabc" (seconds 10) (seconds 5)
                                   "https://iris-api.circle.com" None Scenario.fresh in
      fst run = Raise (TimeoutError
                         "CCTP attestation not ready after 10.0s for tx 0xabc on Arbitrum")
      /\ now (snd run) = seconds 25)
  /\ fst (fetch_attestation (Scenario.env (Scenario.always Scenario.pending) Scenario.ledger)
                            100 (Some 3) "0xabc" (seconds 300) (seconds (-1))
                            "https://iris-api.circle.com" None Scenario.fresh)
     = Raise ValueError.
Proof. vm_compute. repeat split; reflexivity. Qed.

(** ** What counts as complete *)

Lemma is_complete_iff st :
  is_complete st = true <-> ts_status st = JStr "complete" /\ ts_attestation st <> None.
Proof.
  unfold is_complete. rewrite andb_true_iff, bool_decide_eq_true. split.
  - intros [Hst Hatt]. split; [now apply eq_str_true | exact Hatt].
  - intros [Hst Hatt]. split; [now rewrite Hst | exact Hatt].
Qed.

Lemma loop_returns_ready E source_domain transaction_hash timeout poll_interval api_base_url
    on_phase_change fuel :
  well_behaved on_phase_change ->
  forall start attempt w att w',
    fetch_attestation_loop E source_domain transaction_hash timeout poll_interval api_base_url
                           on_phase_change fuel start attempt w = (Return att, w') ->
    att_status att = JStr "complete"
    /\ exists k, (http_calls w <= k < http_calls w')%nat
                 /\ ready_reply (reply (iris E k)) (att_message att) (att_attestation att).
Proof.
  intros Hcb. induction fuel as [| fuel IH]; intros start attempt w att w' Hrun.
  - discriminate Hrun.
  - destruct (Z_lt_le_dec (now w - start) timeout) as [Hearly | Hlate].
    + pose proof (loop_round E source_domain transaction_hash timeout poll_interval
                    api_base_url on_phase_change Hcb fuel start attempt w Hearly) as Hround.
      rewrite Hrun in Hround.
      inversion Hround as [w1 report Hshape Hp Heq | w1 report att' Hshape Hst Hready Heq |].
      * destruct (IH _ _ _ _ _ Heq) as (Hst & k & Hk & Hready).
        split; [exact Hst |]. exists k. split; [| exact Hready].
        rewrite (shape_calls _ _ _ _ _ _ _ _ _ Hshape) in Hk. lia.
      * subst. split; [exact Hst |]. exists (http_calls w). split; [| exact Hready].
        rewrite (shape_calls _ _ _ _ _ _ _ _ _ Hshape). lia.
    + rewrite loop_timeout in Hrun by exact Hlate. discriminate Hrun.
Qed.

Lemma poll_transfer_status_loop_returns_complete E fuel :
  forall source_domain transaction_hash timeout poll_interval api_base_url start w st w',
    poll_transfer_status_loop E fuel source_domain transaction_hash timeout poll_interval
                              api_base_url start w = (Return st, w') ->
    is_complete st = true.
Proof.
  induction fuel as [| fuel IH];
    intros source_domain transaction_hash timeout poll_interval api_base_url start w st w' Hrun.
  - discriminate Hrun.
  - cbn [poll_transfer_status_loop] in Hrun.
    unfold mbind at 1, M_bind at 1, time_time in Hrun.
    destruct (Z.geb (now w - start) timeout); [discriminate Hrun |].
    unfold mbind at 1, M_bind at 1 in Hrun.
    destruct (fetch_transfer_status E source_domain transaction_hash api_base_url w)
      as [[[status |] | e |] w1]; try discriminate Hrun.
    + destruct (is_complete status) eqn:Hc.
      * inversion Hrun; subst. exact Hc.
      * unfold mbind at 1, M_bind at 1 in Hrun.
        destruct (time_sleep poll_interval w1) as [[[] | e |] w2]; try discriminate Hrun.
        exact (IH _ _ _ _ _ _ _ _ _ Hrun).
    + unfold mbind at 1, M_bind at 1 in Hrun.
      destruct (time_sleep poll_interval w1) as [[[] | e |] w2]; try discriminate Hrun.
      exact (IH _ _ _ _ _ _ _ _ _ Hrun).
Qed.

(** C5: completeness is the conjunction of the status ["complete"] and
    present attestation bytes.  [is_complete] says exactly that and is
    false without attestation; [fetch_attestation] returns only on a
    reply whose first message has status ["complete"] and a non-empty
    attestation string other than ["PENDING"]; whatever
    [poll_transfer_status] returns satisfies [is_complete]. *)
Theorem complete_needs_status_and_attestation :
  (forall st,
      is_complete st = true <-> ts_status st = JStr "complete" /\ ts_attestation st <> None)
  /\ (forall st, ts_attestation st = None -> is_complete st = false)
  /\ (forall E fuel source_domain transaction_hash timeout poll_interval api_base_url
             on_phase_change w att w',
        well_behaved on_phase_change ->
        fetch_attestation E fuel source_domain transaction_hash timeout poll_interval
                          api_base_url on_phase_change w = (Return att, w') ->
        att_status att = JStr "complete"
        /\ exists k, (http_calls w <= k < http_calls w')%nat
                     /\ ready_reply (reply (iris E k)) (att_message att) (att_attestation att))
  /\ (forall E fuel source_domain transaction_hash timeout poll_interval api_base_url w st w',
        poll_transfer_status E fuel source_domain transaction_hash timeout poll_interval
                             api_base_url w = (Return st, w') ->
        is_complete st = true).
Proof.
  split; [exact is_complete_iff |]. split; [| split].
  - intros st Hnone. unfold is_complete. rewrite Hnone.
    rewrite bool_decide_eq_false_2 by (intros H; now apply H). apply andb_false_r.
  - intros E fuel source_domain transaction_hash timeout poll_interval api_base_url
           on_phase_change w att w' Hcb Hrun.
    destruct (fetch_attestation_enters_loop E fuel source_domain transaction_hash timeout
                poll_interval api_base_url on_phase_change w Hcb) as [t Ht].
    rewrite Ht in Hrun.
    exact (loop_returns_ready E source_domain (with_0x transaction_hash) timeout poll_interval
             api_base_url on_phase_change fuel Hcb _ _ _ _ _ Hrun).
  - intros E fuel source_domain transaction_hash timeout poll_interval api_base_url w st w' Hrun.
    unfold poll_transfer_status in Hrun.
    unfold mbind at 1, M_bind at 1, time_time in Hrun.
    exact (poll_transfer_status_loop_returns_complete E fuel _ _ _ _ _ _ _ _ _ Hrun).
Qed.

(** The status alone is not enough: a message that says ["complete"] but
    holds no attestation yet is parsed into a status that is not
    complete, and polling goes on until the attestation is there. *)
Lemma complete_needs_status_and_attestation_witness :
  let early := mkResponse 200 (Some (JDict {[ "messages" :=
                 JList [JDict {[ "status" := JStr "complete" ]}] ]})) in
  let service := fun k : nat => match k with
                                | O => Scenario.instant early
                                | S _ => Scenario.instant Scenario.completed
                                end in
  let E := Scenario.env service Scenario.ledger in
  (exists st w', fetch_transfer_status E 3 "0xabc" "https://iris-api.circle.com" Scenario.fresh
                 = (Return (Some st), w')
                 /\ ts_status st = JStr "complete" /\ is_complete st = false)
  /\ (exists st w', poll_transfer_status E 5 3 "0xabc" (seconds 300) (seconds 10)
                                         "https://iris-api.circle.com" Scenario.fresh
                    = (Return st, w')
                    /\ http_calls w' = 2%nat
                    /\ is_complete st = true).
Proof.
  intros early service E. split.
  - eexists _, _. split; [vm_compute; reflexivity |]. split; reflexivity.
  - destruct (poll_transfer_status E 5 3 "0xabc" (seconds 300) (seconds 10)
                                   "https://iris-api.circle.com" Scenario.fresh)
      as [[st | e |] w'] eqn:Hrun; try (vm_compute in Hrun; discriminate Hrun).
    exists st, w'. split; [reflexivity |]. split.
    + vm_compute in Hrun. inversion Hrun. reflexivity.
    + exact (proj2 (proj2 (proj2 complete_needs_status_and_attestation))
               E 5%nat 3 "0xabc" (seconds 300) (seconds 10) "https://iris-api.circle.com"
               Scenario.fresh st w' Hrun).
Defined.

(** ** What the callback is told *)

(** C8, at the failing input.  The docstring of [fetch_attestation]
    promises a call of the callback on every poll attempt, with the
    1-based poll count.  Against a service that answers an empty list
    of messages first and the attestation second, the callback is first
    called with attempt 0, before any request; the first poll goes
    without any call (attempt 1 is never reported); the second poll
    reports attempt 2. *)
Lemma callback_attempt_starts_at_zero :
  let no_message := mkResponse 200 (Some (JDict {[ "messages" := JList [] ]})) in
  let service := fun k : nat => match k with
                                | O => Scenario.instant no_message
                                | S _ => Scenario.instant Scenario.completed
                                end in
  trace (snd (fetch_attestation (Scenario.env service Scenario.ledger)
                                5 (Some 3) "0xabc" (seconds 300) (seconds 5)
                                "https://iris-api.circle.com" (Some Scenario.listener)
                                Scenario.fresh))
  = [EvPhaseChange (JStr "waiting_for_indexing") 0;
     EvHttpGet "https://iris-api.circle.com/v2/messages/3?transactionHash=0xabc";
     EvSleep 5000;
     EvHttpGet "https://iris-api.circle.com/v2/messages/3?transactionHash=0xabc";
     EvPhaseChange (JStr "complete") 2].
Proof. vm_compute. reflexivity. Qed.

(** ** The burn phase *)

(** [_update_phase] touches the tracker and nothing else. *)
Lemma _update_phase_frame idx phase attempt w :
  exists r t,
    _update_phase idx phase attempt w
    = (r, mkWorld (now w) (http_calls w) (txs_sent w) t (trace w))
    /\ r <> OutOfFuel.
Proof.
  open_world w. unfold_tracker_ops. cbn.
  repeat (case_match; simpl in *; simplify_eq);
    eexists _, _; (split; [reflexivity | discriminate]).
Qed.

Section BurnPhase.

Variables (E : Env) (source_web3 : Web3) (source_vault sender : string)
          (hot_wallet : option HotWallet) (gas : Z).

Local Abbreviation burn_of dest :=
  (burn_usdc_cctp E source_web3 source_vault (chain_id (dest_web3 dest))
                  (dest_safe_address dest) (amount dest) sender hot_wallet gas).

Local Abbreviation burn_step :=
  (fun (idx : nat) (dest : CCTPBridgeDestination) =>
     _update_phase idx burning 0 ;; burn_of dest).

Local Abbreviation events_of := (burn_events_of source_web3 source_vault sender hot_wallet gas).

Ltac burn_leaf :=
  first [ exists []; rewrite app_nil_r; split; [reflexivity |]
        | eexists; split; [rewrite <- ?app_assoc; simpl; reflexivity |] ];
  split; [discriminate |];
  split; [first [intros [? Hb]; discriminate Hb | reflexivity] |];
  split; [first [apply prefix_nil | eexists; reflexivity] |];
  first [ let H := fresh in intros H; discriminate H | intros _; split; [eauto | reflexivity] ].

(** One burn submits its approval and its burn, in that order, and
    stops at the first step that fails; a destination chain without
    domain stops it before the approval. *)
Lemma burn_usdc_cctp_runs dest w :
  exists events,
    trace (snd (burn_of dest w)) = (trace w ++ events)%list
    /\ fst (burn_of dest w) <> OutOfFuel
    /\ ((exists b, fst (burn_of dest w) = Return b) -> events = events_of dest)
    /\ events `prefix_of` events_of dest
    /\ (_resolve_cctp_domain E (chain_id (dest_web3 dest)) = None ->
        (exists e, fst (burn_of dest w) = Raise e) /\ events = []).
Proof.
  unfold burn_events_of.
  unfold burn_usdc_cctp, py_assert, prepared, _send_contract_tx,
    assert_transaction_success_with_explanation.
  unfold_monad.
  destruct (bool_decide (_resolve_cctp_domain E (chain_id source_web3) <> None)); simpl;
    [| burn_leaf].
  destruct (_resolve_cctp_domain E (chain_id (dest_web3 dest))) as [domain |] eqn:Hdomain;
    simpl; [| burn_leaf].
  destruct (prepare_approve_for_burn E (chain_id source_web3) (amount dest)); simpl;
    [burn_leaf |].
  destruct (chain E (txs_sent w)) as [| h1 | h1]; simpl; [burn_leaf | burn_leaf |].
  destruct (prepare_deposit_for_burn E (chain_id source_web3) (amount dest)
              (chain_id (dest_web3 dest)) (dest_safe_address dest)); simpl;
    [burn_leaf |].
  destruct (chain E (S (txs_sent w))) as [| h2 | h2]; simpl; burn_leaf.
Qed.

(** The step of the burn loop: the tracker is told, then the burn runs. *)
Lemma burn_step_runs idx dest w :
  exists r w' events,
    burn_step idx dest w = (r, w')
    /\ trace w' = (trace w ++ events)%list
    /\ r <> OutOfFuel
    /\ ((exists b, r = Return b) -> events = events_of dest)
    /\ events `prefix_of` events_of dest
    /\ (_resolve_cctp_domain E (chain_id (dest_web3 dest)) = None ->
        (exists e, r = Raise e) /\ events = []).
Proof.
  destruct (_update_phase_frame idx burning 0 w) as (r & t & Hrun & Hfuel).
  destruct r as [[] | e |]; [| | contradiction].
  - rewrite (bind_Return _ _ _ _ _ Hrun). set (w1 := mkWorld _ _ _ _ _).
    destruct (burn_usdc_cctp_runs dest w1) as (events & Htrace & H1 & H2 & H3 & H4).
    destruct (burn_of dest w1) as [r1 w2]. simpl in *.
    exists r1, w2, events. repeat split; auto; now apply H4.
  - rewrite (bind_Raise _ _ _ _ _ Hrun).
    exists (Raise e), (mkWorld (now w) (http_calls w) (txs_sent w) t (trace w)), [].
    simpl. rewrite app_nil_r. repeat split; try discriminate; eauto.
    + intros [b Hb]. discriminate Hb.
    + apply prefix_nil.
Qed.

(** The sequential burns stop at the first destination whose chain has
    no CCTP domain: what was sent before is an initial stretch of the
    burns of the destinations in front of it. *)
Lemma burns_stop_at_unknown_chain dest post :
  _resolve_cctp_domain E (chain_id (dest_web3 dest)) = None ->
  forall pre start w,
  exists e w' events,
    for_enumerate burn_step start (pre ++ dest :: post) w = (Raise e, w')
    /\ trace w' = (trace w ++ events)%list
    /\ events `prefix_of` flat_map events_of pre.
Proof.
  intros Hunknown. induction pre as [| d pre IH]; intros start w;
    cbn [app for_enumerate flat_map].
  - destruct (burn_step_runs start dest w) as (r & w1 & events & Hstep & Htrace & _ & _ & _ & Hstop).
    destruct (Hstop Hunknown) as [[e ->] ->].
    rewrite (bind_Raise _ _ _ _ _ Hstep).
    exists e, w1, []. repeat split; [exact Htrace | apply prefix_nil].
  - destruct (burn_step_runs start d w) as (r & w1 & events & Hstep & Htrace & Hfuel & Hall & Hprefix & _).
    destruct r as [b | e |]; [| | contradiction].
    + rewrite (bind_Return _ _ _ _ _ Hstep).
      destruct (IH (S start) w1) as (e & w' & rest & Hrun & Hrest & Hpre).
      rewrite (bind_Raise _ _ _ _ _ Hrun).
      exists e, w', (events ++ rest)%list. split; [reflexivity |].
      split; [rewrite Hrest, Htrace, app_assoc; reflexivity |].
      rewrite (Hall ltac:(eauto)). now apply prefix_app.
    + rewrite (bind_Raise _ _ _ _ _ Hstep).
      exists e, w1, events. repeat split; [exact Htrace | now apply prefix_app_r].
Qed.

End BurnPhase.

(** C7, as the code has it.  A destination whose chain maps to no CCTP
    domain makes the whole request fail, no transaction is submitted for
    it or for any destination listed after it, and no receive is
    submitted at all; what has been submitted by then is an initial
    stretch of the approvals and burns of the destinations listed before
    it, in their order (nothing at all when it is the first). *)
Theorem unknown_chain_fails_the_request
    (E : Env) (fuel : nat) (attest_order receive_order : list nat)
    (source_web3 : Web3) (source_vault : string)
    (pre : list CCTPBridgeDestination) (dest : CCTPBridgeDestination)
    (post : list CCTPBridgeDestination) (sender : string)
    (hot_wallet : option HotWallet) (simulate : bool)
    (test_attesters : option (gmap Z string)) (attestation_timeout : Z) (gas : Z)
    (max_workers : option Z) (progress : bool) (w : World) :
  _resolve_cctp_domain E (chain_id (dest_web3 dest)) = None ->
  exists e w' events,
    bridge_usdc_cctp_parallel E fuel attest_order receive_order source_web3
      source_vault (pre ++ dest :: post) sender hot_wallet simulate test_attesters
      attestation_timeout gas max_workers progress w = (Raise e, w')
    /\ trace w' = (trace w ++ events)%list
    /\ events `prefix_of`
         flat_map (burn_events_of source_web3 source_vault sender hot_wallet gas) pre.
Proof.
  intros Hunknown. unfold bridge_usdc_cctp_parallel.
  destruct (pre ++ dest :: post) as [| d0 rest] eqn:Hdests.
  { destruct pre; discriminate Hdests. }
  rewrite <- Hdests. clear Hdests d0 rest.
  assert (Hburns : forall w1, trace w1 = trace w ->
            exists e w' events,
              (for_enumerate
                 (fun (idx : nat) (dest0 : CCTPBridgeDestination) =>
                    _update_phase idx burning 0 ;;
                    burn_usdc_cctp E source_web3 source_vault (chain_id (dest_web3 dest0))
                                   (dest_safe_address dest0) (amount dest0) sender hot_wallet gas)
                 0%nat (pre ++ dest :: post) w1) = (Raise e, w')
              /\ trace w' = (trace w ++ events)%list
              /\ events `prefix_of`
                   flat_map (burn_events_of source_web3 source_vault sender hot_wallet gas) pre).
  { intros w1 Hw1.
    destruct (burns_stop_at_unknown_chain E source_web3 source_vault sender hot_wallet gas
                dest post Hunknown pre 0%nat w1) as (e & w' & events & Hrun & Htrace & Hprefix).
    exists e, w', events. rewrite <- Hw1. auto. }
  destruct simulate; unfold py_assert.
  - destruct (bool_decide (test_attesters <> None)).
    + erewrite bind_Return by reflexivity.
      erewrite bind_Return by reflexivity.
      destruct (Hburns (mkWorld (now w) (http_calls w) (txs_sent w)
                  (mkTracker
                     (map (get_chain_name E)
                        (map (fun d => chain_id (dest_web3 d)) (pre ++ dest :: post)))
                     (replicate (length (pre ++ dest :: post)) burning)
                     (replicate (length (pre ++ dest :: post)) 0)
                     (tqdm (Z.of_nat (length (pre ++ dest :: post)) * n_phases) "CCTP bridge"))
                  (trace w)) eq_refl) as (e & w' & events & Hrun & Htrace & Hprefix).
      exists e, w', events. split; [| split; assumption].
      apply bind_Raise. exact Hrun.
    + exists (AssertionError "test_attesters is required in simulate mode"), w, [].
      rewrite app_nil_r. repeat split. apply prefix_nil.
  - erewrite bind_Return by reflexivity.
    erewrite bind_Return by reflexivity.
    destruct (Hburns (mkWorld (now w) (http_calls w) (txs_sent w)
                (mkTracker
                   (map (get_chain_name E)
                      (map (fun d => chain_id (dest_web3 d)) (pre ++ dest :: post)))
                   (replicate (length (pre ++ dest :: post)) burning)
                   (replicate (length (pre ++ dest :: post)) 0)
                   (tqdm (Z.of_nat (length (pre ++ dest :: post)) * n_phases) "CCTP bridge"))
                (trace w)) eq_refl) as (e & w' & events & Hrun & Htrace & Hprefix).
    exists e, w', events. split; [| split; assumption].
    apply bind_Raise. exact Hrun.
Qed.

(** Base is a CCTP chain, chain 56 is not: the request fails on the
    second destination. *)
Lemma unknown_chain_fails_the_request_witness :
  exists e w' events,
    bridge_usdc_cctp_parallel
      (Scenario.env (Scenario.always Scenario.pending) Scenario.ledger)
      10 [0%nat; 1%nat] [0%nat; 1%nat] (mkWeb3 42161) "0xVault"
      ([mkCCTPBridgeDestination (mkWeb3 8453) "0xBaseSafe" 1000000]
         ++ mkCCTPBridgeDestination (mkWeb3 56) "0xOtherSafe" 0 :: [])
      "0xManager" None false None (seconds 2400) 1000000 None true Scenario.fresh
    = (Raise e, w')
    /\ trace w' = trace Scenario.fresh ++ events
    /\ events `prefix_of`
         flat_map (burn_events_of (mkWeb3 42161) "0xVault" "0xManager" None 1000000)
                  [mkCCTPBridgeDestination (mkWeb3 8453) "0xBaseSafe" 1000000].
Proof.
  apply (unknown_chain_fails_the_request
           (Scenario.env (Scenario.always Scenario.pending) Scenario.ledger)
           10 [0%nat; 1%nat] [0%nat; 1%nat] (mkWeb3 42161) "0xVault"
           [mkCCTPBridgeDestination (mkWeb3 8453) "0xBaseSafe" 1000000]
           (mkCCTPBridgeDestination (mkWeb3 56) "0xOtherSafe" 0) []
           "0xManager" None false None (seconds 2400) 1000000 None true Scenario.fresh).
  reflexivity.
Defined.

(** C7 as stated fails: the second destination names a chain without
    CCTP domain (and a zero amount), yet the approval and the burn for
    the first destination are on chain before the request fails. *)
Lemma earlier_destinations_are_burned_first :
  let run :=
    bridge_usdc_cctp_parallel
      (Scenario.env (Scenario.always Scenario.pending) Scenario.ledger)
      10 [0%nat; 1%nat] [0%nat; 1%nat] (mkWeb3 42161) "0xVault"
      [mkCCTPBridgeDestination (mkWeb3 8453) "0xBaseSafe" 1000000;
       mkCCTPBridgeDestination (mkWeb3 56) "0xOtherSafe" 0]
      "0xManager" None false None (seconds 2400) 1000000 None true Scenario.fresh in
  fst run = Raise (AssertionError "Destination chain 56 is not CCTP-enabled")
  /\ trace (snd run)
     = [EvTransact 42161 "0xManager" None 1000000
          (via_trading_strategy_module "0xVault" (usdc_approve 1000000));
        EvTransact 42161 "0xManager" None 1000000
          (via_trading_strategy_module "0xVault" (depositForBurn 1000000 8453 "0xBaseSafe"))].
Proof. vm_compute. split; reflexivity. Qed.

(** ** Results in input order *)

(** Peel the binds off a run that returned. *)
Ltac invert_run H :=
  repeat (apply bind_inv_Return in H;
          let a := fresh "a" in
          let w := fresh "w" in
          let Hm := fresh "Hm" in
          destruct H as (a & w & Hm & H); cbv beta in H).

Lemma with_0x_idem s : with_0x (with_0x s) = with_0x s.
Proof.
  unfold with_0x at 1. destruct (startswith_0x (with_0x s)) eqn:H; [reflexivity |].
  unfold with_0x in H. destruct (startswith_0x s) eqn:Hs; [congruence |].
  assert (Htrue : startswith_0x ("0x" +:+ s) = true).
  { unfold startswith_0x. apply String.prefix_correct. simpl. now destruct s. }
  congruence.
Qed.

Lemma _parse_transfer_status_fields E msg source_domain transaction_hash w st w' :
  _parse_transfer_status E msg source_domain transaction_hash w = (Return st, w') ->
  ts_transaction_hash st = transaction_hash /\ ts_source_domain st = source_domain.
Proof.
  intros H. unfold _parse_transfer_status in H. invert_run H.
  inversion H; subst. split; reflexivity.
Qed.

Lemma fetch_transfer_status_fields E source_domain transaction_hash api_base_url w st w' :
  fetch_transfer_status E source_domain transaction_hash api_base_url w = (Return (Some st), w') ->
  ts_transaction_hash st = with_0x transaction_hash /\ ts_source_domain st = source_domain.
Proof.
  intros H. unfold fetch_transfer_status in H.
  apply bind_inv_Return in H. destruct H as (response & w1 & _ & H). cbv beta in H.
  destruct (status_code response =? HTTP_NOT_FOUND); [discriminate H |].
  apply bind_inv_Return in H. destruct H as (? & w2 & _ & H). cbv beta in H.
  apply bind_inv_Return in H. destruct H as (data & w3 & _ & H). cbv beta in H.
  apply bind_inv_Return in H. destruct H as (messages & w4 & _ & H). cbv beta in H.
  destruct (negb (truthy messages)); [discriminate H |].
  apply bind_inv_Return in H. destruct H as (msg & w5 & _ & H). cbv beta in H.
  apply bind_inv_Return in H. destruct H as (st0 & w6 & Hparse & H). cbv beta in H.
  inversion H; subst.
  exact (_parse_transfer_status_fields _ _ _ _ _ _ _ Hparse).
Qed.

Lemma poll_transfer_status_loop_fields E fuel :
  forall source_domain transaction_hash timeout poll_interval api_base_url start w st w',
    poll_transfer_status_loop E fuel source_domain transaction_hash timeout poll_interval
                              api_base_url start w = (Return st, w') ->
    ts_transaction_hash st = with_0x transaction_hash /\ ts_source_domain st = source_domain.
Proof.
  induction fuel as [| fuel IH];
    intros source_domain transaction_hash timeout poll_interval api_base_url start w st w' Hrun.
  - discriminate Hrun.
  - cbn [poll_transfer_status_loop] in Hrun.
    unfold mbind at 1, M_bind at 1, time_time in Hrun.
    destruct (Z.geb (now w - start) timeout); [discriminate Hrun |].
    unfold mbind at 1, M_bind at 1 in Hrun.
    destruct (fetch_transfer_status E source_domain transaction_hash api_base_url w)
      as [[[status |] | e |] w1] eqn:Hfetch; try discriminate Hrun.
    + destruct (is_complete status) eqn:Hc.
      * inversion Hrun; subst. exact (fetch_transfer_status_fields _ _ _ _ _ _ _ Hfetch).
      * unfold mbind at 1, M_bind at 1 in Hrun.
        destruct (time_sleep poll_interval w1) as [[[] | e |] w2]; try discriminate Hrun.
        exact (IH _ _ _ _ _ _ _ _ _ Hrun).
    + unfold mbind at 1, M_bind at 1 in Hrun.
      destruct (time_sleep poll_interval w1) as [[[] | e |] w2]; try discriminate Hrun.
      exact (IH _ _ _ _ _ _ _ _ _ Hrun).
Qed.

(** What a poll returns belongs to the transfer it was started for. *)
Lemma poll_transfer_status_fields E fuel source_domain transaction_hash timeout poll_interval
    api_base_url w st w' :
  poll_transfer_status E fuel source_domain transaction_hash timeout poll_interval
                       api_base_url w = (Return st, w') ->
  ts_transaction_hash st = with_0x transaction_hash
  /\ ts_source_domain st = source_domain
  /\ is_complete st = true.
Proof.
  intros Hrun. unfold poll_transfer_status in Hrun.
  unfold mbind at 1, M_bind at 1, time_time in Hrun.
  destruct (poll_transfer_status_loop_fields _ _ _ _ _ _ _ _ _ _ _ Hrun) as [Hhash Hdomain].
  rewrite with_0x_idem in Hhash. repeat split; try assumption.
  exact (poll_transfer_status_loop_returns_complete _ _ _ _ _ _ _ _ _ _ _ Hrun).
Qed.

(** *** The thread pool *)

Section Pool.

Context {A : Type}.

(** Every finished future is the future submitted under its index, run
    to its end. *)
Lemma as_completed_finished (futures : list (M A)) order :
  forall w finished w',
    as_completed futures order w = (Return finished, w') ->
    Forall (fun '(idx, r) =>
              exists task w1 w2,
                futures !! idx = Some task /\ capture task w1 = (Return r, w2)) finished.
Proof.
  induction order as [| idx order IH]; intros w finished w' Hrun; simpl in Hrun.
  - inversion Hrun. constructor.
  - destruct (futures !! idx) as [task |] eqn:Htask; [| exact (IH _ _ _ Hrun)].
    apply bind_inv_Return in Hrun. destruct Hrun as (r & w1 & Hcap & Hrun). cbv beta in Hrun.
    apply bind_inv_Return in Hrun. destruct Hrun as (rs & w2 & Hrest & Hrun). cbv beta in Hrun.
    inversion Hrun; subst. constructor; [| exact (IH _ _ _ Hrest)].
    exists task, w, w1. split; assumption.
Qed.

(** With every index of the schedule in range, the futures are handed
    over in the order of the schedule. *)
Lemma as_completed_order (futures : list (M A)) order :
  (forall idx, idx ∈ order -> (idx < length futures)%nat) ->
  forall w finished w',
    as_completed futures order w = (Return finished, w') ->
    map fst finished = order.
Proof.
  induction order as [| idx order IH]; intros Hrange w finished w' Hrun; simpl in Hrun.
  - inversion Hrun. reflexivity.
  - destruct (futures !! idx) as [task |] eqn:Htask.
    + apply bind_inv_Return in Hrun. destruct Hrun as (r & w1 & Hcap & Hrun). cbv beta in Hrun.
      apply bind_inv_Return in Hrun. destruct Hrun as (rs & w2 & Hrest & Hrun). cbv beta in Hrun.
      inversion Hrun; subst. simpl. f_equal.
      apply (IH ltac:(intros; apply Hrange; now right) _ _ _ Hrest).
    + apply lookup_ge_None in Htask.
      specialize (Hrange idx ltac:(now left)). lia.
Qed.

(** The dictionary filled from the finished futures holds under an
    index only what a future of that index returned. *)
Lemma gather_results_sound (finished : list (nat * (exn + A))) :
  forall results w results' w',
    gather_results finished results w = (Return results', w') ->
    w' = w
    /\ forall i a, results' !! i = Some a ->
                   results !! i = Some a \/ (i, inr a) ∈ finished.
Proof.
  induction finished as [| [idx [e | a]] finished IH]; intros results w results' w' Hrun;
    simpl in Hrun.
  - inversion Hrun; subst. auto.
  - discriminate Hrun.
  - destruct (IH _ _ _ _ Hrun) as [-> Hin]. split; [reflexivity |].
    intros i b Hb. destruct (Hin i b Hb) as [Hold | Hnew].
    + destruct (decide (idx = i)) as [-> | Hne].
      * rewrite lookup_insert_eq in Hold. inversion Hold; subst. right. now left.
      * rewrite lookup_insert_ne in Hold by exact Hne. now left.
    + right. now right.
Qed.

(** When every future returned, the dictionary is filled and holds,
    for distinct indices, each result under its index. *)
Lemma gather_results_complete (finished : list (nat * (exn + A))) :
  (forall idx e, (idx, inl e) ∉ finished) ->
  NoDup (map fst finished) ->
  forall results w,
  exists results',
    gather_results finished results w = (Return results', w)
    /\ (forall idx a, (idx, inr a) ∈ finished -> results' !! idx = Some a)
    /\ (forall i, i ∉ map fst finished -> results' !! i = results !! i).
Proof.
  induction finished as [| [idx [e | a]] finished IH]; intros Hok Hnodup results w; simpl.
  - exists results. repeat split; auto. intros idx a Hin. inversion Hin.
  - exfalso. apply (Hok idx e). now left.
  - simpl in Hnodup. apply NoDup_cons in Hnodup as [Hfresh Hnodup].
    destruct (IH ltac:(intros i e Hin; apply (Hok i e); now right) Hnodup
                 (<[idx := a]> results) w) as (results' & Hrun & Hin & Hout).
    exists results'. split; [exact Hrun |]. split.
    + intros i b Hb. apply elem_of_cons in Hb as [Heq | Hb].
      * inversion Heq; subst. rewrite (Hout _ Hfresh). apply lookup_insert_eq.
      * now apply Hin.
    + intros i Hi. apply not_elem_of_cons in Hi as [Hne Hi].
      rewrite (Hout _ Hi). now apply lookup_insert_ne.
Qed.

(** The list comprehension over [range(n)]. *)
Lemma results_in_order_from (results : gmap nat A) n :
  forall start w rs w',
    mapM (fun i => match results !! i with
                   | Some r => ret r
                   | None => raise KeyError
                   end) (seq start n) w = (Return rs, w') ->
    w' = w /\ length rs = n
    /\ forall i a, rs !! i = Some a -> results !! (start + i)%nat = Some a.
Proof.
  induction n as [| n IH]; intros start w rs w' Hrun; simpl in Hrun.
  - inversion Hrun; subst. repeat split. intros i a Hi. discriminate Hi.
  - apply bind_inv_Return in Hrun. destruct Hrun as (r & w1 & Hr & Hrun). cbv beta in Hrun.
    apply bind_inv_Return in Hrun. destruct Hrun as (k & w2 & Hk & Hrun). cbv beta in Hrun.
    inversion Hrun; subst.
    destruct (results !! start) as [r0 |] eqn:Hstart; [| discriminate Hr].
    inversion Hr; subst.
    destruct (IH _ _ _ _ Hk) as (-> & Hlen & Hlookup).
    repeat split; [simpl; now rewrite Hlen |].
    intros [| i] a Hi; simpl in Hi.
    + inversion Hi; subst. now rewrite Nat.add_0_r.
    + replace (start + S i)%nat with (S start + i)%nat by lia. now apply Hlookup.
Qed.

Lemma results_in_order_sound (results : gmap nat A) n w rs w' :
  results_in_order results n w = (Return rs, w') ->
  w' = w /\ length rs = n /\ forall i a, rs !! i = Some a -> results !! i = Some a.
Proof. intros Hrun. exact (results_in_order_from results n 0 w rs w' Hrun). Qed.

Lemma results_in_order_runs_from (results : gmap nat A) n :
  forall start w,
    (forall i, (start <= i < start + n)%nat -> is_Some (results !! i)) ->
    exists rs,
      mapM (fun i => match results !! i with
                     | Some r => ret r
                     | None => raise KeyError
                     end) (seq start n) w = (Return rs, w).
Proof.
  induction n as [| n IH]; intros start w Hdom; simpl.
  - now exists [].
  - destruct (Hdom start ltac:(lia)) as [r Hr].
    destruct (IH (S start) w ltac:(intros; apply Hdom; lia)) as [rs Hrs].
    exists (r :: rs). rewrite Hr.
    erewrite bind_Return by reflexivity. erewrite bind_Return by exact Hrs. reflexivity.
Qed.

Lemma results_in_order_runs (results : gmap nat A) n w :
  (forall i, (i < n)%nat -> is_Some (results !! i)) ->
  exists rs, results_in_order results n w = (Return rs, w).
Proof.
  intros Hdom. apply results_in_order_runs_from. intros i Hi. apply Hdom. lia.
Qed.

End Pool.

(** *** The phases of the bridge *)

Section BridgePhases.

Variables (E : Env) (source_web3 : Web3) (source_vault sender : string)
          (hot_wallet : option HotWallet) (gas : Z).

Local Abbreviation burn_step :=
  (fun (idx : nat) (dest : CCTPBridgeDestination) =>
     _update_phase idx burning 0 ;;
     burn_usdc_cctp E source_web3 source_vault (chain_id (dest_web3 dest))
                    (dest_safe_address dest) (amount dest) sender hot_wallet gas).

(** A burn that returns has sent two transactions; its result carries
    the hash of the second, the burn, and the destination it was made
    for. *)
Lemma burn_usdc_cctp_returns dest_chain_id dest_safe amount w b w' :
  burn_usdc_cctp E source_web3 source_vault dest_chain_id dest_safe amount sender
                 hot_wallet gas w = (Return b, w') ->
  b = mkCCTPBurnResult (b_burn_tx_hash b) amount (chain_id source_web3) dest_chain_id dest_safe
  /\ chain E (S (txs_sent w)) = TxConfirmed (b_burn_tx_hash b)
  /\ txs_sent w' = S (S (txs_sent w)).
Proof.
  unfold burn_usdc_cctp, py_assert, prepared, _send_contract_tx,
    assert_transaction_success_with_explanation.
  unfold_monad.
  destruct (bool_decide (_resolve_cctp_domain E (chain_id source_web3) <> None)); simpl;
    [| discriminate].
  destruct (bool_decide (_resolve_cctp_domain E dest_chain_id <> None)); simpl;
    [| discriminate].
  destruct (prepare_approve_for_burn E (chain_id source_web3) amount); simpl; [discriminate |].
  destruct (chain E (txs_sent w)) as [| h1 | h1]; simpl; try discriminate.
  destruct (prepare_deposit_for_burn E (chain_id source_web3) amount dest_chain_id dest_safe);
    simpl; [discriminate |].
  destruct (chain E (S (txs_sent w))) as [| h2 | h2]; simpl; try discriminate.
  intros H. inversion H; subst. simpl. auto.
Qed.

(** The burns, one after the other: the burn of the destination at
    index [i] is the transaction number [2 i + 1] of the phase. *)
Lemma burns_in_order dests :
  forall start w burns w',
    for_enumerate burn_step start dests w = (Return burns, w') ->
    txs_sent w' = (txs_sent w + 2 * length dests)%nat
    /\ length burns = length dests
    /\ forall i d b,
         dests !! i = Some d -> burns !! i = Some b ->
         b_dest_chain_id b = chain_id (dest_web3 d)
         /\ b_amount b = amount d
         /\ b_source_chain_id b = chain_id source_web3
         /\ chain E (txs_sent w + 2 * i + 1)%nat = TxConfirmed (b_burn_tx_hash b).
Proof.
  induction dests as [| d dests IH]; intros start w burns w' Hrun; cbn [for_enumerate] in Hrun.
  - inversion Hrun; subst. simpl. split; [lia |]. split; [reflexivity |].
    intros i d b Hd. discriminate Hd.
  - apply bind_inv_Return in Hrun. destruct Hrun as (b & w1 & Hstep & Hrun). cbv beta in Hrun.
    apply bind_inv_Return in Hrun. destruct Hrun as (bs & w2 & Hrest & Hrun). cbv beta in Hrun.
    inversion Hrun; subst.
    apply bind_inv_Return in Hstep. destruct Hstep as ([] & w0 & Hupd & Hburn). cbv beta in Hburn.
    destruct (_update_phase_frame start burning 0 w) as (r & t & Hframe & _).
    rewrite Hframe in Hupd. inversion Hupd; subst.
    destruct (burn_usdc_cctp_returns _ _ _ _ _ _ Hburn) as (Hb & Hhash & Htxs).
    simpl in Hhash, Htxs.
    destruct (IH _ _ _ _ Hrest) as (Htxs' & Hlen & Hall).
    split; [simpl; lia |]. split; [simpl; lia |].
    intros [| i] d' b' Hd Hb'; simpl in Hd, Hb'.
    + inversion Hd; inversion Hb'; subst. rewrite Hb. simpl.
      repeat split. rewrite <- Hhash. f_equal. lia.
    + destruct (Hall i d' b' Hd Hb') as (H1 & H2 & H3 & H4).
      repeat split; try assumption.
      rewrite <- H4. f_equal. lia.
Qed.

(** The results are put together pair by pair, in the order of the
    burns and destinations. *)
Lemma results_assembled (receive_tx_hashes : list string) pairs :
  forall start w rs w',
    for_enumerate
      (fun (idx : nat) '(burn_result, dest) =>
         receive_tx_hash ← getitem receive_tx_hashes idx;
         ret (mkCCTPBridgeResult (b_burn_tx_hash burn_result) receive_tx_hash
                                 (b_amount burn_result) (b_source_chain_id burn_result)
                                 (b_dest_chain_id burn_result)))
      start (pairs : list (CCTPBurnResult * CCTPBridgeDestination)) w = (Return rs, w') ->
    length rs = length pairs
    /\ forall i b d r,
         pairs !! i = Some (b, d) -> rs !! i = Some r ->
         r_burn_tx_hash r = b_burn_tx_hash b
         /\ r_amount r = b_amount b
         /\ r_source_chain_id r = b_source_chain_id b
         /\ r_dest_chain_id r = b_dest_chain_id b
         /\ receive_tx_hashes !! (start + i)%nat = Some (r_receive_tx_hash r).
Proof.
  induction pairs as [| [b d] pairs IH]; intros start w rs w' Hrun; cbn [for_enumerate] in Hrun.
  - inversion Hrun; subst. split; [reflexivity |]. intros i b d r Hp. discriminate Hp.
  - apply bind_inv_Return in Hrun. destruct Hrun as (r0 & w1 & Hstep & Hrun). cbv beta in Hrun.
    apply bind_inv_Return in Hrun. destruct Hrun as (rest & w2 & Hrest & Hrun). cbv beta in Hrun.
    inversion Hrun; subst.
    apply bind_inv_Return in Hstep. destruct Hstep as (h & w0 & Hget & Hret). cbv beta in Hret.
    inversion Hret; subst.
    unfold getitem in Hget. destruct (receive_tx_hashes !! start) as [h0 |] eqn:Hh;
      [| discriminate Hget]. inversion Hget; subst.
    destruct (IH _ _ _ _ Hrest) as (Hlen & Hall).
    split; [simpl; lia |].
    intros [| i] b' d' r Hp Hr; simpl in Hp, Hr.
    + inversion Hp; inversion Hr; subst. simpl. rewrite Nat.add_0_r. auto.
    + replace (start + S i)%nat with (S start + i)%nat by lia. now apply (Hall i b' d').
Qed.

End BridgePhases.

(** *** What sends no transaction *)

Create HintDb frame.

Lemma keeps_ret {A} (a : A) : keeps_txs (ret a).
Proof. intros w. reflexivity. Qed.

Lemma keeps_mret {A} (a : A) : keeps_txs (mret a).
Proof. intros w. reflexivity. Qed.

Lemma keeps_raise {A} e : keeps_txs (@raise A e).
Proof. intros w. reflexivity. Qed.

Lemma keeps_out_of_fuel {A} : keeps_txs (@out_of_fuel A).
Proof. intros w. reflexivity. Qed.

Lemma keeps_bind {A B} (m : M A) (k : A -> M B) :
  keeps_txs m -> (forall a, keeps_txs (k a)) -> keeps_txs (m ≫= k).
Proof.
  intros Hm Hk w. unfold mbind, M_bind. specialize (Hm w).
  destruct (m w) as [[a | e |] w1]; simpl in *; try exact Hm.
  rewrite Hk. exact Hm.
Qed.

Lemma keeps_emit ev : keeps_txs (emit ev).
Proof. intros w. reflexivity. Qed.

Lemma keeps_time_time : keeps_txs time_time.
Proof. intros w. reflexivity. Qed.

Lemma keeps_time_sleep d : keeps_txs (time_sleep d).
Proof. intros w. unfold time_sleep. now destruct (d <? 0). Qed.

Lemma keeps_requests_get E u : keeps_txs (requests_get E u).
Proof. intros w. unfold requests_get. now destruct (reply (iris E (http_calls w))). Qed.

Lemma keeps_raise_for_status r : keeps_txs (raise_for_status r).
Proof. intros w. unfold raise_for_status. now destruct (is_error_status (status_code r)). Qed.

Lemma keeps_response_json r : keeps_txs (response_json r).
Proof. intros w. unfold response_json. now destruct (body r). Qed.

Lemma keeps_dict_get v key dflt : keeps_txs (dict_get v key dflt).
Proof. intros w. now destruct v. Qed.

Lemma keeps_subscript0 v : keeps_txs (subscript0 v).
Proof. intros w. destruct v as [| | | | [|] | [|] |]; reflexivity. Qed.

Lemma keeps_bytes_fromhex v : keeps_txs (bytes_fromhex_replace_0x v).
Proof.
  intros w. destruct v; try reflexivity. simpl. now destruct (fromhex (replace_0x s)).
Qed.

Lemma keeps_modify_tracker f : keeps_txs (modify_tracker f).
Proof. intros w. reflexivity. Qed.

Lemma keeps_py_assert c msg : keeps_txs (py_assert c msg).
Proof. intros w. now destruct c. Qed.

Lemma keeps_ThreadPoolExecutor k : keeps_txs (ThreadPoolExecutor k).
Proof. intros w. unfold ThreadPoolExecutor. now destruct (k <=? 0). Qed.

Lemma keeps_update_phase idx phase attempt : keeps_txs (_update_phase idx phase attempt).
Proof.
  intros w. destruct (_update_phase_frame idx phase attempt w) as (r & t & Hrun & _).
  now rewrite Hrun.
Qed.

Lemma keeps_getitem {A} (l : list A) idx : keeps_txs (getitem l idx).
Proof. intros w. unfold getitem. now destruct (l !! idx). Qed.

#[local] Hint Resolve keeps_ret keeps_mret keeps_raise keeps_out_of_fuel keeps_emit
  keeps_time_time keeps_time_sleep keeps_requests_get keeps_raise_for_status
  keeps_response_json keeps_dict_get keeps_subscript0 keeps_bytes_fromhex
  keeps_modify_tracker keeps_py_assert keeps_ThreadPoolExecutor keeps_update_phase
  keeps_getitem : frame.

(** Follow the structure of a computation. *)
Ltac keeps :=
  repeat first
    [ solve [eauto with frame]
    | match goal with
      | |- forall _, _ => intro
      | |- keeps_txs (if ?c then _ else _) => destruct c
      | |- keeps_txs (match ?x with _ => _ end) => destruct x
      | |- keeps_txs (let _ := _ in _) => cbv zeta
      | |- keeps_txs (_ ≫= _) => apply keeps_bind
      end ].

Lemma keeps_on_phase idx status attempt : keeps_txs (on_phase idx status attempt).
Proof. unfold on_phase. keeps. Qed.

Lemma keeps_notify on_phase_change attempt status :
  (forall callback, on_phase_change = Some callback ->
                    forall s a, keeps_txs (callback s a)) ->
  keeps_txs (_notify on_phase_change attempt status).
Proof.
  intros Hcb. unfold _notify. destruct on_phase_change as [callback |]; keeps.
Qed.

#[local] Hint Resolve keeps_on_phase keeps_notify : frame.

Lemma keeps_fetch_attestation_loop E source_domain transaction_hash timeout poll_interval
    api_base_url on_phase_change fuel :
  (forall callback, on_phase_change = Some callback ->
                    forall s a, keeps_txs (callback s a)) ->
  forall start attempt,
    keeps_txs (fetch_attestation_loop E source_domain transaction_hash timeout poll_interval
                                      api_base_url on_phase_change fuel start attempt).
Proof.
  intros Hcb. pose proof (keeps_notify on_phase_change) as Hnotify.
  induction fuel as [| fuel IH]; intros start attempt; cbn [fetch_attestation_loop].
  - apply keeps_out_of_fuel.
  - keeps.
Qed.

#[local] Hint Resolve keeps_fetch_attestation_loop : frame.

Lemma keeps_fetch_attestation E fuel source_domain transaction_hash timeout poll_interval
    api_base_url on_phase_change :
  (forall callback, on_phase_change = Some callback ->
                    forall s a, keeps_txs (callback s a)) ->
  keeps_txs (fetch_attestation E fuel source_domain transaction_hash timeout poll_interval
                               api_base_url on_phase_change).
Proof.
  intros Hcb. unfold fetch_attestation. keeps.
Qed.

#[local] Hint Resolve keeps_fetch_attestation : frame.

Lemma keeps_get_attestation E fuel burn_result simulate test_attester attestation_timeout
    on_phase_change nonce_base :
  (forall callback, on_phase_change = Some callback ->
                    forall s a, keeps_txs (callback s a)) ->
  keeps_txs (_get_attestation E fuel burn_result simulate test_attester attestation_timeout
                              on_phase_change nonce_base).
Proof.
  intros Hcb. unfold _get_attestation. keeps.
Qed.

Lemma keeps_capture {A} (task : M A) : keeps_txs task -> keeps_txs (capture task).
Proof.
  intros H w. unfold capture. specialize (H w). now destruct (task w) as [[a | e |] w1].
Qed.

Lemma keeps_as_completed {A} (futures : list (M A)) order :
  Forall keeps_txs futures -> keeps_txs (as_completed futures order).
Proof.
  intros Hall. induction order as [| idx order IH]; simpl; [apply keeps_ret |].
  destruct (futures !! idx) as [task |] eqn:Htask; [| exact IH].
  apply keeps_bind; [| keeps].
  apply keeps_capture. exact (Forall_lookup_1 _ _ _ _ Hall Htask).
Qed.

Lemma keeps_gather_results {A} (finished : list (nat * (exn + A))) :
  forall results, keeps_txs (gather_results finished results).
Proof.
  induction finished as [| [idx [e | a]] finished IH]; intros results; simpl; keeps.
Qed.

Lemma keeps_results_in_order {A} (results : gmap nat A) n : keeps_txs (results_in_order results n).
Proof.
  unfold results_in_order. generalize 0%nat. induction n as [| n IH]; intros start; simpl; keeps.
Qed.

Lemma keeps_for_enumerate {A B} (f : nat -> A -> M B) l :
  (forall idx x, keeps_txs (f idx x)) -> forall start, keeps_txs (for_enumerate f start l).
Proof.
  intros Hf. induction l as [| x l IH]; intros start; simpl; keeps.
Qed.

Lemma keeps_sync_nonce E wallet cid : keeps_txs (sync_nonce E wallet cid).
Proof. unfold sync_nonce. keeps. Qed.

Lemma keeps_build_dest_wallets E hot_wallet chain_ids :
  forall dest_wallets, keeps_txs (build_dest_wallets E hot_wallet chain_ids dest_wallets).
Proof.
  induction chain_ids as [| cid chain_ids IH]; intros dest_wallets; simpl; [keeps |].
  destruct (dest_wallets !! cid); [apply IH |].
  apply keeps_bind; [apply keeps_sync_nonce | intros w; apply IH].
Qed.

Lemma keeps_store_results {A} (finished : list (nat * (exn + A))) :
  forall slots, keeps_txs (@store_results A finished slots).
Proof.
  induction finished as [| [idx [e | a]] finished IH]; intros slots; simpl; keeps.
Qed.

(** *** The receive phase *)

Section ReceivePhase.

Variables (E : Env) (sender : string) (gas : Z).

(** A receive that returns has sent one transaction and returns its
    hash. *)
Lemma receive_usdc_cctp_returns dest_web3 message attestation hot_wallet w h w' :
  receive_usdc_cctp E dest_web3 message attestation sender hot_wallet gas w = (Return h, w') ->
  chain E (txs_sent w) = TxConfirmed h /\ txs_sent w' = S (txs_sent w).
Proof.
  unfold receive_usdc_cctp, prepared, _send_contract_tx,
    assert_transaction_success_with_explanation.
  unfold_monad.
  destruct (prepare_receive_message E (chain_id dest_web3) message attestation); simpl;
    [discriminate |].
  destruct (chain E (txs_sent w)) as [| h1 | h1]; simpl; try discriminate.
  intros H. inversion H; subst. auto.
Qed.

Lemma update_then (A : Type) idx phase attempt (k : M A) w r w' :
  (_update_phase idx phase attempt ;; k) w = (Return r, w') ->
  exists w1, txs_sent w1 = txs_sent w /\ k w1 = (Return r, w').
Proof.
  intros H. apply bind_inv_Return in H. destruct H as ([] & w1 & Hupd & Hk).
  exists w1. split; [| exact Hk].
  pose proof (keeps_update_phase idx phase attempt w) as Hkeep.
  now rewrite Hupd in Hkeep.
Qed.

Lemma _receive_with_progress_returns dest_wallets idx dest message attestation w h w' :
  _receive_with_progress E sender gas dest_wallets idx dest message attestation w
  = (Return h, w') ->
  chain E (txs_sent w) = TxConfirmed h /\ txs_sent w' = S (txs_sent w).
Proof.
  unfold _receive_with_progress. intros H.
  apply update_then in H. destruct H as (w1 & Htxs1 & H).
  destruct (dest_wallets !! chain_id (dest_web3 dest)) as [wallet |]; [| discriminate H].
  apply bind_inv_Return in H. destruct H as (h0 & w2 & Hreceive & H). cbv beta in H.
  apply update_then in H. destruct H as (w3 & Htxs3 & H).
  inversion H; subst.
  destruct (receive_usdc_cctp_returns _ _ _ _ _ _ _ Hreceive) as [Hchain Htxs2].
  rewrite <- Htxs1. split; [exact Hchain | congruence].
Qed.

(** Simulation: the receives run one after the other, in input order. *)
Lemma receives_in_sequence pairs :
  forall start w hashes w',
    for_enumerate
      (fun (idx : nat) '(dest, (message, attestation)) =>
         _update_phase idx receiving 0 ;;
         tx_hash ← receive_usdc_cctp E (dest_web3 dest) message attestation sender None gas;
         _update_phase idx complete 0 ;;
         ret tx_hash)
      start (pairs : list (CCTPBridgeDestination * (bytes * bytes))) w = (Return hashes, w') ->
    length hashes = length pairs
    /\ forall i h, hashes !! i = Some h -> chain E (txs_sent w + i)%nat = TxConfirmed h.
Proof.
  induction pairs as [| [dest [message attestation]] pairs IH];
    intros start w hashes w' Hrun; cbn [for_enumerate] in Hrun.
  - inversion Hrun; subst. split; [reflexivity |]. intros i h Hh. discriminate Hh.
  - apply bind_inv_Return in Hrun. destruct Hrun as (h0 & w1 & Hstep & Hrun). cbv beta in Hrun.
    apply bind_inv_Return in Hrun. destruct Hrun as (rest & w2 & Hrest & Hrun). cbv beta in Hrun.
    inversion Hrun; subst.
    apply update_then in Hstep. destruct Hstep as (wa & Htxsa & Hstep).
    apply bind_inv_Return in Hstep. destruct Hstep as (h1 & wb & Hreceive & Hstep).
    cbv beta in Hstep.
    apply update_then in Hstep. destruct Hstep as (wc & Htxsc & Hstep).
    inversion Hstep; subst.
    destruct (receive_usdc_cctp_returns _ _ _ _ _ _ _ Hreceive) as [Hchain Htxsb].
    destruct (IH _ _ _ _ Hrest) as (Hlen & Hall).
    split; [simpl; lia |].
    intros [| i] h Hh; simpl in Hh.
    + inversion Hh; subst. rewrite Nat.add_0_r, <- Htxsa. exact Hchain.
    + rewrite <- (Hall i h Hh). f_equal. lia.
Qed.

(** Production: the receive threads run in the order of the
    schedule, and the transaction number [j] of the phase is the
    receive of the thread that runs in place [j]. *)
Lemma receives_as_completed dest_wallets
    (pairs : list (CCTPBridgeDestination * (bytes * bytes))) order :
  (forall idx, idx ∈ order -> (idx < length pairs)%nat) ->
  forall w finished w',
    as_completed
      (imap (fun idx '(dest, (message, attestation)) =>
               _receive_with_progress E sender gas dest_wallets idx dest message attestation)
            pairs)
      order w = (Return finished, w') ->
    (forall idx e, (idx, inl e) ∉ finished) ->
    map fst finished = order
    /\ forall j idx h, finished !! j = Some (idx, inr h) ->
                       chain E (txs_sent w + j)%nat = TxConfirmed h.
Proof.
  induction order as [| idx order IH]; intros Hrange w finished w' Hrun Hok; simpl in Hrun.
  - inversion Hrun; subst. split; [reflexivity |]. intros j idx h Hj. discriminate Hj.
  - destruct (imap _ pairs !! idx) as [task |] eqn:Htask.
    2:{ apply lookup_ge_None in Htask. rewrite length_imap in Htask.
        specialize (Hrange idx ltac:(now left)). lia. }
    apply bind_inv_Return in Hrun. destruct Hrun as (r & w1 & Hcap & Hrun). cbv beta in Hrun.
    apply bind_inv_Return in Hrun. destruct Hrun as (rs & w2 & Hrest & Hrun). cbv beta in Hrun.
    inversion Hrun; subst.
    destruct r as [e | h0]; [exfalso; apply (Hok idx e); now left |].
    rewrite list_lookup_imap in Htask.
    destruct (pairs !! idx) as [[dest [message attestation]] |]; [| discriminate Htask].
    simpl in Htask. inversion Htask; subst. clear Htask.
    unfold capture in Hcap.
    destruct (_receive_with_progress E sender gas dest_wallets idx dest message attestation w)
      as [[h1 | e |] wa] eqn:Htaskrun; inversion Hcap; subst.
    destruct (_receive_with_progress_returns _ _ _ _ _ _ _ _ Htaskrun) as [Hchain Htxs].
    destruct (IH ltac:(intros; apply Hrange; now right) _ _ _ Hrest
                 ltac:(intros i e Hin; apply (Hok i e); now right)) as [Horder Hall].
    split; [simpl; now rewrite Horder |].
    intros [| j] i h Hj; simpl in Hj.
    + inversion Hj; subst. now rewrite Nat.add_0_r.
    + rewrite <- (Hall j i h Hj). f_equal. lia.
Qed.

(** The slots filled from the finished futures. *)
Lemma store_results_sound {A} (finished : list (nat * (exn + A))) :
  forall slots w slots' w',
    store_results finished slots w = (Return slots', w') ->
    (forall idx e, (idx, inl e) ∉ finished)
    /\ (NoDup (map fst finished) ->
        forall idx a, (idx, inr a) ∈ finished -> slots' !! idx = Some a)
    /\ (forall i, i ∉ map fst finished -> slots' !! i = slots !! i).
Proof.
  induction finished as [| [idx [e | a]] finished IH]; intros slots w slots' w' Hrun;
    simpl in Hrun.
  - inversion Hrun; subst. repeat split; auto.
    + intros idx e Hin. inversion Hin.
    + intros _ idx a Hin. inversion Hin.
  - discriminate Hrun.
  - destruct (bool_decide (idx < length slots)%nat) eqn:Hlt; [| discriminate Hrun].
    apply bool_decide_eq_true in Hlt.
    destruct (IH _ _ _ _ Hrun) as (Hok & Hin & Hout).
    split; [| split].
    + intros i e Hi. apply elem_of_cons in Hi as [Heq | Hi]; [discriminate Heq |].
      now apply (Hok i e).
    + intros Hnodup i b Hb. simpl in Hnodup. apply NoDup_cons in Hnodup as [Hfresh Hnodup].
      apply elem_of_cons in Hb as [Heq | Hb].
      * inversion Heq; subst. rewrite (Hout _ Hfresh). now apply list_lookup_insert_eq.
      * now apply Hin.
    + intros i Hi. simpl in Hi. apply not_elem_of_cons in Hi as [Hne Hi].
      rewrite (Hout _ Hi). now apply list_lookup_insert_ne.
Qed.

End ReceivePhase.

(** *** The parallel entry points *)

Lemma keeps_run {A} (m : M A) w r w' :
  keeps_txs m -> m w = (r, w') -> txs_sent w' = txs_sent w.
Proof. intros Hm Hrun. specialize (Hm w). now rewrite Hrun in Hm. Qed.

Lemma capture_returned {A} (task : M A) w a w' :
  capture task w = (Return (inr a), w') -> task w = (Return a, w').
Proof.
  unfold capture. destruct (task w) as [[b | e |] w1]; intros H; inversion H; subst; reflexivity.
Qed.

Lemma poll_transfers_parallel_sound E fuel order transfers timeout poll_interval api_base_url
    max_workers w rs w' :
  poll_transfers_parallel E fuel order transfers timeout poll_interval api_base_url
                          max_workers w = (Return rs, w') ->
  Forall2 (fun query st =>
             ts_transaction_hash st = with_0x (q_transaction_hash query)
             /\ ts_source_domain st = q_source_domain query
             /\ is_complete st = true) transfers rs.
Proof.
  unfold poll_transfers_parallel. destruct transfers as [| q0 transfers0] eqn:Htransfers.
  { intros H. inversion H; subst. constructor. }
  rewrite <- Htransfers. clear Htransfers q0 transfers0. intros H.
  apply bind_inv_Return in H. destruct H as ([] & w0 & _ & H). cbv beta zeta in H.
  apply bind_inv_Return in H. destruct H as (finished & w1 & Hfinished & H). cbv beta in H.
  apply bind_inv_Return in H. destruct H as (results & w2 & Hgather & H). cbv beta in H.
  destruct (results_in_order_sound _ _ _ _ _ H) as (_ & Hlen & Hlookup).
  destruct (gather_results_sound _ _ _ _ _ Hgather) as (_ & Hfrom).
  pose proof (as_completed_finished _ _ _ _ _ Hfinished) as Htasks.
  apply Forall2_same_length_lookup_2; [now rewrite Hlen |].
  intros i query st Hq Hst.
  destruct (Hfrom i st (Hlookup i st Hst)) as [Hempty | Hin]; [discriminate Hempty |].
  rewrite Forall_forall in Htasks. specialize (Htasks _ Hin). cbv beta iota in Htasks.
  destruct Htasks as (task & wa & wb & Htask & Hcap).
  change (map ?f transfers) with (f <$> transfers) in Htask.
  rewrite list_lookup_fmap, Hq in Htask. simpl in Htask. inversion Htask; subst.
  apply capture_returned in Hcap.
  exact (poll_transfer_status_fields _ _ _ _ _ _ _ _ _ _ Hcap).
Qed.

Lemma poll_transfers_parallel_complete E fuel order transfers timeout poll_interval
    api_base_url max_workers w finished w1 :
  order ≡ₚ seq 0 (length transfers) ->
  0 < default (Z.of_nat (length transfers)) max_workers ->
  as_completed
    (map (fun query =>
            poll_transfer_status E fuel (q_source_domain query) (q_transaction_hash query)
                                 timeout poll_interval api_base_url) transfers)
    order w = (Return finished, w1) ->
  (forall idx e, (idx, inl e) ∉ finished) ->
  exists rs,
    poll_transfers_parallel E fuel order transfers timeout poll_interval api_base_url
                            max_workers w = (Return rs, w1)
    /\ length rs = length transfers
    /\ forall idx st, (idx, inr st) ∈ finished -> rs !! idx = Some st.
Proof.
  intros Hperm Hworkers Hfinished Hok.
  assert (Hrange : forall idx, idx ∈ order -> (idx < length transfers)%nat).
  { intros idx Hidx. rewrite Hperm in Hidx. apply elem_of_seq in Hidx. lia. }
  assert (Hnodup : NoDup order) by (rewrite Hperm; apply NoDup_seq).
  assert (Horder : map fst finished = order).
  { apply (as_completed_order _ _) in Hfinished; [exact Hfinished |].
    intros idx Hidx. rewrite length_map. now apply Hrange. }
  assert (Hnodup' : NoDup (map fst finished)) by (rewrite Horder; exact Hnodup).
  destruct (gather_results_complete finished Hok Hnodup' ∅ w1)
    as (results & Hgather & Hin & _).
  destruct (results_in_order_runs results (length transfers) w1) as [rs Hrs].
  { intros i Hi.
    assert (Hi' : i ∈ map fst finished).
    { rewrite Horder, Hperm. apply elem_of_seq. lia. }
    apply list_elem_of_fmap in Hi' as ([idx [e | st]] & -> & Hmem); simpl.
    - destruct (Hok _ _ Hmem).
    - exists st. now apply Hin. }
  destruct (results_in_order_sound _ _ _ _ _ Hrs) as (_ & Hlen & Hlookup).
  exists rs. split; [| split; [exact Hlen |]].
  - unfold poll_transfers_parallel. destruct transfers as [| q0 transfers0] eqn:Htransfers.
    + simpl in Hperm. apply Permutation_nil_r in Hperm. subst order.
      simpl in Hfinished. inversion Hfinished; subst.
      simpl in Hrs. inversion Hrs. reflexivity.
    + rewrite <- Htransfers in *. cbv zeta.
      assert (Hpool : ThreadPoolExecutor (default (Z.of_nat (length transfers)) max_workers) w
                      = (Return tt, w)).
      { unfold ThreadPoolExecutor.
        destruct (default (Z.of_nat (length transfers)) max_workers <=? 0) eqn:Hle;
          [apply Z.leb_le in Hle; lia | reflexivity]. }
      rewrite (bind_Return _ _ _ _ _ Hpool).
      rewrite (bind_Return _ _ _ _ _ Hfinished).
      rewrite (bind_Return _ _ _ _ _ Hgather).
      exact Hrs.
  - intros idx st Hmem.
    assert (Hidx : (idx < length rs)%nat).
    { rewrite Hlen. apply Hrange. rewrite <- Horder.
      apply list_elem_of_fmap. exists (idx, inr st). split; [reflexivity | exact Hmem]. }
    destruct (lookup_lt_is_Some_2 _ _ Hidx) as [a Ha].
    rewrite Ha. f_equal. pose proof (Hlookup _ _ Ha) as Hres.
    rewrite (Hin _ _ Hmem) in Hres. now inversion Hres.
Qed.

Lemma keeps_attest_futures E fuel attestation_timeout burns :
  Forall keeps_txs (imap (_attest_with_progress E fuel attestation_timeout) burns).
Proof.
  apply Forall_lookup. intros i task Htask.
  rewrite list_lookup_imap in Htask.
  destruct (burns !! i) as [b |]; [| discriminate Htask].
  inversion Htask; subst. unfold _attest_with_progress.
  apply keeps_get_attestation. intros callback Hc s a. inversion Hc; subst.
  apply keeps_on_phase.
Qed.

Section BridgeRun.

Variables (E : Env) (fuel : nat) (attest_order receive_order : list nat)
          (source_web3 : Web3) (source_vault : string)
          (destinations : list CCTPBridgeDestination) (sender : string)
          (hot_wallet : option HotWallet) (simulate : bool)
          (test_attesters : option (gmap Z string)) (attestation_timeout gas : Z)
          (max_workers : option Z) (progress : bool).

Local Abbreviation n_dest := (length destinations).

(** What a returned call of the bridge has done, phase by phase. *)
Lemma bridge_usdc_cctp_parallel_phases w rs w' :
  bridge_usdc_cctp_parallel E fuel attest_order receive_order source_web3 source_vault
                            destinations sender hot_wallet simulate test_attesters
                            attestation_timeout gas max_workers progress w
  = (Return rs, w') ->
  exists (burns : list CCTPBurnResult) (hashes : list string),
    length burns = n_dest
    /\ length rs = n_dest
    /\ (forall i d b, destinations !! i = Some d -> burns !! i = Some b ->
          b_dest_chain_id b = chain_id (dest_web3 d)
          /\ b_amount b = amount d
          /\ b_source_chain_id b = chain_id source_web3
          /\ chain E (txs_sent w + 2 * i + 1)%nat = TxConfirmed (b_burn_tx_hash b))
    /\ (forall i b r, burns !! i = Some b -> rs !! i = Some r ->
          r_burn_tx_hash r = b_burn_tx_hash b
          /\ r_amount r = b_amount b
          /\ r_source_chain_id r = b_source_chain_id b
          /\ r_dest_chain_id r = b_dest_chain_id b
          /\ hashes !! i = Some (r_receive_tx_hash r))
    /\ (receive_order ≡ₚ seq 0 n_dest ->
        forall j idx h,
          (if simulate then seq 0 n_dest else receive_order) !! j = Some idx ->
          hashes !! idx = Some h ->
          chain E (txs_sent w + 2 * n_dest + j)%nat = TxConfirmed h).
Proof.
  unfold bridge_usdc_cctp_parallel.
  destruct destinations as [| d0 destinations0] eqn:Hdests.
  { intros H. inversion H; subst. exists [], []. simpl.
    repeat split; try discriminate; intros; discriminate. }
  rewrite <- Hdests. clear Hdests d0 destinations0. intros H.
  apply bind_inv_Return in H. destruct H as ([] & w0 & Hassert & H). cbv beta zeta in H.
  assert (Htxs0 : txs_sent w0 = txs_sent w).
  { refine (keeps_run _ _ _ _ _ Hassert).
    destruct simulate; [apply keeps_py_assert | apply keeps_ret]. }
  apply bind_inv_Return in H. destruct H as ([] & w1 & Htracker & H). cbv beta in H.
  assert (Htxs1 : txs_sent w1 = txs_sent w0).
  { refine (keeps_run _ _ _ _ _ Htracker). apply keeps_modify_tracker. }
  apply bind_inv_Return in H. destruct H as (burns & w2 & Hburns & H). cbv beta in H.
  destruct (burns_in_order _ _ _ _ _ _ _ _ _ _ _ Hburns) as (Htxs2 & Hlen_burns & Hburn).
  apply bind_inv_Return in H. destruct H as (data & w3 & Hdata & H). cbv beta in H.
  assert (Htxs3 : txs_sent w3 = txs_sent w2).
  { refine (keeps_run _ _ _ _ _ Hdata). destruct simulate.
    - apply keeps_for_enumerate. intros idx b.
      destruct (default ∅ test_attesters !! b_dest_chain_id b); [| apply keeps_raise].
      apply keeps_bind; [apply keeps_update_phase |]. intros _.
      apply keeps_get_attestation. intros callback Hc. discriminate Hc.
    - apply keeps_bind; [apply keeps_ThreadPoolExecutor |]. intros _.
      apply keeps_bind; [apply keeps_for_enumerate; intros; apply keeps_update_phase |].
      intros _.
      apply keeps_bind; [apply keeps_as_completed, keeps_attest_futures |]. intros finished.
      apply keeps_bind; [apply keeps_gather_results |]. intros indexed.
      apply keeps_results_in_order. }
  apply bind_inv_Return in H. destruct H as (wallets & w4 & Hwallets & H). cbv beta in H.
  assert (Htxs4 : txs_sent w4 = txs_sent w3).
  { refine (keeps_run _ _ _ _ _ Hwallets). destruct hot_wallet.
    - apply keeps_build_dest_wallets.
    - apply keeps_ret. }
  apply bind_inv_Return in H. destruct H as (hashes & w5 & Hreceive & H). cbv beta in H.
  apply bind_inv_Return in H. destruct H as ([] & w6 & _ & H). cbv beta in H.
  destruct (results_assembled _ _ _ _ _ _ H) as (Hlen_rs & Hresult).
  exists burns, hashes.
  split; [exact Hlen_burns |].
  split; [rewrite Hlen_rs, length_zip, Hlen_burns; lia |].
  split.
  { intros i d b Hd Hb. destruct (Hburn i d b Hd Hb) as (H1 & H2 & H3 & H4).
    repeat split; try assumption. rewrite <- H4. f_equal. lia. }
  split.
  { intros i b r Hb Hr.
    assert (Hi : (i < n_dest)%nat) by (rewrite <- Hlen_burns; eapply lookup_lt_Some; eauto).
    destruct (lookup_lt_is_Some_2 destinations i Hi) as [d Hd].
    apply (Hresult i b d r); [| exact Hr].
    apply lookup_zip_with_Some. exists b, d. auto. }
  intros Hperm j idx h Hj Hh.
  assert (Hbase : (txs_sent w + 2 * n_dest + j = txs_sent w4 + j)%nat) by lia.
  rewrite Hbase. clear Hbase.
  destruct simulate.
  - destruct (receives_in_sequence _ _ _ _ _ _ _ _ Hreceive) as (_ & Hseq).
    apply lookup_seq in Hj as [-> _]. simpl. now apply Hseq.
  - apply bind_inv_Return in Hreceive. destruct Hreceive as ([] & w4' & Hpool & Hreceive).
    cbv beta in Hreceive.
    assert (Hw4 : w4' = w4).
    { unfold ThreadPoolExecutor in Hpool.
      destruct (_ <=? 0); inversion Hpool; reflexivity. }
    subst w4'.
    apply bind_inv_Return in Hreceive. destruct Hreceive as (finished & w4'' & Hdone & Hstore).
    cbv beta in Hstore.
    destruct (store_results_sound _ _ _ _ _ Hstore) as (Hok & Hin & Hout).
    (* every attestation is there *)
    assert (Hlen_data : length data = n_dest).
    { apply bind_inv_Return in Hdata. destruct Hdata as ([] & wa & _ & Hdata). cbv beta in Hdata.
      apply bind_inv_Return in Hdata. destruct Hdata as (units & wb & _ & Hdata). cbv beta in Hdata.
      apply bind_inv_Return in Hdata. destruct Hdata as (fin & wc & _ & Hdata). cbv beta in Hdata.
      apply bind_inv_Return in Hdata. destruct Hdata as (ix & wd & _ & Hdata). cbv beta in Hdata.
      exact (proj1 (proj2 (results_in_order_sound _ _ _ _ _ Hdata))). }
    destruct (receives_as_completed E sender gas wallets (zip destinations data) receive_order)
      with (w := w4) (finished := finished) (w' := w4'') as (Horder & Hchain).
    + intros i Hi. rewrite Hperm in Hi. apply elem_of_seq in Hi.
      rewrite length_zip, Hlen_data. lia.
    + exact Hdone.
    + exact Hok.
    + assert (Hnodup : NoDup (map fst finished)).
      { rewrite Horder, Hperm. apply NoDup_seq. }
      assert (Hfj : exists r, finished !! j = Some (idx, r)).
      { assert (Hmj : map fst finished !! j = Some idx) by now rewrite Horder.
        change (map fst finished) with (fst <$> finished) in Hmj.
        rewrite list_lookup_fmap in Hmj.
        destruct (finished !! j) as [[i r] |]; [| discriminate Hmj].
        simpl in Hmj. inversion Hmj; subst. now exists r. }
      destruct Hfj as [[e | h'] Hfj].
      * destruct (Hok idx e). eapply list_elem_of_lookup_2. exact Hfj.
      * pose proof (Hin Hnodup idx h' ltac:(eapply list_elem_of_lookup_2; exact Hfj)) as Hslot.
        rewrite Hh in Hslot. inversion Hslot; subst.
        exact (Hchain j idx h' Hfj).
Qed.

End BridgeRun.

(** C1: both parallel entry points answer in the order of their input,
    whatever the order in which the polls, attestations and receives
    finish.  For [poll_transfers_parallel], under every completion order
    the i-th status returned is a complete status of the i-th transfer
    asked for (its source domain and its 0x-prefixed transaction hash);
    and when the completion order is any permutation of the submitted
    polls and every poll returns, the call returns, with the status of
    the poll submitted under index i at position i.  For
    [bridge_usdc_cctp_parallel], under every pair of completion orders
    the i-th result carries the destination chain, the amount and the
    source chain of the i-th destination and the hash of the burn sent
    for it (the second of the two transactions of the i-th burn); and
    with the receives finishing in any permutation, the receive that was
    the j-th to be sent is reported in the result of the destination it
    was made for. *)
Theorem results_follow_the_input_order (E : Env) (fuel : nat) :
  (forall order transfers timeout poll_interval api_base_url max_workers w rs w',
      poll_transfers_parallel E fuel order transfers timeout poll_interval api_base_url
                              max_workers w = (Return rs, w') ->
      Forall2 (fun query st =>
                 ts_transaction_hash st = with_0x (q_transaction_hash query)
                 /\ ts_source_domain st = q_source_domain query
                 /\ is_complete st = true) transfers rs)
  /\ (forall order transfers timeout poll_interval api_base_url max_workers w finished w1,
      order ≡ₚ seq 0 (length transfers) ->
      0 < default (Z.of_nat (length transfers)) max_workers ->
      as_completed
        (map (fun query =>
                poll_transfer_status E fuel (q_source_domain query) (q_transaction_hash query)
                                     timeout poll_interval api_base_url) transfers)
        order w = (Return finished, w1) ->
      (forall idx e, (idx, inl e) ∉ finished) ->
      exists rs,
        poll_transfers_parallel E fuel order transfers timeout poll_interval api_base_url
                                max_workers w = (Return rs, w1)
        /\ length rs = length transfers
        /\ forall idx st, (idx, inr st) ∈ finished -> rs !! idx = Some st)
  /\ (forall attest_order receive_order source_web3 source_vault destinations sender
             hot_wallet simulate test_attesters attestation_timeout gas max_workers progress
             w rs w',
      bridge_usdc_cctp_parallel E fuel attest_order receive_order source_web3 source_vault
                                destinations sender hot_wallet simulate test_attesters
                                attestation_timeout gas max_workers progress w
      = (Return rs, w') ->
      Forall2 (fun dest r =>
                 r_dest_chain_id r = chain_id (dest_web3 dest)
                 /\ r_amount r = amount dest
                 /\ r_source_chain_id r = chain_id source_web3) destinations rs
      /\ (forall i r, rs !! i = Some r ->
            chain E (txs_sent w + 2 * i + 1)%nat = TxConfirmed (r_burn_tx_hash r))
      /\ (receive_order ≡ₚ seq 0 (length destinations) ->
          forall j idx r,
            (if simulate then seq 0 (length destinations) else receive_order) !! j = Some idx ->
            rs !! idx = Some r ->
            chain E (txs_sent w + 2 * length destinations + j)%nat
            = TxConfirmed (r_receive_tx_hash r))).
Proof.
  split; [| split].
  - intros order transfers timeout poll_interval api_base_url max_workers w rs w'.
    apply poll_transfers_parallel_sound.
  - intros order transfers timeout poll_interval api_base_url max_workers w finished w1.
    apply poll_transfers_parallel_complete.
  - intros attest_order receive_order source_web3 source_vault destinations sender
           hot_wallet simulate test_attesters attestation_timeout gas max_workers progress
           w rs w' Hrun.
    destruct (bridge_usdc_cctp_parallel_phases _ _ _ _ _ _ _ _ _ _ _ _ _ _ _ _ _ _ Hrun)
      as (burns & hashes & Hlen_burns & Hlen_rs & Hburn & Hresult & Hreceive).
    assert (Hb : forall i r, rs !! i = Some r ->
                 exists d b, destinations !! i = Some d /\ burns !! i = Some b).
    { intros i r Hr. pose proof (lookup_lt_Some _ _ _ Hr) as Hi.
      destruct (lookup_lt_is_Some_2 destinations i ltac:(lia)) as [d Hd].
      destruct (lookup_lt_is_Some_2 burns i ltac:(lia)) as [b Hbi].
      now exists d, b. }
    split; [| split].
    + apply Forall2_same_length_lookup_2; [now rewrite Hlen_rs |].
      intros i d r Hd Hr. destruct (Hb i r Hr) as (d' & b & Hd' & Hbi).
      rewrite Hd in Hd'. inversion Hd'; subst d'.
      destruct (Hburn i d b Hd Hbi) as (H1 & H2 & H3 & _).
      destruct (Hresult i b r Hbi Hr) as (_ & H5 & H6 & H7 & _).
      repeat split; congruence.
    + intros i r Hr. destruct (Hb i r Hr) as (d & b & Hd & Hbi).
      destruct (Hburn i d b Hd Hbi) as (_ & _ & _ & H4).
      destruct (Hresult i b r Hbi Hr) as (H5 & _).
      now rewrite H5.
    + intros Hperm j idx r Hj Hr. destruct (Hb idx r Hr) as (d & b & Hd & Hbi).
      destruct (Hresult idx b r Hbi Hr) as (_ & _ & _ & _ & Hh).
      exact (Hreceive Hperm j idx _ Hj Hh).
Qed.

(** Two transfers polled, and two destinations bridged from chain 1, with
    the second finishing first in every parallel phase: the answers
    stand in input order, and the receive sent first ([tx4]) is reported
    for the second destination. *)
Lemma results_follow_the_input_order_witness :
  let E := Scenario.env (Scenario.always Scenario.completed) Scenario.ledger in
  let transfers := [mkCCTPTransferQuery 3 "0xabc"; mkCCTPTransferQuery 6 "def"] in
  let destinations := [mkCCTPBridgeDestination (mkWeb3 42161) "0xsafeA" 100;
                       mkCCTPBridgeDestination (mkWeb3 8453) "0xsafeB" 250] in
  (exists rs w',
      poll_transfers_parallel E 5 [1; 0]%nat transfers (seconds 300) (seconds 10)
                              "https://iris-api.circle.com" None Scenario.fresh
      = (Return rs, w')
      /\ Forall2 (fun query st =>
                    ts_transaction_hash st = with_0x (q_transaction_hash query)
                    /\ ts_source_domain st = q_source_domain query
                    /\ is_complete st = true) transfers rs
      /\ map ts_transaction_hash rs = ["0xabc"; "0xdef"])
  /\ (exists finished w1 rs,
      as_completed
        (map (fun query =>
                poll_transfer_status E 5 (q_source_domain query) (q_transaction_hash query)
                                     (seconds 300) (seconds 10) "https://iris-api.circle.com")
             transfers)
        [1; 0]%nat Scenario.fresh = (Return finished, w1)
      /\ map fst finished = [1; 0]%nat
      /\ poll_transfers_parallel E 5 [1; 0]%nat transfers (seconds 300) (seconds 10)
                                 "https://iris-api.circle.com" None Scenario.fresh
         = (Return rs, w1)
      /\ length rs = length transfers
      /\ forall idx st, (idx, inr st) ∈ finished -> rs !! idx = Some st)
  /\ (exists rs w',
      bridge_usdc_cctp_parallel E 5 [1; 0]%nat [1; 0]%nat (mkWeb3 1) "0xvault" destinations
                                "0xasset_manager" None false None (seconds 300) 1000000
                                None false Scenario.fresh
      = (Return rs, w')
      /\ Forall2 (fun dest r =>
                    r_dest_chain_id r = chain_id (dest_web3 dest)
                    /\ r_amount r = amount dest
                    /\ r_source_chain_id r = chain_id (mkWeb3 1)) destinations rs
      /\ (forall i r, rs !! i = Some r ->
            Scenario.ledger (0 + 2 * i + 1) = TxConfirmed (r_burn_tx_hash r))
      /\ (forall j idx r, [1; 0]%nat !! j = Some idx -> rs !! idx = Some r ->
            Scenario.ledger (0 + 2 * 2 + j) = TxConfirmed (r_receive_tx_hash r))
      /\ map r_burn_tx_hash rs = ["tx1"; "tx3"]
      /\ map r_receive_tx_hash rs = ["tx5"; "tx4"]).
Proof.
  intros E transfers destinations.
  assert (Hswap : [1; 0]%nat ≡ₚ seq 0 2) by apply Permutation_swap.
  split; [| split].
  - destruct (poll_transfers_parallel E 5 [1; 0]%nat transfers (seconds 300) (seconds 10)
                                      "https://iris-api.circle.com" None Scenario.fresh)
      as [[rs | e |] w'] eqn:Hrun; try (vm_compute in Hrun; discriminate Hrun).
    exists rs, w'. split; [reflexivity |]. split.
    + exact (proj1 (results_follow_the_input_order E 5%nat) _ _ _ _ _ _ _ _ _ Hrun).
    + vm_compute in Hrun. inversion Hrun. reflexivity.
  - destruct (as_completed
                (map (fun query =>
                        poll_transfer_status E 5 (q_source_domain query)
                                             (q_transaction_hash query) (seconds 300)
                                             (seconds 10) "https://iris-api.circle.com")
                     transfers)
                [1; 0]%nat Scenario.fresh)
      as [[finished | e |] w1] eqn:Hdone; try (vm_compute in Hdone; discriminate Hdone).
    assert (Hfinished : map fst finished = [1; 0]%nat
                        /\ forall idx e, (idx, inl e) ∉ finished).
    { vm_compute in Hdone. inversion Hdone. split; [reflexivity |].
      intros idx e Hin.
      repeat (apply elem_of_cons in Hin as [Hin | Hin]; [discriminate Hin |]).
      inversion Hin. }
    destruct Hfinished as [Horder Hok].
    destruct (proj1 (proj2 (results_follow_the_input_order E 5%nat))
                [1; 0]%nat transfers (seconds 300) (seconds 10) "https://iris-api.circle.com"
                None Scenario.fresh finished w1 Hswap ltac:(simpl; lia) Hdone Hok)
      as (rs & Hrun & Hlen & Hat).
    exists finished, w1, rs. repeat split; assumption.
  - destruct (bridge_usdc_cctp_parallel E 5 [1; 0]%nat [1; 0]%nat (mkWeb3 1) "0xvault"
                                        destinations "0xasset_manager" None false None
                                        (seconds 300) 1000000 None false Scenario.fresh)
      as [[rs | e |] w'] eqn:Hrun; try (vm_compute in Hrun; discriminate Hrun).
    destruct (proj2 (proj2 (results_follow_the_input_order E 5%nat))
                _ _ _ _ _ _ _ _ _ _ _ _ _ _ _ _ Hrun) as (Hinput & Hburn & Hreceive).
    exists rs, w'. split; [reflexivity |]. split; [exact Hinput |].
    split; [exact Hburn |]. split; [exact (Hreceive Hswap) |].
    vm_compute in Hrun. inversion Hrun. split; reflexivity.
Defined.

(** * Further properties *)

(** ** Computations that only compute *)

Lemma only_computes_ret {A} (a : A) : only_computes (ret a).
Proof. intros w. split; [reflexivity | exact I]. Qed.

Lemma only_computes_mret {A} (a : A) : only_computes (mret a).
Proof. intros w. split; [reflexivity | exact I]. Qed.

Lemma only_computes_raise {A} e : is_data_error e = true -> only_computes (@raise A e).
Proof. intros He w. split; [reflexivity | exact He]. Qed.

Lemma only_computes_bind {A B} (m : M A) (k : A -> M B) :
  only_computes m -> (forall a, only_computes (k a)) -> only_computes (m ≫= k).
Proof.
  intros Hm Hk w. unfold mbind, M_bind. destruct (Hm w) as [Hw Hr].
  destruct (m w) as [[a | e |] w1]; simpl in *; subst; [apply Hk | auto | auto].
Qed.

Lemma only_computes_try_except {A} (m : M A) catches handler :
  only_computes m -> (forall e, only_computes (handler e)) ->
  only_computes (try_except m catches handler).
Proof.
  intros Hm Hh w. unfold try_except. destruct (Hm w) as [Hw Hr].
  destruct (m w) as [[a | e |] w1]; simpl in *; subst; auto.
  destruct (catches e); [apply Hh | auto].
Qed.

Lemma only_computes_dict_get v key dflt : only_computes (dict_get v key dflt).
Proof. intros w. destruct v; split; reflexivity || exact I. Qed.

Lemma only_computes_subscript0 v : only_computes (subscript0 v).
Proof. intros w. destruct v as [| | | | [|] | [|] |]; split; reflexivity || exact I. Qed.

Lemma only_computes_bytes_fromhex v : only_computes (bytes_fromhex_replace_0x v).
Proof.
  intros w. destruct v; try (split; reflexivity || exact I).
  simpl. destruct (fromhex (replace_0x s)); split; reflexivity || exact I.
Qed.

Lemma only_computes_py_int E v : only_computes (py_int E v).
Proof.
  intros w. destruct v as [| b | n | x | s | l | d]; try (split; reflexivity || exact I).
  - destruct x; split; reflexivity || exact I.
  - simpl. destruct (int_of_str E s); split; reflexivity || exact I.
Qed.

Lemma only_computes_not_in_None_PENDING v : only_computes (not_in_None_PENDING v).
Proof.
  intros w. unfold not_in_None_PENDING. destruct (hashable v); split; reflexivity || exact I.
Qed.

Create HintDb computes.

#[local] Hint Resolve only_computes_ret only_computes_mret only_computes_dict_get
  only_computes_subscript0 only_computes_bytes_fromhex only_computes_py_int
  only_computes_not_in_None_PENDING : computes.

Ltac computes :=
  repeat first
    [ solve [eauto with computes]
    | match goal with
      | |- forall _, _ => intro
      | |- only_computes (raise _) => apply only_computes_raise; reflexivity
      | |- only_computes (if ?c then _ else _) => destruct c
      | |- only_computes (match ?x with _ => _ end) => destruct x
      | |- only_computes (let _ := _ in _) => cbv zeta
      | |- only_computes (try_except _ _ _) => apply only_computes_try_except
      | |- only_computes (_ ≫= _) => apply only_computes_bind
      end ].

Lemma only_computes_parse_transfer_status E msg source_domain transaction_hash :
  only_computes (_parse_transfer_status E msg source_domain transaction_hash).
Proof. unfold _parse_transfer_status. computes. Qed.

#[local] Hint Resolve only_computes_parse_transfer_status : computes.

(** What is left of a computation that only computes. *)
Lemma only_computes_run {A} (m : M A) w :
  only_computes m ->
  (exists a, m w = (Return a, w)) \/ (exists e, m w = (Raise e, w) /\ is_data_error e = true).
Proof.
  intros Hm. destruct (Hm w) as [Hw Hr].
  destruct (m w) as [[a | e |] w1]; simpl in *; subst; [eauto | eauto | contradiction].
Qed.

(** ** [fetch_transfer_status]: one request, no retry *)

(** The whole of [fetch_transfer_status], read off the reply it gets. *)
Lemma fetch_transfer_status_run E source_domain transaction_hash api_base_url w :
  let hash := with_0x transaction_hash in
  let w1 := after_request E (messages_url api_base_url source_domain hash) w in
  fetch_transfer_status E source_domain transaction_hash api_base_url w =
    (match reply (iris E (http_calls w)) with
     | TransportFailure => Raise ConnectionError
     | Replied r =>
         if status_code r =? HTTP_NOT_FOUND then Return None
         else if is_error_status (status_code r) then Raise (HTTPError (status_code r))
         else
           match body r with
           | None => Raise JSONDecodeError
           | Some (JDict d) =>
               let messages := default (JList []) (d !! "messages") in
               if truthy messages then
                 match fst (subscript0 messages w1) with
                 | Return msg =>
                     match fst (_parse_transfer_status E msg source_domain hash w1) with
                     | Return st => Return (Some st)
                     | Raise e => Raise e
                     | OutOfFuel => OutOfFuel
                     end
                 | Raise e => Raise e
                 | OutOfFuel => OutOfFuel
                 end
               else Return None
           | Some _ => Raise AttributeError
           end
     end, w1).
Proof.
  intros hash w1. unfold fetch_transfer_status. cbv zeta. fold hash.
  unfold mbind at 1, M_bind at 1, requests_get. cbv zeta.
  subst w1. unfold after_request. set (w1 := mkWorld _ _ _ _ _).
  destruct (reply (iris E (http_calls w))) as [| r]; [reflexivity |].
  destruct (status_code r =? HTTP_NOT_FOUND); [reflexivity |].
  unfold mbind at 1, M_bind at 1, raise_for_status.
  destruct (is_error_status (status_code r)); [reflexivity |].
  unfold ret at 1. unfold mbind at 1, M_bind at 1, response_json.
  destruct (body r) as [data |]; [| reflexivity].
  unfold ret at 1. unfold mbind at 1, M_bind at 1.
  destruct data as [| b | n | fl | s | l | d]; try reflexivity.
  simpl dict_get. unfold ret at 1. cbv beta iota zeta.
  destruct (truthy (default (JList []) (d !! "messages"))); cbn [negb]; cbv beta iota;
    [| reflexivity].
  unfold mbind at 1, M_bind at 1.
  destruct (only_computes_subscript0 (default (JList []) (d !! "messages")) w1) as [Hw Hr].
  destruct (subscript0 (default (JList []) (d !! "messages")) w1) as [[msg | e |] w2];
    simpl in Hw, Hr; subst w2; [| reflexivity | contradiction].
  unfold mbind at 1, M_bind at 1. simpl fst.
  destruct (only_computes_parse_transfer_status E msg source_domain hash w1) as [Hw Hr'].
  destruct (_parse_transfer_status E msg source_domain hash w1) as [[st | e |] w2];
    simpl in Hw, Hr'; subst w2; try reflexivity; contradiction.
Qed.

(** X1: [fetch_transfer_status] does not block or retry.  Whatever the
    service answers, the call makes exactly one request, to the
    messages URL of the 0x-prefixed hash, never sleeps, submits nothing,
    and comes to an end. *)
Theorem fetch_transfer_status_makes_one_request
    (E : Env) (source_domain : Z) (transaction_hash api_base_url : string) (w : World) :
  let run := fetch_transfer_status E source_domain transaction_hash api_base_url w in
  snd run = mkWorld (now w + Z.of_N (latency (iris E (http_calls w)))) (S (http_calls w))
                    (txs_sent w) (tracker w)
                    (trace w ++ [EvHttpGet (messages_url api_base_url source_domain
                                                         (with_0x transaction_hash))])
  /\ fst run <> OutOfFuel.
Proof.
  rewrite (fetch_transfer_status_run E source_domain transaction_hash api_base_url w).
  split; [reflexivity |]. simpl fst.
  destruct (reply (iris E (http_calls w))) as [| r]; [discriminate |].
  destruct (status_code r =? HTTP_NOT_FOUND); [discriminate |].
  destruct (is_error_status (status_code r)); [discriminate |].
  destruct (body r) as [[| b | n | fl | s | l | d] |]; try discriminate.
  cbv zeta. destruct (truthy _); [| discriminate].
  set (w1 := after_request _ _ _).
  destruct (only_computes_subscript0 (default (JList []) (d !! "messages")) w1) as [_ Hs].
  destruct (fst (subscript0 _ w1)) as [msg | e |]; [| discriminate | contradiction].
  destruct (only_computes_parse_transfer_status E msg source_domain
              (with_0x transaction_hash) w1) as [_ Hp].
  destruct (fst (_parse_transfer_status _ _ _ _ w1)); [discriminate | discriminate | contradiction].
Qed.

(** X2: what [fetch_transfer_status] makes of the reply.  A 404 and an
    answer without messages both give [None]; any other error status (a
    429 as well) raises [HTTPError]; a failed transport raises
    [ConnectionError]; a payload that is no JSON raises
    [JSONDecodeError]. *)
Theorem fetch_transfer_status_reads_the_reply
    (E : Env) (source_domain : Z) (transaction_hash api_base_url : string) (w : World) :
  let result := fst (fetch_transfer_status E source_domain transaction_hash api_base_url w) in
  (reply (iris E (http_calls w)) = TransportFailure -> result = Raise ConnectionError)
  /\ (forall r,
        reply (iris E (http_calls w)) = Replied r ->
        (status_code r = 404 -> result = Return None)
        /\ (status_code r <> 404 -> 400 <= status_code r < 600 ->
            result = Raise (HTTPError (status_code r)))
        /\ (~ 400 <= status_code r < 600 -> body r = None -> result = Raise JSONDecodeError)
        /\ (~ 400 <= status_code r < 600 ->
            forall d, body r = Some (JDict d) ->
                      d !! "messages" = None \/ d !! "messages" = Some (JList []) ->
                      result = Return None)).
Proof.
  intros result. subst result.
  rewrite (fetch_transfer_status_run E source_domain transaction_hash api_base_url w).
  simpl fst. split.
  - intros ->. reflexivity.
  - intros r ->.
    assert (Herr : forall c, ~ 400 <= c < 600 -> (c =? HTTP_NOT_FOUND) = false
                                                /\ is_error_status c = false).
    { intros c Hc. unfold HTTP_NOT_FOUND, is_error_status. split; [lia |].
      apply andb_false_iff. lia. }
    split; [| split; [| split]].
    + intros ->. reflexivity.
    + intros Hne Hrange.
      replace (status_code r =? HTTP_NOT_FOUND) with false by (unfold HTTP_NOT_FOUND; lia).
      unfold is_error_status.
      replace ((400 <=? status_code r) && (status_code r <? 600)) with true; [reflexivity |].
      symmetry. apply andb_true_iff. lia.
    + intros Hc Hbody. destruct (Herr _ Hc) as [-> ->]. now rewrite Hbody.
    + intros Hc d Hbody Hmsgs. destruct (Herr _ Hc) as [-> ->]. rewrite Hbody.
      destruct Hmsgs as [-> | ->]; reflexivity.
Qed.

(** A transfer that is not indexed, a rate-limited client and a broken
    connection. *)
Lemma fetch_transfer_status_reads_the_reply_witness :
  fst (fetch_transfer_status (Scenario.env (Scenario.always Scenario.not_found) Scenario.ledger)
                             3 "0xabc" "https://iris-api.circle.com" Scenario.fresh)
  = Return None
  /\ fst (fetch_transfer_status
            (Scenario.env (Scenario.always (mkResponse 429 None)) Scenario.ledger)
            3 "0xabc" "https://iris-api.circle.com" Scenario.fresh)
     = Raise (HTTPError 429)
  /\ fst (fetch_transfer_status
            (Scenario.env (fun _ => mkExchange 30000 TransportFailure) Scenario.ledger)
            3 "0xabc" "https://iris-api.circle.com" Scenario.fresh)
     = Raise ConnectionError.
Proof.
  split; [| split].
  - apply (proj2 (fetch_transfer_status_reads_the_reply
                    (Scenario.env (Scenario.always Scenario.not_found) Scenario.ledger)
                    3 "0xabc" "https://iris-api.circle.com" Scenario.fresh)
             Scenario.not_found eq_refl).
    reflexivity.
  - apply (proj2 (fetch_transfer_status_reads_the_reply
                    (Scenario.env (Scenario.always (mkResponse 429 None)) Scenario.ledger)
                    3 "0xabc" "https://iris-api.circle.com" Scenario.fresh)
             (mkResponse 429 None) eq_refl); simpl; lia.
  - apply (proj1 (fetch_transfer_status_reads_the_reply
                    (Scenario.env (fun _ => mkExchange 30000 TransportFailure) Scenario.ledger)
                    3 "0xabc" "https://iris-api.circle.com" Scenario.fresh)).
    reflexivity.
Defined.

(** ** [_parse_transfer_status] *)

(** [int(v)] where it succeeds, 0 where it raises [ValueError] or
    [TypeError]. *)
Lemma dest_domain_step E (d : gmap string json) w n w' :
  try_except
    (v ← dict_get (JDict d) "destinationDomain" (JNum 0); py_int E v)
    (fun e => match e with ValueError | TypeError => true | _ => false end)
    (fun _ => ret 0) w = (Return n, w') ->
  w' = w
  /\ n = match default (JNum 0) (d !! "destinationDomain") with
         | JNum k => k
         | JBool b => if b then 1 else 0
         | JFloat (S754_finite sign mantissa exponent) => float_trunc sign mantissa exponent
         | JStr s => default 0 (int_of_str E s)
         | _ => 0
         end.
Proof.
  unfold try_except. unfold mbind, M_bind. simpl dict_get. unfold ret at 1.
  destruct (default (JNum 0) (d !! "destinationDomain")) as [| b | k | fl | s | l | d']; simpl;
    try (intros H; inversion H; subst; split; reflexivity).
  - destruct fl; simpl; intros H; inversion H; subst; split; reflexivity.
  - destruct (int_of_str E s); simpl; intros H; inversion H; subst; split; reflexivity.
Qed.

Lemma payload_step (v : json) (skip : string) w r w' :
  (if truthy v && negb (eq_str v skip)
   then b ← bytes_fromhex_replace_0x v; ret (Some b)
   else ret None) w = (Return r, w') ->
  w' = w
  /\ (r = None <-> truthy v = false \/ v = JStr skip)
  /\ (forall bs, r = Some bs -> exists s, v = JStr s /\ fromhex (replace_0x s) = Some bs).
Proof.
  destruct (truthy v) eqn:Htruthy; simpl.
  - destruct (eq_str v skip) eqn:Hskip; simpl.
    + intros H. inversion H; subst. split; [reflexivity |]. split.
      * split; [intros _; right; now apply eq_str_true | reflexivity].
      * intros bs Hbs. discriminate Hbs.
    + intros H. apply bind_inv_Return in H. destruct H as (b & w1 & Hb & H).
      inversion H; subst. clear H.
      destruct v as [| | | | s | |]; simpl in Hb; try discriminate Hb.
      destruct (fromhex (replace_0x s)) as [bs |] eqn:Hhex; inversion Hb; subst.
      split; [reflexivity |]. split.
      * split; [discriminate |]. intros [Hf | Heq]; [discriminate Hf |].
        inversion Heq; subst. simpl in Hskip. rewrite String.eqb_refl in Hskip.
        discriminate Hskip.
      * intros bs' Hbs. inversion Hbs; subst. eauto.
  - intros H. inversion H; subst. split; [reflexivity |]. split.
    + split; [intros _; now left | reflexivity].
    + intros bs Hbs. discriminate Hbs.
Qed.

(** Everything a returned [_parse_transfer_status] says about the
    message it was given. *)
Lemma _parse_transfer_status_inv E msg source_domain transaction_hash w st w' :
  _parse_transfer_status E msg source_domain transaction_hash w = (Return st, w') ->
  exists m,
    msg = JDict m
    /\ w' = w
    /\ ts_status st = default (JStr "") (m !! "status")
    /\ (ts_attestation st = None <->
        truthy (default JNull (m !! "attestation")) = false
        \/ default JNull (m !! "attestation") = JStr "PENDING")
    /\ (forall bs, ts_attestation st = Some bs ->
          exists s, default JNull (m !! "attestation") = JStr s
                    /\ fromhex (replace_0x s) = Some bs)
    /\ (ts_message st = None <->
        truthy (default (JStr "") (m !! "message")) = false
        \/ default (JStr "") (m !! "message") = JStr "0x")
    /\ (forall bs, ts_message st = Some bs ->
          exists s, default (JStr "") (m !! "message") = JStr s
                    /\ fromhex (replace_0x s) = Some bs)
    /\ ts_dest_domain st =
         match default (JDict ∅) (m !! "decodedMessage") with
         | JDict d =>
             match default (JNum 0) (d !! "destinationDomain") with
             | JNum k => k
             | JBool b => if b then 1 else 0
             | JFloat (S754_finite sign mantissa exponent) =>
                 float_trunc sign mantissa exponent
             | JStr s => default 0 (int_of_str E s)
             | _ => 0
             end
         | _ => 0
         end
    /\ (truthy (default (JDict ∅) (m !! "decodedMessage")) = true ->
        exists d, default (JDict ∅) (m !! "decodedMessage") = JDict d)
    /\ ts_nonce st = default JNull (m !! "eventNonce")
    /\ ts_delay_reason st = default JNull (m !! "delayReason")
    /\ ts_cctp_version st = default JNull (m !! "cctpVersion")
    /\ ts_source_domain st = source_domain
    /\ ts_transaction_hash st = transaction_hash.
Proof.
  intros H. unfold _parse_transfer_status in H.
  destruct msg as [| | | | | | m]; try discriminate H. exists m. split; [reflexivity |].
  apply bind_inv_Return in H. destruct H as (status & wx1 & Hs & H). cbv beta in H.
  inversion Hs; subst; clear Hs.
  apply bind_inv_Return in H. destruct H as (a & wx2 & Hs & H). cbv beta in H.
  inversion Hs; subst; clear Hs.
  apply bind_inv_Return in H. destruct H as (mh & wx3 & Hs & H). cbv beta in H.
  inversion Hs; subst; clear Hs.
  apply bind_inv_Return in H. destruct H as (ab & wx4 & Ha & H). cbv beta in H.
  apply payload_step in Ha. destruct Ha as (-> & Ha_none & Ha_some).
  apply bind_inv_Return in H. destruct H as (mb & wx5 & Hm & H). cbv beta in H.
  apply payload_step in Hm. destruct Hm as (-> & Hm_none & Hm_some).
  apply bind_inv_Return in H. destruct H as (decoded & wx6 & Hs & H). cbv beta in H.
  inversion Hs; subst; clear Hs.
  apply bind_inv_Return in H. destruct H as (dd & wx7 & Hd & H). cbv beta in H.
  assert (Hdd : wx7 = wx6
                /\ dd = match default (JDict ∅) (m !! "decodedMessage") with
                        | JDict d =>
                            match default (JNum 0) (d !! "destinationDomain") with
                            | JNum k => k
                            | JBool b => if b then 1 else 0
                            | JFloat (S754_finite sign mantissa exponent) =>
                                float_trunc sign mantissa exponent
                            | JStr s => default 0 (int_of_str E s)
                            | _ => 0
                            end
                        | _ => 0
                        end
                /\ (truthy (default (JDict ∅) (m !! "decodedMessage")) = true ->
                    exists d, default (JDict ∅) (m !! "decodedMessage") = JDict d)).
  { destruct (truthy (default (JDict ∅) (m !! "decodedMessage"))) eqn:Htruthy.
    - destruct (default (JDict ∅) (m !! "decodedMessage")) as [| | | | | | d];
        try discriminate Hd.
      apply dest_domain_step in Hd. destruct Hd as [-> ->]. eauto.
    - inversion Hd; subst. split; [reflexivity |]. split; [| discriminate].
      destruct (default (JDict ∅) (m !! "decodedMessage")) as [| | | | | | d]; try reflexivity.
      simpl in Htruthy. apply negb_false_iff, bool_decide_eq_true in Htruthy. subst d.
      rewrite lookup_empty. reflexivity. }
  destruct Hdd as (-> & -> & Hdict).
  apply bind_inv_Return in H. destruct H as (nonce & wx8 & Hs & H). cbv beta in H.
  inversion Hs; subst; clear Hs.
  apply bind_inv_Return in H. destruct H as (delay & wx9 & Hs & H). cbv beta in H.
  inversion Hs; subst; clear Hs.
  apply bind_inv_Return in H. destruct H as (version & wx10 & Hs & H). cbv beta in H.
  inversion Hs; subst; clear Hs.
  inversion H; subst. simpl. repeat split; auto; try apply Ha_none; try apply Hm_none.
Qed.

(** X3: how [_parse_transfer_status] reads the two payloads.  Parsing
    leaves the world alone.  The attestation is [None] exactly when the
    field is missing or empty or holds ["PENDING"], the message exactly
    when the field is missing or empty or holds ["0x"]; a payload that
    is there is the field's string with every ["0x"] removed, decoded as
    hex.  Status, nonce, delay reason and version are the message's own
    fields (the status defaulting to the empty string); the source
    domain and the transaction hash are the ones handed in.  Something
    that is no JSON object is refused with [AttributeError]. *)
Theorem _parse_transfer_status_reads_the_payloads
    (E : Env) (msg : json) (source_domain : Z) (transaction_hash : string) (w : World) :
  (forall st w',
      _parse_transfer_status E msg source_domain transaction_hash w = (Return st, w') ->
      exists m,
        msg = JDict m
        /\ w' = w
        /\ ts_status st = default (JStr "") (m !! "status")
        /\ (ts_attestation st = None <->
            truthy (default JNull (m !! "attestation")) = false
            \/ m !! "attestation" = Some (JStr "PENDING"))
        /\ (forall bs, ts_attestation st = Some bs ->
              exists s, m !! "attestation" = Some (JStr s)
                        /\ fromhex (replace_0x s) = Some bs)
        /\ (ts_message st = None <->
            truthy (default (JStr "") (m !! "message")) = false
            \/ m !! "message" = Some (JStr "0x"))
        /\ (forall bs, ts_message st = Some bs ->
              exists s, m !! "message" = Some (JStr s) /\ fromhex (replace_0x s) = Some bs)
        /\ ts_nonce st = default JNull (m !! "eventNonce")
        /\ ts_delay_reason st = default JNull (m !! "delayReason")
        /\ ts_cctp_version st = default JNull (m !! "cctpVersion")
        /\ ts_source_domain st = source_domain
        /\ ts_transaction_hash st = transaction_hash)
  /\ ((forall m, msg <> JDict m) ->
      _parse_transfer_status E msg source_domain transaction_hash w = (Raise AttributeError, w)).
Proof.
  split.
  - intros st w' Hrun.
    destruct (_parse_transfer_status_inv _ _ _ _ _ _ _ Hrun)
      as (m & -> & -> & Hst & Ha_none & Ha_some & Hm_none & Hm_some & _ & _ & Hn & Hd & Hv
          & Hsd & Hh).
    exists m. repeat split; auto.
    + intros Hnone. apply Ha_none in Hnone. destruct Hnone as [Hf | Hp]; [now left | right].
      destruct (m !! "attestation") as [v |]; simpl in Hp; [now subst | discriminate Hp].
    + intros [Hf | Hp]; apply Ha_none; [now left | right]. now rewrite Hp.
    + intros bs Hbs. destruct (Ha_some bs Hbs) as (s & Hs & Hhex). exists s. split; [| exact Hhex].
      destruct (m !! "attestation") as [v |]; simpl in Hs; [now subst | discriminate Hs].
    + intros Hnone. apply Hm_none in Hnone. destruct Hnone as [Hf | Hp]; [now left | right].
      destruct (m !! "message") as [v |]; simpl in Hp; [now subst | discriminate Hp].
    + intros [Hf | Hp]; apply Hm_none; [now left | right]. now rewrite Hp.
    + intros bs Hbs. destruct (Hm_some bs Hbs) as (s & Hs & Hhex). exists s. split; [| exact Hhex].
      destruct (m !! "message") as [v |]; simpl in Hs.
      * now subst.
      * assert (Hnone : ts_message st = None) by (apply Hm_none; now left).
        rewrite Hnone in Hbs. discriminate Hbs.
  - intros Hshape. destruct msg as [| | | | | | m]; try reflexivity. now destruct (Hshape m).
Qed.

(** A message that says ["complete"] with the attestation still
    ["PENDING"] and an empty message. *)
Lemma _parse_transfer_status_reads_the_payloads_witness :
  let m : gmap string json :=
    <["status" := JStr "complete"]>
      (<["attestation" := JStr "PENDING"]> {[ "message" := JStr "0x" ]}) in
  exists st,
    _parse_transfer_status (Scenario.env (Scenario.always Scenario.pending) Scenario.ledger)
                           (JDict m) 3 "0xabc" Scenario.fresh = (Return st, Scenario.fresh)
    /\ ts_status st = JStr "complete"
    /\ ts_attestation st = None
    /\ ts_message st = None
    /\ is_complete st = false.
Proof.
  intros m.
  destruct (_parse_transfer_status
              (Scenario.env (Scenario.always Scenario.pending) Scenario.ledger)
              (JDict m) 3 "0xabc" Scenario.fresh) as [[st | e |] w'] eqn:Hrun;
    try (vm_compute in Hrun; discriminate Hrun).
  destruct (proj1 (_parse_transfer_status_reads_the_payloads
                     (Scenario.env (Scenario.always Scenario.pending) Scenario.ledger)
                     (JDict m) 3 "0xabc" Scenario.fresh) st w' Hrun)
    as (m' & Hm & -> & Hst & Ha & _ & Hmsg & _).
  inversion Hm; subst m'.
  assert (Hnone : ts_attestation st = None) by (apply Ha; right; reflexivity).
  exists st. split; [reflexivity |]. split; [exact Hst |]. split; [exact Hnone |].
  split; [apply Hmsg; right; reflexivity |].
  unfold is_complete. rewrite Hnone. apply andb_false_r.
Defined.

(** An infinite destination domain: [int] raises [OverflowError], which
    the [except (ValueError, TypeError)] clause lets through. *)
Lemma dest_domain_overflow E (d : gmap string json) sign w :
  d !! "destinationDomain" = Some (JFloat (S754_infinity sign)) ->
  try_except
    (v ← dict_get (JDict d) "destinationDomain" (JNum 0); py_int E v)
    (fun e => match e with ValueError | TypeError => true | _ => false end)
    (fun _ => ret 0) w = (Raise OverflowError, w).
Proof.
  intros Hd. unfold try_except. unfold mbind, M_bind. simpl dict_get. unfold ret at 1.
  rewrite Hd. reflexivity.
Qed.

(** X4: the destination domain is read on a best-effort basis.  In what
    [_parse_transfer_status] returns it is [int(...)] of the
    [destinationDomain] of the decoded message where that is an int, a
    bool, a finite float (truncated toward zero) or a string [int]
    accepts, and 0 where there is no decoded message or no such field
    and where [int] raises [ValueError] or [TypeError]: [null], a list,
    an object, a NaN, a string that is no number.  Two inputs are not
    forgiven.  A decoded message that is neither empty nor a JSON object
    makes the call raise.  So does an infinite [destinationDomain] (the
    JSON number [1e999]): [int] raises [OverflowError], which the
    [except] clause does not catch, and when nothing fails before it
    (attestation and message absent) the call raises that
    [OverflowError]. *)
Theorem dest_domain_is_best_effort
    (E : Env) (m : gmap string json) (source_domain : Z) (transaction_hash : string)
    (w : World) :
  let decoded := default (JDict ∅) (m !! "decodedMessage") in
  (forall st w',
      _parse_transfer_status E (JDict m) source_domain transaction_hash w = (Return st, w') ->
      ts_dest_domain st =
        match decoded with
        | JDict d =>
            match default (JNum 0) (d !! "destinationDomain") with
            | JNum k => k
            | JBool b => if b then 1 else 0
            | JFloat (S754_finite sign mantissa exponent) =>
                float_trunc sign mantissa exponent
            | JStr s => default 0 (int_of_str E s)
            | _ => 0
            end
        | _ => 0
        end)
  /\ (truthy decoded = true -> (forall d, decoded <> JDict d) ->
      exists e,
        _parse_transfer_status E (JDict m) source_domain transaction_hash w = (Raise e, w))
  /\ (forall d sign,
        decoded = JDict d ->
        d !! "destinationDomain" = Some (JFloat (S754_infinity sign)) ->
        exists e,
          _parse_transfer_status E (JDict m) source_domain transaction_hash w = (Raise e, w)
          /\ (m !! "attestation" = None -> m !! "message" = None -> e = OverflowError)).
Proof.
  intros decoded. split; [| split].
  - intros st w' Hrun.
    destruct (_parse_transfer_status_inv _ _ _ _ _ _ _ Hrun)
      as (m' & Hm & _ & _ & _ & _ & _ & _ & Hdd & _).
    inversion Hm; subst m'. exact Hdd.
  - intros Htruthy Hshape.
    destruct (only_computes_run
                (_parse_transfer_status E (JDict m) source_domain transaction_hash) w
                (only_computes_parse_transfer_status _ _ _ _)) as [[st Hrun] | [e [Hrun _]]].
    + destruct (_parse_transfer_status_inv _ _ _ _ _ _ _ Hrun)
        as (m' & Hm & _ & _ & _ & _ & _ & _ & _ & Hdict & _).
      inversion Hm; subst m'. destruct (Hdict Htruthy) as [d Hd]. now destruct (Hshape d).
    + now exists e.
  - intros d sign Hdecoded Hinf. subst decoded.
    assert (Htruthy : truthy (JDict d) = true).
    { simpl. apply negb_true_iff, bool_decide_eq_false. intros ->.
      rewrite lookup_empty in Hinf. discriminate Hinf. }
    unfold _parse_transfer_status.
    assert (Hget : forall key dflt,
               dict_get (JDict m) key dflt w = (Return (default dflt (m !! key)), w))
      by reflexivity.
    rewrite (bind_Return _ _ _ _ _ (Hget "status" (JStr ""))).
    rewrite (bind_Return _ _ _ _ _ (Hget "attestation" JNull)).
    rewrite (bind_Return _ _ _ _ _ (Hget "message" (JStr ""))).
    set (attestation_step :=
           if truthy (default JNull (m !! "attestation"))
              && negb (eq_str (default JNull (m !! "attestation")) "PENDING")
           then b ← bytes_fromhex_replace_0x (default JNull (m !! "attestation")); ret (Some b)
           else ret None).
    assert (Ha : only_computes attestation_step) by (subst attestation_step; computes).
    destruct (only_computes_run attestation_step w Ha) as [[ab Hab] | [e [Hab _]]].
    2:{ exists e. rewrite (bind_Raise _ _ _ _ _ Hab). split; [reflexivity |].
        intros Hnone _. subst attestation_step. rewrite Hnone in Hab. discriminate Hab. }
    rewrite (bind_Return _ _ _ _ _ Hab).
    set (message_step :=
           if truthy (default (JStr "") (m !! "message"))
              && negb (eq_str (default (JStr "") (m !! "message")) "0x")
           then b ← bytes_fromhex_replace_0x (default (JStr "") (m !! "message")); ret (Some b)
           else ret None).
    assert (Hm : only_computes message_step) by (subst message_step; computes).
    destruct (only_computes_run message_step w Hm) as [[mb Hmb] | [e [Hmb _]]].
    2:{ exists e. rewrite (bind_Raise _ _ _ _ _ Hmb). split; [reflexivity |].
        intros _ Hnone. subst message_step. rewrite Hnone in Hmb. discriminate Hmb. }
    rewrite (bind_Return _ _ _ _ _ Hmb).
    rewrite (bind_Return _ _ _ _ _ (Hget "decodedMessage" (JDict ∅))).
    rewrite Hdecoded, Htruthy.
    exists OverflowError.
    rewrite (bind_Raise _ _ _ _ _ (dest_domain_overflow E d sign w Hinf)).
    split; reflexivity.
Qed.

(** A destination domain sent as a list is read as 0, one sent as 6.5
    as 6; a decoded message sent as a string makes the call fail with
    [AttributeError], an infinite destination domain with
    [OverflowError]. *)
Lemma dest_domain_is_best_effort_witness :
  let E := Scenario.env (Scenario.always Scenario.pending) Scenario.ledger in
  let odd : gmap string json :=
    {[ "decodedMessage" := JDict {[ "destinationDomain" := JList [JNum 6] ]} ]} in
  let fraction : gmap string json :=
    {[ "decodedMessage" := JDict {[ "destinationDomain" := JFloat (S754_finite false 13 (-1)) ]} ]} in
  let broken : gmap string json := {[ "decodedMessage" := JStr "0x00" ]} in
  let huge : gmap string json :=
    {[ "decodedMessage" := JDict {[ "destinationDomain" := JFloat (S754_infinity false) ]} ]} in
  (exists st, _parse_transfer_status E (JDict odd) 3 "0xabc" Scenario.fresh
              = (Return st, Scenario.fresh)
              /\ ts_dest_domain st = 0)
  /\ (exists st, _parse_transfer_status E (JDict fraction) 3 "0xabc" Scenario.fresh
                 = (Return st, Scenario.fresh)
                 /\ ts_dest_domain st = 6)
  /\ _parse_transfer_status E (JDict broken) 3 "0xabc" Scenario.fresh
     = (Raise AttributeError, Scenario.fresh)
  /\ _parse_transfer_status E (JDict huge) 3 "0xabc" Scenario.fresh
     = (Raise OverflowError, Scenario.fresh).
Proof.
  intros E odd fraction broken huge. split; [| split; [| split]].
  - destruct (_parse_transfer_status E (JDict odd) 3 "0xabc" Scenario.fresh)
      as [[st | e |] w'] eqn:Hrun; try (vm_compute in Hrun; discriminate Hrun).
    pose proof (proj1 (dest_domain_is_best_effort E odd 3 "0xabc" Scenario.fresh) st w' Hrun)
      as Hdd.
    exists st. split; [| exact Hdd].
    f_equal. vm_compute in Hrun. now inversion Hrun.
  - destruct (_parse_transfer_status E (JDict fraction) 3 "0xabc" Scenario.fresh)
      as [[st | e |] w'] eqn:Hrun; try (vm_compute in Hrun; discriminate Hrun).
    pose proof (proj1 (dest_domain_is_best_effort E fraction 3 "0xabc" Scenario.fresh)
                  st w' Hrun) as Hdd.
    exists st. split; [| exact Hdd].
    f_equal. vm_compute in Hrun. now inversion Hrun.
  - destruct (proj1 (proj2 (dest_domain_is_best_effort E broken 3 "0xabc" Scenario.fresh))
                eq_refl) as [e He].
    + intros d Hd. discriminate Hd.
    + rewrite He. f_equal. f_equal. vm_compute in He. now inversion He.
  - destruct (proj2 (proj2 (dest_domain_is_best_effort E huge 3 "0xabc" Scenario.fresh))
                {[ "destinationDomain" := JFloat (S754_infinity false) ]} false
                eq_refl eq_refl) as (e & He & Hwhich).
    rewrite He. now rewrite (Hwhich eq_refl eq_refl).
Defined.

(** ** [poll_transfer_status] *)

Lemma fetch_transfer_status_with_0x E source_domain transaction_hash api_base_url :
  fetch_transfer_status E source_domain (with_0x transaction_hash) api_base_url
  = fetch_transfer_status E source_domain transaction_hash api_base_url.
Proof. unfold fetch_transfer_status. now rewrite with_0x_idem. Qed.

(** [fetch_transfer_status] raises no [TimeoutError]. *)
Lemma fetch_transfer_status_no_timeout E source_domain transaction_hash api_base_url w m :
  fst (fetch_transfer_status E source_domain transaction_hash api_base_url w)
  <> Raise (TimeoutError m).
Proof.
  rewrite fetch_transfer_status_run. simpl fst.
  destruct (reply (iris E (http_calls w))) as [| r]; [discriminate |].
  destruct (status_code r =? HTTP_NOT_FOUND); [discriminate |].
  destruct (is_error_status (status_code r)); [discriminate |].
  destruct (body r) as [[| b | n | fl | s | l | d] |]; try discriminate.
  cbv zeta. destruct (truthy _); [| discriminate].
  set (w1 := after_request _ _ _).
  destruct (only_computes_subscript0 (default (JList []) (d !! "messages")) w1) as [_ Hs].
  destruct (fst (subscript0 _ w1)) as [msg | e |];
    [| intros H; inversion H; subst; discriminate Hs | contradiction].
  destruct (only_computes_parse_transfer_status E msg source_domain
              (with_0x transaction_hash) w1) as [_ Hp].
  destruct (fst (_parse_transfer_status _ _ _ _ w1));
    [discriminate | intros H; inversion H; subst; discriminate Hp | contradiction].
Qed.

Section PollRounds.

Variables (E : Env) (source_domain : Z) (transaction_hash : string)
          (timeout poll_interval : Z) (api_base_url : string).

Local Abbreviation poll_loop :=
  (fun fuel => poll_transfer_status_loop E fuel source_domain transaction_hash timeout
                                         poll_interval api_base_url).

(** Past the timeout the loop raises at once. *)
Lemma poll_loop_timeout fuel start w :
  timeout <= now w - start ->
  poll_loop (S fuel) start w
  = (Raise (TimeoutError (poll_timeout_message E source_domain transaction_hash timeout)), w).
Proof.
  intros Hlate. cbn [poll_transfer_status_loop].
  unfold mbind at 1, M_bind at 1, time_time.
  replace (Z.geb (now w - start) timeout) with true by (symmetry; apply Z.geb_le; lia).
  reflexivity.
Qed.

(** Before the timeout the loop makes one poll and goes by what
    [fetch_transfer_status] made of it. *)
Lemma poll_loop_round fuel start w :
  now w - start < timeout ->
  poll_loop (S fuel) start w
  = match fetch_transfer_status E source_domain transaction_hash api_base_url w with
    | (Return (Some st), w1) =>
        if is_complete st then (Return st, w1)
        else (time_sleep poll_interval ;; poll_loop fuel start) w1
    | (Return None, w1) => (time_sleep poll_interval ;; poll_loop fuel start) w1
    | (Raise e, w1) => (Raise e, w1)
    | (OutOfFuel, w1) => (OutOfFuel, w1)
    end.
Proof.
  intros Hearly. cbn [poll_transfer_status_loop].
  unfold mbind at 1, M_bind at 1, time_time.
  replace (Z.geb (now w - start) timeout) with false by (symmetry; rewrite Z.geb_leb; apply Z.leb_gt; lia).
  unfold mbind at 1, M_bind at 1.
  destruct (fetch_transfer_status E source_domain transaction_hash api_base_url w)
    as [[[st |] | e |] w1]; try reflexivity.
  now destruct (is_complete st).
Qed.

Lemma poll_loop_timeout_not_early fuel :
  forall start w m w',
    poll_loop fuel start w = (Raise (TimeoutError m), w') ->
    timeout <= now w' - start
    /\ m = poll_timeout_message E source_domain transaction_hash timeout.
Proof.
  induction fuel as [| fuel IH]; intros start w m w' Hrun.
  - discriminate Hrun.
  - destruct (Z_lt_le_dec (now w - start) timeout) as [Hearly | Hlate].
    + rewrite poll_loop_round in Hrun by exact Hearly.
      pose proof (fetch_transfer_status_no_timeout E source_domain transaction_hash
                    api_base_url w m) as Hno.
      destruct (fetch_transfer_status E source_domain transaction_hash api_base_url w)
        as [[[st |] | e |] w1]; simpl in Hno.
      * destruct (is_complete st); [discriminate Hrun |].
        unfold mbind at 1, M_bind at 1 in Hrun.
        destruct (time_sleep poll_interval w1) as [[[] | e |] w2] eqn:Hsleep;
          [exact (IH _ _ _ _ Hrun) | | discriminate Hrun].
        unfold time_sleep in Hsleep. destruct (poll_interval <? 0); inversion Hsleep; subst.
        discriminate Hrun.
      * unfold mbind at 1, M_bind at 1 in Hrun.
        destruct (time_sleep poll_interval w1) as [[[] | e |] w2] eqn:Hsleep;
          [exact (IH _ _ _ _ Hrun) | | discriminate Hrun].
        unfold time_sleep in Hsleep. destruct (poll_interval <? 0); inversion Hsleep; subst.
        discriminate Hrun.
      * inversion Hrun; subst. now destruct Hno.
      * discriminate Hrun.
    + rewrite poll_loop_timeout in Hrun by exact Hlate.
      inversion Hrun; subst. split; [exact Hlate | reflexivity].
Qed.

(** Against a service that has not indexed the transfer the loop runs
    into the timeout, at the first round boundary past it. *)
Lemma poll_loop_times_out (latency_bound : Z) (rounds : nat) :
  0 < poll_interval ->
  (forall k, exists r, reply (iris E k) = Replied r /\ status_code r = HTTP_NOT_FOUND) ->
  (forall k, Z.of_N (latency (iris E k)) <= latency_bound) ->
  forall fuel start w,
    timeout - (now w - start) <= Z.of_nat rounds * poll_interval ->
    (rounds < fuel)%nat ->
    exists w',
      poll_loop fuel start w
      = (Raise (TimeoutError (poll_timeout_message E source_domain transaction_hash timeout)), w')
      /\ timeout <= now w' - start
      /\ (now w' = now w \/ now w' - start < timeout + poll_interval + latency_bound).
Proof.
  intros Hp Hservice Hlat.
  induction rounds as [| n IH]; intros fuel start w Hleft Hfuel;
    (destruct fuel as [| fuel]; [lia |]).
  - exists w. rewrite poll_loop_timeout by lia. repeat split; [lia | now left].
  - destruct (Z_lt_le_dec (now w - start) timeout) as [Hearly | Hlate].
    + rewrite poll_loop_round by exact Hearly.
      rewrite fetch_transfer_status_run.
      destruct (Hservice (http_calls w)) as (r & -> & Hcode).
      rewrite Hcode. simpl.
      set (w1 := after_request _ _ _).
      unfold mbind at 1, M_bind at 1, time_sleep.
      replace (poll_interval <? 0) with false by lia.
      set (w2 := mkWorld _ _ _ _ _).
      pose proof (Hlat (http_calls w)) as Hl.
      destruct (IH fuel start w2) as (w' & Hrun & Hnot_early & Hbound).
      * subst w2 w1. simpl. rewrite Nat2Z.inj_succ in Hleft. nia.
      * lia.
      * exists w'. split; [exact Hrun |]. split; [exact Hnot_early |].
        right. subst w2 w1. simpl in Hbound. destruct Hbound as [Heq | Hlt]; lia.
    + exists w. rewrite poll_loop_timeout by lia. repeat split; [lia | now left].
Qed.

End PollRounds.

(** X5: the timeout of [poll_transfer_status].  A [TimeoutError] is
    never raised before the timeout has elapsed, and it names the
    timeout, the 0x-prefixed hash and the source domain.  With a timeout
    of zero or less the call raises it at once, before any request.
    Against a service that keeps answering 404, with a positive poll
    interval, the call does end in that error: at the first round
    boundary past the timeout, less than the poll interval plus the
    longest request after it. *)
Theorem poll_transfer_status_timeout
    (E : Env) (source_domain : Z) (transaction_hash : string) (timeout poll_interval : Z)
    (api_base_url : string) (w : World) (latency_bound : Z) :
  let message :=
    "CCTP transfer not complete after " +:+ str_of_float E timeout +:+ "s for tx "
      +:+ with_0x transaction_hash +:+ " on domain " +:+ str_of_int source_domain in
  (forall fuel m w',
      poll_transfer_status E fuel source_domain transaction_hash timeout poll_interval
                           api_base_url w = (Raise (TimeoutError m), w') ->
      timeout <= now w' - now w /\ m = message)
  /\ (timeout <= 0 ->
      forall fuel,
        poll_transfer_status E (S fuel) source_domain transaction_hash timeout poll_interval
                             api_base_url w = (Raise (TimeoutError message), w))
  /\ (0 < poll_interval ->
      (forall k, exists r, reply (iris E k) = Replied r /\ status_code r = 404) ->
      (forall k, Z.of_N (latency (iris E k)) <= latency_bound) ->
      forall rounds fuel,
        timeout <= Z.of_nat rounds * poll_interval -> (rounds < fuel)%nat ->
        exists w',
          poll_transfer_status E fuel source_domain transaction_hash timeout poll_interval
                               api_base_url w = (Raise (TimeoutError message), w')
          /\ timeout <= now w' - now w
          /\ (now w' = now w \/ now w' - now w < timeout + poll_interval + latency_bound)).
Proof.
  intros message. unfold poll_transfer_status. cbv zeta.
  split; [| split].
  - intros fuel m w' Hrun. unfold mbind at 1, M_bind at 1, time_time in Hrun.
    exact (poll_loop_timeout_not_early E source_domain (with_0x transaction_hash) timeout
             poll_interval api_base_url fuel _ _ _ _ Hrun).
  - intros Hzero fuel. unfold mbind at 1, M_bind at 1, time_time.
    apply poll_loop_timeout. lia.
  - intros Hp Hservice Hlat rounds fuel Hrounds Hfuel.
    unfold mbind at 1, M_bind at 1, time_time.
    apply (poll_loop_times_out E source_domain (with_0x transaction_hash) timeout
             poll_interval api_base_url latency_bound rounds Hp Hservice Hlat); [lia | exact Hfuel].
Qed.

(** A transfer that is never indexed, timeout 30 s, interval 10 s,
    requests that take no time: the error comes after exactly 30 s. *)
Lemma poll_transfer_status_timeout_witness :
  exists w',
    poll_transfer_status (Scenario.env (Scenario.always Scenario.not_found) Scenario.ledger)
                         4 3 "abc" (seconds 30) (seconds 10) "https://iris-api.circle.com"
                         Scenario.fresh
    = (Raise (TimeoutError "CCTP transfer not complete after 30.0s for tx 0xabc on domain 3"), w')
    /\ seconds 30 <= now w' - 0
    /\ (now w' = 0 \/ now w' - 0 < seconds 30 + seconds 10 + 0).
Proof.
  refine (proj2 (proj2 (poll_transfer_status_timeout
                          (Scenario.env (Scenario.always Scenario.not_found) Scenario.ledger)
                          3 "abc" (seconds 30) (seconds 10) "https://iris-api.circle.com"
                          Scenario.fresh 0)) _ _ _ 3%nat 4%nat _ _).
  - unfold seconds. lia.
  - intros k. exists Scenario.not_found. split; reflexivity.
  - intros k. simpl. lia.
  - unfold seconds. lia.
  - lia.
Defined.

(** X6: the first poll of [poll_transfer_status] decides at once where
    it can.  With a positive timeout, whatever the one request of
    [fetch_transfer_status] raises (an [HTTPError] for a 429 or a 500, a
    [ConnectionError], a malformed payload) leaves [poll_transfer_status]
    as it is, without sleep or second request; and a complete status is
    returned without sleep. *)
Theorem poll_transfer_status_first_poll
    (E : Env) (fuel : nat) (source_domain : Z) (transaction_hash : string)
    (timeout poll_interval : Z) (api_base_url : string) (w : World) :
  0 < timeout ->
  (forall e w',
      fetch_transfer_status E source_domain transaction_hash api_base_url w = (Raise e, w') ->
      poll_transfer_status E (S fuel) source_domain transaction_hash timeout poll_interval
                           api_base_url w = (Raise e, w'))
  /\ (forall st w',
        fetch_transfer_status E source_domain transaction_hash api_base_url w
        = (Return (Some st), w') ->
        is_complete st = true ->
        poll_transfer_status E (S fuel) source_domain transaction_hash timeout poll_interval
                             api_base_url w = (Return st, w')).
Proof.
  intros Htimeout.
  assert (Hstep :
            poll_transfer_status E (S fuel) source_domain transaction_hash timeout
                                 poll_interval api_base_url w
            = poll_transfer_status_loop E (S fuel) source_domain (with_0x transaction_hash)
                                        timeout poll_interval api_base_url (now w) w)
    by reflexivity.
  rewrite Hstep, poll_loop_round by lia. rewrite fetch_transfer_status_with_0x.
  split.
  - intros e w' ->. reflexivity.
  - intros st w' -> ->. reflexivity.
Qed.

(** A rate-limited client: the 429 ends the poll after one request. *)
Lemma poll_transfer_status_first_poll_witness :
  let E := Scenario.env (Scenario.always (mkResponse 429 None)) Scenario.ledger in
  exists w',
    poll_transfer_status E 5 3 "0xabc" (seconds 300) (seconds 10)
                         "https://iris-api.circle.com" Scenario.fresh
    = (Raise (HTTPError 429), w')
    /\ http_calls w' = 1%nat
    /\ now w' = 0.
Proof.
  intros E.
  destruct (fetch_transfer_status E 3 "0xabc" "https://iris-api.circle.com" Scenario.fresh)
    as [r w'] eqn:Hfetch.
  assert (Hr : r = Raise (HTTPError 429) /\ http_calls w' = 1%nat /\ now w' = 0).
  { vm_compute in Hfetch. inversion Hfetch. repeat split. }
  destruct Hr as (-> & Hcalls & Hnow).
  exists w'. split; [| split; assumption].
  apply (proj1 (poll_transfer_status_first_poll E 4 3 "0xabc" (seconds 300) (seconds 10)
                  "https://iris-api.circle.com" Scenario.fresh ltac:(unfold seconds; lia))).
  exact Hfetch.
Defined.

(** ** [poll_transfers_parallel]: one failure fails the call *)

Lemma gather_results_raises {A} (finished : list (nat * (exn + A))) idx e :
  (idx, inl e) ∈ finished ->
  forall results w,
    exists idx' e',
      (idx', inl e') ∈ finished
      /\ gather_results finished results w = (Raise e', w).
Proof.
  induction finished as [| [i [e0 | a]] finished IH]; intros Hin results w; simpl.
  - inversion Hin.
  - exists i, e0. split; [now left | reflexivity].
  - apply elem_of_cons in Hin as [Heq | Hin]; [discriminate Heq |].
    destruct (IH Hin (<[i := a]> results) w) as (idx' & e' & Hin' & Hrun).
    exists idx', e'. split; [now right | exact Hrun].
Qed.

(** X7: a poll that fails does not stop the others, but it fails the
    call.  When the polls of a non-empty list of transfers have all
    come to an end and one of them has raised, [poll_transfers_parallel]
    raises too: the exception of a poll that failed, not necessarily of
    that one, and nothing of what the other polls returned.  By then
    every poll has run to its end. *)
Theorem poll_transfers_parallel_one_failure_fails_the_call
    (E : Env) (fuel : nat) (order : list nat) (transfers : list CCTPTransferQuery)
    (timeout poll_interval : Z) (api_base_url : string) (max_workers : option Z)
    (w w1 : World) (finished : list (nat * (exn + CCTPTransferStatus)))
    (idx : nat) (e : exn) :
  transfers <> [] ->
  0 < default (Z.of_nat (length transfers)) max_workers ->
  as_completed
    (map (fun query =>
            poll_transfer_status E fuel (q_source_domain query) (q_transaction_hash query)
                                 timeout poll_interval api_base_url) transfers)
    order w = (Return finished, w1) ->
  (idx, inl e) ∈ finished ->
  exists idx' e',
    (idx', inl e') ∈ finished
    /\ poll_transfers_parallel E fuel order transfers timeout poll_interval api_base_url
                               max_workers w = (Raise e', w1).
Proof.
  intros Hne Hworkers Hdone Hfailed. unfold poll_transfers_parallel.
  destruct transfers as [| q0 transfers0] eqn:Htransfers; [now destruct Hne |].
  rewrite <- Htransfers in *. cbv zeta.
  assert (Hpool : ThreadPoolExecutor (default (Z.of_nat (length transfers)) max_workers) w
                  = (Return tt, w)).
  { unfold ThreadPoolExecutor.
    destruct (default (Z.of_nat (length transfers)) max_workers <=? 0) eqn:Hle;
      [apply Z.leb_le in Hle; lia | reflexivity]. }
  rewrite (bind_Return _ _ _ _ _ Hpool).
  rewrite (bind_Return _ _ _ _ _ Hdone).
  destruct (gather_results_raises finished idx e Hfailed ∅ w1) as (idx' & e' & Hin & Hrun).
  exists idx', e'. split; [exact Hin |]. now apply bind_Raise.
Qed.

(** Two transfers: one poll runs into a 500, the other returns the
    attestation.  The call raises the 500, after both requests. *)
Lemma poll_transfers_parallel_one_failure_fails_the_call_witness :
  let service := fun k : nat => match k with
                                | O => Scenario.instant Scenario.server_error
                                | S _ => Scenario.instant Scenario.completed
                                end in
  let E := Scenario.env service Scenario.ledger in
  exists w1,
    poll_transfers_parallel E 5 [1; 0]%nat
                            [mkCCTPTransferQuery 3 "0xabc"; mkCCTPTransferQuery 6 "0xdef"]
                            (seconds 300) (seconds 10) "https://iris-api.circle.com" None
                            Scenario.fresh
    = (Raise (HTTPError 500), w1)
    /\ http_calls w1 = 2%nat.
Proof.
  intros service E.
  destruct (as_completed
              (map (fun query =>
                      poll_transfer_status E 5 (q_source_domain query)
                                           (q_transaction_hash query) (seconds 300)
                                           (seconds 10) "https://iris-api.circle.com")
                   [mkCCTPTransferQuery 3 "0xabc"; mkCCTPTransferQuery 6 "0xdef"])
              [1; 0]%nat Scenario.fresh) as [[finished | e0 |] w1] eqn:Hdone;
    try (vm_compute in Hdone; discriminate Hdone).
  assert (Hshape : (1%nat, inl (HTTPError 500)) ∈ finished
                   /\ (forall i e', (i, inl e') ∈ finished -> e' = HTTPError 500)
                   /\ http_calls w1 = 2%nat).
  { vm_compute in Hdone. inversion Hdone; subst. split; [now left |]. split; [| reflexivity].
    intros i e' Hin. apply elem_of_cons in Hin as [Heq | Hin]; [now inversion Heq |].
    apply list_elem_of_singleton in Hin. discriminate Hin. }
  destruct Hshape as (Hfailed & Honly & Hcalls).
  destruct (poll_transfers_parallel_one_failure_fails_the_call E 5 [1; 0]%nat
              [mkCCTPTransferQuery 3 "0xabc"; mkCCTPTransferQuery 6 "0xdef"]
              (seconds 300) (seconds 10) "https://iris-api.circle.com" None Scenario.fresh w1
              finished 1%nat (HTTPError 500)) as (idx' & e' & Hin & Hrun).
  - discriminate.
  - simpl. lia.
  - exact Hdone.
  - exact Hfailed.
  - exists w1. split; [| exact Hcalls]. rewrite Hrun. now rewrite (Honly idx' e' Hin).
Defined.

(** ** The one-shot check and the monitor *)

Lemma is_attestation_complete_true E source_domain transaction_hash api_base_url w
    r d m rest s :
  reply (iris E (http_calls w)) = Replied r ->
  is_error_status (status_code r) = false ->
  body r = Some (JDict d) ->
  d !! "messages" = Some (JList (JDict m :: rest)) ->
  m !! "status" = Some (JStr "complete") ->
  m !! "attestation" = Some (JStr s) ->
  s <> "PENDING" ->
  is_attestation_complete E source_domain transaction_hash api_base_url w
  = (Return true,
     after_request E (messages_url api_base_url source_domain (with_0x transaction_hash)) w).
Proof.
  intros Hr Hcode Hbody Hmsgs Hstatus Hatt Hs.
  unfold is_attestation_complete, requests_get, raise_for_status, response_json.
  unfold_monad. rewrite Hr. simpl. rewrite Hcode. simpl. rewrite Hbody. simpl.
  rewrite Hmsgs. simpl. rewrite Hstatus. simpl. rewrite Hatt. simpl.
  replace (String.eqb s "PENDING") with false by (symmetry; now apply String.eqb_neq).
  reflexivity.
Qed.

(** X8: the one-shot check is at least as ready as the monitor, and
    strictly more on an empty attestation.  Whenever
    [fetch_transfer_status] returns a status that is complete,
    [is_attestation_complete] answers [True] to the same reply.  The
    other way round fails for a first message with status ["complete"]
    whose attestation is the empty string: the one-shot check answers
    [True], while no status the monitor makes of it is complete. *)
Theorem is_attestation_complete_agrees_with_monitor
    (E : Env) (source_domain : Z) (transaction_hash api_base_url : string) (w : World) :
  (forall st w',
      fetch_transfer_status E source_domain transaction_hash api_base_url w
      = (Return (Some st), w') ->
      is_complete st = true ->
      is_attestation_complete E source_domain transaction_hash api_base_url w
      = (Return true, w'))
  /\ (forall r d m rest,
        reply (iris E (http_calls w)) = Replied r ->
        is_error_status (status_code r) = false ->
        body r = Some (JDict d) ->
        d !! "messages" = Some (JList (JDict m :: rest)) ->
        m !! "status" = Some (JStr "complete") ->
        m !! "attestation" = Some (JStr "") ->
        fst (is_attestation_complete E source_domain transaction_hash api_base_url w)
        = Return true
        /\ forall st w',
             fetch_transfer_status E source_domain transaction_hash api_base_url w
             = (Return (Some st), w') ->
             is_complete st = false).
Proof.
  split.
  - intros st w' Hrun Hcomplete.
    rewrite fetch_transfer_status_run in Hrun.
    destruct (reply (iris E (http_calls w))) as [| r] eqn:Hr; [discriminate Hrun |].
    destruct (status_code r =? HTTP_NOT_FOUND); [discriminate Hrun |].
    destruct (is_error_status (status_code r)) eqn:Hcode; [discriminate Hrun |].
    destruct (body r) as [[| b | n | fl | s | l | d] |] eqn:Hbody; try discriminate Hrun.
    cbv zeta in Hrun.
    destruct (truthy (default (JList []) (d !! "messages"))) eqn:Htruthy;
      [| discriminate Hrun].
    set (w1 := after_request _ _ _) in *.
    destruct (subscript0 (default (JList []) (d !! "messages")) w1) as [[msg | e |] w2]
      eqn:Hsub; simpl in Hrun; try discriminate Hrun.
    destruct (_parse_transfer_status E msg source_domain (with_0x transaction_hash) w1)
      as [[st' | e |] w3] eqn:Hparse; simpl in Hrun; try discriminate Hrun.
    inversion Hrun; subst st' w'. clear Hrun.
    destruct (_parse_transfer_status_inv _ _ _ _ _ _ _ Hparse)
      as (m & -> & _ & Hst & Ha_none & Ha_some & _).
    apply is_complete_iff in Hcomplete. destruct Hcomplete as [Hstatus Hatt].
    destruct (ts_attestation st) as [bs |] eqn:Hbs; [| now destruct Hatt].
    destruct (Ha_some bs eq_refl) as (s & Hs & _).
    assert (Hmsgs : exists rest, d !! "messages" = Some (JList (JDict m :: rest))).
    { destruct (d !! "messages") as [[| | | | [|] | [| x rest] |] |]; simpl in Hsub, Htruthy;
        try discriminate; inversion Hsub; subst; eauto. }
    destruct Hmsgs as [rest Hmsgs].
    apply (is_attestation_complete_true E source_domain transaction_hash api_base_url w
             r d m rest s Hr Hcode Hbody Hmsgs).
    + rewrite Hstatus in Hst. destruct (m !! "status") as [v |]; simpl in Hst;
        [now subst | discriminate Hst].
    + destruct (m !! "attestation") as [v |]; simpl in Hs; [now subst | discriminate Hs].
    + intros ->. assert (Hnone : Some bs = None) by (apply Ha_none; now right).
      discriminate Hnone.
  - intros r d m rest Hr Hcode Hbody Hmsgs Hstatus Hatt. split.
    + rewrite (is_attestation_complete_true E source_domain transaction_hash api_base_url w
                 r d m rest "" Hr Hcode Hbody Hmsgs Hstatus Hatt); [reflexivity | discriminate].
    + intros st w' Hrun.
      rewrite fetch_transfer_status_run, Hr, Hcode, Hbody in Hrun.
      destruct (status_code r =? HTTP_NOT_FOUND); [discriminate Hrun |].
      cbv zeta in Hrun. rewrite Hmsgs in Hrun. simpl in Hrun.
      destruct (_parse_transfer_status E (JDict m) source_domain (with_0x transaction_hash) _)
        as [[st' | e |] w3] eqn:Hparse; simpl in Hrun; try discriminate Hrun.
      inversion Hrun; subst st' w'. clear Hrun.
      destruct (_parse_transfer_status_inv _ _ _ _ _ _ _ Hparse)
        as (m' & Hm & _ & _ & Ha_none & _).
      inversion Hm; subst m'.
      assert (Hnone : ts_attestation st = None).
      { apply Ha_none. left. now rewrite Hatt. }
      unfold is_complete. rewrite Hnone. apply andb_false_r.
Qed.

(** The service reports ["complete"] with an empty attestation. *)
Lemma is_attestation_complete_agrees_with_monitor_witness :
  let early := mkResponse 200 (Some (JDict {[ "messages" :=
                 JList [JDict (<["status" := JStr "complete"]>
                                 {[ "attestation" := JStr "" ]})] ]})) in
  let E := Scenario.env (Scenario.always early) Scenario.ledger in
  fst (is_attestation_complete E 3 "0xabc" "https://iris-api.circle.com" Scenario.fresh)
  = Return true
  /\ exists st w',
       fetch_transfer_status E 3 "0xabc" "https://iris-api.circle.com" Scenario.fresh
       = (Return (Some st), w')
       /\ is_complete st = false.
Proof.
  intros early E.
  destruct (proj2 (is_attestation_complete_agrees_with_monitor
                     E 3 "0xabc" "https://iris-api.circle.com" Scenario.fresh)
              early _ _ [] eq_refl eq_refl eq_refl eq_refl eq_refl eq_refl) as [Htrue Hnot].
  split; [exact Htrue |].
  destruct (fetch_transfer_status E 3 "0xabc" "https://iris-api.circle.com" Scenario.fresh)
    as [[[st |] | e |] w'] eqn:Hrun; try (vm_compute in Hrun; discriminate Hrun).
  exists st, w'. split; [reflexivity |]. exact (Hnot st w' eq_refl).
Defined.

(** ** [fetch_attestation] at its edges *)

Section Edges.

Variables (E : Env) (source_domain : option Z) (transaction_hash : string)
          (timeout poll_interval : Z) (api_base_url : string)
          (on_phase_change : option phase_callback).

Hypothesis callback_ok : well_behaved on_phase_change.

Let loop := fetch_attestation_loop E source_domain transaction_hash timeout poll_interval
                                   api_base_url on_phase_change.
Let the_url := url source_domain transaction_hash api_base_url.

(** A first message that says ["complete"] and carries an attestation
    that is no hex string: the callback is told ["complete"], then the
    decoding fails. *)
Lemma loop_bad_attestation fuel start attempt w r d m rest message_hex attestation_hex message :
  now w - start < timeout ->
  reply (iris E (http_calls w)) = Replied r ->
  status_code r <> HTTP_NOT_FOUND ->
  is_error_status (status_code r) = false ->
  body r = Some (JDict d) ->
  d !! "messages" = Some (JList (JDict m :: rest)) ->
  m !! "status" = Some (JStr "complete") ->
  m !! "attestation" = Some (JStr attestation_hex) ->
  attestation_hex <> "" ->
  attestation_hex <> "PENDING" ->
  default (JStr "") (m !! "message") = JStr message_hex ->
  fromhex (replace_0x message_hex) = Some message ->
  fromhex (replace_0x attestation_hex) = None ->
  exists t,
    loop (S fuel) start attempt w
    = (Raise ValueError,
       mkWorld (now w + Z.of_N (latency (iris E (http_calls w))))
               (S (http_calls w)) (txs_sent w) t
               (trace w ++ EvHttpGet the_url
                  :: noted on_phase_change (attempt + 1) (JStr "complete"))).
Proof.
  intros Hearly Hr Hcode Herr Hbody Hmsg Hst Hatt Hne Hnp Hmh Hmb Hab.
  subst loop the_url. cbn [fetch_attestation_loop].
  assert (H : Z.geb (now w - start) timeout = false).
  { destruct (Z.geb (now w - start) timeout) eqn:Hge; [apply Z.geb_le in Hge; lia | reflexivity]. }
  unfold mbind at 1, M_bind at 1, time_time. rewrite H.
  unfold mbind at 1, M_bind at 1, requests_get. rewrite Hr. simpl.
  apply Z.eqb_neq in Hcode. rewrite Hcode.
  unfold raise_for_status, response_json. rewrite Herr, Hbody.
  set (w1 := mkWorld _ _ _ _ _).
  destruct (_notify_runs on_phase_change (attempt + 1) (JStr "complete") w1 callback_ok) as [t Ht].
  exists t. unfold_monad. simpl.
  unfold dict_get at 1. unfold_monad. rewrite Hmsg. simpl.
  rewrite Hst, Hatt. simpl.
  assert (Hne' : negb (String.eqb attestation_hex "") = true).
  { apply negb_true_iff, String.eqb_neq. exact Hne. }
  assert (Hnp' : negb (String.eqb attestation_hex "PENDING") = true).
  { apply negb_true_iff, String.eqb_neq. exact Hnp. }
  rewrite Hne', Hnp'. simpl.
  unfold mbind, M_bind in Ht. fold w1. rewrite Ht.
  rewrite Hmh. simpl. rewrite Hmb. simpl. rewrite Hab. simpl.
  rewrite <- !app_assoc. reflexivity.
Qed.

End Edges.

(** X9: a timeout of zero or less.  [fetch_attestation] then raises its
    [TimeoutError] at once: the callback, if there is one, has been told
    [waiting_for_indexing] with attempt 0, and no request has been
    made, no time has passed. *)
Theorem fetch_attestation_without_time
    (E : Env) (fuel : nat) (source_domain : Z) (transaction_hash : string)
    (timeout poll_interval : Z) (api_base_url : string)
    (on_phase_change : option phase_callback) (w : World) :
  well_behaved on_phase_change ->
  timeout <= 0 ->
  exists t,
    fetch_attestation E (S fuel) (Some source_domain) transaction_hash timeout poll_interval
                      api_base_url on_phase_change w
    = (Raise (TimeoutError
                ("CCTP attestation not ready after " +:+ str_of_float E timeout +:+ "s for tx "
                   +:+ with_0x transaction_hash +:+ " on "
                   +:+ default ("domain-" +:+ str_of_int source_domain)
                               (CCTP_DOMAIN_NAMES E source_domain))),
       mkWorld (now w) (http_calls w) (txs_sent w) t
               (trace w ++ match on_phase_change with
                           | Some _ => [EvPhaseChange (JStr "waiting_for_indexing") 0]
                           | None => []
                           end)).
Proof.
  intros Hcb Hzero.
  destruct (fetch_attestation_enters_loop E (S fuel) (Some source_domain) transaction_hash timeout
              poll_interval api_base_url on_phase_change w Hcb) as [t Ht].
  exists t. rewrite Ht.
  rewrite (loop_timeout E (Some source_domain) (with_0x transaction_hash) timeout poll_interval
             api_base_url on_phase_change) by (simpl; lia).
  reflexivity.
Qed.

Lemma fetch_attestation_without_time_witness :
  exists t,
    fetch_attestation (Scenario.env (Scenario.always Scenario.completed) Scenario.ledger)
                      5 (Some 3) "0xabc" 0 (seconds 5) "https://iris-api.circle.com"
                      (Some Scenario.listener) Scenario.fresh
    = (Raise (TimeoutError "CCTP attestation not ready after 0.0s for tx 0xabc on Arbitrum"),
       mkWorld 0 0 0 t [EvPhaseChange (JStr "waiting_for_indexing") 0]).
Proof.
  assert (Hquiet : quiet Scenario.listener).
  { intros status attempt w. exists (tracker w). now destruct w. }
  apply (fetch_attestation_without_time
           (Scenario.env (Scenario.always Scenario.completed) Scenario.ledger)
           4 3 "0xabc" 0 (seconds 5) "https://iris-api.circle.com"
           (Some Scenario.listener) Scenario.fresh Hquiet).
  lia.
Defined.

(** X10: [fetch_attestation] reports ["complete"] before it decodes.
    When the first poll is answered by a first message with status
    ["complete"] whose attestation is a non-empty string other than
    ["PENDING"] that does not decode as hex, the call raises
    [ValueError] after that one request, without retry; the callback has
    by then been told ["complete"] with attempt 1. *)
Theorem fetch_attestation_reports_before_decoding
    (E : Env) (fuel : nat) (source_domain : Z) (transaction_hash : string)
    (timeout poll_interval : Z) (api_base_url : string)
    (on_phase_change : option phase_callback) (w : World)
    (r : Response) (d m : gmap string json) (rest : list json)
    (message_hex attestation_hex : string) (message : bytes) :
  well_behaved on_phase_change ->
  0 < timeout ->
  reply (iris E (http_calls w)) = Replied r ->
  ~ 400 <= status_code r < 600 ->
  body r = Some (JDict d) ->
  d !! "messages" = Some (JList (JDict m :: rest)) ->
  m !! "status" = Some (JStr "complete") ->
  m !! "attestation" = Some (JStr attestation_hex) ->
  attestation_hex <> "" ->
  attestation_hex <> "PENDING" ->
  default (JStr "") (m !! "message") = JStr message_hex ->
  fromhex (replace_0x message_hex) = Some message ->
  fromhex (replace_0x attestation_hex) = None ->
  exists t,
    fetch_attestation E (S fuel) (Some source_domain) transaction_hash timeout poll_interval
                      api_base_url on_phase_change w
    = (Raise ValueError,
       mkWorld (now w + Z.of_N (latency (iris E (http_calls w))))
               (S (http_calls w)) (txs_sent w) t
               (trace w
                  ++ noted on_phase_change 0 (JStr "waiting_for_indexing")
                  ++ EvHttpGet (messages_url api_base_url source_domain
                                             (with_0x transaction_hash))
                  :: noted on_phase_change 1 (JStr "complete"))).
Proof.
  intros Hcb Htimeout Hr Hcode Hbody Hmsg Hst Hatt Hne Hnp Hmh Hmb Hab.
  destruct (fetch_attestation_enters_loop E (S fuel) (Some source_domain) transaction_hash timeout
              poll_interval api_base_url on_phase_change w Hcb) as [t0 Ht0].
  rewrite Ht0. set (w0 := mkWorld _ _ _ _ _).
  destruct (loop_bad_attestation E (Some source_domain) (with_0x transaction_hash) timeout
              poll_interval api_base_url on_phase_change Hcb fuel (now w) 0 w0
              r d m rest message_hex attestation_hex message) as [t Ht]; try assumption.
  - subst w0. simpl. lia.
  - unfold HTTP_NOT_FOUND. lia.
  - unfold is_error_status. apply andb_false_iff. lia.
  - exists t. rewrite Ht. subst w0. simpl. rewrite <- app_assoc. reflexivity.
Qed.

(** The attestation ["0xzz"]. *)
Lemma fetch_attestation_reports_before_decoding_witness :
  let m : gmap string json :=
    <["status" := JStr "complete"]> {[ "attestation" := JStr "0xzz" ]} in
  let d : gmap string json := {[ "messages" := JList [JDict m] ]} in
  let E := Scenario.env (Scenario.always (mkResponse 200 (Some (JDict d)))) Scenario.ledger in
  exists t,
    fetch_attestation E 5 (Some 3) "0xabc" (seconds 300) (seconds 5) "https://iris-api.circle.com"
                      (Some Scenario.listener) Scenario.fresh
    = (Raise ValueError,
       mkWorld 0 1 0 t
               [EvPhaseChange (JStr "waiting_for_indexing") 0;
                EvHttpGet "https://iris-api.circle.com/v2/messages/3?transactionHash=0xabc";
                EvPhaseChange (JStr "complete") 1]).
Proof.
  intros m d E.
  assert (Hquiet : quiet Scenario.listener).
  { intros status attempt w. exists (tracker w). now destruct w. }
  apply (fetch_attestation_reports_before_decoding
           E 4 3 "0xabc" (seconds 300) (seconds 5) "https://iris-api.circle.com"
           (Some Scenario.listener) Scenario.fresh (mkResponse 200 (Some (JDict d))) d m []
           "" "0xzz" [] Hquiet);
    try reflexivity; try discriminate.
  simpl. lia.
Defined.

(** ** The transaction hash and its prefix *)

Lemma with_0x_prefixed transaction_hash : startswith_0x (with_0x transaction_hash) = true.
Proof.
  unfold with_0x. destruct (startswith_0x transaction_hash) eqn:H; [exact H |].
  unfold startswith_0x. apply String.prefix_correct. simpl. now destruct transaction_hash.
Qed.

(** X11: the ["0x"] in front of the transaction hash is optional.  Each
    of the four entry points that take a hash behaves on the hash with
    the prefix put in front exactly as on the hash itself: same
    requests, same result, same effects.  The hash they work with
    always starts with ["0x"]. *)
Theorem hash_prefix_is_optional
    (E : Env) (fuel : nat) (source_domain : Z) (transaction_hash : string)
    (timeout poll_interval : Z) (api_base_url : string)
    (on_phase_change : option phase_callback) (w : World) :
  startswith_0x (with_0x transaction_hash) = true
  /\ with_0x ("0x" +:+ transaction_hash) = "0x" +:+ transaction_hash
  /\ fetch_attestation E fuel (Some source_domain) (with_0x transaction_hash) timeout poll_interval
                       api_base_url on_phase_change w
     = fetch_attestation E fuel (Some source_domain) transaction_hash timeout poll_interval
                         api_base_url on_phase_change w
  /\ is_attestation_complete E source_domain (with_0x transaction_hash) api_base_url w
     = is_attestation_complete E source_domain transaction_hash api_base_url w
  /\ fetch_transfer_status E source_domain (with_0x transaction_hash) api_base_url w
     = fetch_transfer_status E source_domain transaction_hash api_base_url w
  /\ poll_transfer_status E fuel source_domain (with_0x transaction_hash) timeout
                          poll_interval api_base_url w
     = poll_transfer_status E fuel source_domain transaction_hash timeout poll_interval
                            api_base_url w.
Proof.
  split; [apply with_0x_prefixed |].
  split.
  { unfold with_0x.
    replace (startswith_0x ("0x" +:+ transaction_hash)) with true; [reflexivity |].
    symmetry. unfold startswith_0x. apply String.prefix_correct. simpl.
    now destruct transaction_hash. }
  unfold fetch_attestation, is_attestation_complete, fetch_transfer_status,
    poll_transfer_status.
  rewrite with_0x_idem. repeat split; reflexivity.
Qed.

(** ** The explorer link *)

Lemma explorer_chain_lookup source_domain chain :
  _DOMAIN_TO_EXPLORER_CHAIN !! source_domain = Some chain <->
  (source_domain = 0 /\ chain = "ethereum") \/ (source_domain = 3 /\ chain = "arbitrum")
  \/ (source_domain = 6 /\ chain = "base") \/ (source_domain = 7 /\ chain = "polygon").
Proof.
  unfold _DOMAIN_TO_EXPLORER_CHAIN.
  rewrite <- elem_of_list_to_map.
  - rewrite !elem_of_cons, elem_of_nil. split.
    + intros [H | [H | [H | [H | []]]]]; inversion H; subst; auto 6.
    + intros [[-> ->] | [[-> ->] | [[-> ->] | [-> ->]]]]; auto 6.
  - simpl. apply (bool_decide_unpack _). vm_compute. exact I.
Qed.

(** X12: the explorer link.  [_cctp_explorer_url] knows the domains 0,
    3, 6 and 7 and answers [None] for every other one; the link it
    builds for a known domain ends in the transaction hash as given, and
    two links are the same only for the same domain and the same hash. *)
Theorem _cctp_explorer_url_names_the_transfer :
  (forall source_domain transaction_hash,
      _cctp_explorer_url source_domain transaction_hash = None <->
      source_domain <> 0 /\ source_domain <> 3 /\ source_domain <> 6 /\ source_domain <> 7)
  /\ (forall source_domain transaction_hash link,
        _cctp_explorer_url source_domain transaction_hash = Some link ->
        exists chain, link = "https://usdc.range.org/status?id=" +:+ chain +:+ "/"
                               +:+ transaction_hash)
  /\ (forall source_domain transaction_hash source_domain' transaction_hash' link,
        _cctp_explorer_url source_domain transaction_hash = Some link ->
        _cctp_explorer_url source_domain' transaction_hash' = Some link ->
        source_domain = source_domain' /\ transaction_hash = transaction_hash').
Proof.
  split; [| split].
  - intros source_domain transaction_hash. unfold _cctp_explorer_url.
    destruct (_DOMAIN_TO_EXPLORER_CHAIN !! source_domain) as [chain |] eqn:Hchain.
    + apply explorer_chain_lookup in Hchain. split; [discriminate |]. lia.
    + split; [intros _ | reflexivity].
      repeat split; intros ->; vm_compute in Hchain; discriminate Hchain.
  - intros source_domain transaction_hash link. unfold _cctp_explorer_url.
    destruct (_DOMAIN_TO_EXPLORER_CHAIN !! source_domain) as [chain |]; [| discriminate].
    intros H. inversion H; subst. exists chain. reflexivity.
  - intros source_domain transaction_hash source_domain' transaction_hash' link.
    unfold _cctp_explorer_url.
    destruct (_DOMAIN_TO_EXPLORER_CHAIN !! source_domain) as [chain |] eqn:Hchain;
      [| discriminate].
    destruct (_DOMAIN_TO_EXPLORER_CHAIN !! source_domain') as [chain' |] eqn:Hchain';
      [| discriminate].
    apply explorer_chain_lookup in Hchain, Hchain'.
    intros H H'. rewrite <- H' in H. clear H'.
    destruct Hchain as [[-> ->] | [[-> ->] | [[-> ->] | [-> ->]]]];
      destruct Hchain' as [[-> ->] | [[-> ->] | [[-> ->] | [-> ->]]]];
      vm_compute in H; inversion H; split; reflexivity.
Qed.

Lemma _cctp_explorer_url_names_the_transfer_witness :
  _cctp_explorer_url 3 "0xabc" = Some "https://usdc.range.org/status?id=arbitrum/0xabc"
  /\ _cctp_explorer_url 5 "0xabc" = None.
Proof.
  split.
  - reflexivity.
  - apply (proj1 _cctp_explorer_url_names_the_transfer 5 "0xabc"). lia.
Defined.

(** ** The tracker and the bar *)

Lemma sum_insert (f : CCTPBridgePhase -> Z) l i x old :
  l !! i = Some old ->
  sum (map f (<[i := x]> l)) = sum (map f l) + f x - f old.
Proof.
  revert i. induction l as [| y l IH]; intros [| i] Hold; simpl in *; try discriminate.
  - inversion Hold; subst. lia.
  - rewrite (IH i Hold). lia.
Qed.

(** One update, whatever becomes of it: the phases keep their number,
    and either phases and bar stay as they are, or the phase of [idx]
    goes from [old] to [phase] and the bar moves by the steps forward. *)
Lemma _update_phase_step idx phase attempt w :
  let w' := snd (_update_phase idx phase attempt w) in
  length (transfer_phases (tracker w')) = length (transfer_phases (tracker w))
  /\ bar_total (progress_bar (tracker w')) = bar_total (progress_bar (tracker w))
  /\ ((transfer_phases (tracker w') = transfer_phases (tracker w)
       /\ advancement w' = advancement w)
      \/ (exists old,
            transfer_phases (tracker w) !! idx = Some old
            /\ transfer_phases (tracker w') = <[idx := phase]> (transfer_phases (tracker w))
            /\ advancement w' = advancement w + Z.max 0 (phase_index phase - phase_index old))).
Proof.
  open_world w. unfold advancement. unfold_tracker_ops. cbn.
  repeat (case_match; simpl in *; simplify_eq); simpl; rewrite ?length_insert.
  all: split; [reflexivity |].
  all: split; [reflexivity |].
  all: first [ left; split; reflexivity
             | right; eexists; split; [reflexivity |]; split; [reflexivity |];
               repeat match goal with
                      | H : (0 <? _) = true |- _ => apply Z.ltb_lt in H
                      | H : (0 <? _) = false |- _ => apply Z.ltb_ge in H
                      end; lia ].
Qed.

Lemma phase_sum_bounds (phases : list CCTPBridgePhase) :
  0 <= sum (map phase_index phases) <= 5 * Z.of_nat (length phases).
Proof.
  induction phases as [| p phases IH]; simpl; [lia |].
  destruct p; simpl; lia.
Qed.

Lemma phase_sum_start n : sum (map phase_index (replicate n burning)) = 0.
Proof. induction n as [| n IH]; simpl; [reflexivity | exact IH]. Qed.

Lemma feed_follows updates :
  forall w,
    let w' := feed updates w in
    length (transfer_phases (tracker w')) = length (transfer_phases (tracker w))
    /\ bar_total (progress_bar (tracker w')) = bar_total (progress_bar (tracker w))
    /\ phase_sum w' - phase_sum w <= advancement w' - advancement w
    /\ (never_regresses updates w ->
        advancement w' - advancement w = phase_sum w' - phase_sum w).
Proof.
  induction updates as [| [[idx phase] attempt] rest IH]; intros w; simpl.
  - repeat split; lia.
  - destruct (_update_phase_step idx phase attempt w) as (Hlen & Htotal & Hstep).
    destruct (IH (snd (_update_phase idx phase attempt w))) as (Hlen' & Htotal' & Hle & Heq).
    split; [congruence |]. split; [congruence |].
    assert (Hone : phase_sum (snd (_update_phase idx phase attempt w)) - phase_sum w
                   <= advancement (snd (_update_phase idx phase attempt w)) - advancement w
                   /\ ((forall old, transfer_phases (tracker w) !! idx = Some old ->
                                    phase_index old <= phase_index phase) ->
                       advancement (snd (_update_phase idx phase attempt w)) - advancement w
                       = phase_sum (snd (_update_phase idx phase attempt w)) - phase_sum w)).
    { unfold phase_sum. destruct Hstep as [[Hsame Hadv] | (old & Hold & Hnew & Hadv)].
      - rewrite Hsame, Hadv. split; [lia |]. intros _. lia.
      - rewrite Hnew, Hadv, (sum_insert _ _ _ _ _ Hold). split; [lia |].
        intros Hforward. specialize (Hforward old Hold). lia. }
    destruct Hone as [Hle1 Heq1]. split; [lia |].
    intros [Hforward Hrest]. specialize (Heq Hrest). specialize (Heq1 Hforward). lia.
Qed.

(** X13: the bar counts the phase steps.  Along every sequence of
    updates the bar moves at least as far as the ordinals of the phases
    the tracker holds have moved in sum; the number of transfers and the
    total of the bar stay as they are.  When no update takes a transfer
    back to an earlier phase the two move alike, so that a bar started
    at 0 with every transfer in [burning] shows the sum of the ordinals:
    at most 5 per transfer, below the total of 6 per transfer it was
    created with. *)
Theorem progress_bar_follows_the_phases
    (updates : list (nat * CCTPBridgePhase * Z)) (w : World) :
  let w' := feed updates w in
  length (transfer_phases (tracker w')) = length (transfer_phases (tracker w))
  /\ bar_total (progress_bar (tracker w')) = bar_total (progress_bar (tracker w))
  /\ phase_sum w' - phase_sum w <= advancement w' - advancement w
  /\ (never_regresses updates w ->
      advancement w' - advancement w = phase_sum w' - phase_sum w
      /\ forall n,
           transfer_phases (tracker w) = replicate (S n) burning ->
           advancement w = 0 ->
           bar_total (progress_bar (tracker w)) = Z.of_nat (S n) * n_phases ->
           advancement w' = phase_sum w'
           /\ advancement w' <= 5 * Z.of_nat (S n)
           /\ advancement w' < bar_total (progress_bar (tracker w'))).
Proof.
  intros w'. destruct (feed_follows updates w) as (Hlen & Htotal & Hle & Heq).
  fold w' in Hlen, Htotal, Hle, Heq.
  split; [exact Hlen |]. split; [exact Htotal |]. split; [exact Hle |].
  intros Hforward. specialize (Heq Hforward). split; [exact Heq |].
  intros n Hstart Hzero Hbar.
  assert (Hsum0 : phase_sum w = 0) by (unfold phase_sum; rewrite Hstart; apply phase_sum_start).
  pose proof (phase_sum_bounds (transfer_phases (tracker w'))) as Hbound.
  fold (phase_sum w') in Hbound.
  rewrite Hlen, Hstart, length_replicate in Hbound.
  rewrite Htotal, Hbar. unfold n_phases. lia.
Qed.

(** One transfer taken through all its phases: the bar ends at 5 of 6. *)
Lemma progress_bar_follows_the_phases_witness :
  let updates := [(0%nat, waiting_for_indexing, 0); (0%nat, pending_confirmations, 1);
                  (0%nat, pending_confirmations, 2); (0%nat, attested, 3);
                  (0%nat, receiving, 0); (0%nat, complete, 0)] in
  let w' := feed updates (Scenario.tracking burning 0 0) in
  advancement w' = 5 /\ bar_total (progress_bar (tracker w')) = 6.
Proof.
  intros updates w'.
  assert (Hforward : never_regresses updates (Scenario.tracking burning 0 0)).
  { simpl. repeat split; intros old Hold; vm_compute in Hold; inversion Hold; subst old;
      simpl; lia. }
  destruct (progress_bar_follows_the_phases updates (Scenario.tracking burning 0 0))
    as (_ & Htotal & _ & Hfollow).
  destruct (Hfollow Hforward) as [_ Hstart].
  destruct (Hstart 0%nat eq_refl eq_refl eq_refl) as (Hsum & _ & _).
  fold w' in Hsum, Htotal. split; [rewrite Hsum; reflexivity | rewrite Htotal; reflexivity].
Defined.

(** An update within the range of the tracker returns and records the
    phase. *)
Lemma _update_phase_on_tracks idx phase attempt n w :
  tracks n w ->
  (idx < n)%nat ->
  exists t,
    _update_phase idx phase attempt w
    = (Return tt, mkWorld (now w) (http_calls w) (txs_sent w) t (trace w))
    /\ transfer_phases t = <[idx := phase]> (transfer_phases (tracker w))
    /\ poll_counts t = (if 0 <? attempt then <[idx := attempt]> (poll_counts (tracker w))
                        else poll_counts (tracker w))
    /\ dest_names t = dest_names (tracker w)
    /\ bar_total (progress_bar t) = bar_total (progress_bar (tracker w))
    /\ bar_closed (progress_bar t) = bar_closed (progress_bar (tracker w))
    /\ tracks n (mkWorld (now w) (http_calls w) (txs_sent w) t (trace w)).
Proof.
  open_world w. unfold tracks. simpl. intros [Hp Hc] Hidx.
  destruct (lookup_lt_is_Some_2 phases idx ltac:(lia)) as [old Hold].
  assert (Hc' : (idx < length counts)%nat) by lia.
  assert (Hp' : (idx < length phases)%nat) by lia.
  unfold_tracker_ops.
  destruct (0 <? attempt); cbn; rewrite ?(bool_decide_eq_true_2 _ Hc'); cbn;
    rewrite Hold; cbn;
    (destruct (String.eqb (phase_value phase) (phase_value old)) eqn:Hsame; cbn;
     [ apply String.eqb_eq, phase_value_inj in Hsame; subst old;
       eexists; split; [reflexivity |]; simpl;
       rewrite (list_insert_id _ _ _ Hold), ?length_insert; auto 10
     | rewrite ?length_insert, (bool_decide_eq_true_2 _ Hp'); cbn;
       destruct (0 <? Z.max 0 (phase_index phase - phase_index old)); cbn;
       eexists; (split; [reflexivity |]); simpl; rewrite ?length_insert; auto 10 ]).
Qed.

(** An update outside the range of the tracker changes nothing. *)
Lemma _update_phase_off_tracks idx phase attempt n w :
  tracks n w ->
  (n <= idx)%nat ->
  _update_phase idx phase attempt w = (Raise IndexError, w).
Proof.
  open_world w. unfold tracks. simpl. intros [Hp Hc] Hidx.
  assert (Hnone : phases !! idx = None) by (apply lookup_ge_None; lia).
  assert (Hc' : ~ (idx < length counts)%nat) by lia.
  unfold_tracker_ops.
  destruct (0 <? attempt); cbn; rewrite ?(bool_decide_eq_false_2 _ Hc'); cbn;
    rewrite ?Hnone; reflexivity.
Qed.

(** X14: [_update_phase] on a tracker of [n] transfers.  For an index
    below [n] the update returns and the tracker then holds [phase] for
    that transfer and what it held before for every other one; the poll
    count of the transfer is set when the attempt is positive;
    destination names, total and state of the bar, clock, requests,
    transactions and trace are untouched.  For any other index the
    update raises [IndexError] and changes nothing. *)
Theorem _update_phase_records_the_phase
    (idx : nat) (phase : CCTPBridgePhase) (attempt : Z) (n : nat) (w : World) :
  tracks n w ->
  ((idx < n)%nat ->
   exists t,
     _update_phase idx phase attempt w
     = (Return tt, mkWorld (now w) (http_calls w) (txs_sent w) t (trace w))
     /\ transfer_phases t = <[idx := phase]> (transfer_phases (tracker w))
     /\ poll_counts t = (if 0 <? attempt then <[idx := attempt]> (poll_counts (tracker w))
                         else poll_counts (tracker w))
     /\ dest_names t = dest_names (tracker w)
     /\ bar_total (progress_bar t) = bar_total (progress_bar (tracker w))
     /\ bar_closed (progress_bar t) = bar_closed (progress_bar (tracker w))
     /\ tracks n (mkWorld (now w) (http_calls w) (txs_sent w) t (trace w)))
  /\ ((n <= idx)%nat -> _update_phase idx phase attempt w = (Raise IndexError, w)).
Proof.
  intros Htracks. split.
  - intros Hidx. exact (_update_phase_on_tracks idx phase attempt n w Htracks Hidx).
  - intros Hidx. exact (_update_phase_off_tracks idx phase attempt n w Htracks Hidx).
Qed.

(** Two transfers, the second one moves to [attested] on its third
    poll; index 2 is out of range. *)
Lemma _update_phase_records_the_phase_witness :
  let w := mkWorld 0 0 0
             (mkTracker ["Arbitrum"; "Base"] [burning; waiting_for_indexing] [0; 2]
                        (mkProgressBar 12 1 "CCTP bridge" "" false)) [] in
  (exists t,
      _update_phase 1 attested 3 w = (Return tt, mkWorld 0 0 0 t [])
      /\ transfer_phases t = [burning; attested]
      /\ poll_counts t = [0; 3])
  /\ _update_phase 2 attested 3 w = (Raise IndexError, w).
Proof.
  intros w.
  assert (Htracks : tracks 2 w) by (split; reflexivity).
  destruct (_update_phase_records_the_phase 1 attested 3 2 w Htracks) as [Hin _].
  destruct (Hin ltac:(lia)) as (t & Hrun & Hphases & Hcounts & _).
  split.
  - exists t. split; [exact Hrun |]. split; assumption.
  - apply (proj2 (_update_phase_records_the_phase 2 attested 3 2 w Htracks)). lia.
Defined.

(** ** The wallets of the receive phase *)

Section DestWallets.

Variables (E : Env) (hot_wallet : HotWallet).

Local Abbreviation answers cid :=
  (exists count, transaction_count E cid (account hot_wallet) = inr count).

(** One synchronisation, as the node answers. *)
Lemma sync_nonce_run wallet cid w :
  sync_nonce E wallet cid w
  = (match transaction_count E cid (account wallet) with
     | inr count => Return (mkHotWallet (account wallet) (Some count))
     | inl e => Raise e
     end,
     mkWorld (now w) (http_calls w) (txs_sent w) (tracker w) (trace w ++ [EvSyncNonce cid])).
Proof.
  unfold sync_nonce. unfold mbind, M_bind, emit.
  now destruct (transaction_count E cid (account wallet)).
Qed.

(** What a returned [build_dest_wallets] has done. *)
Lemma build_dest_wallets_returns chain_ids :
  forall dest_wallets w wallets w',
    build_dest_wallets E hot_wallet chain_ids dest_wallets w = (Return wallets, w') ->
    exists synced,
      w' = mkWorld (now w) (http_calls w) (txs_sent w) (tracker w)
                   (trace w ++ map EvSyncNonce synced)
      /\ NoDup synced
      /\ (forall cid, cid ∈ synced <-> cid ∈ chain_ids /\ dest_wallets !! cid = None)
      /\ synced `sublist_of` chain_ids
      /\ (forall cid, cid ∈ synced ->
            exists count,
              transaction_count E cid (account hot_wallet) = inr count
              /\ wallets !! cid = Some (Some (mkHotWallet (account hot_wallet) (Some count))))
      /\ (forall cid, cid ∉ synced -> wallets !! cid = dest_wallets !! cid).
Proof.
  induction chain_ids as [| cid rest IH]; intros dest_wallets w wallets w' Hrun;
    cbn [build_dest_wallets] in Hrun.
  - inversion Hrun; subst. exists []. simpl. rewrite app_nil_r.
    split; [now destruct w' |]. split; [constructor |]. split.
    + intros c. split; [intros H; inversion H | intros [H _]; inversion H].
    + split; [constructor |]. split; [intros c H; inversion H | reflexivity].
  - destruct (dest_wallets !! cid) as [known |] eqn:Hknown.
    + destruct (IH _ _ _ _ Hrun) as (synced & Hw' & Hnodup & Hmem & Hsub & Hnew & Hold).
      exists synced. split; [exact Hw' |]. split; [exact Hnodup |]. split.
      * intros c. rewrite Hmem, elem_of_cons. split.
        -- intros [Hin Hnone]. split; [now right | exact Hnone].
        -- intros [[-> | Hin] Hnone]; [congruence | now split].
      * split; [now apply sublist_cons |]. split; [exact Hnew | exact Hold].
    + cbv zeta in Hrun.
      apply bind_inv_Return in Hrun. destruct Hrun as (copy & w1 & Hsync & Hrun).
      cbv beta in Hrun. rewrite sync_nonce_run in Hsync. simpl in Hsync.
      destruct (transaction_count E cid (account hot_wallet)) as [e | count] eqn:Hcount;
        [discriminate Hsync |].
      inversion Hsync; subst copy w1. clear Hsync.
      destruct (IH _ _ _ _ Hrun) as (synced & Hw' & Hnodup & Hmem & Hsub & Hnew & Hold).
      assert (Hfresh : cid ∉ synced).
      { intros Hin. apply Hmem in Hin. destruct Hin as [_ Hnone].
        rewrite lookup_insert_eq in Hnone. discriminate Hnone. }
      exists (cid :: synced). split.
      { rewrite Hw'. simpl. rewrite <- app_assoc. reflexivity. }
      split; [now constructor |]. split.
      * intros c. rewrite !elem_of_cons, Hmem. split.
        -- intros [-> | [Hin Hnone]]; [split; [now left | exact Hknown] |].
           destruct (decide (cid = c)) as [-> | Hne];
             [rewrite lookup_insert_eq in Hnone; discriminate Hnone |].
           rewrite lookup_insert_ne in Hnone by exact Hne. split; [now right | exact Hnone].
        -- intros [[-> | Hin] Hnone]; [now left |].
           destruct (decide (cid = c)) as [-> | Hne]; [now left | right].
           split; [exact Hin |]. now rewrite lookup_insert_ne.
      * split; [now apply sublist_skip |]. split.
        -- intros c Hin. apply elem_of_cons in Hin as [-> | Hin]; [| now apply Hnew].
           exists count. split; [exact Hcount |].
           rewrite (Hold cid Hfresh). apply lookup_insert_eq.
        -- intros c Hout.
           assert (Hne : cid <> c) by (intros ->; apply Hout; now left).
           rewrite Hold by (intros Hin; apply Hout; now right).
           now rewrite lookup_insert_ne.
Qed.

(** When every chain that needs a wallet answers, the step returns. *)
Lemma build_dest_wallets_succeeds chain_ids :
  forall dest_wallets w,
    (forall cid, cid ∈ chain_ids -> dest_wallets !! cid = None -> answers cid) ->
    exists wallets w',
      build_dest_wallets E hot_wallet chain_ids dest_wallets w = (Return wallets, w').
Proof.
  induction chain_ids as [| cid rest IH]; intros dest_wallets w Hanswers;
    cbn [build_dest_wallets].
  - now exists dest_wallets, w.
  - destruct (dest_wallets !! cid) as [known |] eqn:Hknown.
    + apply IH. intros c Hin. apply Hanswers. now right.
    + destruct (Hanswers cid ltac:(now left) Hknown) as [count Hcount].
      assert (Hsync : sync_nonce E (mkHotWallet (account hot_wallet) None) cid w
                      = (Return (mkHotWallet (account hot_wallet) (Some count)),
                         mkWorld (now w) (http_calls w) (txs_sent w) (tracker w)
                                 (trace w ++ [EvSyncNonce cid]))).
      { rewrite sync_nonce_run. simpl. now rewrite Hcount. }
      cbv zeta. rewrite (bind_Return _ _ _ _ _ Hsync).
      apply IH. intros c Hin Hnone.
      destruct (decide (cid = c)) as [-> | Hne];
        [rewrite lookup_insert_eq in Hnone; discriminate Hnone |].
      rewrite lookup_insert_ne in Hnone by exact Hne.
      apply Hanswers; [now right | exact Hnone].
Qed.

(** The first chain whose node fails ends the step with the node's
    error: the chains before it are synchronised, the failing call is
    the last thing that happens. *)
Lemma build_dest_wallets_fails before :
  forall cid after e dest_wallets w,
    (forall c, c ∈ before -> dest_wallets !! c = None -> answers c) ->
    cid ∉ before ->
    dest_wallets !! cid = None ->
    transaction_count E cid (account hot_wallet) = inl e ->
    exists synced,
      build_dest_wallets E hot_wallet (before ++ cid :: after) dest_wallets w
      = (Raise e,
         mkWorld (now w) (http_calls w) (txs_sent w) (tracker w)
                 (trace w ++ map EvSyncNonce (synced ++ [cid])))
      /\ NoDup synced
      /\ (forall c, c ∈ synced <-> c ∈ before /\ dest_wallets !! c = None)
      /\ synced `sublist_of` before.
Proof.
  induction before as [| c0 before IH]; intros cid after e dest_wallets w Hanswers Hnew Hnone Hfail;
    cbn [app build_dest_wallets].
  - rewrite Hnone. cbv zeta.
    assert (Hsync : sync_nonce E (mkHotWallet (account hot_wallet) None) cid w
                    = (Raise e,
                       mkWorld (now w) (http_calls w) (txs_sent w) (tracker w)
                               (trace w ++ [EvSyncNonce cid]))).
    { rewrite sync_nonce_run. simpl. now rewrite Hfail. }
    rewrite (bind_Raise _ _ _ _ _ Hsync).
    exists []. split; [reflexivity |]. split; [constructor |]. split.
    + intros c. split; [intros H; inversion H | intros [H _]; inversion H].
    + constructor.
  - assert (Hne : c0 <> cid) by (intros ->; apply Hnew; now left).
    assert (Hnew' : cid ∉ before) by (intros Hin; apply Hnew; now right).
    destruct (dest_wallets !! c0) as [known |] eqn:Hknown.
    + destruct (IH cid after e dest_wallets w) as (synced & Hrun & Hnodup & Hmem & Hsub); auto.
      { intros c Hin. apply Hanswers. now right. }
      exists synced. split; [exact Hrun |]. split; [exact Hnodup |]. split.
      * intros c. rewrite Hmem, elem_of_cons. split.
        -- intros [Hin Hc]. split; [now right | exact Hc].
        -- intros [[-> | Hin] Hc]; [congruence | now split].
      * now apply sublist_cons.
    + destruct (Hanswers c0 ltac:(now left) Hknown) as [count Hcount].
      assert (Hsync : sync_nonce E (mkHotWallet (account hot_wallet) None) c0 w
                      = (Return (mkHotWallet (account hot_wallet) (Some count)),
                         mkWorld (now w) (http_calls w) (txs_sent w) (tracker w)
                                 (trace w ++ [EvSyncNonce c0]))).
      { rewrite sync_nonce_run. simpl. now rewrite Hcount. }
      cbv zeta. rewrite (bind_Return _ _ _ _ _ Hsync).
      set (w1 := mkWorld _ _ _ _ _).
      destruct (IH cid after e
                  (<[c0 := Some (mkHotWallet (account hot_wallet) (Some count))]> dest_wallets)
                  w1) as (synced & Hrun & Hnodup & Hmem & Hsub); auto.
      { intros c Hin Hc.
        destruct (decide (c0 = c)) as [-> | Hne'];
          [rewrite lookup_insert_eq in Hc; discriminate Hc |].
        rewrite lookup_insert_ne in Hc by exact Hne'.
        apply Hanswers; [now right | exact Hc]. }
      { now rewrite lookup_insert_ne. }
      assert (Hfresh : c0 ∉ synced).
      { intros Hin. apply Hmem in Hin. destruct Hin as [_ Hc].
        rewrite lookup_insert_eq in Hc. discriminate Hc. }
      exists (c0 :: synced). split.
      { rewrite Hrun. subst w1. simpl. rewrite <- app_assoc. reflexivity. }
      split; [now constructor |]. split.
      * intros c. rewrite !elem_of_cons, Hmem. split.
        -- intros [-> | [Hin Hc]]; [split; [now left | exact Hknown] |].
           destruct (decide (c0 = c)) as [-> | Hne'];
             [rewrite lookup_insert_eq in Hc; discriminate Hc |].
           rewrite lookup_insert_ne in Hc by exact Hne'. split; [now right | exact Hc].
        -- intros [[-> | Hin] Hc]; [now left |].
           destruct (decide (c0 = c)) as [-> | Hne']; [now left | right].
           split; [exact Hin |]. now rewrite lookup_insert_ne.
      * now apply sublist_skip.
Qed.

End DestWallets.

(** The wallets of the receive phase, where it gets past them: with a
    hot wallet one new wallet per distinct chain, synchronised as it is
    made; without one the unlocked account for every chain. *)
Lemma dest_wallets_run E (hot_wallet : option HotWallet) (chain_ids : list Z) w wallets w' :
  match hot_wallet with
  | Some hw => build_dest_wallets E hw chain_ids ∅
  | None => ret (list_to_map (map (fun cid => (cid, None)) chain_ids))
  end w = (Return wallets, w') ->
  exists synced,
    w' = mkWorld (now w) (http_calls w) (txs_sent w) (tracker w)
                 (trace w ++ map EvSyncNonce synced)
    /\ NoDup synced
    /\ (forall cid, cid ∈ synced <-> hot_wallet <> None /\ cid ∈ chain_ids)
    /\ (forall cid wallet, wallets !! cid = Some wallet ->
                           receive_wallet E hot_wallet cid wallet).
Proof.
  intros Hwallets. destruct hot_wallet as [hw |].
  - destruct (build_dest_wallets_returns E hw chain_ids _ _ _ _ Hwallets)
      as (synced & Hw' & Hnodup & Hmem & _ & Hnew & Hold).
    exists synced. split; [exact Hw' |]. split; [exact Hnodup |]. split.
    + intros cid. rewrite Hmem, lookup_empty. split.
      * intros [Hin _]. split; [discriminate | exact Hin].
      * intros [_ Hin]. split; [exact Hin | reflexivity].
    + intros cid wallet Hwallet. simpl.
      destruct (decide (cid ∈ synced)) as [Hin | Hout].
      * destruct (Hnew cid Hin) as (count & Hcount & Hlook).
        exists count. split; [exact Hcount |]. rewrite Hlook in Hwallet. now inversion Hwallet.
      * rewrite (Hold cid Hout), lookup_empty in Hwallet. discriminate Hwallet.
  - destruct w. inversion Hwallets; subst. exists []. simpl. rewrite app_nil_r.
    split; [reflexivity |]. split; [constructor |]. split.
    + intros cid. split; [intros Hin; inversion Hin | intros [Hne _]; now destruct Hne].
    + intros cid wallet Hwallet. apply elem_of_list_to_map_2 in Hwallet.
      apply list_elem_of_fmap in Hwallet. destruct Hwallet as (c & Heq & _).
      now inversion Heq.
Qed.

(** X15: one wallet per destination chain.  From a hot wallet and the
    chain ids of the destinations, the receive phase makes a new wallet
    of the same account for every chain that occurs and for no other,
    and synchronises its nonce on that chain, once per distinct chain
    and in the order of the destinations, even when several
    destinations share a chain.  When every node answers, the step
    returns, each wallet holding the count its node reported, and
    nothing else has happened.  When a node fails, the step raises the
    error of the first chain, in the order of the destinations, whose
    node fails; the chains before it have been synchronised and the
    failing call is the last thing that happens. *)
Theorem build_dest_wallets_syncs_each_chain_once
    (E : Env) (hot_wallet : HotWallet) (chain_ids : list Z) (w : World) :
  ((forall cid, cid ∈ chain_ids ->
                exists count, transaction_count E cid (account hot_wallet) = inr count) ->
   exists wallets synced,
     build_dest_wallets E hot_wallet chain_ids ∅ w
     = (Return wallets,
        mkWorld (now w) (http_calls w) (txs_sent w) (tracker w)
                (trace w ++ map EvSyncNonce synced))
     /\ NoDup synced
     /\ (forall cid, cid ∈ synced <-> cid ∈ chain_ids)
     /\ synced `sublist_of` chain_ids
     /\ (forall cid, cid ∈ chain_ids ->
                     exists count,
                       transaction_count E cid (account hot_wallet) = inr count
                       /\ wallets !! cid
                          = Some (Some (mkHotWallet (account hot_wallet) (Some count))))
     /\ (forall cid, cid ∉ chain_ids -> wallets !! cid = None))
  /\ (forall before cid after e,
        chain_ids = before ++ cid :: after ->
        (forall c, c ∈ before ->
                   exists count, transaction_count E c (account hot_wallet) = inr count) ->
        transaction_count E cid (account hot_wallet) = inl e ->
        exists synced,
          build_dest_wallets E hot_wallet chain_ids ∅ w
          = (Raise e,
             mkWorld (now w) (http_calls w) (txs_sent w) (tracker w)
                     (trace w ++ map EvSyncNonce (synced ++ [cid])))
          /\ NoDup synced
          /\ (forall c, c ∈ synced <-> c ∈ before)
          /\ synced `sublist_of` before).
Proof.
  split.
  - intros Hanswers.
    destruct (build_dest_wallets_succeeds E hot_wallet chain_ids ∅ w) as (wallets & w' & Hrun).
    { intros cid Hin _. now apply Hanswers. }
    destruct (build_dest_wallets_returns E hot_wallet chain_ids _ _ _ _ Hrun)
      as (synced & Hw' & Hnodup & Hmem & Hsub & Hnew & Hold).
    assert (Hmem' : forall cid, cid ∈ synced <-> cid ∈ chain_ids).
    { intros cid. rewrite Hmem, lookup_empty. tauto. }
    exists wallets, synced. split; [now rewrite Hrun, Hw' |]. split; [exact Hnodup |].
    split; [exact Hmem' |]. split; [exact Hsub |]. split.
    + intros cid Hin. apply Hnew. now apply Hmem'.
    + intros cid Hout. rewrite Hold by (now rewrite Hmem'). apply lookup_empty.
  - intros before cid after e -> Hanswers Hfail.
    assert (Hnew : cid ∉ before).
    { intros Hin. destruct (Hanswers cid Hin) as [count Hcount]. congruence. }
    destruct (build_dest_wallets_fails E hot_wallet before cid after e ∅ w)
      as (synced & Hrun & Hnodup & Hmem & Hsub); auto.
    exists synced. split; [exact Hrun |]. split; [exact Hnodup |]. split; [| exact Hsub].
    intros c. rewrite Hmem, lookup_empty. tauto.
Qed.

(** Destinations on Arbitrum, Base and Arbitrum again.  With nodes that
    answer: two synchronisations, in that order.  With a Base node that
    is down: Arbitrum is synchronised, the call to Base fails and its
    error ends the step. *)
Lemma build_dest_wallets_syncs_each_chain_once_witness :
  let wallet := mkHotWallet "0xhot" (Some 7) in
  let up := Scenario.env (Scenario.always Scenario.completed) Scenario.ledger in
  let down :=
    mkEnv (iris up) (chain up) (IRIS_API_BASE_URL up) (IRIS_API_SANDBOX_URL up)
          (TESTNET_CHAIN_IDS up) (CCTP_DOMAIN_NAMES up) (_resolve_cctp_domain up)
          (get_chain_name up) (USDC_NATIVE_TOKEN up) (prepare_approve_for_burn up)
          (prepare_deposit_for_burn up) (prepare_receive_message up)
          (craft_cctp_message up) (forge_attestation up) (str_of_float up) (int_of_str up)
          (fun cid _ => if cid =? 8453 then inl ConnectionError else inr 3) in
  (exists wallets,
      build_dest_wallets up wallet [42161; 8453; 42161] ∅ Scenario.fresh
      = (Return wallets,
         mkWorld 0 0 0 idle_tracker [EvSyncNonce 42161; EvSyncNonce 8453])
      /\ wallets !! 8453 = Some (Some (mkHotWallet "0xhot" (Some 0))))
  /\ build_dest_wallets down wallet [42161; 8453; 42161] ∅ Scenario.fresh
     = (Raise ConnectionError,
        mkWorld 0 0 0 idle_tracker [EvSyncNonce 42161; EvSyncNonce 8453]).
Proof.
  intros wallet up down. split.
  - destruct (proj1 (build_dest_wallets_syncs_each_chain_once up wallet [42161; 8453; 42161]
                       Scenario.fresh))
      as (wallets & synced & Hrun & _ & _ & _ & Hnew & _).
    { intros cid _. now exists 0. }
    exists wallets. split.
    + rewrite Hrun. vm_compute in Hrun. inversion Hrun as [[Hwallets Htrace]].
      simpl. f_equal. f_equal. symmetry. exact Htrace.
    + destruct (Hnew 8453) as (count & Hcount & Hlook).
      * apply (bool_decide_unpack _). vm_compute. exact I.
      * rewrite Hlook. inversion Hcount. reflexivity.
  - destruct (proj2 (build_dest_wallets_syncs_each_chain_once down wallet
                       [42161; 8453; 42161] Scenario.fresh)
                [42161] 8453 [42161] ConnectionError eq_refl)
      as (synced & Hrun & _ & _ & _).
    + intros c Hc. exists 3. apply list_elem_of_singleton in Hc. now subst c.
    + reflexivity.
    + rewrite Hrun. vm_compute in Hrun. inversion Hrun as [Htrace].
      simpl. f_equal. f_equal. symmetry. exact Htrace.
Defined.

(** ** Where the attestation comes from *)

Section Requests.

Variables (E : Env) (source_domain : option Z) (transaction_hash : string)
          (timeout poll_interval : Z) (api_base_url : string)
          (on_phase_change : option phase_callback).

Hypothesis callback_ok : well_behaved on_phase_change.

Let loop := fetch_attestation_loop E source_domain transaction_hash timeout poll_interval
                                   api_base_url on_phase_change.
Let the_url := url source_domain transaction_hash api_base_url.

Lemma requests_only_noted attempt status :
  Forall (requests_only the_url) (noted on_phase_change attempt status).
Proof. unfold noted. destruct on_phase_change; repeat constructor. Qed.

(** Whatever the loop does, it only talks to its one URL. *)
Lemma loop_requests fuel :
  forall start attempt w,
  exists events,
    trace (snd (loop fuel start attempt w)) = trace w ++ events
    /\ Forall (requests_only the_url) events
    /\ txs_sent (snd (loop fuel start attempt w)) = txs_sent w.
Proof.
  induction fuel as [| fuel IH]; intros start attempt w.
  - exists []. simpl. rewrite app_nil_r. repeat split. constructor.
  - destruct (Z_lt_le_dec (now w - start) timeout) as [Hearly | Hlate].
    + pose proof (loop_round E source_domain transaction_hash timeout poll_interval
                    api_base_url on_phase_change callback_ok fuel start attempt w Hearly)
        as Hround.
      fold loop the_url in Hround.
      assert (Hreport : forall w1 report slept,
                 round_shape E the_url on_phase_change poll_interval attempt w w1 report slept ->
                 Forall (requests_only the_url)
                        (EvHttpGet the_url :: report
                           ++ (if slept then [EvSleep poll_interval] else []))).
      { intros w1 report slept Hshape. constructor; [reflexivity |].
        apply Forall_app. split.
        - destruct (shape_report _ _ _ _ _ _ _ _ _ Hshape) as [-> | [status ->]];
            [constructor | apply requests_only_noted].
        - destruct slept; repeat constructor. }
      remember (loop (S fuel) start attempt w) as result eqn:Hresult. clear Hresult.
      destruct Hround as [w1 report Hshape Hp | w1 report att Hshape Hst Hready
                         | w1 report e Hshape He].
      * destruct (IH start (attempt + 1) w1) as (rest & Htrace & Hall & Htxs).
        eexists. rewrite Htrace, (shape_trace _ _ _ _ _ _ _ _ _ Hshape), <- app_assoc.
        split; [reflexivity |]. split.
        -- apply Forall_app. split; [exact (Hreport _ _ _ Hshape) | exact Hall].
        -- rewrite Htxs. exact (shape_txs _ _ _ _ _ _ _ _ _ Hshape).
      * eexists. simpl snd. rewrite (shape_trace _ _ _ _ _ _ _ _ _ Hshape).
        split; [reflexivity |]. split; [exact (Hreport _ _ _ Hshape) |].
        exact (shape_txs _ _ _ _ _ _ _ _ _ Hshape).
      * eexists. simpl snd. rewrite (shape_trace _ _ _ _ _ _ _ _ _ Hshape).
        split; [reflexivity |]. split; [exact (Hreport _ _ _ Hshape) |].
        exact (shape_txs _ _ _ _ _ _ _ _ _ Hshape).
    + exists []. unfold loop. rewrite loop_timeout by exact Hlate.
      simpl. rewrite app_nil_r. repeat split. constructor.
Qed.

End Requests.

Lemma fetch_attestation_requests E fuel source_domain transaction_hash timeout poll_interval
    api_base_url on_phase_change w :
  well_behaved on_phase_change ->
  exists events,
    trace (snd (fetch_attestation E fuel source_domain transaction_hash timeout poll_interval
                                  api_base_url on_phase_change w))
    = trace w ++ events
    /\ Forall (requests_only (url source_domain (with_0x transaction_hash) api_base_url)) events
    /\ txs_sent (snd (fetch_attestation E fuel source_domain transaction_hash timeout
                                        poll_interval api_base_url on_phase_change w))
       = txs_sent w.
Proof.
  intros Hcb.
  destruct (fetch_attestation_enters_loop E fuel source_domain transaction_hash timeout
              poll_interval api_base_url on_phase_change w Hcb) as [t Ht].
  rewrite Ht. set (w0 := mkWorld _ _ _ _ _).
  destruct (loop_requests E source_domain (with_0x transaction_hash) timeout poll_interval
              api_base_url on_phase_change Hcb fuel (now w) 0 w0) as (events & Htrace & Hall & Htxs).
  exists (noted on_phase_change 0 (JStr "waiting_for_indexing") ++ events).
  rewrite Htrace, Htxs. subst w0. simpl. rewrite <- app_assoc.
  split; [reflexivity |]. split; [| reflexivity].
  apply Forall_app. split; [| exact Hall].
  unfold noted. destruct on_phase_change; repeat constructor.
Qed.

(** Both modes of [_get_attestation]. *)
Lemma _get_attestation_run
    (E : Env) (fuel : nat) (burn_result : CCTPBurnResult) (simulate : bool)
    (test_attester : option string) (attestation_timeout : Z)
    (on_phase_change : option phase_callback) (nonce_base : Z) (w : World) :
  let run := _get_attestation E fuel burn_result simulate test_attester attestation_timeout
                              on_phase_change nonce_base w in
  (simulate = true -> snd run = w /\ fst run <> OutOfFuel)
  /\ (simulate = false ->
      well_behaved on_phase_change ->
      let api := if TESTNET_CHAIN_IDS E (b_source_chain_id burn_result)
                 then IRIS_API_SANDBOX_URL E else IRIS_API_BASE_URL E in
      let burn_tx := with_0x (b_burn_tx_hash burn_result) in
      let target :=
        match _resolve_cctp_domain E (b_source_chain_id burn_result) with
        | Some source_domain => messages_url api source_domain burn_tx
        | None => api +:+ "/v2/messages/None?transactionHash=" +:+ burn_tx
        end in
      exists events,
        trace (snd run) = trace w ++ events
        /\ Forall (requests_only target) events
        /\ txs_sent (snd run) = txs_sent w).
Proof.
  intros run. subst run. unfold _get_attestation. cbv zeta. split.
  - intros ->.
    destruct (_resolve_cctp_domain E (b_dest_chain_id burn_result)) as [dd |];
      [| split; [reflexivity | discriminate]].
    destruct (USDC_NATIVE_TOKEN E (b_source_chain_id burn_result)) as [token |];
      [| split; [reflexivity | discriminate]].
    destruct (_resolve_cctp_domain E (b_source_chain_id burn_result)) as [sd |];
      [| split; [reflexivity | discriminate]].
    destruct test_attester; split; reflexivity || discriminate.
  - intros -> Hcb.
    set (api := if TESTNET_CHAIN_IDS E (b_source_chain_id burn_result)
                then IRIS_API_SANDBOX_URL E else IRIS_API_BASE_URL E).
    destruct (fetch_attestation_requests E fuel
                (_resolve_cctp_domain E (b_source_chain_id burn_result))
                (b_burn_tx_hash burn_result) attestation_timeout (seconds 5) api
                on_phase_change w Hcb) as (events & Htrace & Hall & Htxs).
    exists events. unfold mbind, M_bind.
    destruct (fetch_attestation E fuel (_resolve_cctp_domain E (b_source_chain_id burn_result))
                (b_burn_tx_hash burn_result) attestation_timeout (seconds 5) api
                on_phase_change w)
      as [[att | e |] w1]; simpl in *; auto.
Qed.

(** X16: where [_get_attestation] gets the attestation from.  In
    simulate mode it forges it and touches nothing: no request, no
    sleep, no transaction, and it comes to an end.  In production mode
    it submits no transaction, whatever the chains of the burn are, and
    every request it makes goes to the messages URL of the 0x-prefixed
    burn hash, at the sandbox API when the source chain is a testnet, at
    the mainnet API otherwise; the URL names the source chain's domain,
    and reads [None] in its place when the source chain has none.  The
    destination domain plays no part in production mode. *)
Theorem _get_attestation_asks_the_right_service
    (E : Env) (fuel : nat) (burn_result : CCTPBurnResult) (simulate : bool)
    (test_attester : option string) (attestation_timeout : Z)
    (on_phase_change : option phase_callback) (nonce_base : Z) (w : World) :
  let run := _get_attestation E fuel burn_result simulate test_attester attestation_timeout
                              on_phase_change nonce_base w in
  (simulate = true -> snd run = w /\ fst run <> OutOfFuel)
  /\ (simulate = false ->
      well_behaved on_phase_change ->
      let api := if TESTNET_CHAIN_IDS E (b_source_chain_id burn_result)
                 then IRIS_API_SANDBOX_URL E else IRIS_API_BASE_URL E in
      let burn_tx := with_0x (b_burn_tx_hash burn_result) in
      let target :=
        match _resolve_cctp_domain E (b_source_chain_id burn_result) with
        | Some source_domain => messages_url api source_domain burn_tx
        | None => api +:+ "/v2/messages/None?transactionHash=" +:+ burn_tx
        end in
      exists events,
        trace (snd run) = trace w ++ events
        /\ Forall (requests_only target) events
        /\ txs_sent (snd run) = txs_sent w).
Proof.
  intros run. subst run. split.
  - intros Hsimulate.
    exact (proj1 (_get_attestation_run E fuel burn_result simulate test_attester
                    attestation_timeout on_phase_change nonce_base w) Hsimulate).
  - intros Hproduction Hcb.
    exact (proj2 (_get_attestation_run E fuel burn_result simulate test_attester
                    attestation_timeout on_phase_change nonce_base w)
             Hproduction Hcb).
Qed.

(** A burn on chain 1 in production mode: the one request goes to the
    mainnet API, for domain 0.  A burn on chain 56, which has no domain:
    the request is made all the same, and its URL reads [None]. *)
Lemma _get_attestation_asks_the_right_service_witness :
  let E := Scenario.env (Scenario.always Scenario.completed) Scenario.ledger in
  let burn := mkCCTPBurnResult "tx1" 100 1 42161 "0xsafe" in
  let stray := mkCCTPBurnResult "tx1" 100 56 97 "0xsafe" in
  (exists events,
      trace (snd (_get_attestation E 5 burn false None (seconds 300) None 999999000
                                   Scenario.fresh))
      = trace Scenario.fresh ++ events
      /\ Forall (requests_only "https://iris-api.circle.com/v2/messages/0?transactionHash=0xtx1")
                events
      /\ events = [EvHttpGet "https://iris-api.circle.com/v2/messages/0?transactionHash=0xtx1"])
  /\ (exists events,
        trace (snd (_get_attestation E 5 stray false None (seconds 300) None 999999000
                                     Scenario.fresh))
        = trace Scenario.fresh ++ events
        /\ Forall (requests_only
                     "https://iris-api.circle.com/v2/messages/None?transactionHash=0xtx1")
                  events
        /\ events
           = [EvHttpGet "https://iris-api.circle.com/v2/messages/None?transactionHash=0xtx1"]).
Proof.
  intros E burn stray. split.
  - destruct (proj2 (_get_attestation_asks_the_right_service
                       E 5 burn false None (seconds 300) None 999999000 Scenario.fresh)
                eq_refl I) as (events & Htrace & Hall & _).
    exists events. split; [exact Htrace |]. split; [exact Hall |].
    vm_compute in Htrace. now inversion Htrace.
  - destruct (proj2 (_get_attestation_asks_the_right_service
                       E 5 stray false None (seconds 300) None 999999000 Scenario.fresh)
                eq_refl I) as (events & Htrace & Hall & _).
    exists events. split; [exact Htrace |]. split; [exact Hall |].
    vm_compute in Htrace. now inversion Htrace.
Defined.

(** ** [bridge_usdc_cctp], the bridge to one destination *)

Section OneBridge.

Variables (E : Env) (source_web3 dest_web3 : Web3) (source_vault dest_safe_address : string)
          (amount : Z) (sender : string) (hot_wallet : option HotWallet) (gas : Z).

Local Abbreviation the_destination :=
  (mkCCTPBridgeDestination dest_web3 dest_safe_address amount).

Local Abbreviation burn_events :=
  (burn_events_of source_web3 source_vault sender hot_wallet gas the_destination).

(** A burn that returns has done exactly its two transactions. *)
Lemma burn_usdc_cctp_inv w b w' :
  burn_usdc_cctp E source_web3 source_vault (chain_id dest_web3) dest_safe_address amount
                 sender hot_wallet gas w = (Return b, w') ->
  exists h1,
    _resolve_cctp_domain E (chain_id source_web3) <> None
    /\ _resolve_cctp_domain E (chain_id dest_web3) <> None
    /\ chain E (txs_sent w) = TxConfirmed h1
    /\ chain E (S (txs_sent w)) = TxConfirmed (b_burn_tx_hash b)
    /\ b = mkCCTPBurnResult (b_burn_tx_hash b) amount (chain_id source_web3)
                            (chain_id dest_web3) dest_safe_address
    /\ w' = mkWorld (now w) (http_calls w) (S (S (txs_sent w))) (tracker w)
                    (trace w ++ burn_events).
Proof.
  unfold burn_usdc_cctp, py_assert, prepared, _send_contract_tx,
    assert_transaction_success_with_explanation, burn_events_of.
  unfold_monad.
  destruct (bool_decide (_resolve_cctp_domain E (chain_id source_web3) <> None)) eqn:Hs; simpl;
    [| discriminate].
  destruct (bool_decide (_resolve_cctp_domain E (chain_id dest_web3) <> None)) eqn:Hd; simpl;
    [| discriminate].
  apply bool_decide_eq_true in Hs, Hd.
  destruct (prepare_approve_for_burn E (chain_id source_web3) amount); simpl; [discriminate |].
  destruct (chain E (txs_sent w)) as [| h1 | h1]; simpl; try discriminate.
  destruct (prepare_deposit_for_burn E (chain_id source_web3) amount (chain_id dest_web3)
              dest_safe_address); simpl; [discriminate |].
  destruct (chain E (S (txs_sent w))) as [| h2 | h2]; simpl; try discriminate.
  intros H. inversion H; subst. simpl. exists h1.
  rewrite <- app_assoc. repeat split; auto.
Qed.

(** A receive that returns has done exactly its one transaction. *)
Lemma receive_usdc_cctp_inv web3 message attestation wallet w h w' :
  receive_usdc_cctp E web3 message attestation sender wallet gas w = (Return h, w') ->
  chain E (txs_sent w) = TxConfirmed h
  /\ w' = mkWorld (now w) (http_calls w) (S (txs_sent w)) (tracker w)
                  (trace w ++ [EvTransact (chain_id web3) sender wallet gas
                                          (receiveMessage message attestation)]).
Proof.
  unfold receive_usdc_cctp, prepared, _send_contract_tx,
    assert_transaction_success_with_explanation.
  unfold_monad.
  destruct (prepare_receive_message E (chain_id web3) message attestation); simpl;
    [discriminate |].
  destruct (chain E (txs_sent w)) as [| h1 | h1]; simpl; try discriminate.
  intros H. inversion H; subst. auto.
Qed.

End OneBridge.

(** X17: [bridge_usdc_cctp] validates before it acts.  Simulate mode
    without a test attester, a source chain without CCTP domain and a
    destination chain without CCTP domain each end the call with an
    [AssertionError] naming the fault, and the world is as it was: no
    approval, no burn, no request. *)
Theorem bridge_usdc_cctp_fails_fast
    (E : Env) (fuel : nat) (source_web3 dest_web3 : Web3)
    (source_vault dest_safe_address : string) (amount : Z) (sender : string)
    (hot_wallet : option HotWallet) (simulate : bool) (test_attester : option string)
    (attestation_timeout gas : Z) (w : World) :
  let run := bridge_usdc_cctp E fuel source_web3 dest_web3 source_vault dest_safe_address
                              amount sender hot_wallet simulate test_attester
                              attestation_timeout gas w in
  (simulate = true -> test_attester = None ->
   run = (Raise (AssertionError "test_attester is required in simulate mode"), w))
  /\ ((simulate = true -> test_attester <> None) ->
      _resolve_cctp_domain E (chain_id source_web3) = None ->
      run = (Raise (AssertionError ("Source chain " +:+ str_of_int (chain_id source_web3)
                                      +:+ " is not CCTP-enabled")), w))
  /\ ((simulate = true -> test_attester <> None) ->
      _resolve_cctp_domain E (chain_id source_web3) <> None ->
      _resolve_cctp_domain E (chain_id dest_web3) = None ->
      run = (Raise (AssertionError ("Destination chain " +:+ str_of_int (chain_id dest_web3)
                                      +:+ " is not CCTP-enabled")), w)).
Proof.
  intros run. subst run. unfold bridge_usdc_cctp. cbv zeta.
  assert (Hguard : (simulate = true -> test_attester <> None) ->
                   (if simulate
                    then py_assert (bool_decide (test_attester <> None))
                                   "test_attester is required in simulate mode"
                    else ret tt) w = (Return tt, w)).
  { intros Hok. destruct simulate; [| reflexivity].
    unfold py_assert. now rewrite bool_decide_eq_true_2 by auto. }
  split; [| split].
  - intros -> ->. reflexivity.
  - intros Hok Hsource. rewrite (bind_Return _ _ _ _ _ (Hguard Hok)).
    apply bind_Raise. unfold burn_usdc_cctp. cbv zeta. apply bind_Raise.
    unfold py_assert. rewrite bool_decide_eq_false_2 by (intros H; now apply H).
    reflexivity.
  - intros Hok Hsource Hdest. rewrite (bind_Return _ _ _ _ _ (Hguard Hok)).
    apply bind_Raise. unfold burn_usdc_cctp. cbv zeta.
    erewrite bind_Return
      by (unfold py_assert; rewrite bool_decide_eq_true_2 by exact Hsource; reflexivity).
    apply bind_Raise.
    unfold py_assert. rewrite bool_decide_eq_false_2 by (intros H; now apply H).
    reflexivity.
Qed.

(** A bridge from Arbitrum to chain 56, which has no CCTP domain. *)
Lemma bridge_usdc_cctp_fails_fast_witness :
  bridge_usdc_cctp (Scenario.env (Scenario.always Scenario.completed) Scenario.ledger)
                   5 (mkWeb3 42161) (mkWeb3 56) "0xVault" "0xSafe" 1000000 "0xManager"
                   None false None (seconds 300) 1000000 Scenario.fresh
  = (Raise (AssertionError "Destination chain 56 is not CCTP-enabled"), Scenario.fresh).
Proof.
  apply (proj2 (proj2 (bridge_usdc_cctp_fails_fast
                         (Scenario.env (Scenario.always Scenario.completed) Scenario.ledger)
                         5 (mkWeb3 42161) (mkWeb3 56) "0xVault" "0xSafe" 1000000 "0xManager"
                         None false None (seconds 300) 1000000 Scenario.fresh))).
  - discriminate.
  - discriminate.
  - reflexivity.
Defined.

(** X18: what a returned [bridge_usdc_cctp] has done.  It has submitted
    exactly three transactions, all confirmed: the approval and the burn
    on the source chain through the vault's module, then
    [receiveMessage] on the destination chain, signed the same way as
    the burn.  The result names the hashes of the second and the third
    and repeats amount and chain ids.  Between burn and receive nothing
    is submitted: in simulate mode nothing happens at all there, in
    production mode there are only the polls of the attestation service
    for the burn. *)
Theorem bridge_usdc_cctp_returns
    (E : Env) (fuel : nat) (source_web3 dest_web3 : Web3)
    (source_vault dest_safe_address : string) (amount : Z) (sender : string)
    (hot_wallet : option HotWallet) (simulate : bool) (test_attester : option string)
    (attestation_timeout gas : Z) (w : World) (r : CCTPBridgeResult) (w' : World) :
  bridge_usdc_cctp E fuel source_web3 dest_web3 source_vault dest_safe_address amount sender
                   hot_wallet simulate test_attester attestation_timeout gas w
  = (Return r, w') ->
  exists approval message attestation source_domain polls,
    chain E (txs_sent w) = TxConfirmed approval
    /\ chain E (txs_sent w + 1)%nat = TxConfirmed (r_burn_tx_hash r)
    /\ chain E (txs_sent w + 2)%nat = TxConfirmed (r_receive_tx_hash r)
    /\ txs_sent w' = (txs_sent w + 3)%nat
    /\ r_amount r = amount
    /\ r_source_chain_id r = chain_id source_web3
    /\ r_dest_chain_id r = chain_id dest_web3
    /\ _resolve_cctp_domain E (chain_id source_web3) = Some source_domain
    /\ trace w'
       = trace w
           ++ burn_events_of source_web3 source_vault sender hot_wallet gas
                             (mkCCTPBridgeDestination dest_web3 dest_safe_address amount)
           ++ polls
           ++ [EvTransact (chain_id dest_web3) sender hot_wallet gas
                          (receiveMessage message attestation)]
    /\ Forall (requests_only
                 (messages_url (if TESTNET_CHAIN_IDS E (chain_id source_web3)
                                then IRIS_API_SANDBOX_URL E else IRIS_API_BASE_URL E)
                               source_domain (with_0x (r_burn_tx_hash r)))) polls
    /\ (simulate = true -> polls = [] /\ http_calls w' = http_calls w /\ now w' = now w).
Proof.
  intros H. unfold bridge_usdc_cctp in H. cbv zeta in H.
  apply bind_inv_Return in H. destruct H as ([] & w0 & Hguard & H). cbv beta in H.
  assert (Hw0 : w0 = w).
  { destruct simulate; [| now inversion Hguard].
    unfold py_assert in Hguard. destruct (bool_decide _); now inversion Hguard. }
  subst w0. clear Hguard.
  apply bind_inv_Return in H. destruct H as (b & w1 & Hburn & H). cbv beta in H.
  apply burn_usdc_cctp_inv in Hburn.
  destruct Hburn as (h1 & Hsource & Hdest & Hchain1 & Hchain2 & Hb & ->).
  apply bind_inv_Return in H. destruct H as ([message attestation] & w2 & Hatt & H).
  cbv beta iota in H.
  apply bind_inv_Return in H. destruct H as (h3 & w3 & Hreceive & H). cbv beta in H.
  apply receive_usdc_cctp_inv in Hreceive. destruct Hreceive as [Hchain3 ->].
  inversion H; subst r w'. clear H. simpl.
  destruct (_resolve_cctp_domain E (chain_id source_web3)) as [source_domain |] eqn:Hsd;
    [| now destruct Hsource].
  set (w1 := mkWorld _ _ _ _ _) in *.
  destruct (_get_attestation_run E fuel b simulate test_attester
              attestation_timeout None nonce_base_default w1) as [Hsim Hprod].
  rewrite Hatt in Hsim, Hprod. simpl in Hsim, Hprod.
  assert (Hpolls : exists polls,
             trace w2 = trace w1 ++ polls
             /\ Forall (requests_only
                          (messages_url (if TESTNET_CHAIN_IDS E (chain_id source_web3)
                                         then IRIS_API_SANDBOX_URL E else IRIS_API_BASE_URL E)
                                        source_domain (with_0x (b_burn_tx_hash b)))) polls
             /\ txs_sent w2 = txs_sent w1
             /\ (simulate = true -> polls = [] /\ w2 = w1)).
  { destruct simulate.
    - destruct (Hsim eq_refl) as [-> _]. exists []. rewrite app_nil_r.
      repeat split; constructor.
    - destruct (Hprod eq_refl I) as (polls & Htrace & Hall & Htxs).
      exists polls. rewrite Hb in Hall. simpl in Hall. rewrite Hsd in Hall.
      split; [exact Htrace |]. split; [rewrite Hb; exact Hall |].
      split; [exact Htxs |]. discriminate. }
  destruct Hpolls as (polls & Htrace & Hall & Htxs & Hsimulate).
  exists h1, message, attestation, source_domain, polls.
  rewrite Htrace, Htxs. subst w1. simpl.
  split; [exact Hchain1 |].
  split; [rewrite <- Hchain2; f_equal; lia |].
  split; [rewrite <- Hchain3, Htxs; simpl; f_equal; lia |].
  split; [lia |].
  split; [reflexivity |].
  split; [rewrite Hb; reflexivity |].
  split; [reflexivity |].
  split; [reflexivity |].
  split; [rewrite <- !app_assoc; reflexivity |].
  split; [exact Hall |].
  intros Hs. destruct (Hsimulate Hs) as [-> ->]. auto.
Qed.

(** A production bridge from Ethereum to Arbitrum against a service that
    has the attestation ready: approval, burn, one poll, receive. *)
Lemma bridge_usdc_cctp_returns_witness :
  let E := Scenario.env (Scenario.always Scenario.completed) Scenario.ledger in
  exists r w',
    bridge_usdc_cctp E 5 (mkWeb3 1) (mkWeb3 42161) "0xVault" "0xSafe" 1000000 "0xManager"
                     None false None (seconds 300) 1000000 Scenario.fresh
    = (Return r, w')
    /\ r = mkCCTPBridgeResult "tx1" "tx2" 1000000 1 42161
    /\ txs_sent w' = 3%nat
    /\ trace w'
       = [EvTransact 1 "0xManager" None 1000000
            (via_trading_strategy_module "0xVault" (usdc_approve 1000000));
          EvTransact 1 "0xManager" None 1000000
            (via_trading_strategy_module "0xVault" (depositForBurn 1000000 42161 "0xSafe"));
          EvHttpGet "https://iris-api.circle.com/v2/messages/0?transactionHash=0xtx1";
          EvTransact 42161 "0xManager" None 1000000
            (receiveMessage [Byte.xbe; Byte.xef] [Byte.xde; Byte.xad])].
Proof.
  intros E.
  destruct (bridge_usdc_cctp E 5 (mkWeb3 1) (mkWeb3 42161) "0xVault" "0xSafe" 1000000
                             "0xManager" None false None (seconds 300) 1000000 Scenario.fresh)
    as [[r | e |] w'] eqn:Hrun; try (vm_compute in Hrun; discriminate Hrun).
  destruct (bridge_usdc_cctp_returns E 5 (mkWeb3 1) (mkWeb3 42161) "0xVault" "0xSafe" 1000000
              "0xManager" None false None (seconds 300) 1000000 Scenario.fresh r w' Hrun)
    as (approval & message & attestation & source_domain & polls & _ & _ & _ & Htxs & _).
  exists r, w'. split; [reflexivity |].
  vm_compute in Hrun. inversion Hrun. subst r w'. repeat split.
Defined.

(** X19: [bridge_usdc_cctp] in simulate mode, when everything goes
    well.  With a test attester, both chains CCTP-enabled, the native
    USDC of the source chain known, every call prepared without refusal
    and the three transactions confirmed, the call returns; it has
    submitted approval, burn and the receive of the forged message (its
    nonce the nonce base 999999000 plus the destination domain), made no
    request and let no time pass. *)
Theorem bridge_usdc_cctp_simulates
    (E : Env) (fuel : nat) (source_web3 dest_web3 : Web3)
    (source_vault dest_safe_address : string) (amount : Z) (sender : string)
    (hot_wallet : option HotWallet) (attester : string)
    (attestation_timeout gas : Z) (w : World)
    (source_domain dest_domain : Z) (burn_token approval burn receive : string) :
  _resolve_cctp_domain E (chain_id source_web3) = Some source_domain ->
  _resolve_cctp_domain E (chain_id dest_web3) = Some dest_domain ->
  USDC_NATIVE_TOKEN E (chain_id source_web3) = Some burn_token ->
  let message := craft_cctp_message E source_domain dest_domain (999999000 + dest_domain)
                                    dest_safe_address amount burn_token in
  let attestation := forge_attestation E message attester in
  prepare_approve_for_burn E (chain_id source_web3) amount = None ->
  prepare_deposit_for_burn E (chain_id source_web3) amount (chain_id dest_web3)
                           dest_safe_address = None ->
  prepare_receive_message E (chain_id dest_web3) message attestation = None ->
  chain E (txs_sent w) = TxConfirmed approval ->
  chain E (txs_sent w + 1)%nat = TxConfirmed burn ->
  chain E (txs_sent w + 2)%nat = TxConfirmed receive ->
  bridge_usdc_cctp E fuel source_web3 dest_web3 source_vault dest_safe_address amount sender
                   hot_wallet true (Some attester) attestation_timeout gas w
  = (Return (mkCCTPBridgeResult burn receive amount (chain_id source_web3) (chain_id dest_web3)),
     mkWorld (now w) (http_calls w) (txs_sent w + 3)%nat (tracker w)
             (trace w
                ++ burn_events_of source_web3 source_vault sender hot_wallet gas
                                  (mkCCTPBridgeDestination dest_web3 dest_safe_address amount)
                ++ [EvTransact (chain_id dest_web3) sender hot_wallet gas
                               (receiveMessage message attestation)])).
Proof.
  intros Hsd Hdd Htoken message attestation Happrove Hdeposit Hreceive Hc1 Hc2 Hc3.
  replace (txs_sent w + 1)%nat with (S (txs_sent w)) in Hc2 by lia.
  replace (txs_sent w + 2)%nat with (S (S (txs_sent w))) in Hc3 by lia.
  replace (txs_sent w + 3)%nat with (S (S (S (txs_sent w)))) by lia.
  unfold bridge_usdc_cctp, burn_usdc_cctp, _get_attestation, receive_usdc_cctp, py_assert,
    prepared, _send_contract_tx, assert_transaction_success_with_explanation, burn_events_of,
    nonce_base_default.
  unfold_monad. simpl.
  rewrite Hsd, Hdd. simpl. rewrite Happrove. simpl. rewrite Hc1. simpl.
  rewrite Hdeposit. simpl. rewrite Hc2. simpl.
  rewrite Hsd, Hdd, Htoken. simpl.
  fold message. fold attestation. rewrite Hreceive. simpl. rewrite Hc3. simpl.
  rewrite <- !app_assoc. reflexivity.
Qed.

Lemma bridge_usdc_cctp_simulates_witness :
  let E := Scenario.env (Scenario.always Scenario.not_found) Scenario.ledger in
  exists w',
    bridge_usdc_cctp E 0 (mkWeb3 42161) (mkWeb3 8453) "0xVault" "0xSafe" 1000000 "0xManager"
                     None true (Some "attester") (seconds 300) 1000000 Scenario.fresh
    = (Return (mkCCTPBridgeResult "tx1" "tx2" 1000000 42161 8453), w')
    /\ http_calls w' = 0%nat
    /\ txs_sent w' = 3%nat.
Proof.
  intros E. eexists. split.
  - apply (bridge_usdc_cctp_simulates E 0 (mkWeb3 42161) (mkWeb3 8453) "0xVault" "0xSafe"
             1000000 "0xManager" None "attester" (seconds 300) 1000000 Scenario.fresh
             3 6 "usdc" "tx0" "tx1" "tx2"); reflexivity.
  - split; reflexivity.
Defined.

(** X20: a transaction that fails stops [bridge_usdc_cctp] where it
    stands.  With valid arguments, an approval that is refused by the
    node ([SendError]) or mined but reverted
    ([TransactionAssertionError] with its hash) is the only transaction
    submitted; a burn that reverts after a confirmed approval is the
    last one.  In each case the attestation service is never asked and
    nothing is submitted on the destination chain. *)
Theorem failed_transaction_stops_the_bridge
    (E : Env) (fuel : nat) (source_web3 dest_web3 : Web3)
    (source_vault dest_safe_address : string) (amount : Z) (sender : string)
    (hot_wallet : option HotWallet) (simulate : bool) (test_attester : option string)
    (attestation_timeout gas : Z) (w : World) :
  (simulate = true -> test_attester <> None) ->
  _resolve_cctp_domain E (chain_id source_web3) <> None ->
  _resolve_cctp_domain E (chain_id dest_web3) <> None ->
  prepare_approve_for_burn E (chain_id source_web3) amount = None ->
  let run := bridge_usdc_cctp E fuel source_web3 dest_web3 source_vault dest_safe_address
                              amount sender hot_wallet simulate test_attester
                              attestation_timeout gas w in
  let approve := EvTransact (chain_id source_web3) sender hot_wallet gas
                   (via_trading_strategy_module source_vault (usdc_approve amount)) in
  let burn := EvTransact (chain_id source_web3) sender hot_wallet gas
                (via_trading_strategy_module source_vault
                   (depositForBurn amount (chain_id dest_web3) dest_safe_address)) in
  (chain E (txs_sent w) = TxRefused ->
   run = (Raise SendError,
          mkWorld (now w) (http_calls w) (txs_sent w + 1)%nat (tracker w)
                  (trace w ++ [approve])))
  /\ (forall h,
        chain E (txs_sent w) = TxReverted h ->
        run = (Raise (TransactionAssertionError h),
               mkWorld (now w) (http_calls w) (txs_sent w + 1)%nat (tracker w)
                       (trace w ++ [approve])))
  /\ (forall h1 h2,
        chain E (txs_sent w) = TxConfirmed h1 ->
        prepare_deposit_for_burn E (chain_id source_web3) amount (chain_id dest_web3)
                                 dest_safe_address = None ->
        chain E (txs_sent w + 1)%nat = TxReverted h2 ->
        run = (Raise (TransactionAssertionError h2),
               mkWorld (now w) (http_calls w) (txs_sent w + 2)%nat (tracker w)
                       (trace w ++ [approve; burn]))).
Proof.
  intros Hguard Hsource Hdest Happrove run approve burn. subst run approve burn.
  replace (txs_sent w + 1)%nat with (S (txs_sent w)) by lia.
  replace (txs_sent w + 2)%nat with (S (S (txs_sent w))) by lia.
  assert (Hstart : (if simulate
                    then py_assert (bool_decide (test_attester <> None))
                                   "test_attester is required in simulate mode"
                    else ret tt) w = (Return tt, w)).
  { destruct simulate; [| reflexivity].
    unfold py_assert. now rewrite bool_decide_eq_true_2 by auto. }
  unfold bridge_usdc_cctp. cbv zeta. rewrite (bind_Return _ _ _ _ _ Hstart).
  unfold burn_usdc_cctp, py_assert, prepared, _send_contract_tx,
    assert_transaction_success_with_explanation.
  rewrite (bool_decide_eq_true_2 _ Hsource), (bool_decide_eq_true_2 _ Hdest), Happrove.
  unfold_monad. cbn beta iota zeta.
  split; [| split].
  - intros ->. reflexivity.
  - intros h ->. reflexivity.
  - intros h1 h2 -> Hdeposit Hburn. simpl. rewrite Hdeposit. simpl. rewrite Hburn. simpl.
    rewrite <- app_assoc. reflexivity.
Qed.

(** The burn of a production bridge reverts: two transactions, no poll. *)
Lemma failed_transaction_stops_the_bridge_witness :
  let ledger := fun k : nat => match k with
                               | O => TxConfirmed "tx0"
                               | S _ => TxReverted "tx1"
                               end in
  let E := Scenario.env (Scenario.always Scenario.completed) ledger in
  exists w',
    bridge_usdc_cctp E 5 (mkWeb3 1) (mkWeb3 42161) "0xVault" "0xSafe" 1000000 "0xManager"
                     None false None (seconds 300) 1000000 Scenario.fresh
    = (Raise (TransactionAssertionError "tx1"), w')
    /\ http_calls w' = 0%nat
    /\ txs_sent w' = 2%nat.
Proof.
  intros ledger E. eexists. split.
  - apply (proj2 (proj2 (failed_transaction_stops_the_bridge
                           E 5 (mkWeb3 1) (mkWeb3 42161) "0xVault" "0xSafe" 1000000
                           "0xManager" None false None (seconds 300) 1000000 Scenario.fresh
                           ltac:(discriminate) ltac:(discriminate) ltac:(discriminate)
                           eq_refl)) "tx0" "tx1"); reflexivity.
  - split; reflexivity.
Defined.

(** ** [bridge_usdc_cctp_parallel] in simulate mode *)

Lemma update_then_frame (A : Type) idx phase attempt (k : M A) w r w' :
  (_update_phase idx phase attempt ;; k) w = (Return r, w') ->
  exists t, k (mkWorld (now w) (http_calls w) (txs_sent w) t (trace w)) = (Return r, w').
Proof.
  intros H. apply bind_inv_Return in H. destruct H as ([] & w1 & Hupd & Hk).
  destruct (_update_phase_frame idx phase attempt w) as (r0 & t & Hframe & _).
  rewrite Hframe in Hupd. inversion Hupd; subst. now exists t.
Qed.

Section SimulatedPhases.

Variables (E : Env) (source_web3 : Web3) (source_vault sender : string)
          (hot_wallet : option HotWallet) (gas : Z).

Local Abbreviation events_of := (burn_events_of source_web3 source_vault sender hot_wallet gas).

(** The burn phase, when it returns: two transactions per destination,
    in the order of the destinations, and nothing else. *)
Lemma burns_world dests :
  forall start w burns w',
    for_enumerate
      (fun (idx : nat) (dest : CCTPBridgeDestination) =>
         _update_phase idx burning 0 ;;
         burn_usdc_cctp E source_web3 source_vault (chain_id (dest_web3 dest))
                        (dest_safe_address dest) (amount dest) sender hot_wallet gas)
      start dests w = (Return burns, w') ->
    now w' = now w
    /\ http_calls w' = http_calls w
    /\ txs_sent w' = (txs_sent w + 2 * length dests)%nat
    /\ trace w' = trace w ++ flat_map events_of dests
    /\ length burns = length dests.
Proof.
  induction dests as [| d dests IH]; intros start w burns w' Hrun; cbn [for_enumerate] in Hrun.
  - inversion Hrun; subst. simpl. rewrite app_nil_r. repeat split; lia.
  - apply bind_inv_Return in Hrun. destruct Hrun as (b & w1 & Hstep & Hrun). cbv beta in Hrun.
    apply bind_inv_Return in Hrun. destruct Hrun as (bs & w2 & Hrest & Hrun). cbv beta in Hrun.
    inversion Hrun; subst.
    apply update_then_frame in Hstep. destruct Hstep as (t & Hburn).
    apply burn_usdc_cctp_inv in Hburn. destruct Hburn as (h1 & _ & _ & _ & _ & _ & ->).
    destruct (IH _ _ _ _ Hrest) as (Hnow & Hcalls & Htxs & Htrace & Hlen).
    simpl in Hnow, Hcalls, Htxs, Htrace.
    rewrite Hnow, Hcalls, Htxs, Htrace. cbn [flat_map length].
    rewrite <- app_assoc, Hlen. repeat split; try reflexivity. lia.
Qed.



(** Putting the results together changes nothing. *)
Lemma results_world (receive_tx_hashes : list string) pairs :
  forall start w rs w',
    for_enumerate
      (fun (idx : nat) '(burn_result, dest) =>
         receive_tx_hash ← getitem receive_tx_hashes idx;
         ret (mkCCTPBridgeResult (b_burn_tx_hash burn_result) receive_tx_hash
                                 (b_amount burn_result) (b_source_chain_id burn_result)
                                 (b_dest_chain_id burn_result)))
      start (pairs : list (CCTPBurnResult * CCTPBridgeDestination)) w = (Return rs, w') ->
    w' = w.
Proof.
  induction pairs as [| [b d] pairs IH]; intros start w rs w' Hrun; cbn [for_enumerate] in Hrun.
  - now inversion Hrun.
  - apply bind_inv_Return in Hrun. destruct Hrun as (r0 & w1 & Hstep & Hrun). cbv beta in Hrun.
    apply bind_inv_Return in Hrun. destruct Hrun as (rest & w2 & Hrest & Hrun). cbv beta in Hrun.
    inversion Hrun; subst.
    apply bind_inv_Return in Hstep. destruct Hstep as (h & wa & Hget & Hstep).
    unfold getitem in Hget. destruct (receive_tx_hashes !! start); [| discriminate Hget].
    inversion Hget; subst. inversion Hstep; subst.
    exact (IH _ _ _ _ Hrest).
Qed.

End SimulatedPhases.



(** ** What is checked only after the burns *)

Section BurnsRun.

Variables (E : Env) (source_web3 : Web3) (source_vault sender : string)
          (hot_wallet : option HotWallet) (gas : Z).

Local Abbreviation events_of := (burn_events_of source_web3 source_vault sender hot_wallet gas).

(** A destination the burn has nothing against. *)
Local Abbreviation burnable :=
  (fun dest : CCTPBridgeDestination =>
     _resolve_cctp_domain E (chain_id (dest_web3 dest)) <> None
     /\ prepare_approve_for_burn E (chain_id source_web3) (amount dest) = None
     /\ prepare_deposit_for_burn E (chain_id source_web3) (amount dest)
                                 (chain_id (dest_web3 dest)) (dest_safe_address dest) = None).

Lemma burn_usdc_cctp_ok dest w h1 h2 :
  _resolve_cctp_domain E (chain_id source_web3) <> None ->
  burnable dest ->
  chain E (txs_sent w) = TxConfirmed h1 ->
  chain E (S (txs_sent w)) = TxConfirmed h2 ->
  burn_usdc_cctp E source_web3 source_vault (chain_id (dest_web3 dest))
                 (dest_safe_address dest) (amount dest) sender hot_wallet gas w
  = (Return (mkCCTPBurnResult h2 (amount dest) (chain_id source_web3)
                              (chain_id (dest_web3 dest)) (dest_safe_address dest)),
     mkWorld (now w) (http_calls w) (S (S (txs_sent w))) (tracker w)
             (trace w ++ events_of dest)).
Proof.
  intros Hsource (Hdest & Happrove & Hdeposit) Hc1 Hc2.
  unfold burn_usdc_cctp, py_assert, prepared, _send_contract_tx,
    assert_transaction_success_with_explanation, burn_events_of.
  rewrite (bool_decide_eq_true_2 _ Hsource), (bool_decide_eq_true_2 _ Hdest),
    Happrove, Hdeposit.
  unfold_monad. simpl. rewrite Hc1. simpl. rewrite Hc2. simpl.
  rewrite <- app_assoc. reflexivity.
Qed.

(** With burnable destinations and confirmed transactions the burn
    phase goes through. *)
Lemma burns_run n dests :
  forall start w,
    tracks n w ->
    (start + length dests <= n)%nat ->
    _resolve_cctp_domain E (chain_id source_web3) <> None ->
    Forall burnable dests ->
    (forall k, (k < 2 * length dests)%nat ->
               exists h, chain E (txs_sent w + k)%nat = TxConfirmed h) ->
    exists burns t,
      for_enumerate
        (fun (idx : nat) (dest : CCTPBridgeDestination) =>
           _update_phase idx burning 0 ;;
           burn_usdc_cctp E source_web3 source_vault (chain_id (dest_web3 dest))
                          (dest_safe_address dest) (amount dest) sender hot_wallet gas)
        start dests w
      = (Return burns,
         mkWorld (now w) (http_calls w) (txs_sent w + 2 * length dests)%nat t
                 (trace w ++ flat_map events_of dests))
      /\ tracks n (mkWorld (now w) (http_calls w) (txs_sent w + 2 * length dests)%nat t
                           (trace w ++ flat_map events_of dests))
      /\ Forall2 (fun dest b =>
                    b_dest_chain_id b = chain_id (dest_web3 dest)
                    /\ b_source_chain_id b = chain_id source_web3) dests burns.
Proof.
  induction dests as [| d dests IH]; intros start w Htracks Hrange Hsource Hok Hchain;
    cbn [for_enumerate flat_map length].
  - exists [], (tracker w). rewrite app_nil_r, Nat.add_0_r.
    destruct w; simpl in *. repeat split; try apply Htracks. constructor.
  - simpl in Hrange. inversion Hok as [| ? ? Hd Hrest]; subst.
    destruct (_update_phase_on_tracks start burning 0 n w Htracks ltac:(lia))
      as (t & Hupd & _ & _ & _ & _ & _ & Htracks1).
    set (w1 := mkWorld _ _ _ t _) in *.
    destruct (Hchain 0%nat ltac:(simpl; lia)) as [h1 Hc1].
    destruct (Hchain 1%nat ltac:(simpl; lia)) as [h2 Hc2].
    rewrite Nat.add_0_r in Hc1. replace (txs_sent w + 1)%nat with (S (txs_sent w)) in Hc2 by lia.
    pose proof (burn_usdc_cctp_ok d w1 h1 h2 Hsource Hd Hc1 Hc2) as Hburn.
    set (w2 := mkWorld _ _ (S (S _)) _ _) in Hburn.
    assert (Hstep : (_update_phase start burning 0 ;;
                     burn_usdc_cctp E source_web3 source_vault (chain_id (dest_web3 d))
                                    (dest_safe_address d) (amount d) sender hot_wallet gas) w
                    = (Return (mkCCTPBurnResult h2 (amount d) (chain_id source_web3)
                                                (chain_id (dest_web3 d)) (dest_safe_address d)),
                       w2)).
    { rewrite (bind_Return _ _ _ _ _ Hupd). exact Hburn. }
    rewrite (bind_Return _ _ _ _ _ Hstep).
    destruct (IH (S start) w2) as (burns & t' & Hrun & Htracks' & Hall).
    + exact Htracks1.
    + lia.
    + exact Hsource.
    + exact Hrest.
    + intros k Hk. destruct (Hchain (S (S k)) ltac:(simpl in *; lia)) as [h Hh].
      exists h. rewrite <- Hh. subst w2 w1. simpl. f_equal. lia.
    + rewrite (bind_Return _ _ _ _ _ Hrun).
      eexists _, t'. subst w2 w1. simpl in *.
      replace (txs_sent w + S (length dests + S (length dests + 0)))%nat
        with (S (S (txs_sent w)) + (length dests + (length dests + 0)))%nat by lia.
      rewrite <- app_assoc.
      split; [reflexivity |]. split; [exact Htracks' |].
      constructor; [split; reflexivity | exact Hall].
Qed.

End BurnsRun.

Lemma tracks_start n w (names : list string) bar :
  tracks n (mkWorld (now w) (http_calls w) (txs_sent w)
                    (mkTracker names (replicate n burning) (replicate n 0) bar) (trace w)).
Proof. split; simpl; apply length_replicate. Qed.

(** X22: a [max_workers] below one.  [poll_transfers_parallel] refuses
    it with [ValueError] before any request.  In production mode
    [bridge_usdc_cctp_parallel] meets the thread pool only in its
    second phase: with destinations the burn has nothing against and
    confirmed transactions, it raises the [ValueError] after approval and
    burn of every destination have been submitted, with no attestation
    asked for and nothing received. *)
Theorem max_workers_below_one
    (E : Env) (fuel : nat) (order attest_order receive_order : list nat)
    (transfers : list CCTPTransferQuery) (timeout poll_interval : Z) (api_base_url : string)
    (source_web3 : Web3) (source_vault : string)
    (destinations : list CCTPBridgeDestination) (sender : string)
    (hot_wallet : option HotWallet) (test_attesters : option (gmap Z string))
    (attestation_timeout gas : Z) (progress : bool) (max_workers : Z) (w : World) :
  max_workers <= 0 ->
  (transfers <> [] ->
   poll_transfers_parallel E fuel order transfers timeout poll_interval api_base_url
                           (Some max_workers) w = (Raise ValueError, w))
  /\ (destinations <> [] ->
      _resolve_cctp_domain E (chain_id source_web3) <> None ->
      Forall (fun dest =>
                _resolve_cctp_domain E (chain_id (dest_web3 dest)) <> None
                /\ prepare_approve_for_burn E (chain_id source_web3) (amount dest) = None
                /\ prepare_deposit_for_burn E (chain_id source_web3) (amount dest)
                     (chain_id (dest_web3 dest)) (dest_safe_address dest) = None)
             destinations ->
      (forall k, (k < 2 * length destinations)%nat ->
                 exists h, chain E (txs_sent w + k)%nat = TxConfirmed h) ->
      exists t,
        bridge_usdc_cctp_parallel E fuel attest_order receive_order source_web3 source_vault
          destinations sender hot_wallet false test_attesters attestation_timeout gas
          (Some max_workers) progress w
        = (Raise ValueError,
           mkWorld (now w) (http_calls w) (txs_sent w + 2 * length destinations)%nat t
                   (trace w ++ flat_map (burn_events_of source_web3 source_vault sender
                                                        hot_wallet gas) destinations))).
Proof.
  intros Hworkers.
  assert (Hpool : forall w0, ThreadPoolExecutor max_workers w0 = (Raise ValueError, w0)).
  { intros w0. unfold ThreadPoolExecutor.
    destruct (max_workers <=? 0) eqn:Hle; [reflexivity | apply Z.leb_gt in Hle; lia]. }
  split.
  - intros Hne. unfold poll_transfers_parallel.
    destruct transfers as [| q transfers0]; [now destruct Hne |].
    cbv zeta. simpl default. apply bind_Raise. apply Hpool.
  - intros Hne Hsource Hok Hchain. unfold bridge_usdc_cctp_parallel.
    destruct destinations as [| d0 destinations0] eqn:Hdests; [now destruct Hne |].
    rewrite <- Hdests in *. clear Hdests d0 destinations0 Hne.
    erewrite bind_Return by reflexivity. cbv zeta.
    erewrite bind_Return by reflexivity.
    set (w1 := mkWorld _ _ _ _ _).
    destruct (burns_run E source_web3 source_vault sender hot_wallet gas
                (length destinations) destinations 0 w1) as (burns & t & Hburns & _ & _).
    + apply tracks_start.
    + simpl. lia.
    + exact Hsource.
    + exact Hok.
    + exact Hchain.
    + rewrite (bind_Return _ _ _ _ _ Hburns). simpl default.
      exists t. apply bind_Raise. apply bind_Raise. apply Hpool.
Qed.

(** A production bridge to one destination with [max_workers=0]. *)
Lemma max_workers_below_one_witness :
  let E := Scenario.env (Scenario.always Scenario.completed) Scenario.ledger in
  let destinations := [mkCCTPBridgeDestination (mkWeb3 8453) "0xSafe" 1000000] in
  exists w',
    bridge_usdc_cctp_parallel E 5 [0%nat] [0%nat] (mkWeb3 42161) "0xVault" destinations
                              "0xManager" None false None (seconds 2400) 1000000 (Some 0)
                              true Scenario.fresh
    = (Raise ValueError, w')
    /\ txs_sent w' = 2%nat
    /\ http_calls w' = 0%nat.
Proof.
  intros E destinations.
  destruct (proj2 (max_workers_below_one E 5 [] [0%nat] [0%nat] [] 0 0 ""
                     (mkWeb3 42161) "0xVault" destinations "0xManager" None None
                     (seconds 2400) 1000000 true 0 Scenario.fresh ltac:(lia)))
    as [t Hrun].
  - discriminate.
  - discriminate.
  - repeat constructor; discriminate.
  - intros k Hk. eexists. reflexivity.
  - eexists. split; [exact Hrun |]. split; reflexivity.
Defined.

Section MissingAttester.

Variables (E : Env) (fuel : nat) (attesters : gmap Z string) (attestation_timeout : Z).

Local Abbreviation forge_step :=
  (fun (idx : nat) (burn_result : CCTPBurnResult) =>
     match default ∅ (Some attesters) !! b_dest_chain_id burn_result with
     | Some attester =>
         _update_phase idx attested 0 ;;
         _get_attestation E fuel burn_result true (Some attester) attestation_timeout
                          None nonce_base_default
     | None => raise KeyError
     end).

(** The forging stops at the first burn whose destination chain has no
    attester; nothing but the tracker has changed by then. *)
Lemma simulated_attestations_stop n b post pre :
  forall start w,
    tracks n w ->
    (start + length pre < n)%nat ->
    Forall (fun burn => is_Some (attesters !! b_dest_chain_id burn)
                        /\ _resolve_cctp_domain E (b_source_chain_id burn) <> None
                        /\ _resolve_cctp_domain E (b_dest_chain_id burn) <> None
                        /\ USDC_NATIVE_TOKEN E (b_source_chain_id burn) <> None) pre ->
    attesters !! b_dest_chain_id b = None ->
    exists t,
      for_enumerate forge_step start (pre ++ b :: post) w
      = (Raise KeyError, mkWorld (now w) (http_calls w) (txs_sent w) t (trace w)).
Proof.
  induction pre as [| p pre IH]; intros start w Htracks Hrange Hok Hmissing;
    cbn [app for_enumerate].
  - exists (tracker w). apply bind_Raise. simpl. rewrite Hmissing. now destruct w.
  - inversion Hok as [| ? ? (Hattester & Hsd & Hdd & Htoken) Hrest]; subst.
    simpl in Hrange.
    destruct (_update_phase_on_tracks start attested 0 n w Htracks ltac:(lia))
      as (t & Hupd & _ & _ & _ & _ & _ & Htracks1).
    set (w1 := mkWorld _ _ _ t _) in *.
    destruct Hattester as [attester Hattester].
    assert (Hstep : exists payload, forge_step start p w = (Return payload, w1)).
    { simpl. rewrite Hattester. rewrite (bind_Return _ _ _ _ _ Hupd).
      unfold _get_attestation. cbv zeta.
      destruct (_resolve_cctp_domain E (b_source_chain_id p)); [| now destruct Hsd].
      destruct (_resolve_cctp_domain E (b_dest_chain_id p)); [| now destruct Hdd].
      destruct (USDC_NATIVE_TOKEN E (b_source_chain_id p)); [| now destruct Htoken].
      eexists. reflexivity. }
    destruct Hstep as [payload Hstep].
    rewrite (bind_Return _ _ _ _ _ Hstep).
    destruct (IH (S start) w1 Htracks1 ltac:(lia) Hrest Hmissing) as [t' Hrun].
    exists t'. rewrite (bind_Raise _ _ _ _ _ Hrun). reflexivity.
Qed.

End MissingAttester.

(** X23: a destination chain without test attester is found only after
    the burns.  In simulate mode, when [test_attesters] has no entry for
    the chain of some destination while the burn has nothing against
    any destination and the transactions are confirmed,
    [bridge_usdc_cctp_parallel] raises [KeyError] after approval and
    burn of every destination, the later ones included, have been
    submitted; no receive follows. *)
Theorem missing_attester_is_found_after_the_burns
    (E : Env) (fuel : nat) (attest_order receive_order : list nat)
    (source_web3 : Web3) (source_vault : string)
    (pre : list CCTPBridgeDestination) (dest : CCTPBridgeDestination)
    (post : list CCTPBridgeDestination) (sender : string)
    (hot_wallet : option HotWallet) (attesters : gmap Z string)
    (attestation_timeout gas : Z) (max_workers : option Z) (progress : bool) (w : World) :
  let destinations := pre ++ dest :: post in
  Forall (fun d => is_Some (attesters !! chain_id (dest_web3 d))) pre ->
  attesters !! chain_id (dest_web3 dest) = None ->
  _resolve_cctp_domain E (chain_id source_web3) <> None ->
  USDC_NATIVE_TOKEN E (chain_id source_web3) <> None ->
  Forall (fun d =>
            _resolve_cctp_domain E (chain_id (dest_web3 d)) <> None
            /\ prepare_approve_for_burn E (chain_id source_web3) (amount d) = None
            /\ prepare_deposit_for_burn E (chain_id source_web3) (amount d)
                 (chain_id (dest_web3 d)) (dest_safe_address d) = None)
         destinations ->
  (forall k, (k < 2 * length destinations)%nat ->
             exists h, chain E (txs_sent w + k)%nat = TxConfirmed h) ->
  exists t,
    bridge_usdc_cctp_parallel E fuel attest_order receive_order source_web3 source_vault
      destinations sender hot_wallet true (Some attesters) attestation_timeout gas
      max_workers progress w
    = (Raise KeyError,
       mkWorld (now w) (http_calls w) (txs_sent w + 2 * length destinations)%nat t
               (trace w ++ flat_map (burn_events_of source_web3 source_vault sender
                                                    hot_wallet gas) destinations)).
Proof.
  intros destinations Hpre Hmissing Hsource Htoken Hok Hchain.
  unfold bridge_usdc_cctp_parallel.
  destruct destinations as [| d0 destinations0] eqn:Hdests.
  { subst destinations. destruct pre; discriminate Hdests. }
  rewrite <- Hdests in *. clear Hdests d0 destinations0.
  erewrite bind_Return by reflexivity. cbv zeta.
  erewrite bind_Return by reflexivity.
  set (w1 := mkWorld _ _ _ _ _).
  destruct (burns_run E source_web3 source_vault sender hot_wallet gas
              (length destinations) destinations 0 w1)
    as (burns & t & Hburns & Htracks & Hall).
  { apply tracks_start. }
  { simpl. lia. }
  { exact Hsource. }
  { exact Hok. }
  { exact Hchain. }
  rewrite (bind_Return _ _ _ _ _ Hburns).
  set (w2 := mkWorld _ _ _ t _) in *.
  subst destinations.
  apply Forall2_app_inv_l in Hall. destruct Hall as (burns_pre & rest & Hall_pre & Hall_rest & ->).
  apply Forall2_cons_inv_l in Hall_rest.
  destruct Hall_rest as (b & burns_post & [Hb_dest Hb_source] & Hall_post & ->).
  apply Forall_app in Hok. destruct Hok as [Hok_pre _].
  destruct (simulated_attestations_stop E fuel attesters attestation_timeout
              (length (pre ++ dest :: post)) b burns_post burns_pre 0 w2) as [t' Hstop].
  - exact Htracks.
  - rewrite <- (Forall2_length _ _ _ Hall_pre), length_app. simpl. lia.
  - clear - Hall_pre Hpre Hok_pre Hsource Htoken.
    induction Hall_pre as [| d b' pre burns_pre [Hd Hs] Hall IH]; [constructor |].
    inversion Hpre; subst. inversion Hok_pre as [| ? ? (Hdomain & _) ?]; subst.
    constructor; [| now apply IH].
    rewrite Hd, Hs. auto.
  - now rewrite Hb_dest.
  - exists t'. apply bind_Raise. exact Hstop.
Qed.

(** Attesters for Base only, destinations on Base and Arbitrum. *)
Lemma missing_attester_is_found_after_the_burns_witness :
  let E := Scenario.env (Scenario.always Scenario.not_found) Scenario.ledger in
  exists w',
    bridge_usdc_cctp_parallel E 0 [] [] (mkWeb3 1) "0xVault"
      ([mkCCTPBridgeDestination (mkWeb3 8453) "0xsafeA" 100]
         ++ mkCCTPBridgeDestination (mkWeb3 42161) "0xsafeB" 250 :: [])
      "0xManager" None true (Some {[ 8453 := "attester" ]}) (seconds 2400) 1000000 None true
      Scenario.fresh
    = (Raise KeyError, w')
    /\ txs_sent w' = 4%nat.
Proof.
  intros E.
  destruct (missing_attester_is_found_after_the_burns E 0 [] [] (mkWeb3 1) "0xVault"
              [mkCCTPBridgeDestination (mkWeb3 8453) "0xsafeA" 100]
              (mkCCTPBridgeDestination (mkWeb3 42161) "0xsafeB" 250) []
              "0xManager" None {[ 8453 := "attester" ]} (seconds 2400) 1000000 None true
              Scenario.fresh) as [t Hrun].
  - repeat constructor. exists "attester". reflexivity.
  - reflexivity.
  - discriminate.
  - discriminate.
  - repeat constructor; discriminate.
  - intros k Hk. eexists. reflexivity.
  - eexists. split; [exact Hrun |]. reflexivity.
Defined.

(** ** Computations that submit nothing *)

Lemma submits_nothing_same {A} (m : M A) :
  (forall w, trace (snd (m w)) = trace w) -> submits_nothing m.
Proof. intros H w. exists []. rewrite app_nil_r. split; [apply H | constructor]. Qed.

Lemma submits_nothing_ret {A} (a : A) : submits_nothing (ret a).
Proof. now apply submits_nothing_same. Qed.

Lemma submits_nothing_mret {A} (a : A) : submits_nothing (mret a).
Proof. now apply submits_nothing_same. Qed.

Lemma submits_nothing_raise {A} e : submits_nothing (@raise A e).
Proof. now apply submits_nothing_same. Qed.

Lemma submits_nothing_out_of_fuel {A} : submits_nothing (@out_of_fuel A).
Proof. now apply submits_nothing_same. Qed.

Lemma submits_nothing_bind {A B} (m : M A) (k : A -> M B) :
  submits_nothing m -> (forall a, submits_nothing (k a)) -> submits_nothing (m ≫= k).
Proof.
  intros Hm Hk w. unfold mbind, M_bind. destruct (Hm w) as (events & Htrace & Hall).
  destruct (m w) as [[a | e |] w1]; simpl in *; [| now exists events | now exists events].
  destruct (Hk a w1) as (rest & Hrest & Hall'). exists (events ++ rest).
  rewrite Hrest, Htrace, app_assoc. split; [reflexivity | now apply Forall_app].
Qed.

Lemma submits_nothing_emit ev : is_transaction ev = false -> submits_nothing (emit ev).
Proof. intros Hev w. exists [ev]. split; [reflexivity | now constructor]. Qed.

Lemma submits_nothing_time_time : submits_nothing time_time.
Proof. now apply submits_nothing_same. Qed.

Lemma submits_nothing_time_sleep d : submits_nothing (time_sleep d).
Proof.
  intros w. unfold time_sleep. destruct (d <? 0).
  - exists []. rewrite app_nil_r. split; [reflexivity | constructor].
  - exists [EvSleep d]. split; [reflexivity | now constructor].
Qed.

Lemma submits_nothing_requests_get E u : submits_nothing (requests_get E u).
Proof.
  intros w. exists [EvHttpGet u]. unfold requests_get.
  destruct (reply (iris E (http_calls w))); (split; [reflexivity | now constructor]).
Qed.

Lemma submits_nothing_raise_for_status r : submits_nothing (raise_for_status r).
Proof.
  apply submits_nothing_same. intros w. unfold raise_for_status.
  now destruct (is_error_status (status_code r)).
Qed.

Lemma submits_nothing_response_json r : submits_nothing (response_json r).
Proof. apply submits_nothing_same. intros w. unfold response_json. now destruct (body r). Qed.

Lemma submits_nothing_only_computes {A} (m : M A) : only_computes m -> submits_nothing m.
Proof. intros Hm. apply submits_nothing_same. intros w. now rewrite (proj1 (Hm w)). Qed.

Lemma submits_nothing_modify_tracker f : submits_nothing (modify_tracker f).
Proof. now apply submits_nothing_same. Qed.

Lemma submits_nothing_ThreadPoolExecutor k : submits_nothing (ThreadPoolExecutor k).
Proof.
  apply submits_nothing_same. intros w. unfold ThreadPoolExecutor. now destruct (k <=? 0).
Qed.

Lemma submits_nothing_update_phase idx phase attempt :
  submits_nothing (_update_phase idx phase attempt).
Proof.
  apply submits_nothing_same. intros w.
  destruct (_update_phase_frame idx phase attempt w) as (r & t & Hrun & _). now rewrite Hrun.
Qed.

Create HintDb quietly.

#[local] Hint Resolve submits_nothing_ret submits_nothing_mret submits_nothing_raise
  submits_nothing_out_of_fuel submits_nothing_time_time submits_nothing_time_sleep
  submits_nothing_requests_get submits_nothing_raise_for_status submits_nothing_response_json
  submits_nothing_modify_tracker submits_nothing_ThreadPoolExecutor
  submits_nothing_update_phase : quietly.

#[local] Hint Extern 1 (submits_nothing (dict_get _ _ _)) =>
  apply submits_nothing_only_computes, only_computes_dict_get : quietly.
#[local] Hint Extern 1 (submits_nothing (subscript0 _)) =>
  apply submits_nothing_only_computes, only_computes_subscript0 : quietly.
#[local] Hint Extern 1 (submits_nothing (bytes_fromhex_replace_0x _)) =>
  apply submits_nothing_only_computes, only_computes_bytes_fromhex : quietly.

Ltac quietly :=
  repeat first
    [ solve [eauto with quietly]
    | match goal with
      | |- forall _, _ => intro
      | |- submits_nothing (emit _) => apply submits_nothing_emit; reflexivity
      | |- submits_nothing (if ?c then _ else _) => destruct c
      | |- submits_nothing (match ?x with _ => _ end) => destruct x
      | |- submits_nothing (let _ := _ in _) => cbv zeta
      | |- submits_nothing (_ ≫= _) => apply submits_nothing_bind
      end ].

Lemma submits_nothing_on_phase idx status attempt : submits_nothing (on_phase idx status attempt).
Proof. unfold on_phase. quietly. Qed.

Lemma submits_nothing_notify on_phase_change attempt status :
  (forall callback, on_phase_change = Some callback ->
                    forall s a, submits_nothing (callback s a)) ->
  submits_nothing (_notify on_phase_change attempt status).
Proof.
  intros Hcb. unfold _notify. destruct on_phase_change as [callback |]; quietly.
Qed.

#[local] Hint Resolve submits_nothing_on_phase submits_nothing_notify : quietly.

Lemma submits_nothing_fetch_attestation_loop E source_domain transaction_hash timeout
    poll_interval api_base_url on_phase_change fuel :
  (forall callback, on_phase_change = Some callback ->
                    forall s a, submits_nothing (callback s a)) ->
  forall start attempt,
    submits_nothing (fetch_attestation_loop E source_domain transaction_hash timeout
                                            poll_interval api_base_url on_phase_change
                                            fuel start attempt).
Proof.
  intros Hcb. pose proof (submits_nothing_notify on_phase_change) as Hnotify.
  induction fuel as [| fuel IH]; intros start attempt; cbn [fetch_attestation_loop].
  - apply submits_nothing_out_of_fuel.
  - quietly.
Qed.

#[local] Hint Resolve submits_nothing_fetch_attestation_loop : quietly.

Lemma submits_nothing_fetch_attestation E fuel source_domain transaction_hash timeout
    poll_interval api_base_url on_phase_change :
  (forall callback, on_phase_change = Some callback ->
                    forall s a, submits_nothing (callback s a)) ->
  submits_nothing (fetch_attestation E fuel source_domain transaction_hash timeout
                                     poll_interval api_base_url on_phase_change).
Proof. intros Hcb. unfold fetch_attestation. quietly. Qed.

#[local] Hint Resolve submits_nothing_fetch_attestation : quietly.

Lemma submits_nothing_get_attestation E fuel burn_result simulate test_attester
    attestation_timeout on_phase_change nonce_base :
  (forall callback, on_phase_change = Some callback ->
                    forall s a, submits_nothing (callback s a)) ->
  submits_nothing (_get_attestation E fuel burn_result simulate test_attester
                                    attestation_timeout on_phase_change nonce_base).
Proof. intros Hcb. unfold _get_attestation. quietly. Qed.

Lemma submits_nothing_capture {A} (task : M A) :
  submits_nothing task -> submits_nothing (capture task).
Proof.
  intros H w. unfold capture. destruct (H w) as (events & Htrace & Hall).
  exists events. now destruct (task w) as [[a | e |] w1].
Qed.

Lemma submits_nothing_as_completed {A} (futures : list (M A)) order :
  Forall submits_nothing futures -> submits_nothing (as_completed futures order).
Proof.
  intros Hall. induction order as [| idx order IH]; simpl; [apply submits_nothing_ret |].
  destruct (futures !! idx) as [task |] eqn:Htask; [| exact IH].
  pose proof (Forall_lookup_1 _ _ _ _ Hall Htask) as Hq.
  pose proof (submits_nothing_capture task Hq). quietly.
Qed.

Lemma submits_nothing_gather_results {A} (finished : list (nat * (exn + A))) :
  forall results, submits_nothing (gather_results finished results).
Proof.
  induction finished as [| [idx [e | a]] finished IH]; intros results; simpl; quietly.
Qed.

Lemma submits_nothing_results_in_order {A} (results : gmap nat A) n :
  submits_nothing (results_in_order results n).
Proof.
  unfold results_in_order. generalize 0%nat.
  induction n as [| n IH]; intros start; simpl; quietly.
Qed.

Lemma submits_nothing_for_enumerate {A B} (f : nat -> A -> M B) l :
  (forall idx x, submits_nothing (f idx x)) ->
  forall start, submits_nothing (for_enumerate f start l).
Proof.
  intros Hf. induction l as [| x l IH]; intros start; simpl; quietly.
Qed.

Lemma submits_nothing_attest_futures E fuel attestation_timeout burns :
  Forall submits_nothing (imap (_attest_with_progress E fuel attestation_timeout) burns).
Proof.
  apply Forall_lookup. intros i task Htask.
  rewrite list_lookup_imap in Htask.
  destruct (burns !! i) as [b |]; [| discriminate Htask].
  inversion Htask; subst. unfold _attest_with_progress.
  apply submits_nothing_get_attestation. intros callback Hc s a. inversion Hc; subst.
  apply submits_nothing_on_phase.
Qed.

(** ** Runs that look the same from outside *)

Lemma same_bridge_activity_refl w : same_bridge_activity w w.
Proof. now repeat split. Qed.

Lemma same_bridge_activity_sym w1 w2 :
  same_bridge_activity w1 w2 -> same_bridge_activity w2 w1.
Proof. intros (? & ? & ? & ?). now repeat split. Qed.

Lemma same_bridge_activity_trans w1 w2 w3 :
  same_bridge_activity w1 w2 -> same_bridge_activity w2 w3 -> same_bridge_activity w1 w3.
Proof.
  intros (? & ? & ? & ?) (? & ? & ? & ?).
  repeat split; etransitivity; eassumption.
Qed.

Lemma same_bridge_activity_tracker w t :
  same_bridge_activity (mkWorld (now w) (http_calls w) (txs_sent w) t (trace w)) w.
Proof. now repeat split. Qed.

Lemma follows_bind {A B} (m1 m2 : M A) (k1 k2 : A -> M B) :
  follows m1 m2 -> (forall a, follows (k1 a) (k2 a)) -> follows (m1 ≫= k1) (m2 ≫= k2).
Proof.
  intros Hm Hk w1 w2 b w1' Hsame Hrun.
  apply bind_inv_Return in Hrun. destruct Hrun as (a & wx & Hrun1 & Hrun2).
  destruct (Hm _ _ _ _ Hsame Hrun1) as (wy & Hrun1' & Hsame').
  destruct (Hk a _ _ _ _ Hsame' Hrun2) as (w2' & Hrun2' & Hsame'').
  exists w2'. split; [| exact Hsame''].
  now rewrite (bind_Return _ _ _ _ _ Hrun1').
Qed.

Lemma follows_skip {B} (m : M unit) (k1 k2 : M B) :
  bookkeeping m -> follows k1 k2 -> follows (m ;; k1) k2.
Proof.
  intros Hm Hk w1 w2 b w1' Hsame Hrun.
  apply bind_inv_Return in Hrun. destruct Hrun as ([] & wx & Hrun1 & Hrun2).
  apply (Hk wx w2 b w1'); [| exact Hrun2].
  exact (same_bridge_activity_trans _ _ _ (Hm _ _ _ Hrun1) Hsame).
Qed.

Lemma follows_pure {A} (r : outcome A) : follows (fun w => (r, w)) (fun w => (r, w)).
Proof.
  intros w1 w2 a w1' Hsame Hrun. inversion Hrun; subst. now exists w2.
Qed.

Lemma follows_ret {A} (a : A) : follows (ret a) (ret a).
Proof. apply follows_pure. Qed.

Lemma follows_mret {A} (a : A) : follows (mret a) (mret a).
Proof. apply follows_pure. Qed.

Lemma follows_raise {A} e : follows (raise e : M A) (raise e).
Proof. apply follows_pure. Qed.

Lemma follows_out_of_fuel {A} : follows (out_of_fuel : M A) out_of_fuel.
Proof. apply follows_pure. Qed.

Lemma follows_py_assert cond message : follows (py_assert cond message) (py_assert cond message).
Proof. unfold py_assert. destruct cond; apply follows_pure. Qed.

Lemma follows_time_time : follows time_time time_time.
Proof.
  intros w1 w2 a w1' Hsame Hrun. inversion Hrun; subst.
  exists w2. unfold time_time. split; [| exact Hsame].
  destruct Hsame as (Hnow & _). now rewrite Hnow.
Qed.

Lemma follows_time_sleep duration : follows (time_sleep duration) (time_sleep duration).
Proof.
  intros w1 w2 a w1' (Hnow & Hcalls & Htxs & Htrace). unfold time_sleep.
  destruct (duration <? 0); intros Hrun; inversion Hrun; subst.
  eexists. split; [reflexivity |].
  repeat split; simpl; try congruence.
  now rewrite !List.filter_app, Htrace.
Qed.

Lemma follows_requests_get E url : follows (requests_get E url) (requests_get E url).
Proof.
  intros w1 w2 a w1' (Hnow & Hcalls & Htxs & Htrace). unfold requests_get.
  rewrite <- Hcalls. destruct (reply (iris E (http_calls w1))); intros Hrun; inversion Hrun; subst.
  eexists. split; [reflexivity |].
  repeat split; simpl; try congruence.
  now rewrite !List.filter_app, Htrace.
Qed.

Lemma follows_raise_for_status r : follows (raise_for_status r) (raise_for_status r).
Proof. unfold raise_for_status. destruct (is_error_status _); apply follows_pure. Qed.

Lemma follows_response_json r : follows (response_json r) (response_json r).
Proof. unfold response_json. destruct (body r); apply follows_pure. Qed.

Lemma follows_dict_get v key dflt : follows (dict_get v key dflt) (dict_get v key dflt).
Proof. unfold dict_get. destruct v; apply follows_pure. Qed.

Lemma follows_subscript0 v : follows (subscript0 v) (subscript0 v).
Proof. unfold subscript0. destruct v as [| | | | [| ? ?] | [| ? ?] |]; apply follows_pure. Qed.

Lemma follows_bytes_fromhex v :
  follows (bytes_fromhex_replace_0x v) (bytes_fromhex_replace_0x v).
Proof.
  unfold bytes_fromhex_replace_0x. destruct v; try apply follows_pure.
  destruct (fromhex _); apply follows_pure.
Qed.

Lemma follows_prepared refusal call : follows (prepared refusal call) (prepared refusal call).
Proof. unfold prepared. destruct refusal; apply follows_pure. Qed.

Lemma follows_send_contract_tx E web3 func sender hot_wallet gas :
  follows (_send_contract_tx E web3 func sender hot_wallet gas)
          (_send_contract_tx E web3 func sender hot_wallet gas).
Proof.
  intros w1 w2 a w1' (Hnow & Hcalls & Htxs & Htrace). unfold _send_contract_tx.
  rewrite <- Htxs. destruct (chain E (txs_sent w1)); intros Hrun; inversion Hrun; subst.
  - eexists. split; [reflexivity |].
    repeat split; simpl; try congruence. now rewrite !List.filter_app, Htrace.
  - eexists. split; [reflexivity |].
    repeat split; simpl; try congruence. now rewrite !List.filter_app, Htrace.
Qed.

Lemma follows_assert_transaction_success web3 tx :
  follows (assert_transaction_success_with_explanation web3 tx)
          (assert_transaction_success_with_explanation web3 tx).
Proof.
  unfold assert_transaction_success_with_explanation. destruct (tx_succeeded tx); apply follows_pure.
Qed.

Create HintDb follows.
#[local] Hint Resolve follows_ret follows_mret follows_raise follows_out_of_fuel
  follows_py_assert follows_time_time follows_time_sleep follows_requests_get
  follows_raise_for_status follows_response_json follows_dict_get follows_subscript0
  follows_bytes_fromhex follows_prepared follows_send_contract_tx
  follows_assert_transaction_success : follows.

(** Two computations of the same shape, piece by piece. *)
Ltac alike :=
  repeat first
    [ solve [auto with follows]
    | apply follows_bind; [| intros ?]
    | match goal with
      | |- follows (if ?c then _ else _) _ => destruct c
      | |- follows (match ?x with _ => _ end) _ => destruct x
      end ].

Lemma follows_burn_usdc_cctp E source_web3 source_vault dest_chain_id dest_safe_address amount
    sender hot_wallet gas :
  follows (burn_usdc_cctp E source_web3 source_vault dest_chain_id dest_safe_address amount
                          sender hot_wallet gas)
          (burn_usdc_cctp E source_web3 source_vault dest_chain_id dest_safe_address amount
                          sender hot_wallet gas).
Proof. unfold burn_usdc_cctp. alike. Qed.

Lemma follows_receive_usdc_cctp E web3 message attestation sender wallet gas :
  follows (receive_usdc_cctp E web3 message attestation sender wallet gas)
          (receive_usdc_cctp E web3 message attestation sender wallet gas).
Proof. unfold receive_usdc_cctp. alike. Qed.

(** *** Bookkeeping *)

Lemma bookkeeping_update_phase idx phase attempt : bookkeeping (_update_phase idx phase attempt).
Proof.
  intros w a w' Hrun.
  destruct (_update_phase_frame idx phase attempt w) as (r & t & Hrun' & _).
  rewrite Hrun' in Hrun. inversion Hrun; subst. apply same_bridge_activity_tracker.
Qed.

Lemma bookkeeping_ret {A} (a : A) : bookkeeping (ret a).
Proof. intros w x w' Hrun. inversion Hrun; subst. apply same_bridge_activity_refl. Qed.

Lemma bookkeeping_raise {A} e : bookkeeping (raise e : M A).
Proof. intros w x w' Hrun. discriminate Hrun. Qed.

Lemma bookkeeping_bind {A B} (m : M A) (k : A -> M B) :
  bookkeeping m -> (forall a, bookkeeping (k a)) -> bookkeeping (m ≫= k).
Proof.
  intros Hm Hk w b w' Hrun.
  apply bind_inv_Return in Hrun. destruct Hrun as (a & wx & Hrun1 & Hrun2).
  exact (same_bridge_activity_trans _ _ _ (Hk _ _ _ _ Hrun2) (Hm _ _ _ Hrun1)).
Qed.

Lemma bookkeeping_emit ev : bridge_activity ev = false -> bookkeeping (emit ev).
Proof.
  intros Hev w a w' Hrun. inversion Hrun; subst.
  repeat split; simpl. rewrite List.filter_app. simpl. rewrite Hev. apply app_nil_r.
Qed.

Lemma bookkeeping_modify_tracker f : bookkeeping (modify_tracker f).
Proof. intros w a w' Hrun. inversion Hrun; subst. apply same_bridge_activity_tracker. Qed.

Lemma bookkeeping_ThreadPoolExecutor max_workers : bookkeeping (ThreadPoolExecutor max_workers).
Proof.
  unfold ThreadPoolExecutor. destruct (_ <=? 0); [apply bookkeeping_raise | apply bookkeeping_ret].
Qed.

Lemma bookkeeping_on_phase idx status attempt : bookkeeping (on_phase idx status attempt).
Proof.
  unfold on_phase.
  repeat match goal with
         | |- bookkeeping (if ?c then _ else _) => destruct c
         end;
    first [apply bookkeeping_update_phase | apply bookkeeping_ret | apply bookkeeping_raise].
Qed.

(** *** Waiting for the attestation with and without a callback *)

Lemma follows_notify callback attempt phase :
  (forall status a, bookkeeping (callback status a)) ->
  follows (_notify (Some callback) attempt phase) (_notify None attempt phase).
Proof.
  intros Hcb w1 w2 [] w1' Hsame Hrun. exists w2. split; [reflexivity |].
  refine (same_bridge_activity_trans _ _ _ _ Hsame).
  revert Hrun. apply bookkeeping_bind; [now apply bookkeeping_emit | intros _; apply Hcb].
Qed.

Lemma follows_fetch_attestation_loop E source_domain transaction_hash timeout poll_interval
    api_base_url callback :
  (forall status a, bookkeeping (callback status a)) ->
  forall fuel start_time attempt,
    follows (fetch_attestation_loop E source_domain transaction_hash timeout poll_interval
                                    api_base_url (Some callback) fuel start_time attempt)
            (fetch_attestation_loop E source_domain transaction_hash timeout poll_interval
                                    api_base_url None fuel start_time attempt).
Proof.
  intros Hcb. induction fuel as [| fuel IH]; intros start_time attempt; simpl.
  - apply follows_out_of_fuel.
  - pose proof (fun attempt phase => follows_notify callback attempt phase Hcb) as Hnotify.
    apply follows_bind; [apply follows_time_time | intros t].
    destruct (_ >=? _); [apply follows_raise |].
    apply follows_bind; [apply follows_requests_get | intros response].
    destruct (_ =? _).
    + apply follows_bind; [apply Hnotify | intros _].
      apply follows_bind; [apply follows_time_sleep | intros _]. apply IH.
    + apply follows_bind; [apply follows_raise_for_status | intros _].
      apply follows_bind; [apply follows_response_json | intros data].
      apply follows_bind; [apply follows_dict_get | intros messages].
      destruct (truthy messages).
      * apply follows_bind; [apply follows_subscript0 | intros msg].
        apply follows_bind; [apply follows_dict_get | intros status].
        apply follows_bind; [apply follows_dict_get | intros attestation_hex].
        destruct (_ && _).
        -- apply follows_bind; [apply Hnotify | intros _]. alike.
        -- apply follows_bind; [apply Hnotify | intros _].
           apply follows_bind; [apply follows_time_sleep | intros _]. apply IH.
      * apply follows_bind; [apply follows_time_sleep | intros _]. apply IH.
Qed.

Lemma follows_fetch_attestation E fuel source_domain transaction_hash timeout poll_interval
    api_base_url callback :
  (forall status a, bookkeeping (callback status a)) ->
  follows (fetch_attestation E fuel source_domain transaction_hash timeout poll_interval
                             api_base_url (Some callback))
          (fetch_attestation E fuel source_domain transaction_hash timeout poll_interval
                             api_base_url None).
Proof.
  intros Hcb. unfold fetch_attestation.
  apply follows_bind; [apply follows_time_time | intros t].
  apply follows_bind; [now apply follows_notify | intros _].
  now apply follows_fetch_attestation_loop.
Qed.

Lemma follows_get_attestation E fuel burn_result test_attester attestation_timeout callback
    nonce_base :
  (forall status a, bookkeeping (callback status a)) ->
  follows (_get_attestation E fuel burn_result false None attestation_timeout (Some callback)
                            nonce_base)
          (_get_attestation E fuel burn_result false test_attester attestation_timeout None
                            nonce_base).
Proof.
  intros Hcb. unfold _get_attestation. cbv zeta.
  apply follows_bind; [now apply follows_fetch_attestation | intros a]. apply follows_ret.
Qed.


(** ** The requests of the attestation phase *)

Lemma request_urls_app l1 l2 :
  request_urls (l1 ++ l2) = request_urls l1 ++ request_urls l2.
Proof. apply omap_app. Qed.

Lemma request_urls_activity l : request_urls (List.filter bridge_activity l) = request_urls l.
Proof.
  induction l as [| ev l IH]; [reflexivity |].
  destruct ev; simpl; unfold request_urls in *; simpl; now rewrite ?IH.
Qed.

Lemma same_bridge_activity_requests w1 w2 :
  same_bridge_activity w1 w2 -> request_urls (trace w1) = request_urls (trace w2).
Proof.
  intros (_ & _ & _ & Htrace).
  rewrite <- (request_urls_activity (trace w1)), <- (request_urls_activity (trace w2)).
  now rewrite Htrace.
Qed.

Section Served.

Variables (E : Env) (source_domain : option Z) (transaction_hash : string)
          (timeout poll_interval : Z) (api_base_url : string).

(** A loop without callback that returns has sent every request to its
    one URL, and returns what the answer to the last of them holds. *)
Lemma loop_served_plain fuel :
  forall start attempt w att w',
    fetch_attestation_loop E source_domain transaction_hash timeout poll_interval
                           api_base_url None fuel start attempt w = (Return att, w') ->
    exists m,
      http_calls w' = (http_calls w + S m)%nat
      /\ request_urls (trace w')
         = request_urls (trace w)
             ++ replicate (S m) (url source_domain transaction_hash api_base_url)
      /\ ready_reply (reply (iris E (http_calls w + m)))
                     (att_message att) (att_attestation att).
Proof.
  induction fuel as [| fuel IH]; intros start attempt w att w' Hrun.
  - discriminate Hrun.
  - destruct (Z_lt_le_dec (now w - start) timeout) as [Hearly | Hlate].
    + pose proof (loop_round E source_domain transaction_hash timeout poll_interval
                    api_base_url None I fuel start attempt w Hearly) as Hround.
      rewrite Hrun in Hround.
      inversion Hround as [w1 report Hshape Hp Heq | w1 report att' Hshape Hst Hready |].
      * destruct (IH _ _ _ _ _ Heq) as (m & Hcalls & Hurls & Hready).
        destruct Hshape as [Hc _ _ Ht Hrep _].
        assert (Hreport : report = []).
        { destruct Hrep as [-> | [status ->]]; reflexivity. }
        subst report.
        exists (S m). rewrite Hcalls, Hc. split; [lia |]. split.
        -- rewrite Hurls, Ht, request_urls_app. simpl. rewrite <- app_assoc. reflexivity.
        -- rewrite Hc in Hready. now replace (http_calls w + S m)%nat with (S (http_calls w) + m)%nat by lia.
      * subst. destruct Hshape as [Hc _ _ Ht Hrep _].
        assert (Hreport : report = []).
        { destruct Hrep as [-> | [status ->]]; reflexivity. }
        subst report.
        exists 0%nat. rewrite Hc, Nat.add_0_r. split; [lia |]. split; [| exact Hready].
        rewrite Ht, request_urls_app. reflexivity.
    + rewrite (loop_timeout E source_domain transaction_hash timeout poll_interval
                 api_base_url None fuel start attempt w Hlate) in Hrun.
      discriminate Hrun.
Qed.

End Served.

(** The same of [fetch_attestation] with a callback that only keeps
    books. *)
Lemma fetch_attestation_served E fuel source_domain transaction_hash timeout poll_interval
    api_base_url callback w att w' :
  (forall status a, bookkeeping (callback status a)) ->
  fetch_attestation E fuel source_domain transaction_hash timeout poll_interval api_base_url
                    (Some callback) w = (Return att, w') ->
  exists m,
    http_calls w' = (http_calls w + S m)%nat
    /\ request_urls (trace w')
       = request_urls (trace w)
           ++ replicate (S m) (url source_domain (with_0x transaction_hash) api_base_url)
    /\ ready_reply (reply (iris E (http_calls w + m)))
                   (att_message att) (att_attestation att).
Proof.
  intros Hcb Hrun.
  destruct (follows_fetch_attestation E fuel source_domain transaction_hash timeout
              poll_interval api_base_url callback Hcb w w att w'
              (same_bridge_activity_refl w) Hrun) as (w2 & Hplain & Hsame).
  destruct (fetch_attestation_enters_loop E fuel source_domain transaction_hash timeout
              poll_interval api_base_url None w I) as [t Ht].
  rewrite Ht in Hplain. apply loop_served_plain in Hplain.
  destruct Hplain as (m & Hcalls & Hurls & Hready). simpl in Hcalls, Hurls, Hready.
  rewrite app_nil_r in Hurls.
  exists m. rewrite (same_bridge_activity_requests _ _ Hsame).
  destruct Hsame as (_ & Hc & _ & _).
  split; [now rewrite Hc |]. split; [exact Hurls | exact Hready].
Qed.

(** One attestation thread that returns: its requests went to the URL
    of its burn, and what it returns is what the answer to the last of
    them holds. *)
Lemma _attest_with_progress_served E fuel attestation_timeout idx b w payload w' :
  _attest_with_progress E fuel attestation_timeout idx b w = (Return payload, w') ->
  exists m,
    http_calls w' = (http_calls w + S m)%nat
    /\ request_urls (trace w')
       = request_urls (trace w)
           ++ replicate (S m) (attestation_url E (b_source_chain_id b) (b_burn_tx_hash b))
    /\ ready_reply (reply (iris E (http_calls w + m))) (fst payload) (snd payload).
Proof.
  unfold _attest_with_progress, _get_attestation. cbv zeta. intros Hrun.
  apply bind_inv_Return in Hrun. destruct Hrun as (att & w1 & Hfetch & Hret).
  inversion Hret; subst payload w1. clear Hret.
  exact (fetch_attestation_served _ _ _ _ _ _ _ _ _ _ _ (bookkeeping_on_phase idx) Hfetch).
Qed.

Lemma gather_results_no_failure {A} (finished : list (nat * (exn + A))) :
  forall results w results' w',
    gather_results finished results w = (Return results', w') ->
    forall idx e, (idx, inl e) ∉ finished.
Proof.
  induction finished as [| [i [e0 | a]] finished IH]; intros results w results' w' Hrun idx e Hin;
    simpl in Hrun.
  - inversion Hin.
  - discriminate Hrun.
  - apply elem_of_cons in Hin as [Heq | Hin]; [discriminate Heq |].
    exact (IH _ _ _ _ Hrun idx e Hin).
Qed.

(** The attestation threads, one after the other in the order of the
    schedule: every returned payload is what the service answered to a
    request for the burn of its index. *)
Lemma attests_as_completed E fuel attestation_timeout (burns : list CCTPBurnResult) order :
  forall w finished w',
    as_completed (imap (_attest_with_progress E fuel attestation_timeout) burns) order w
    = (Return finished, w') ->
    (forall idx e, (idx, inl e) ∉ finished) ->
    exists urls,
      request_urls (trace w') = request_urls (trace w) ++ urls
      /\ http_calls w' = (http_calls w + length urls)%nat
      /\ forall idx payload,
           (idx, inr payload) ∈ finished ->
           exists b j,
             burns !! idx = Some b
             /\ urls !! j = Some (attestation_url E (b_source_chain_id b) (b_burn_tx_hash b))
             /\ ready_reply (reply (iris E (http_calls w + j))) (fst payload) (snd payload).
Proof.
  induction order as [| idx order IH]; intros w finished w' Hrun Hok; simpl in Hrun.
  - inversion Hrun; subst. exists []. rewrite app_nil_r, Nat.add_0_r.
    split; [reflexivity |]. split; [reflexivity |]. intros i a Hin. inversion Hin.
  - destruct (imap _ burns !! idx) as [task |] eqn:Htask; [| exact (IH _ _ _ Hrun Hok)].
    apply bind_inv_Return in Hrun. destruct Hrun as (r & w1 & Hcap & Hrun). cbv beta in Hrun.
    apply bind_inv_Return in Hrun. destruct Hrun as (rs & w2 & Hrest & Hrun). cbv beta in Hrun.
    inversion Hrun; subst finished w2. clear Hrun.
    destruct r as [e | payload]; [exfalso; apply (Hok idx e); now left |].
    apply capture_returned in Hcap.
    rewrite list_lookup_imap in Htask.
    destruct (burns !! idx) as [b |] eqn:Hb; [| discriminate Htask].
    inversion Htask; subst task. clear Htask.
    apply _attest_with_progress_served in Hcap.
    destruct Hcap as (m & Hcalls1 & Hurls1 & Hready1).
    destruct (IH _ _ _ Hrest ltac:(intros i e Hin; apply (Hok i e); now right))
      as (urls & Hurls & Hcalls & Hall).
    set (target := attestation_url E (b_source_chain_id b) (b_burn_tx_hash b)) in *.
    exists (replicate (S m) target ++ urls).
    split; [rewrite Hurls, Hurls1, app_assoc; reflexivity |].
    split; [rewrite Hcalls, Hcalls1, length_app, length_replicate; lia |].
    intros i a Hin. apply elem_of_cons in Hin as [Heq | Hin].
    + inversion Heq; subst i a. exists b, m. split; [exact Hb |]. split; [| exact Hready1].
      rewrite lookup_app_l by (rewrite length_replicate; lia).
      apply lookup_replicate_2. lia.
    + destruct (Hall i a Hin) as (b' & j & Hb' & Hj & Hready).
      exists b', (S m + j)%nat. split; [exact Hb' |]. split.
      * rewrite lookup_app_r by (rewrite length_replicate; lia).
        rewrite length_replicate. now replace (S m + j - S m)%nat with j by lia.
      * rewrite Hcalls1 in Hready.
        now replace (http_calls w + (S m + j))%nat with (http_calls w + S m + j)%nat by lia.
Qed.

Lemma bookkeeping_for_enumerate {A B} (f : nat -> A -> M B) l :
  (forall idx x, bookkeeping (f idx x)) ->
  forall start, bookkeeping (for_enumerate f start l).
Proof.
  intros Hf. induction l as [| x l IH]; intros start; simpl.
  - apply bookkeeping_ret.
  - apply bookkeeping_bind; [apply Hf | intros y].
    apply bookkeeping_bind; [apply IH | intros ys]. apply bookkeeping_ret.
Qed.

(** ** [bridge_usdc_cctp_parallel] in production mode *)

Section ProductionReceives.

Variables (E : Env) (sender : string) (gas : Z)
          (dest_wallets : gmap Z (option HotWallet)) (hot_wallet : option HotWallet).

Hypothesis wallets_ok :
  forall cid wallet, dest_wallets !! cid = Some wallet -> receive_wallet E hot_wallet cid wallet.

(** One receive thread that returns has told the tracker and submitted
    its one transaction, signed with the wallet of its chain. *)
Lemma _receive_with_progress_inv idx dest message attestation w h w' :
  _receive_with_progress E sender gas dest_wallets idx dest message attestation w
  = (Return h, w') ->
  exists t wallet,
    receive_wallet E hot_wallet (chain_id (dest_web3 dest)) wallet
    /\ w' = mkWorld (now w) (http_calls w) (S (txs_sent w)) t
                    (trace w ++ [receive_event_of sender wallet gas dest (message, attestation)]).
Proof.
  unfold _receive_with_progress. intros H.
  apply update_then_frame in H. destruct H as (t & H).
  destruct (dest_wallets !! chain_id (dest_web3 dest)) as [wallet |] eqn:Hwallet;
    [| discriminate H].
  apply wallets_ok in Hwallet.
  apply bind_inv_Return in H. destruct H as (h0 & w1 & Hreceive & H). cbv beta in H.
  apply receive_usdc_cctp_inv in Hreceive. destruct Hreceive as [_ ->].
  apply update_then_frame in H. destruct H as (t' & H).
  inversion H; subst. now exists t', wallet.
Qed.

(** The receive threads, one after the other in the order of the
    schedule: one transaction each. *)
Lemma receives_as_completed_trace
    (pairs : list (CCTPBridgeDestination * (bytes * bytes))) order :
  (forall idx, idx ∈ order -> (idx < length pairs)%nat) ->
  forall w finished w',
    as_completed
      (imap (fun idx '(dest, (message, attestation)) =>
               _receive_with_progress E sender gas dest_wallets idx dest message attestation)
            pairs)
      order w = (Return finished, w') ->
    (forall idx e, (idx, inl e) ∉ finished) ->
    exists receives,
      trace w' = trace w ++ receives
      /\ Forall2 (fun idx ev =>
                    exists dest payload wallet,
                      pairs !! idx = Some (dest, payload)
                      /\ receive_wallet E hot_wallet (chain_id (dest_web3 dest)) wallet
                      /\ ev = receive_event_of sender wallet gas dest payload)
                 order receives
      /\ now w' = now w
      /\ http_calls w' = http_calls w
      /\ txs_sent w' = (txs_sent w + length order)%nat.
Proof.
  induction order as [| idx order IH]; intros Hrange w finished w' Hrun Hok; simpl in Hrun.
  - inversion Hrun; subst. exists []. rewrite app_nil_r. simpl.
    repeat split; try lia. constructor.
  - destruct (imap _ pairs !! idx) as [task |] eqn:Htask.
    2:{ apply lookup_ge_None in Htask. rewrite length_imap in Htask.
        specialize (Hrange idx ltac:(now left)). lia. }
    apply bind_inv_Return in Hrun. destruct Hrun as (r & w1 & Hcap & Hrun). cbv beta in Hrun.
    apply bind_inv_Return in Hrun. destruct Hrun as (rs & w2 & Hrest & Hrun). cbv beta in Hrun.
    inversion Hrun; subst.
    destruct r as [e | h0]; [exfalso; apply (Hok idx e); now left |].
    apply capture_returned in Hcap.
    rewrite list_lookup_imap in Htask.
    destruct (pairs !! idx) as [[dest [message attestation]] |] eqn:Hpair;
      [| discriminate Htask].
    inversion Htask; subst task. clear Htask.
    apply _receive_with_progress_inv in Hcap. destruct Hcap as (t & wallet & Hwallet & ->).
    destruct (IH ltac:(intros; apply Hrange; now right) _ _ _ Hrest
                 ltac:(intros i e Hin; apply (Hok i e); now right))
      as (receives & Htrace & Hall & Hnow & Hcalls & Htxs).
    simpl in Htrace, Hnow, Hcalls, Htxs.
    exists (receive_event_of sender wallet gas dest (message, attestation) :: receives).
    rewrite Htrace, <- app_assoc. simpl.
    split; [reflexivity |]. split; [| repeat split; try assumption; lia].
    constructor; [| exact Hall].
    exists dest, (message, attestation), wallet. now repeat split.
Qed.

End ProductionReceives.

(** The attestation phase of production mode, when it returns: no
    transaction, and for every destination the payload the service
    answered to a request for the burn of that destination. *)
Lemma production_attestations E fuel attest_order attestation_timeout max_workers n_dest
    (burns : list CCTPBurnResult) w data w' :
  (ThreadPoolExecutor max_workers ;;
   for_enumerate (fun idx _ => _update_phase idx waiting_for_indexing 0) 0 burns ;;
   finished ← as_completed (imap (_attest_with_progress E fuel attestation_timeout) burns)
                           attest_order;
   indexed_results ← gather_results finished ∅;
   results_in_order indexed_results n_dest) w = (Return data, w') ->
  exists polls,
    trace w' = trace w ++ polls
    /\ Forall (fun ev => is_transaction ev = false) polls
    /\ txs_sent w' = txs_sent w
    /\ length data = n_dest
    /\ forall i payload,
         data !! i = Some payload ->
         exists b j,
           burns !! i = Some b
           /\ request_urls polls !! j
              = Some (attestation_url E (b_source_chain_id b) (b_burn_tx_hash b))
           /\ ready_reply (reply (iris E (http_calls w + j))) (fst payload) (snd payload).
Proof.
  intros Hdata.
  assert (Hquiet : submits_nothing
                     (ThreadPoolExecutor max_workers ;;
                      for_enumerate (fun idx _ => _update_phase idx waiting_for_indexing 0)
                                    0 burns ;;
                      finished ← as_completed
                                   (imap (_attest_with_progress E fuel attestation_timeout)
                                         burns) attest_order;
                      indexed_results ← gather_results finished ∅;
                      results_in_order indexed_results n_dest)).
  { apply submits_nothing_bind; [apply submits_nothing_ThreadPoolExecutor |]. intros _.
    apply submits_nothing_bind;
      [apply submits_nothing_for_enumerate; intros; apply submits_nothing_update_phase |].
    intros _.
    apply submits_nothing_bind;
      [apply submits_nothing_as_completed, submits_nothing_attest_futures |].
    intros finished.
    apply submits_nothing_bind; [apply submits_nothing_gather_results |]. intros indexed.
    apply submits_nothing_results_in_order. }
  assert (Hkeeps : keeps_txs
                     (ThreadPoolExecutor max_workers ;;
                      for_enumerate (fun idx _ => _update_phase idx waiting_for_indexing 0)
                                    0 burns ;;
                      finished ← as_completed
                                   (imap (_attest_with_progress E fuel attestation_timeout)
                                         burns) attest_order;
                      indexed_results ← gather_results finished ∅;
                      results_in_order indexed_results n_dest)).
  { apply keeps_bind; [apply keeps_ThreadPoolExecutor |]. intros _.
    apply keeps_bind; [apply keeps_for_enumerate; intros; apply keeps_update_phase |].
    intros _.
    apply keeps_bind; [apply keeps_as_completed, keeps_attest_futures |]. intros finished.
    apply keeps_bind; [apply keeps_gather_results |]. intros indexed.
    apply keeps_results_in_order. }
  destruct (Hquiet w) as (polls & Htrace & Hall). specialize (Hkeeps w).
  rewrite Hdata in Htrace, Hkeeps. simpl in Htrace, Hkeeps.
  exists polls. split; [exact Htrace |]. split; [exact Hall |]. split; [exact Hkeeps |].
  apply bind_inv_Return in Hdata. destruct Hdata as ([] & wa & Hpool & Hdata). cbv beta in Hdata.
  apply bind_inv_Return in Hdata. destruct Hdata as (units & wb & Hwait & Hdata).
  cbv beta in Hdata.
  apply bind_inv_Return in Hdata. destruct Hdata as (fin & wc & Hfin & Hdata). cbv beta in Hdata.
  apply bind_inv_Return in Hdata. destruct Hdata as (ix & wd & Hix & Hdata). cbv beta in Hdata.
  destruct (results_in_order_sound _ _ _ _ _ Hdata) as (-> & Hlen & Hlookup).
  split; [exact Hlen |].
  pose proof (gather_results_no_failure _ _ _ _ _ Hix) as Hok.
  destruct (gather_results_sound _ _ _ _ _ Hix) as (-> & Hfrom).
  apply bookkeeping_ThreadPoolExecutor in Hpool.
  apply (bookkeeping_for_enumerate _ _
           (fun idx _ => bookkeeping_update_phase idx waiting_for_indexing 0)) in Hwait.
  assert (Hsame : same_bridge_activity wb w)
    by (eapply same_bridge_activity_trans; eassumption).
  destruct (attests_as_completed _ _ _ _ _ _ _ _ Hfin Hok) as (urls & Hurls & _ & Hserved).
  assert (Hpolls : request_urls polls = urls).
  { rewrite Htrace, request_urls_app, (same_bridge_activity_requests _ _ Hsame) in Hurls.
    now apply app_inv_head in Hurls. }
  assert (Hcalls : http_calls wb = http_calls w) by apply Hsame.
  intros i payload Hi. apply Hlookup in Hi.
  destruct (Hfrom _ _ Hi) as [Hempty | Hin]; [now rewrite lookup_empty in Hempty |].
  destruct (Hserved _ _ Hin) as (b & j & Hb & Hj & Hready).
  exists b, j. rewrite Hpolls, <- Hcalls. auto.
Qed.

(** X24. Production mode of [bridge_usdc_cctp_parallel], when it
    returns, has run in three phases.  First the burns, two transactions
    per destination in the order of the destinations.  Then the polls of
    the attestation service, which submit no transaction: for the
    destination at index [i] the payload is a complete message that the
    service answered to a request whose URL names the source chain's
    domain and the hash of that destination's burn (the transaction
    number [2 i + 1] of the call).  Then, with a hot wallet, one nonce
    synchronisation per distinct destination chain, and after them one
    receive transaction per destination, each carrying the payload
    attested for its destination and signed with a wallet of the hot
    wallet's account synchronised on the destination chain (the
    unlocked sender account without a hot wallet).  Three transactions
    per destination in all. *)
Theorem production_mode_runs_in_three_phases
    (E : Env) (fuel : nat) (attest_order receive_order : list nat)
    (source_web3 : Web3) (source_vault : string)
    (destinations : list CCTPBridgeDestination) (sender : string)
    (hot_wallet : option HotWallet) (test_attesters : option (gmap Z string))
    (attestation_timeout gas : Z) (max_workers : option Z) (progress : bool)
    (w : World) (rs : list CCTPBridgeResult) (w' : World) :
  receive_order ≡ₚ seq 0 (length destinations) ->
  bridge_usdc_cctp_parallel E fuel attest_order receive_order source_web3 source_vault
    destinations sender hot_wallet false test_attesters attestation_timeout gas max_workers
    progress w = (Return rs, w') ->
  exists data polls synced receives,
    length data = length destinations
    /\ trace w'
       = trace w
           ++ flat_map (burn_events_of source_web3 source_vault sender hot_wallet gas)
                       destinations
           ++ polls
           ++ map EvSyncNonce synced
           ++ receives
    /\ Forall (fun ev => is_transaction ev = false) polls
    /\ (forall i payload,
          data !! i = Some payload ->
          exists burn_tx_hash j,
            chain E (txs_sent w + 2 * i + 1)%nat = TxConfirmed burn_tx_hash
            /\ request_urls polls !! j
               = Some (attestation_url E (chain_id source_web3) burn_tx_hash)
            /\ ready_reply (reply (iris E (http_calls w + j))) (fst payload) (snd payload))
    /\ NoDup synced
    /\ (forall cid, cid ∈ synced <->
                    hot_wallet <> None
                    /\ cid ∈ map (fun d => chain_id (dest_web3 d)) destinations)
    /\ (exists order,
          order ≡ₚ seq 0 (length destinations)
          /\ Forall2 (fun idx ev =>
                        exists dest payload wallet,
                          destinations !! idx = Some dest
                          /\ data !! idx = Some payload
                          /\ receive_wallet E hot_wallet (chain_id (dest_web3 dest)) wallet
                          /\ ev = receive_event_of sender wallet gas dest payload)
                     order receives)
    /\ txs_sent w' = (txs_sent w + 3 * length destinations)%nat.
Proof.
  intros Hperm. unfold bridge_usdc_cctp_parallel.
  destruct destinations as [| d0 destinations0] eqn:Hdests.
  { intros H. inversion H; subst. simpl in Hperm. apply Permutation_nil_r in Hperm. subst.
    exists [], [], [], []. simpl. rewrite app_nil_r.
    split; [reflexivity |]. split; [reflexivity |]. split; [constructor |].
    split; [intros i payload Hi; discriminate Hi |].
    split; [constructor |]. split.
    - intros cid. split; [intros Hin; inversion Hin | intros [_ Hin]; inversion Hin].
    - split; [exists []; split; constructor | lia]. }
  rewrite <- Hdests in *. clear Hdests d0 destinations0. intros H.
  apply bind_inv_Return in H. destruct H as ([] & w0 & Hassert & H). cbv beta zeta in H.
  inversion Hassert; subst w0. clear Hassert.
  apply bind_inv_Return in H. destruct H as ([] & w1 & Htracker & H). cbv beta in H.
  inversion Htracker; subst w1. clear Htracker.
  apply bind_inv_Return in H. destruct H as (burns & w2 & Hburns & H). cbv beta in H.
  pose proof (burns_in_order _ _ _ _ _ _ _ _ _ _ _ Hburns) as (_ & _ & Hburn_at).
  apply burns_world in Hburns.
  destruct Hburns as (_ & Hcalls2 & Htxs2 & Htrace2 & Hlen_burns).
  simpl in Hcalls2, Htxs2, Htrace2, Hburn_at.
  apply bind_inv_Return in H. destruct H as (data & w3 & Hdata & H). cbv beta in H.
  apply production_attestations in Hdata.
  destruct Hdata as (polls & Htrace3 & Hpolls & Htxs3 & Hlen_data & Hserved).
  apply bind_inv_Return in H. destruct H as (wallets & w4 & Hwallets & H). cbv beta in H.
  destruct (dest_wallets_run _ _ _ _ _ _ Hwallets) as (synced & Hw4 & Hnodup & Hmem & Hsigner).
  assert (Htxs4 : txs_sent w4 = txs_sent w3) by now subst w4.
  assert (Htrace4 : trace w4 = trace w3 ++ map EvSyncNonce synced) by now subst w4.
  clear Hw4.
  apply bind_inv_Return in H. destruct H as (hashes & w5 & Hreceive & H). cbv beta in H.
  apply bind_inv_Return in Hreceive. destruct Hreceive as ([] & w4' & Hpool & Hreceive).
  cbv beta in Hreceive.
  assert (Hw4 : w4' = w4).
  { unfold ThreadPoolExecutor in Hpool. destruct (_ <=? 0); inversion Hpool; reflexivity. }
  subst w4'. clear Hpool.
  apply bind_inv_Return in Hreceive. destruct Hreceive as (finished & w4'' & Hdone & Hstore).
  cbv beta in Hstore.
  destruct (store_results_sound _ _ _ _ _ Hstore) as (Hok & _ & _).
  assert (Hw5 : w5 = w4'').
  { clear - Hstore. revert Hstore. generalize (replicate (length destinations) "").
    induction finished as [| [idx [e | a]] finished IH]; intros slots Hstore; simpl in Hstore.
    - now inversion Hstore.
    - discriminate Hstore.
    - destruct (bool_decide (idx < length slots)%nat); [| discriminate Hstore].
      exact (IH _ Hstore). }
  subst w5.
  destruct (receives_as_completed_trace E sender gas wallets hot_wallet Hsigner
              (zip destinations data) receive_order) with (w := w4) (finished := finished)
              (w' := w4'') as (receives & Htrace5 & Hall & _ & _ & Htxs5).
  { intros i Hi. rewrite Hperm in Hi. apply elem_of_seq in Hi.
    rewrite length_zip, Hlen_data. lia. }
  { exact Hdone. }
  { exact Hok. }
  apply bind_inv_Return in H. destruct H as ([] & w6 & Hclose & H). cbv beta in H.
  inversion Hclose; subst w6. clear Hclose.
  apply results_world in H. subst w'. simpl.
  exists data, polls, synced, receives.
  split; [exact Hlen_data |].
  split.
  { rewrite Htrace5, Htrace4, Htrace3, Htrace2, <- !app_assoc. reflexivity. }
  split; [exact Hpolls |].
  split.
  { intros i payload Hi. destruct (Hserved _ _ Hi) as (b & j & Hb & Hj & Hready).
    destruct (destinations !! i) as [d |] eqn:Hd.
    2:{ apply lookup_ge_None in Hd. apply lookup_lt_Some in Hb. lia. }
    destruct (Hburn_at _ _ _ Hd Hb) as (_ & _ & Hsource & Hchain).
    exists (b_burn_tx_hash b), j. rewrite <- Hsource, <- Hcalls2. auto. }
  split; [exact Hnodup |]. split; [exact Hmem |].
  split.
  { exists receive_order. split; [exact Hperm |].
    eapply Forall2_impl; [exact Hall |].
    intros idx ev (dest & payload & wallet & Hpair & Hwallet & ->).
    apply lookup_zip_with_Some in Hpair.
    destruct Hpair as (d & p & Heq & Hd & Hp). inversion Heq; subst d p.
    exists dest, payload, wallet. auto. }
  rewrite Htxs5, Htxs4, Htxs3, Htxs2, Hperm, length_seq. lia.
Qed.

(** Two destinations bridged from chain 1 with a hot wallet, the
    futures of each phase handed over in reverse: four burn
    transactions signed with the hot wallet, then the receive for the
    second destination and the one for the first, each signed with a
    wallet synchronised on its chain. *)
Lemma production_mode_runs_in_three_phases_witness :
  let E := Scenario.env (Scenario.always Scenario.completed) Scenario.ledger in
  let destinations := [mkCCTPBridgeDestination (mkWeb3 42161) "0xsafeA" 100;
                       mkCCTPBridgeDestination (mkWeb3 8453) "0xsafeB" 250] in
  let hot_wallet := mkHotWallet "0xdeployer" (Some 7) in
  exists rs w',
    bridge_usdc_cctp_parallel E 5 [1; 0]%nat [1; 0]%nat (mkWeb3 1) "0xvault" destinations
                              "0xasset_manager" (Some hot_wallet) false None (seconds 300)
                              1000000 None false Scenario.fresh
    = (Return rs, w')
    /\ txs_sent w' = 6%nat
    /\ omap (fun ev => match ev with
                       | EvTransact cid _ wallet _ _ => Some (cid, wallet)
                       | _ => None
                       end) (trace w')
       = [(1, Some hot_wallet); (1, Some hot_wallet); (1, Some hot_wallet);
          (1, Some hot_wallet);
          (8453, Some (mkHotWallet "0xdeployer" (Some 0)));
          (42161, Some (mkHotWallet "0xdeployer" (Some 0)))].
Proof.
  intros E destinations hot_wallet.
  destruct (bridge_usdc_cctp_parallel E 5 [1; 0]%nat [1; 0]%nat (mkWeb3 1) "0xvault"
                                      destinations "0xasset_manager" (Some hot_wallet) false
                                      None (seconds 300) 1000000 None false Scenario.fresh)
    as [[rs | e |] w'] eqn:Hrun; try (vm_compute in Hrun; discriminate Hrun).
  destruct (production_mode_runs_in_three_phases E 5 [1; 0]%nat [1; 0]%nat (mkWeb3 1)
              "0xvault" destinations "0xasset_manager" (Some hot_wallet) None (seconds 300)
              1000000 None false Scenario.fresh rs w' ltac:(apply Permutation_swap) Hrun)
    as (data & polls & synced & receives & _ & _ & _ & _ & _ & _ & _ & Htxs).
  exists rs, w'. split; [reflexivity |]. split; [exact Htxs |].
  vm_compute in Hrun. inversion Hrun. reflexivity.
Defined.

(** ** The parallel bridge and the sequential bridge *)

Lemma for_enumerate_one {A B} (f : nat -> A -> M B) start x w ys w' :
  for_enumerate f start [x] w = (Return ys, w') ->
  exists y, f start x w = (Return y, w') /\ ys = [y].
Proof.
  simpl. intros Hrun.
  apply bind_inv_Return in Hrun. destruct Hrun as (y & wx & Hrun & Hrest).
  inversion Hrest; subst. now exists y.
Qed.

Lemma as_completed_one {A} (task : M A) w finished w' :
  as_completed [task] [0%nat] w = (Return finished, w') ->
  exists r, capture task w = (Return r, w') /\ finished = [(0%nat, r)].
Proof.
  simpl. intros Hrun.
  apply bind_inv_Return in Hrun. destruct Hrun as (r & wx & Hrun & Hrest).
  inversion Hrest; subst. now exists r.
Qed.

Section OneDestination.

Variables (E : Env) (fuel : nat) (source_web3 : Web3) (source_vault : string)
          (dest : CCTPBridgeDestination) (sender : string) (hot_wallet : option HotWallet)
          (attestation_timeout gas : Z).

(** The attestation phase of the parallel bridge for one burn. *)
Lemma one_attestation max_workers (b : CCTPBurnResult) w data w' :
  (ThreadPoolExecutor max_workers ;;
   for_enumerate (fun idx _ => _update_phase idx waiting_for_indexing 0) 0 [b] ;;
   finished ← as_completed (imap (_attest_with_progress E fuel attestation_timeout) [b])
                           [0%nat];
   indexed_results ← gather_results finished ∅;
   results_in_order indexed_results 1) w = (Return data, w') ->
  exists payload wx,
    same_bridge_activity wx w
    /\ _attest_with_progress E fuel attestation_timeout 0 b wx = (Return payload, w')
    /\ data = [payload].
Proof.
  intros H.
  apply bind_inv_Return in H. destruct H as ([] & w1 & Hpool & H). cbv beta in H.
  apply bookkeeping_ThreadPoolExecutor in Hpool.
  apply bind_inv_Return in H. destruct H as (units & w2 & Hupd & H). cbv beta in H.
  apply for_enumerate_one in Hupd. destruct Hupd as (u & Hupd & _).
  apply bookkeeping_update_phase in Hupd.
  apply bind_inv_Return in H. destruct H as (finished & w3 & Hdone & H). cbv beta in H.
  apply as_completed_one in Hdone. destruct Hdone as (r & Hdone & ->).
  apply bind_inv_Return in H. destruct H as (ix & w4 & Hgather & H). cbv beta in H.
  destruct r as [e | payload]; [discriminate Hgather |].
  simpl in Hgather. inversion Hgather; subst ix w4. clear Hgather.
  unfold results_in_order in H. simpl in H. rewrite lookup_insert in H.
  destruct (decide (0%nat = 0%nat)); [| congruence].
  inversion H; subst. clear H.
  apply capture_returned in Hdone.
  exists payload, w2. split; [| split; [exact Hdone | reflexivity]].
  exact (same_bridge_activity_trans _ _ _ Hupd Hpool).
Qed.

(** The receive phase of the parallel bridge for one destination. *)
Lemma one_receive max_workers dest_wallets (payload : bytes * bytes) w hashes w' :
  (forall cid wallet, dest_wallets !! cid = Some wallet -> wallet = hot_wallet) ->
  (ThreadPoolExecutor max_workers ;;
   finished ← as_completed
                (imap (fun idx '(dest, (message, attestation)) =>
                         _receive_with_progress E sender gas dest_wallets idx dest
                                                message attestation)
                      (zip [dest] [payload]))
                [0%nat];
   store_results finished (replicate 1 "")) w = (Return hashes, w') ->
  exists h wx wy,
    same_bridge_activity wx w
    /\ receive_usdc_cctp E (dest_web3 dest) (fst payload) (snd payload) sender hot_wallet gas wx
       = (Return h, wy)
    /\ same_bridge_activity w' wy
    /\ hashes = [h].
Proof.
  intros Hsigner H. destruct payload as [message attestation].
  apply bind_inv_Return in H. destruct H as ([] & w1 & Hpool & H). cbv beta in H.
  apply bookkeeping_ThreadPoolExecutor in Hpool.
  apply bind_inv_Return in H. destruct H as (finished & w2 & Hdone & H). cbv beta in H.
  simpl in Hdone.
  apply as_completed_one in Hdone. destruct Hdone as (r & Hdone & ->).
  destruct r as [e | h]; [discriminate H |].
  simpl in H. inversion H; subst hashes w2. clear H.
  apply capture_returned in Hdone.
  unfold _receive_with_progress in Hdone.
  apply bind_inv_Return in Hdone. destruct Hdone as ([] & w3 & Hupd & Hdone). cbv beta in Hdone.
  apply bookkeeping_update_phase in Hupd.
  destruct (dest_wallets !! chain_id (dest_web3 dest)) as [wallet |] eqn:Hwallet;
    [| discriminate Hdone].
  apply Hsigner in Hwallet. subst wallet.
  apply bind_inv_Return in Hdone. destruct Hdone as (h' & w4 & Hreceive & Hdone).
  cbv beta in Hdone.
  apply bind_inv_Return in Hdone. destruct Hdone as ([] & w5 & Hupd' & Hdone).
  cbv beta in Hdone.
  apply bookkeeping_update_phase in Hupd'. inversion Hdone; subst h' w5. clear Hdone.
  exists h, w3, w4. split; [exact (same_bridge_activity_trans _ _ _ Hupd Hpool) |].
  split; [exact Hreceive |]. split; [exact Hupd' | reflexivity].
Qed.

End OneDestination.

(** X25: with one destination and no hot wallet the parallel bridge is
    the sequential bridge.  Where [bridge_usdc_cctp_parallel], in
    production mode and signing with the unlocked sender account,
    returns for a single destination, [bridge_usdc_cctp] called for
    that destination in the same situation returns too; the one result
    of the parallel call is the result of the sequential call; and both
    calls have made the same requests to the attestation service, slept
    the same and submitted the same transactions, in the same order.
    They differ in the progress reports only. *)
Theorem one_destination_is_the_sequential_bridge
    (E : Env) (fuel : nat) (source_web3 : Web3) (source_vault : string)
    (dest : CCTPBridgeDestination) (sender : string)
    (test_attesters : option (gmap Z string)) (test_attester : option string)
    (attestation_timeout gas : Z) (max_workers : option Z) (progress : bool)
    (w : World) (rs : list CCTPBridgeResult) (w' : World) :
  bridge_usdc_cctp_parallel E fuel [0%nat] [0%nat] source_web3 source_vault [dest] sender
    None false test_attesters attestation_timeout gas max_workers progress w
  = (Return rs, w') ->
  exists r w'',
    bridge_usdc_cctp E fuel source_web3 (dest_web3 dest) source_vault (dest_safe_address dest)
      (amount dest) sender None false test_attester attestation_timeout gas w
    = (Return r, w'')
    /\ rs = [r]
    /\ same_bridge_activity w' w''.
Proof.
  unfold bridge_usdc_cctp_parallel, bridge_usdc_cctp. intros H.
  apply bind_inv_Return in H. destruct H as ([] & w0 & Hassert & H). cbv beta zeta in H.
  inversion Hassert; subst w0. clear Hassert.
  apply bind_inv_Return in H. destruct H as ([] & w1 & Htracker & H). cbv beta in H.
  apply bookkeeping_modify_tracker in Htracker.
  (* the burn *)
  apply bind_inv_Return in H. destruct H as (burns & w2 & Hburns & H). cbv beta in H.
  apply for_enumerate_one in Hburns. destruct Hburns as (b & Hburn & ->).
  destruct (follows_skip _ _ _ (bookkeeping_update_phase 0 burning 0)
              (follows_burn_usdc_cctp E source_web3 source_vault (chain_id (dest_web3 dest))
                 (dest_safe_address dest) (amount dest) sender None gas)
              w1 w b w2 Htracker Hburn) as (v2 & Hburn_seq & Hsame2).
  destruct (burn_usdc_cctp_inv E source_web3 dest.(dest_web3) source_vault
              (dest_safe_address dest) (amount dest) sender None gas w b v2 Hburn_seq)
    as (h1 & _ & _ & _ & _ & Hb & _).
  (* the attestation *)
  apply bind_inv_Return in H. destruct H as (data & w3 & Hdata & H). cbv beta in H.
  apply one_attestation in Hdata. destruct Hdata as (payload & wx & Hsamex & Hattest & ->).
  destruct (follows_get_attestation E fuel b test_attester attestation_timeout (on_phase 0)
              nonce_base_default (bookkeeping_on_phase 0)
              wx v2 payload w3 (same_bridge_activity_trans _ _ _ Hsamex Hsame2) Hattest)
    as (v3 & Hattest_seq & Hsame3).
  (* the wallets: the unlocked account for the one chain *)
  apply bind_inv_Return in H. destruct H as (wallets & w4 & Hwallets & H). cbv beta in H.
  assert (Hsigner : forall cid wallet, wallets !! cid = Some wallet -> wallet = None).
  { intros cid wallet Hwallet.
    destruct (dest_wallets_run E None _ _ _ _ Hwallets) as (_ & _ & _ & _ & Hsigner).
    exact (Hsigner cid wallet Hwallet). }
  inversion Hwallets; subst wallets w4. clear Hwallets.
  (* the receive *)
  apply bind_inv_Return in H. destruct H as (hashes & w5 & Hreceive & H). cbv beta in H.
  apply (one_receive E dest sender None gas _ _ payload) in Hreceive; [| exact Hsigner].
  destruct Hreceive as (h & wy & wz & Hsamey & Hreceive & Hsamez & ->).
  destruct (follows_receive_usdc_cctp E (dest_web3 dest) (fst payload) (snd payload) sender
              None gas wy v3 h wz
              (same_bridge_activity_trans _ _ _ Hsamey Hsame3) Hreceive)
    as (v5 & Hreceive_seq & Hsame5).
  (* the result *)
  apply bind_inv_Return in H. destruct H as ([] & w6 & Hclose & H). cbv beta in H.
  apply bookkeeping_modify_tracker in Hclose.
  apply for_enumerate_one in H. destruct H as (r & H & ->).
  simpl in H. inversion H; subst r w'. clear H.
  eexists. exists v5. split; [| split; [reflexivity |]].
  - assert (Hstart : ret tt w = (Return tt, w)) by reflexivity.
    rewrite (bind_Return _ _ _ _ _ Hstart).
    rewrite (bind_Return _ _ _ _ _ Hburn_seq).
    rewrite (bind_Return _ _ _ _ _ Hattest_seq).
    destruct payload as [message attestation]. simpl in Hreceive_seq.
    rewrite (bind_Return _ _ _ _ _ Hreceive_seq).
    rewrite Hb. reflexivity.
  - exact (same_bridge_activity_trans _ _ _ Hclose
             (same_bridge_activity_trans _ _ _ Hsamez Hsame5)).
Qed.

(** One destination on Arbitrum, bridged from the unlocked sender
    account; the service answers 404 first and the attestation on the
    second request. *)
Lemma one_destination_is_the_sequential_bridge_witness :
  let E := Scenario.env Scenario.indexed_after_one Scenario.ledger in
  let dest := mkCCTPBridgeDestination (mkWeb3 42161) "0xsafeA" 100 in
  exists rs r w' w'',
    bridge_usdc_cctp_parallel E 5 [0%nat] [0%nat] (mkWeb3 1) "0xvault" [dest]
                              "0xasset_manager" None false None (seconds 300) 1000000
                              None false Scenario.fresh
    = (Return rs, w')
    /\ bridge_usdc_cctp E 5 (mkWeb3 1) (mkWeb3 42161) "0xvault" "0xsafeA" 100 "0xasset_manager"
                        None false None (seconds 300) 1000000 Scenario.fresh
       = (Return r, w'')
    /\ rs = [r]
    /\ same_bridge_activity w' w''
    /\ http_calls w' = 2%nat
    /\ trace w' <> trace w''.
Proof.
  intros E dest.
  destruct (bridge_usdc_cctp_parallel E 5 [0%nat] [0%nat] (mkWeb3 1) "0xvault" [dest]
                                      "0xasset_manager" None false None (seconds 300)
                                      1000000 None false Scenario.fresh)
    as [[rs | e |] w'] eqn:Hrun; try (vm_compute in Hrun; discriminate Hrun).
  destruct (one_destination_is_the_sequential_bridge E 5 (mkWeb3 1) "0xvault" dest
              "0xasset_manager" None None (seconds 300) 1000000 None false
              Scenario.fresh rs w' Hrun) as (r & w'' & Hseq & Hrs & Hsame).
  exists rs, r, w', w''. split; [reflexivity |]. split; [exact Hseq |].
  split; [exact Hrs |]. split; [exact Hsame |].
  vm_compute in Hrun. inversion Hrun; subst. clear Hrun.
  vm_compute in Hseq. inversion Hseq; subst. clear Hseq.
  split; [reflexivity |]. vm_compute. intros Heq. discriminate Heq.
Defined.
